(* ===== verification/_CoqProject ===== *)
-Q . S2P
Prelude.v
Register.v
MemorySize.v
Tables.v
Layout.v
Instruction.v
Operands.v
DeclareData.v
Address.v
Builder.v
FastPath.v
Reach.v
EffectiveAddress.v
Exact.v
DebugBuild.v
Equality.v
