(* ===== verification/Prelude.v ===== *)
(** * A verification of iced's instruction data model

    This development models the three files of
    [src/src/rust/iced-x86/src/x86/common/] that make up iced's data model
    of one x86 instruction, and proves what makes their accessors correct.

    ** The program
    - [register.rs]: the enum [Register] and its ordinal arithmetic
      ([Register + k], [Register - k]), which decoders use to step through
      register banks.
    - [memorysize.rs]: the enum [MemorySize] and the static table
      [MEMORY_SIZE_INFOS] describing each memory operand size.
    - [instruction.rs]: [struct Instruction], a 40-byte value whose 32-bit
      words pack the code, the length, prefixes, operand kinds, masking,
      rounding and memory-addressing data, with a getter and setter per
      field; the two 32-bit payload words [immediate] and [mem_displ] are
      reinterpreted by operand kind (immediates, branch targets, 64-bit
      addresses) and, for [db]/[dw]/[dd]/[dq], the whole operand storage
      is a 16-byte buffer; [virtual_address] computes effective addresses
      with a caller-supplied register-value function.
    [Instruction] depends on [Register] (register fields are [u8]
    discriminants), on [MemorySize] (through the generated [SIZES] table)
    and on generated enums and tables ([Code], [OpKind], [CodeSize],
    [RoundingControl], [OP_COUNT], [SIZES], [IcedConstants]) that are not
    under [src/].

    ** The files
    - [Prelude.v] (this file): Rust integer casts on [Z] ([trunc], [as_u8]
      .. [as_u64], [sext], [as_i8] .. [as_i32], [wrapping_add/sub]), packed
      bit fields ([get_bits], [put_bits], [set_flag], [has_flag]) and their
      lemmas, the outcome type [Outcome] ([Ok], [Panic] for [panic!],
      [Undefined] for a [transmute] of a number that is no discriminant) with
      its bind notation, the build profiles ([Profile]: [Release] wraps,
      [Debug] checks [+]/[-] and [debug_assert!]: [add_u], [sub_u], [sub_i],
      [debug_assert]) with the relation [panics_more] between a debug and a
      release outcome, the rewrite database [bits], the hint database
      [iced], and the tactic [bit_solve] that decides equalities of packed
      values bit by bit.
    - [Register.v], [Module Register]: the 241 variants in declaration order,
      [to_u32] (the discriminant), [add]/[sub] and every [Add]/[Sub]/
      [AddAssign]/[SubAssign] impl of [register.rs].
    - [MemorySize.v], [Module MemorySize]: the 136 variants, the table
      [MEMORY_SIZE_INFOS] row for row, [MemorySizeInfo] and the methods of
      [memorysize.rs].
    - [Tables.v]: the generated enums [OpKind], [CodeSize],
      [RoundingControl] (modelled from the spec), the gather/scatter codes
      [VsibCode], and the class [CodeTables], the interface the generator
      promises to [Instruction] (number of codes, [OP_COUNT], [SIZES],
      [to_mnemonic], the discriminants of the [VsibCode]s, with their
      laws).  Every theorem about [Instruction] is proved in a section over
      an arbitrary [CodeTables]; [sample_tables] is a small instance on
      which the witnesses compute.
    - [Layout.v]: the constants of [MemoryFlags], [OpKindFlags], [CodeFlags],
      [struct Instruction] field for field ([Instruction::new] is all
      zeros), [eq_all_bits] and [PartialEq::eq]; the abstract layout
      ([Field], [layout], [get_field], [set_field]) that names each packed
      sub-field by word, offset and width, and the refinement relation
      [acts_as_field] between a setter and [set_field].
    - [Instruction.v]: the accessors of [impl Instruction] over packed
      fields (IP, code, length, prefixes, operand kinds, segment,
      displacement size, scale, broadcast, memory size, registers, opmask,
      masking, rounding, SAE) and their [internal_*] fast paths.
    - [Operands.v]: the typed views of [immediate]/[mem_displ]
      ([immediate8] .. [immediate64], [immediateNtoM], [memory_address64],
      near/far branches) and the dispatchers [immediate(operand)]
      ([immediate_of]) and [set_immediate_*].
    - [DeclareData.v]: [declare_data_len] and the [db]/[dw]/[dd]/[dq]
      getters and setters, against the abstract view [overlay], the sixteen
      payload bytes read as one little-endian 128-bit number.
    - [Address.v]: [vsib()] and its projections, [get_address_size_in_bytes]
      and [virtual_address].
    - [Builder.v]: the 68 public setters as one inductive type [Setter]
      ([exec] calls the method, [typed] checks the argument types), the
      transition relation [step] and [reachable] from [Instruction::new()],
      the invariant [decodes], and the equivalence [field_equiv] (equal in
      every field an accessor reads) with its [Proper] instances.
    - [FastPath.v]: the decoder's [pub(crate)] fast paths as the inductive
      type [InternalOp] ([exec_internal] calls [internal_set_*] with the raw
      encoding the decoder passes), [run_internal] for a decoder program,
      [public_of] for the public setter call each one stands for, and the
      contract [args_ok] on the raw arguments.
    - [Reach.v]: [setter_effect] (in [Builder.v]) as the abstract semantics
      of a field setter, [field_after] replaying setters on one field,
      [program_of i], a setter program that rebuilds [i], and [buildable],
      the characterization of the reachable instructions up to
      [field_equiv].
    - [EffectiveAddress.v]: the architectural effective address of a
      memory operand ([effective_address]: segment base plus
      [(base + disp + index * scale) mod 2^(8 a)]), the abstract
      specification [virtual_address] is proved to refine, and the setter
      program [memory_operand_program] a client runs to describe a memory
      operand.
    - [Exact.v]: the bits of each packed word that no field uses
      ([used_bits], [stray_bits], [no_stray]), every field setter as
      exactly [set_field] on a well-formed instruction
      ([setter_effect_exact], from the [set_xxx_eq] equations of
      [Instruction.v]), and the tests [buildableb] and [reachableb].
    - [DebugBuild.v]: each operation of [instruction.rs] whose meaning
      depends on the build profile, as [xxx_p p] over a [Profile] (the IP
      getters and setters, [segment_prefix], [set_segment_prefix],
      [memory_segment], [set_opmask], [set_memory_index_scale],
      [set_declare_data_len], two fast paths, [ip_relative_memory_address],
      [virtual_address]), and [exec_p]/[run_p], setter programs in either
      build; [xxx_p Release] is proved equal to the release model of the
      other files.
    - [Equality.v]: [==] ([impl PartialEq], [PartialEq.eq] of [Layout.v])
      as the setoid relation [peq], with [Proper] instances for [exec],
      [run], [get_field] of the compared fields and the getters built on
      them.
    State is the [Instruction] record; a setter is a function from the old
    record to the new one (Rust's [&mut self]), and a fallible accessor
    returns an [Outcome].

    ** The theorems
    - Packed fields ([Instruction.v]): every setter acts as [set_field] of
      its field and every getter reads [get_field]; from this, each
      accessor pair round-trips on its domain (operand kinds, code,
      length, IP, displacement size, scale, segment prefix, opmask) and
      writes to distinct fields commute and do not interfere, in
      particular the eight boolean flags; out-of-range operands panic.
      Findings: [set_opmask(K0)] reads back [None]; xacquire/xrelease do not
      share bits with repne/repe.
    - Equality ([Layout.v], [Instruction.v], [Equality.v]): [eq_all_bits]
      is structural equality, [==] is an equivalence that ignores the
      length, the code size and also [next_rip]; it is a congruence for
      the whole API: [==] instructions agree on every other field and the
      getters built on them, and every setter call, any arguments and the
      declare-data setters included, keeps them [==] or fails the same way
      on both (each setter updates a flag word as [(w & k) | c], which
      keeps agreement outside a mask).  Findings: the spec promises
      hashing for deduplication keys, but [Instruction] has no [Hash]
      impl; [==] instructions can resolve a memory operand to different
      addresses, since [virtual_address] reads [next_ip()] and takes the
      address size from [code_size()] when nothing else fixes it.
    - Payload views ([Operands.v]): [immediate(n)] after
      [set_immediate_u64(n, v)] is [v] cut and sign-extended per kind, or a
      panic on a kind that is no immediate; near branch targets round-trip.
    - Declare data ([DeclareData.v]): the getters and setters refine reads
      and writes of bit ranges of [overlay] (a simulation of the 16-byte
      buffer of the spec), whence round trips, the little-endian byte view
      of wider writes, panics out of range; a byte written there can make
      [op0_kind()] transmute an invalid discriminant.
    - Addresses ([Address.v]): [vsib()] classifies exactly the gather/scatter
      codes, each by the index width its [Code] name gives ([vm32] or
      [vm64], read from the name by [vsib_code_name] and
      [vsib_index_width], independently of the arms of [vsib()]); the
      address size is 2, 4 or 8 and the offset is cut to it; the
      RIP/EIP-relative path of [virtual_address] agrees with
      [ip_relative_memory_address].  [EffectiveAddress.v]: the chain of
      [u64] wrapping adds, index shift and mask of [virtual_address]
      computes exactly the effective address (a refinement, by reasoning
      modulo powers of two: every inner [mod 2^64] disappears under the
      outer [mod 2^(8 a)], and so does the displacement's sign extension
      below 64 bits); composed with the setters, an operand built by
      [set_memory_base], [set_memory_index], [set_memory_index_scale],
      [set_memory_displacement], [set_memory_displ_size],
      [set_segment_prefix] and the rest resolves to the address of those
      arguments.  Finding: a [vm32] VSIB index is zero-extended, where x86
      sign-extends it, so an index element [-1] adds [2^32 - 1].
    - Construction ([Builder.v]): every typed setter call except the
      declare-data payload setters preserves [decodes] (no enum accessor
      transmutes an invalid discriminant) and the width invariant [wf]
      (each packed word fits its Rust type), so every instruction reachable
      from [Instruction::new()] satisfies both (rule induction on [step]); a
      payload write breaks it; setters of distinct packed fields commute up
      to [field_equiv].  Every typed setter call that completes, payload
      setters included, keeps each field a value of its Rust type
      ([exec_keeps_wf]).
    - Fast paths ([FastPath.v]): on a zero field each [internal_set_*]
      call equals its public setter, so a decoder program that writes each
      packed field once from [Instruction::new()] builds exactly what the
      public setters build (a refinement); its result is therefore
      reachable, decodes and is well formed.  On a field that is not zero
      the fast path ORs the values ([set_code(1)] then
      [internal_set_code(2)] reads 3).
    - Reachability ([Reach.v], [Exact.v]): the reachable instructions are
      exactly those that decode, whose raw [u64]/[u32] fields fit, whose
      stored displacement size is at most 4 ([set_memory_displ_size] never
      stores 5 to 7) and that have no bit set outside a field (no setter
      writes one); [program_of i] rebuilds each of them exactly, and
      [reachableb] decides reachability.  The proof: each setter is
      [set_field], [set_field] keeps the unused bits, and the fields with
      the unused bits determine the words.
    - Tables and segments ([Instruction.v]): once [code()] decodes,
      [op_count()], [mnemonic()] and [memory_size()] are total;
      [memory_segment()] follows the prefix, else [SS] for a stack base,
      else [DS]; [segment_prefix()] after [set_segment_prefix(r)] gives back
      exactly [None] and [ES] .. [GS] and never returns anything else, so
      its [transmute] is safe, while any other register aliases onto one of
      them ([AL] reads back as [SS]).
    - [Register.v]: [add] of a [u32] moves by discriminant within range,
      panics beyond, and wraps modulo 2^32 first ([AL + 0xFFFF_FFFF] is
      [None]); [sub] undoes a successful [add], also across the wrap.
    - [MemorySize.v]: the table is indexed by discriminant and consistent
      with its methods: [element_size <= size], [element_count *
      element_size = size], a variant that is not packed holds one
      element and, unless it is a broadcast variant, is its own element
      type as [element_type()]'s doc comment says; the element type has
      [element_size] bytes and the variant's signedness; the ordinal
      [is_broadcast] test agrees with the table's column.  Finding: a
      broadcast variant is not packed, yet its element type is the scalar
      it broadcasts ([Broadcast64_UInt32] gives [UInt32]), not [self].
    - Debug build ([DebugBuild.v]): a typed setter call panics exactly on
      the arguments [setter_debug_panics] lists and otherwise does what the
      release build does, so a debug-build setter program panics or ends
      where the release build ends ([run_debug_more], by induction on the
      program), and a debug build reaches exactly the instructions a
      release build reaches (the rebuilding program trips no debug
      check); a decoder program of fast paths whose arguments meet
      [args_ok] runs in a debug build as in a release build;
      [virtual_address] panics or agrees with its release build for any
      [u64] register callback ([virtual_address_more], a relational proof
      over [obind]); [ip16()],
      [ip32()], [ip()] panic exactly when [next_rip]'s low bits are below
      [len()].  Findings: [segment_prefix()] computes [field - 1] on [u32]
      and so panics on every instruction without a segment override,
      [Instruction::new()] included, which makes [memory_segment()] and
      [virtual_address] of a plain [[rax]] panic; [[rax-8]] with
      [rax = 16] and [[rip-16]] overflow [u64]; [ip16()] underflows after
      [set_ip16(0xFFFE)] on a 3-byte instruction; [set_memory_index_scale]
      has a [debug_assert!] the spec's clamping contradicts; [set_ip] must
      follow [set_len].

    ** Bounds and what is not modelled
    No definition needs fuel: the three files have no loop and no
    recursion, so every model is a total, executable function, and there is
    no termination property to prove; the only recursive definitions are
    the development's own ([run], [run_internal], [field_after]), all
    structural on a list.
    Integers keep their Rust width: every cast and every wrapping
    operation is written out.  The files up to [Reach.v] model a release
    build; [DebugBuild.v] models both builds for every operation with a
    [+], [-] or [debug_assert!] whose outcome depends on the profile (the
    others, such as [declare_data_len()]'s [+ 1] on a 4-bit value or
    [opmask()]'s [r + K0], cannot overflow).  [<<] is not checked for lost
    bits in Rust's debug build either, so it is [as_uN (x .<< s)] in both.
    [fmt::Display] is modelled as the constant string it writes.
    Not modelled: the generated tables beyond the laws of [CodeTables]; the resolver of
    [virtual_address] is any Rocq function, as the spec requires it pure. *)

From Stdlib Require Import ZArith Lia Bool List.
Import ListNotations.

Open Scope Z_scope.

(** ** Notations of the development *)

Declare Scope iced_scope.
Delimit Scope iced_scope with iced.

Notation "a .& b" := (Z.land a b) (at level 40, left associativity) : iced_scope.
Notation "a .| b" := (Z.lor a b) (at level 50, left associativity) : iced_scope.
Notation "a .<< n" := (Z.shiftl a n) (at level 35, no associativity) : iced_scope.
Notation "a .>> n" := (Z.shiftr a n) (at level 35, no associativity) : iced_scope.
Notation "!. a" := (Z.lnot a) (at level 30, right associativity) : iced_scope.

Open Scope iced_scope.

(** ** Rust integer conversions

    A Rust [uN] value is a [Z] in [0, 2^N).  [x as uN] keeps the low [N]
    bits ([trunc N x]); [x as iN] reads the low [N] bits as a two's
    complement number ([sext N x]); widening a signed value to an unsigned
    type ([i32 as u64]) is [trunc 64] of the signed value. *)

Definition trunc (w z : Z) : Z := z .& Z.ones w.
Definition as_u8 (z : Z) : Z := trunc 8 z.
Definition as_u16 (z : Z) : Z := trunc 16 z.
Definition as_u32 (z : Z) : Z := trunc 32 z.
Definition as_u64 (z : Z) : Z := trunc 64 z.

Definition sext (w z : Z) : Z :=
  let t := trunc w z in if t <? 2 ^ (w - 1) then t else t - 2 ^ w.
Definition as_i8 (z : Z) : Z := sext 8 z.
Definition as_i16 (z : Z) : Z := sext 16 z.
Definition as_i32 (z : Z) : Z := sext 32 z.

(** [wrapping_add] / [wrapping_sub] on [uN], and the release-build meaning
    of [+] and [-] on unsigned integers. *)
Definition wrapping_add (w a b : Z) : Z := trunc w (a + b).
Definition wrapping_sub (w a b : Z) : Z := trunc w (a - b).

(** [fits w z]: [z] is a value of the Rust type [uw]. *)
Definition fits (w z : Z) : Prop := 0 <= z < 2 ^ w.
Definition fitsb (w z : Z) : bool := (0 <=? z) && (z <? 2 ^ w).

(** ** Packed bit fields

    A field of [k] bits at bit offset [sh] of a word [x].  [get_bits] is
    the source's [(x >> SHIFT) & MASK] and [put_bits] its
    [(x & !(MASK << SHIFT)) | ((v & MASK) << SHIFT)], with
    [MASK = (1 << k) - 1]. *)

Definition get_bits (x sh k : Z) : Z := (x .>> sh) .& Z.ones k.
Definition put_bits (x sh k v : Z) : Z :=
  (x .& !. (Z.ones k .<< sh)) .| ((v .& Z.ones k) .<< sh).

(** A one-bit flag [f = 1 << n]: set with [|=], cleared with [&= !f]. *)
Definition set_flag (x f : Z) (b : bool) : Z := if b then x .| f else x .& !. f.
Definition has_flag (x f : Z) : bool := negb ((x .& f) =? 0).

(** ** Outcomes of a Rust call

    [Panic] is a [panic!] of the source, [Undefined] an [unsafe]
    [mem::transmute] of a number that is no discriminant of the target
    enum (undefined behaviour in Rust). *)

Inductive Outcome (A : Type) : Type :=
| Ok (a : A)
| Panic
| Undefined.
Arguments Ok {A} a.
Arguments Panic {A}.
Arguments Undefined {A}.

Definition obind {A B} (m : Outcome A) (k : A -> Outcome B) : Outcome B :=
  match m with
  | Ok a => k a
  | Panic => Panic
  | Undefined => Undefined
  end.

Definition omap {A B} (f : A -> B) (m : Outcome A) : Outcome B :=
  obind m (fun a => Ok (f a)).

Notation "x <- m ;; k" := (obind m (fun x => k))
  (at level 61, m at next level, right associativity) : iced_scope.

Definition is_ok {A} (m : Outcome A) : bool :=
  match m with Ok _ => true | _ => false end.

(** [mem::transmute] of a number into an enum whose variants, in
    declaration order, are [all]: a discriminant that no variant has is
    undefined behaviour. *)
Definition transmute_enum {A} (all : list A) (d : A) (n : Z) : Outcome A :=
  if (0 <=? n) && (n <? Z.of_nat (length all)) then Ok (nth (Z.to_nat n) all d)
  else Undefined.

(** ** Build profiles

    Rust's [+] and [-] on [uN] wrap in a release build; in a debug build
    ([overflow-checks], on in the default dev profile) they panic when the
    exact result leaves [0 .. 2^w - 1].  [debug_assert!] is checked only in
    a debug build.  [<<] on [u64] is not checked for lost bits in either
    profile (only a shift amount of 64 or more panics), so it stays
    [as_u64 (x .<< s)]. *)
Inductive Profile : Set := Release | Debug.

Definition add_u (p : Profile) (w a b : Z) : Outcome Z :=
  match p with
  | Release => Ok (wrapping_add w a b)
  | Debug => if a + b <? 2 ^ w then Ok (a + b) else Panic
  end.

Definition sub_u (p : Profile) (w a b : Z) : Outcome Z :=
  match p with
  | Release => Ok (wrapping_sub w a b)
  | Debug => if b <=? a then Ok (a - b) else Panic
  end.

(** [-] on [iN] (two's complement), for [set_declare_data_len]'s [i32]. *)
Definition sub_i (p : Profile) (w a b : Z) : Outcome Z :=
  match p with
  | Release => Ok (sext w (a - b))
  | Debug => if (- 2 ^ (w - 1) <=? a - b) && (a - b <? 2 ^ (w - 1)) then Ok (a - b) else Panic
  end.

Definition debug_assert (p : Profile) (b : bool) : Outcome unit :=
  match p with
  | Release => Ok tt
  | Debug => if b then Ok tt else Panic
  end.

(** [d] panics or gives what [r] gives: a debug-build outcome against the
    release-build outcome of the same call. *)
Definition panics_more {A} (d r : Outcome A) : Prop := d = Panic \/ d = r.

(** ** Lemmas on bits *)

Create Rewrite HintDb bits.
Create HintDb iced.

#[export] Hint Rewrite Z.land_spec Z.lor_spec Z.lxor_spec : bits.
#[export] Hint Rewrite Z.lnot_spec Z.shiftl_spec Z.shiftr_spec Z.testbit_ones
  using lia : bits.
#[export] Hint Rewrite Bool.andb_true_r Bool.andb_false_r Bool.andb_true_l
  Bool.andb_false_l Bool.orb_false_r Bool.orb_false_l Bool.orb_true_r
  Bool.orb_true_l Bool.negb_involutive : bits.

Lemma testbit_trunc w z i :
  0 <= w -> 0 <= i -> Z.testbit (trunc w z) i = (i <? w) && Z.testbit z i.
Proof.
  intros Hw Hi. unfold trunc. rewrite Z.land_spec, Z.testbit_ones by lia.
  destruct (Z.leb_spec 0 i); [|lia]. now rewrite andb_comm.
Qed.

Lemma testbit_get_bits x sh k i :
  0 <= sh -> 0 <= k -> 0 <= i ->
  Z.testbit (get_bits x sh k) i = (i <? k) && Z.testbit x (i + sh).
Proof.
  intros. unfold get_bits. rewrite Z.land_spec, Z.shiftr_spec, Z.testbit_ones by lia.
  destruct (Z.leb_spec 0 i); [|lia]. now rewrite andb_comm.
Qed.

Lemma testbit_put_bits x sh k v i :
  0 <= sh -> 0 <= k -> 0 <= i ->
  Z.testbit (put_bits x sh k v) i =
    if (sh <=? i) && (i <? sh + k) then Z.testbit v (i - sh) else Z.testbit x i.
Proof.
  intros. unfold put_bits.
  rewrite Z.lor_spec, Z.land_spec, Z.lnot_spec, !Z.shiftl_spec, Z.land_spec,
    Z.testbit_ones by lia.
  replace ((0 <=? i - sh) && (i - sh <? k)) with ((sh <=? i) && (i <? sh + k)).
  - destruct ((sh <=? i) && (i <? sh + k)); autorewrite with bits; reflexivity.
  - destruct (Z.leb_spec sh i), (Z.ltb_spec i (sh + k)),
      (Z.leb_spec 0 (i - sh)), (Z.ltb_spec (i - sh) k); simpl; lia.
Qed.

Lemma testbit_set_flag x n b i :
  0 <= n -> 0 <= i ->
  Z.testbit (set_flag x (2 ^ n) b) i = if i =? n then b else Z.testbit x i.
Proof.
  intros. unfold set_flag. destruct b;
    autorewrite with bits; rewrite Z.pow2_bits_eqb by lia;
    destruct (Z.eqb_spec n i), (Z.eqb_spec i n); subst; try lia;
    autorewrite with bits; reflexivity.
Qed.

Lemma has_flag_testbit x n : 0 <= n -> has_flag x (2 ^ n) = Z.testbit x n.
Proof.
  intros Hn. unfold has_flag.
  destruct (Z.testbit x n) eqn:E.
  - apply negb_true_iff, Z.eqb_neq. intros H.
    assert (Z.testbit (x .& 2 ^ n) n = false) as H0 by now rewrite H, Z.testbit_0_l.
    rewrite Z.land_spec, Z.pow2_bits_eqb, E, Z.eqb_refl in H0 by lia. discriminate.
  - apply negb_false_iff, Z.eqb_eq. apply Z.bits_inj'. intros i Hi.
    rewrite Z.land_spec, Z.pow2_bits_eqb, Z.testbit_0_l by lia.
    destruct (Z.eqb_spec n i); subst; [now rewrite E | apply andb_false_r].
Qed.

(** Two integers are equal when all their bits are. *)
Ltac bits_ext := apply Z.bits_inj'; intros ?i ?Hi.

Lemma fits_trunc w z : 0 <= w -> fits w z <-> trunc w z = z.
Proof.
  intros Hw. unfold fits, trunc. rewrite Z.land_ones by lia. split.
  - intros. now apply Z.mod_small.
  - intros H. rewrite <- H. apply Z.mod_pos_bound, Z.pow_pos_nonneg; lia.
Qed.

Lemma trunc_fits w z : 0 <= w -> fits w (trunc w z).
Proof.
  intros Hw. unfold fits, trunc. rewrite Z.land_ones by lia.
  apply Z.mod_pos_bound, Z.pow_pos_nonneg; lia.
Qed.

Lemma trunc_small w z : 0 <= w -> fits w z -> trunc w z = z.
Proof. intros Hw H. now apply fits_trunc. Qed.

Lemma trunc_mod w z : 0 <= w -> trunc w z = z mod 2 ^ w.
Proof. intros. unfold trunc. now rewrite Z.land_ones. Qed.

Lemma fits_testbit w z i : 0 <= w -> fits w z -> w <= i -> Z.testbit z i = false.
Proof.
  intros Hw Hf Hi. apply fits_trunc in Hf; [|lia].
  rewrite <- Hf, testbit_trunc by lia. destruct (Z.ltb_spec i w); [lia|reflexivity].
Qed.

Lemma fits_of_testbit w z :
  0 <= w -> 0 <= z -> (forall i, w <= i -> Z.testbit z i = false) -> fits w z.
Proof.
  intros Hw Hz H. apply fits_trunc; [lia|]. bits_ext.
  rewrite testbit_trunc by lia. destruct (Z.ltb_spec i w); simpl; [reflexivity|].
  symmetry. apply H. lia.
Qed.

Lemma get_put_same x sh k v :
  0 <= sh -> 0 <= k -> get_bits (put_bits x sh k v) sh k = trunc k v.
Proof.
  intros. bits_ext.
  rewrite testbit_get_bits, testbit_trunc, testbit_put_bits by lia.
  destruct (Z.ltb_spec i k); simpl; [|reflexivity].
  replace ((sh <=? i + sh) && (i + sh <? sh + k)) with true
    by (symmetry; apply andb_true_iff; lia).
  now replace (i + sh - sh) with i by lia.
Qed.

Lemma get_put_other x sh k v sh' k' :
  0 <= sh -> 0 <= k -> 0 <= sh' -> 0 <= k' -> sh' + k' <= sh \/ sh + k <= sh' ->
  get_bits (put_bits x sh k v) sh' k' = get_bits x sh' k'.
Proof.
  intros. bits_ext. rewrite !testbit_get_bits, testbit_put_bits by lia.
  destruct (Z.ltb_spec i k'); simpl; [|reflexivity].
  replace ((sh <=? i + sh') && (i + sh' <? sh + k)) with false
    by (symmetry; apply andb_false_iff; lia).
  reflexivity.
Qed.

Lemma put_put_same x sh k v v' :
  0 <= sh -> 0 <= k -> put_bits (put_bits x sh k v) sh k v' = put_bits x sh k v'.
Proof.
  intros. bits_ext. rewrite !testbit_put_bits by lia.
  destruct ((sh <=? i) && (i <? sh + k)); reflexivity.
Qed.

Lemma put_get_same x sh k :
  0 <= sh -> 0 <= k -> put_bits x sh k (get_bits x sh k) = x.
Proof.
  intros. bits_ext. rewrite testbit_put_bits by lia.
  destruct (Z.leb_spec sh i), (Z.ltb_spec i (sh + k)); simpl; try reflexivity.
  rewrite testbit_get_bits by lia. replace (i - sh + sh) with i by lia.
  replace (i - sh <? k) with true by (symmetry; apply Z.ltb_lt; lia). reflexivity.
Qed.

Lemma put_put_comm x sh k v sh' k' v' :
  0 <= sh -> 0 <= k -> 0 <= sh' -> 0 <= k' -> sh' + k' <= sh \/ sh + k <= sh' ->
  put_bits (put_bits x sh k v) sh' k' v' = put_bits (put_bits x sh' k' v') sh k v.
Proof.
  intros. bits_ext. rewrite !testbit_put_bits by lia.
  destruct (Z.leb_spec sh i), (Z.ltb_spec i (sh + k)),
    (Z.leb_spec sh' i), (Z.ltb_spec i (sh' + k')); simpl; try reflexivity; lia.
Qed.

Lemma get_bits_fits x sh k : 0 <= sh -> 0 <= k -> fits k (get_bits x sh k).
Proof.
  intros. apply fits_trunc; [lia|]. bits_ext.
  rewrite testbit_trunc, testbit_get_bits by lia.
  destruct (Z.ltb_spec i k); reflexivity.
Qed.

Lemma put_bits_fits w x sh k v :
  0 <= sh -> 0 <= k -> sh + k <= w -> fits w x -> fits w (put_bits x sh k v).
Proof.
  intros. assert (0 <= w) by lia. apply fits_of_testbit; [lia| |].
  - unfold put_bits. apply Z.lor_nonneg. split.
    + apply Z.land_nonneg. left. unfold fits in *; lia.
    + apply Z.shiftl_nonneg, Z.land_nonneg. right. rewrite Z.ones_equiv.
      pose proof (Z.pow_pos_nonneg 2 k). lia.
  - intros i Hi. rewrite testbit_put_bits by lia.
    replace ((sh <=? i) && (i <? sh + k)) with false
      by (symmetry; apply andb_false_iff; lia).
    apply (fits_testbit w); auto.
Qed.

(** A small range of integers, for case analysis on raw encodings. *)
Lemma in_range_list e n : 0 <= e < Z.of_nat n -> In e (map Z.of_nat (seq 0 n)).
Proof.
  intros He. apply in_map_iff. exists (Z.to_nat e). split; [lia|].
  apply in_seq. lia.
Qed.

Ltac range_split H n :=
  apply (in_range_list _ n) in H; cbn in H; repeat destruct H as [<-|H]; try contradiction.

(** Clearing a field that already holds zero changes nothing. *)
Lemma clear_zero_bits x sh k :
  get_bits x sh k = 0 -> 0 <= sh -> 0 <= k -> x .& !. (Z.ones k .<< sh) = x.
Proof.
  intros Hx Hsh Hk. bits_ext. autorewrite with bits.
  destruct (Z.leb_spec 0 (i - sh)), (Z.ltb_spec (i - sh) k); autorewrite with bits;
    try reflexivity.
  assert (Hb := f_equal (fun z => Z.testbit z (i - sh)) Hx). cbn beta in Hb.
  rewrite testbit_get_bits, Z.testbit_0_l, Z.sub_add in Hb by lia.
  replace (i - sh <? k) with true in Hb by (symmetry; apply Z.ltb_lt; lia).
  rewrite andb_true_l in Hb. now rewrite Hb.
Qed.

(** ORing a value into a zero field is the masked write
    [(x & !(m << sh)) | ((v & m) << sh)] of the source's setters. *)
Lemma or_into_cleared x sh k m v :
  get_bits x sh k = 0 -> 0 <= sh -> 0 <= k -> m = Z.ones k -> fits k v ->
  x .| (v .<< sh) = (x .& !. (m .<< sh)) .| ((v .& m) .<< sh).
Proof.
  intros Hx Hsh Hk -> Hv. fold (trunc k v). rewrite trunc_small by assumption.
  now rewrite clear_zero_bits.
Qed.

Lemma or_into_cleared_unmasked x sh k m v :
  get_bits x sh k = 0 -> 0 <= sh -> 0 <= k -> m = Z.ones k ->
  x .| (v .<< sh) = (x .& !. (m .<< sh)) .| (v .<< sh).
Proof. intros Hx Hsh Hk ->. now rewrite clear_zero_bits. Qed.

(** A flag [1 << n] is the one-bit field at offset [n]. *)
Lemma set_flag_put_bits x n b :
  0 <= n -> set_flag x (2 ^ n) b = put_bits x n 1 (Z.b2z b).
Proof.
  intros. bits_ext. rewrite testbit_set_flag, testbit_put_bits by lia.
  destruct (Z.eqb_spec i n).
  - subst. replace ((n <=? n) && (n <? n + 1)) with true by (symmetry; apply andb_true_iff; lia).
    rewrite Z.sub_diag. destruct b; reflexivity.
  - replace ((n <=? i) && (i <? n + 1)) with false by (symmetry; apply andb_false_iff; lia).
    reflexivity.
Qed.

Lemma has_flag_get_bits x n :
  0 <= n -> has_flag x (2 ^ n) = (get_bits x n 1 =? 1).
Proof.
  intros. rewrite has_flag_testbit by lia.
  assert (fits 1 (get_bits x n 1)) as Hf by (apply get_bits_fits; lia).
  assert (Z.testbit (get_bits x n 1) 0 = Z.testbit x n) as Ht
    by (rewrite testbit_get_bits by lia; reflexivity).
  unfold fits in Hf. change (2 ^ 1) with 2 in Hf.
  destruct (Z.eqb_spec (get_bits x n 1) 1) as [E|E].
  - now rewrite <- Ht, E.
  - replace (get_bits x n 1) with 0 in Ht by lia. now rewrite <- Ht.
Qed.

Lemma trunc_b2z b : trunc 1 (Z.b2z b) = Z.b2z b.
Proof. now destruct b. Qed.

#[export] Hint Resolve trunc_fits get_bits_fits : iced.

Lemma transmute_enum_ok {A} (all : list A) (d : A) n :
  0 <= n < Z.of_nat (length all) -> transmute_enum all d n = Ok (nth (Z.to_nat n) all d).
Proof.
  intros H. unfold transmute_enum.
  replace ((0 <=? n) && (n <? Z.of_nat (length all))) with true
    by (symmetry; apply andb_true_iff; lia).
  reflexivity.
Qed.

Lemma transmute_enum_undefined {A} (all : list A) (d : A) n :
  Z.of_nat (length all) <= n -> transmute_enum all d n = Undefined.
Proof.
  intros H. unfold transmute_enum.
  replace ((0 <=? n) && (n <? Z.of_nat (length all))) with false
    by (symmetry; apply andb_false_iff; lia).
  reflexivity.
Qed.

Lemma trunc_trunc_le w w' z : 0 <= w <= w' -> trunc w (trunc w' z) = trunc w z.
Proof.
  intros. bits_ext. rewrite !testbit_trunc by lia.
  destruct (Z.ltb_spec i w), (Z.ltb_spec i w'); simpl; try reflexivity; lia.
Qed.

Lemma trunc_sub w a b : 0 <= w -> trunc w (trunc w a - trunc w b) = trunc w (a - b).
Proof. intros. rewrite !trunc_mod by lia. symmetry. apply Zminus_mod. Qed.

Lemma trunc_add w a b : 0 <= w -> trunc w (trunc w a + trunc w b) = trunc w (a + b).
Proof. intros. rewrite !trunc_mod by lia. symmetry. apply Zplus_mod. Qed.

Lemma lxor_masked_zero x y m :
  (Z.lxor x y .& !. m =? 0) = ((x .& !. m) =? (y .& !. m)).
Proof.
  assert (Z.lxor x y .& !. m = Z.lxor (x .& !. m) (y .& !. m)) as ->.
  { bits_ext. autorewrite with bits.
    now destruct (Z.testbit x i), (Z.testbit y i), (Z.testbit m i). }
  destruct (Z.eqb_spec (Z.lxor (x .& !. m) (y .& !. m)) 0) as [E|E];
    destruct (Z.eqb_spec (x .& !. m) (y .& !. m)) as [E'|E']; try reflexivity.
  - exfalso. apply E'. apply Z.lxor_eq_0_iff. exact E.
  - exfalso. apply E. rewrite E'. apply Z.lxor_nilpotent.
Qed.

(** ** Deciding equalities of packed values bit by bit

    [bit_solve] proves [x = y] for two values built from variables with
    [.&], [.|], shifts and [trunc]: it compares bit [i], rewrites each side
    to booleans on bits of the variables, splits on the bit ranges the
    constants name, and closes each range with the [fits] hypotheses in
    the context (bits beyond a width are zero) and [lia] on indices. *)

Ltac bit_rewrite :=
  unfold as_u8, as_u16, as_u32, as_u64;
  repeat first
    [ rewrite Z.land_spec | rewrite Z.lor_spec
    | match goal with
      | |- context [Z.testbit (Z.lnot ?a) ?e] => rewrite (Z.lnot_spec a e) by lia
      | |- context [Z.testbit (Z.shiftl ?a ?k) ?e] => rewrite (Z.shiftl_spec a k e) by lia
      | |- context [Z.testbit (Z.shiftr ?a ?k) ?e] => rewrite (Z.shiftr_spec a k e) by lia
      | |- context [Z.testbit (Z.ones ?k) ?e] => rewrite (Z.testbit_ones k e) by lia
      | |- context [Z.testbit (trunc ?w ?z) ?e] => rewrite (testbit_trunc w z e) by lia
      | |- context [Z.testbit (get_bits ?x ?sh ?k) ?e] =>
          rewrite (testbit_get_bits x sh k e) by lia
      | |- context [Z.testbit (put_bits ?x ?sh ?k ?v) ?e] =>
          rewrite (testbit_put_bits x sh k v e) by lia
      end ].

Ltac range_cases :=
  repeat match goal with
         | |- context [?a <? ?b] => destruct (Z.ltb_spec a b); try (exfalso; lia)
         | |- context [?a <=? ?b] => destruct (Z.leb_spec a b); try (exfalso; lia)
         end.

Ltac bits_out_of_range :=
  repeat match goal with
         | |- context [Z.testbit ?x ?e] =>
             first [ rewrite (Z.testbit_neg_r x e) by lia
                   | match goal with
                     | H : fits ?w x |- _ => rewrite (fits_testbit w x e) by (lia || exact H)
                     end ]
         end.

Ltac bit_leaf :=
  repeat progress (cbn [andb orb negb];
    rewrite ?Bool.andb_true_r, ?Bool.andb_false_r, ?Bool.orb_false_r, ?Bool.orb_true_r,
      ?Bool.andb_true_l, ?Bool.andb_false_l, ?Bool.orb_false_l, ?Bool.orb_true_l);
  first [ reflexivity
        | match goal with |- Z.testbit ?x _ = Z.testbit ?x _ => f_equal; lia end ].

Ltac bit_crunch :=
  bit_rewrite; range_cases; bit_rewrite; range_cases; bits_out_of_range; bit_leaf.

Ltac bit_solve := bits_ext; bit_crunch.

(** Reading a sub-range of a range just written reads the matching bits
    of the value written. *)
Lemma get_put_inner x sh k v sh' k' :
  0 <= sh -> 0 <= k -> 0 <= k' -> sh <= sh' -> sh' + k' <= sh + k ->
  get_bits (put_bits x sh k v) sh' k' = get_bits v (sh' - sh) k'.
Proof.
  intros. bits_ext. rewrite !testbit_get_bits, testbit_put_bits by lia.
  destruct (Z.ltb_spec i k'); [|reflexivity].
  destruct (Z.leb_spec sh (i + sh')), (Z.ltb_spec (i + sh') (sh + k)); try lia.
  cbn. f_equal. lia.
Qed.

Lemma ok_iff {A} (a b : A) : Ok a = Ok b <-> a = b.
Proof. split; [intros H; injection H; auto | intros ->; reflexivity]. Qed.

Lemma is_ok_transmute_enum {A} (all : list A) (d : A) n :
  is_ok (transmute_enum all d n) = (0 <=? n) && (n <? Z.of_nat (length all)).
Proof. unfold transmute_enum. destruct (_ && _); reflexivity. Qed.

(** ** Widths of composed values

    The structural lemmas [fits_tac] uses to show that a value built with
    [.|], [.&], [.<<] and casts stays within a Rust width. *)

Lemma fits_lor w a b : fits w a -> fits w b -> fits w (a .| b).
Proof.
  intros Ha Hb. assert (0 <= w) by (destruct (Z.ltb_spec w 0); [|lia];
    unfold fits in Ha; rewrite Z.pow_neg_r in Ha by lia; lia).
  apply fits_of_testbit; [lia| apply Z.lor_nonneg; unfold fits in *; lia |].
  intros i Hi. rewrite Z.lor_spec, (fits_testbit w a), (fits_testbit w b) by (assumption || lia).
  reflexivity.
Qed.

Lemma fits_land_l w a b : fits w a -> fits w (a .& b).
Proof.
  intros Ha. assert (0 <= w) by (destruct (Z.ltb_spec w 0); [|lia];
    unfold fits in Ha; rewrite Z.pow_neg_r in Ha by lia; lia).
  apply fits_of_testbit; [lia| apply Z.land_nonneg; unfold fits in *; lia |].
  intros i Hi. rewrite Z.land_spec, (fits_testbit w a) by (assumption || lia). reflexivity.
Qed.

Lemma fits_land_r w a b : fits w b -> fits w (a .& b).
Proof. intros Hb. rewrite Z.land_comm. apply fits_land_l. exact Hb. Qed.

Lemma fits_shiftl w k v s : 0 <= s -> k + s <= w -> fits k v -> fits w (v .<< s).
Proof.
  intros Hs Hw Hv. unfold fits in *.
  assert (0 <= k) by (destruct (Z.ltb_spec k 0); [rewrite Z.pow_neg_r in Hv by lia|]; lia).
  rewrite Z.shiftl_mul_pow2 by lia.
  assert (2 ^ k * 2 ^ s <= 2 ^ w)
    by (rewrite <- Z.pow_add_r by lia; apply Z.pow_le_mono_r; lia).
  pose proof (Z.pow_pos_nonneg 2 s ltac:(lia) Hs). nia.
Qed.

Lemma fits_shiftl_sub w v s : 0 <= s <= w -> fits (w - s) v -> fits w (v .<< s).
Proof. intros Hs Hv. apply (fits_shiftl w (w - s) v s); lia || exact Hv. Qed.

Lemma fits_mono w w' z : w' <= w -> fits w' z -> fits w z.
Proof.
  intros H Hz. unfold fits in *. split; [lia|].
  destruct (Z.ltb_spec w' 0).
  - rewrite Z.pow_neg_r in Hz by lia. lia.
  - pose proof (Z.pow_le_mono_r 2 w' w ltac:(lia) H). lia.
Qed.

Lemma fits_set_flag w x f b : fits w x -> fits w f -> fits w (set_flag x f b).
Proof. intros Hx Hf. destruct b; cbn [set_flag]; [apply fits_lor | apply fits_land_l]; assumption. Qed.

Ltac fits_tac :=
  first
    [ assumption
    | apply trunc_fits; lia
    | apply fits_set_flag; fits_tac
    | apply fits_lor; fits_tac
    | apply fits_land_l; fits_tac
    | apply fits_land_r; fits_tac
    | eapply fits_shiftl; [lia | lia | fits_tac]
    | eapply fits_mono; [| eassumption]; lia
    | eapply fits_mono; [| apply trunc_fits; lia]; lia
    | apply fits_shiftl_sub; [lia | fits_tac]
    | unfold fits; cbn; lia ].

(** ** Debug against release arithmetic

    The relational reading of [panics_more]: it is preserved by [obind],
    and each checked operation on values of its type panics or gives the
    wrapping result, which is then the exact one. *)

Lemma panics_more_refl {A} (m : Outcome A) : panics_more m m.
Proof. now right. Qed.

Lemma panics_more_bind {A B} (d r : Outcome A) (kd kr : A -> Outcome B) :
  panics_more d r -> (forall a, r = Ok a -> panics_more (kd a) (kr a)) ->
  panics_more (obind d kd) (obind r kr).
Proof.
  intros [-> | ->] Hk; [now left|]. destruct r; cbn [obind]; auto using panics_more_refl.
Qed.

Lemma add_u_debug w a b :
  0 <= w -> 0 <= a -> 0 <= b -> panics_more (add_u Debug w a b) (add_u Release w a b).
Proof.
  intros. cbn [add_u]. destruct (Z.ltb_spec (a + b) (2 ^ w)); [right | now left].
  unfold wrapping_add. rewrite trunc_small; [reflexivity | lia | unfold fits; lia].
Qed.

Lemma sub_u_debug w a b :
  0 <= w -> fits w a -> 0 <= b -> panics_more (sub_u Debug w a b) (sub_u Release w a b).
Proof.
  intros ? [? ?] ?. cbn [sub_u]. destruct (Z.leb_spec b a); [right | now left].
  unfold wrapping_sub. rewrite trunc_small; [reflexivity | lia | unfold fits; lia].
Qed.

Lemma debug_assert_debug b : panics_more (debug_assert Debug b) (debug_assert Release b).
Proof. destruct b; [right | left]; reflexivity. Qed.

#[export] Hint Resolve panics_more_refl debug_assert_debug : iced.

Lemma add_u_debug_panic w a b : add_u Debug w a b = Panic <-> 2 ^ w <= a + b.
Proof.
  cbn [add_u]. destruct (Z.ltb_spec (a + b) (2 ^ w)); split; intros; (discriminate || lia || reflexivity).
Qed.

Lemma sub_u_debug_panic w a b : sub_u Debug w a b = Panic <-> a < b.
Proof.
  cbn [sub_u]. destruct (Z.leb_spec b a); split; intros; (discriminate || lia || reflexivity).
Qed.

Lemma add_u_debug_ok w a b : a + b < 2 ^ w -> add_u Debug w a b = Ok (a + b).
Proof. intros H. cbn [add_u]. destruct (Z.ltb_spec (a + b) (2 ^ w)); [reflexivity | lia]. Qed.

Lemma sub_u_debug_ok w a b : b <= a -> sub_u Debug w a b = Ok (a - b).
Proof. intros H. cbn [sub_u]. destruct (Z.leb_spec b a); [reflexivity | lia]. Qed.



Lemma sext_small w z : 0 < w -> - 2 ^ (w - 1) <= z < 2 ^ (w - 1) -> sext w z = z.
Proof.
  intros Hw Hz. unfold sext. rewrite trunc_mod by lia.
  assert (E : 2 ^ w = 2 * 2 ^ (w - 1)) by (rewrite <- Z.pow_succ_r by lia; f_equal; lia).
  destruct (Z.leb_spec 0 z).
  - rewrite Z.mod_small by lia. destruct (Z.ltb_spec z (2 ^ (w - 1))); lia.
  - rewrite <- (Z.mod_unique z (2 ^ w) (-1) (z + 2 ^ w)) by lia.
    destruct (Z.ltb_spec (z + 2 ^ w) (2 ^ (w - 1))); lia.
Qed.

Lemma sub_i_debug w a b : 0 < w -> panics_more (sub_i Debug w a b) (sub_i Release w a b).
Proof.
  intros Hw. cbn [sub_i].
  destruct (Z.leb_spec (- 2 ^ (w - 1)) (a - b)), (Z.ltb_spec (a - b) (2 ^ (w - 1)));
    cbn [andb]; try (now left).
  right. rewrite sext_small by lia. reflexivity.
Qed.

Lemma sub_i_debug_panic w a b :
  sub_i Debug w a b = Panic <-> a - b < - 2 ^ (w - 1) \/ 2 ^ (w - 1) <= a - b.
Proof.
  cbn [sub_i]. destruct (Z.leb_spec (- 2 ^ (w - 1)) (a - b)), (Z.ltb_spec (a - b) (2 ^ (w - 1)));
    cbn [andb]; split; intros; (discriminate || lia || reflexivity).
Qed.

(** The checked operations as tests on the exact result. *)
Lemma add_u_debug_exact w a b : 0 <= w -> 0 <= a -> 0 <= b ->
  add_u Debug w a b = if 2 ^ w <=? a + b then Panic else Ok (wrapping_add w a b).
Proof.
  intros. cbn [add_u]. unfold wrapping_add.
  destruct (Z.ltb_spec (a + b) (2 ^ w)), (Z.leb_spec (2 ^ w) (a + b)); try lia; [|reflexivity].
  rewrite trunc_small; [reflexivity | lia | unfold fits; lia].
Qed.

Lemma sub_u_debug_exact w a b : 0 <= w -> fits w a -> 0 <= b ->
  sub_u Debug w a b = if a <? b then Panic else Ok (wrapping_sub w a b).
Proof.
  intros ? [? ?] ?. cbn [sub_u]. unfold wrapping_sub.
  destruct (Z.leb_spec b a), (Z.ltb_spec a b); try lia; [|reflexivity].
  rewrite trunc_small; [reflexivity | lia | unfold fits; lia].
Qed.

Lemma trunc_nonneg w z : 0 <= w -> 0 <= trunc w z.
Proof. intros Hw. apply (trunc_fits w z Hw). Qed.
