(* ===== verification/Register.v ===== *)
(** * Registers and their ordinal arithmetic

    Models [src/src/rust/iced-x86/src/x86/common/register.rs]: the enum
    [Register] (241 variants, in declaration order, so that the Rust
    discriminant [r as u32] is [to_u32 r]) and [Register::add] /
    [Register::sub] with the [Add]/[Sub]/[AddAssign]/[SubAssign] operator
    impls built on them.  A [panic!] is the outcome [Panic]. *)

From Stdlib Require Import ZArith Lia List Bool.
From S2P Require Import Prelude.
Import ListNotations.
Open Scope Z_scope.

Module Register.

(** The enum, constructor for constructor. *)
Inductive Register : Set :=
| None | AL | CL | DL | BL | AH | CH | DH
| BH | SPL | BPL | SIL | DIL | R8L | R9L | R10L
| R11L | R12L | R13L | R14L | R15L | AX | CX | DX
| BX | SP | BP | SI | DI | R8W | R9W | R10W
| R11W | R12W | R13W | R14W | R15W | EAX | ECX | EDX
| EBX | ESP | EBP | ESI | EDI | R8D | R9D | R10D
| R11D | R12D | R13D | R14D | R15D | RAX | RCX | RDX
| RBX | RSP | RBP | RSI | RDI | R8 | R9 | R10
| R11 | R12 | R13 | R14 | R15 | EIP | RIP | ES
| CS | SS | DS | FS | GS | XMM0 | XMM1 | XMM2
| XMM3 | XMM4 | XMM5 | XMM6 | XMM7 | XMM8 | XMM9 | XMM10
| XMM11 | XMM12 | XMM13 | XMM14 | XMM15 | XMM16 | XMM17 | XMM18
| XMM19 | XMM20 | XMM21 | XMM22 | XMM23 | XMM24 | XMM25 | XMM26
| XMM27 | XMM28 | XMM29 | XMM30 | XMM31 | YMM0 | YMM1 | YMM2
| YMM3 | YMM4 | YMM5 | YMM6 | YMM7 | YMM8 | YMM9 | YMM10
| YMM11 | YMM12 | YMM13 | YMM14 | YMM15 | YMM16 | YMM17 | YMM18
| YMM19 | YMM20 | YMM21 | YMM22 | YMM23 | YMM24 | YMM25 | YMM26
| YMM27 | YMM28 | YMM29 | YMM30 | YMM31 | ZMM0 | ZMM1 | ZMM2
| ZMM3 | ZMM4 | ZMM5 | ZMM6 | ZMM7 | ZMM8 | ZMM9 | ZMM10
| ZMM11 | ZMM12 | ZMM13 | ZMM14 | ZMM15 | ZMM16 | ZMM17 | ZMM18
| ZMM19 | ZMM20 | ZMM21 | ZMM22 | ZMM23 | ZMM24 | ZMM25 | ZMM26
| ZMM27 | ZMM28 | ZMM29 | ZMM30 | ZMM31 | K0 | K1 | K2
| K3 | K4 | K5 | K6 | K7 | BND0 | BND1 | BND2
| BND3 | CR0 | CR1 | CR2 | CR3 | CR4 | CR5 | CR6
| CR7 | CR8 | CR9 | CR10 | CR11 | CR12 | CR13 | CR14
| CR15 | DR0 | DR1 | DR2 | DR3 | DR4 | DR5 | DR6
| DR7 | DR8 | DR9 | DR10 | DR11 | DR12 | DR13 | DR14
| DR15 | ST0 | ST1 | ST2 | ST3 | ST4 | ST5 | ST6
| ST7 | MM0 | MM1 | MM2 | MM3 | MM4 | MM5 | MM6
| MM7 | TR0 | TR1 | TR2 | TR3 | TR4 | TR5 | TR6
| TR7.

(** The discriminants [r as u32]: declaration order from 0. *)
Definition to_u32 (r : Register) : Z :=
  match r with
  | None => 0 | AL => 1 | CL => 2 | DL => 3 | BL => 4 | AH => 5
  | CH => 6 | DH => 7 | BH => 8 | SPL => 9 | BPL => 10 | SIL => 11
  | DIL => 12 | R8L => 13 | R9L => 14 | R10L => 15 | R11L => 16 | R12L => 17
  | R13L => 18 | R14L => 19 | R15L => 20 | AX => 21 | CX => 22 | DX => 23
  | BX => 24 | SP => 25 | BP => 26 | SI => 27 | DI => 28 | R8W => 29
  | R9W => 30 | R10W => 31 | R11W => 32 | R12W => 33 | R13W => 34 | R14W => 35
  | R15W => 36 | EAX => 37 | ECX => 38 | EDX => 39 | EBX => 40 | ESP => 41
  | EBP => 42 | ESI => 43 | EDI => 44 | R8D => 45 | R9D => 46 | R10D => 47
  | R11D => 48 | R12D => 49 | R13D => 50 | R14D => 51 | R15D => 52 | RAX => 53
  | RCX => 54 | RDX => 55 | RBX => 56 | RSP => 57 | RBP => 58 | RSI => 59
  | RDI => 60 | R8 => 61 | R9 => 62 | R10 => 63 | R11 => 64 | R12 => 65
  | R13 => 66 | R14 => 67 | R15 => 68 | EIP => 69 | RIP => 70 | ES => 71
  | CS => 72 | SS => 73 | DS => 74 | FS => 75 | GS => 76 | XMM0 => 77
  | XMM1 => 78 | XMM2 => 79 | XMM3 => 80 | XMM4 => 81 | XMM5 => 82 | XMM6 => 83
  | XMM7 => 84 | XMM8 => 85 | XMM9 => 86 | XMM10 => 87 | XMM11 => 88 | XMM12 => 89
  | XMM13 => 90 | XMM14 => 91 | XMM15 => 92 | XMM16 => 93 | XMM17 => 94 | XMM18 => 95
  | XMM19 => 96 | XMM20 => 97 | XMM21 => 98 | XMM22 => 99 | XMM23 => 100 | XMM24 => 101
  | XMM25 => 102 | XMM26 => 103 | XMM27 => 104 | XMM28 => 105 | XMM29 => 106 | XMM30 => 107
  | XMM31 => 108 | YMM0 => 109 | YMM1 => 110 | YMM2 => 111 | YMM3 => 112 | YMM4 => 113
  | YMM5 => 114 | YMM6 => 115 | YMM7 => 116 | YMM8 => 117 | YMM9 => 118 | YMM10 => 119
  | YMM11 => 120 | YMM12 => 121 | YMM13 => 122 | YMM14 => 123 | YMM15 => 124 | YMM16 => 125
  | YMM17 => 126 | YMM18 => 127 | YMM19 => 128 | YMM20 => 129 | YMM21 => 130 | YMM22 => 131
  | YMM23 => 132 | YMM24 => 133 | YMM25 => 134 | YMM26 => 135 | YMM27 => 136 | YMM28 => 137
  | YMM29 => 138 | YMM30 => 139 | YMM31 => 140 | ZMM0 => 141 | ZMM1 => 142 | ZMM2 => 143
  | ZMM3 => 144 | ZMM4 => 145 | ZMM5 => 146 | ZMM6 => 147 | ZMM7 => 148 | ZMM8 => 149
  | ZMM9 => 150 | ZMM10 => 151 | ZMM11 => 152 | ZMM12 => 153 | ZMM13 => 154 | ZMM14 => 155
  | ZMM15 => 156 | ZMM16 => 157 | ZMM17 => 158 | ZMM18 => 159 | ZMM19 => 160 | ZMM20 => 161
  | ZMM21 => 162 | ZMM22 => 163 | ZMM23 => 164 | ZMM24 => 165 | ZMM25 => 166 | ZMM26 => 167
  | ZMM27 => 168 | ZMM28 => 169 | ZMM29 => 170 | ZMM30 => 171 | ZMM31 => 172 | K0 => 173
  | K1 => 174 | K2 => 175 | K3 => 176 | K4 => 177 | K5 => 178 | K6 => 179
  | K7 => 180 | BND0 => 181 | BND1 => 182 | BND2 => 183 | BND3 => 184 | CR0 => 185
  | CR1 => 186 | CR2 => 187 | CR3 => 188 | CR4 => 189 | CR5 => 190 | CR6 => 191
  | CR7 => 192 | CR8 => 193 | CR9 => 194 | CR10 => 195 | CR11 => 196 | CR12 => 197
  | CR13 => 198 | CR14 => 199 | CR15 => 200 | DR0 => 201 | DR1 => 202 | DR2 => 203
  | DR3 => 204 | DR4 => 205 | DR5 => 206 | DR6 => 207 | DR7 => 208 | DR8 => 209
  | DR9 => 210 | DR10 => 211 | DR11 => 212 | DR12 => 213 | DR13 => 214 | DR14 => 215
  | DR15 => 216 | ST0 => 217 | ST1 => 218 | ST2 => 219 | ST3 => 220 | ST4 => 221
  | ST5 => 222 | ST6 => 223 | ST7 => 224 | MM0 => 225 | MM1 => 226 | MM2 => 227
  | MM3 => 228 | MM4 => 229 | MM5 => 230 | MM6 => 231 | MM7 => 232 | TR0 => 233
  | TR1 => 234 | TR2 => 235 | TR3 => 236 | TR4 => 237 | TR5 => 238 | TR6 => 239
  | TR7 => 240
  end.

(** Every variant, in declaration order (the table behind [transmute]). *)
Definition all_registers : list Register :=
  [None; AL; CL; DL; BL; AH; CH; DH; BH; SPL;
    BPL; SIL; DIL; R8L; R9L; R10L; R11L; R12L; R13L; R14L;
    R15L; AX; CX; DX; BX; SP; BP; SI; DI; R8W;
    R9W; R10W; R11W; R12W; R13W; R14W; R15W; EAX; ECX; EDX;
    EBX; ESP; EBP; ESI; EDI; R8D; R9D; R10D; R11D; R12D;
    R13D; R14D; R15D; RAX; RCX; RDX; RBX; RSP; RBP; RSI;
    RDI; R8; R9; R10; R11; R12; R13; R14; R15; EIP;
    RIP; ES; CS; SS; DS; FS; GS; XMM0; XMM1; XMM2;
    XMM3; XMM4; XMM5; XMM6; XMM7; XMM8; XMM9; XMM10; XMM11; XMM12;
    XMM13; XMM14; XMM15; XMM16; XMM17; XMM18; XMM19; XMM20; XMM21; XMM22;
    XMM23; XMM24; XMM25; XMM26; XMM27; XMM28; XMM29; XMM30; XMM31; YMM0;
    YMM1; YMM2; YMM3; YMM4; YMM5; YMM6; YMM7; YMM8; YMM9; YMM10;
    YMM11; YMM12; YMM13; YMM14; YMM15; YMM16; YMM17; YMM18; YMM19; YMM20;
    YMM21; YMM22; YMM23; YMM24; YMM25; YMM26; YMM27; YMM28; YMM29; YMM30;
    YMM31; ZMM0; ZMM1; ZMM2; ZMM3; ZMM4; ZMM5; ZMM6; ZMM7; ZMM8;
    ZMM9; ZMM10; ZMM11; ZMM12; ZMM13; ZMM14; ZMM15; ZMM16; ZMM17; ZMM18;
    ZMM19; ZMM20; ZMM21; ZMM22; ZMM23; ZMM24; ZMM25; ZMM26; ZMM27; ZMM28;
    ZMM29; ZMM30; ZMM31; K0; K1; K2; K3; K4; K5; K6;
    K7; BND0; BND1; BND2; BND3; CR0; CR1; CR2; CR3; CR4;
    CR5; CR6; CR7; CR8; CR9; CR10; CR11; CR12; CR13; CR14;
    CR15; DR0; DR1; DR2; DR3; DR4; DR5; DR6; DR7; DR8;
    DR9; DR10; DR11; DR12; DR13; DR14; DR15; ST0; ST1; ST2;
    ST3; ST4; ST5; ST6; ST7; MM0; MM1; MM2; MM3; MM4;
    MM5; MM6; MM7; TR0; TR1; TR2; TR3; TR4; TR5; TR6;
    TR7].

(** [IcedConstants::NUMBER_OF_REGISTERS] (generated code outside [src/]):
    the number of variants. *)
Definition NUMBER_OF_REGISTERS : Z := 241.

(** [mem::transmute(n as u8)]: the variant with discriminant [n]; the source
    only calls it on [n < NUMBER_OF_REGISTERS]. *)
Definition transmute (n : Z) : Register := nth (Z.to_nat n) all_registers None.

(** [#[derive(PartialEq, PartialOrd)]]: comparison of discriminants. *)
Definition eqb (a b : Register) : bool := to_u32 a =? to_u32 b.
Definition leb (a b : Register) : bool := to_u32 a <=? to_u32 b.

(** [fn add(self, rhs: u32) -> Register] *)
Definition add (self : Register) (rhs : Z) : Outcome Register :=
  let result := wrapping_add 32 (to_u32 self) rhs in
  if result <? NUMBER_OF_REGISTERS then Ok (transmute result) else Panic.

(** [fn sub(self, rhs: u32) -> Register] *)
Definition sub (self : Register) (rhs : Z) : Outcome Register :=
  let result := wrapping_sub 32 (to_u32 self) rhs in
  if result <? NUMBER_OF_REGISTERS then Ok (transmute result) else Panic.

(** The operator impls.  [i32] arguments are converted with [as u32]. *)
Definition i32_add_register (lhs : Z) (rhs : Register) : Outcome Register :=
  add rhs (as_u32 lhs).
Definition u32_add_register (lhs : Z) (rhs : Register) : Outcome Register :=
  add rhs lhs.
Definition add_i32 (self : Register) (rhs : Z) : Outcome Register :=
  add self (as_u32 rhs).
Definition add_u32 (self : Register) (rhs : Z) : Outcome Register :=
  add self rhs.
Definition add_assign_i32 (self : Register) (rhs : Z) : Outcome Register :=
  add self (as_u32 rhs).
Definition add_assign_u32 (self : Register) (rhs : Z) : Outcome Register :=
  add self rhs.
Definition sub_i32 (self : Register) (rhs : Z) : Outcome Register :=
  sub self (as_u32 rhs).
Definition sub_u32 (self : Register) (rhs : Z) : Outcome Register :=
  sub self rhs.
Definition sub_assign_i32 (self : Register) (rhs : Z) : Outcome Register :=
  sub self (as_u32 rhs).
Definition sub_assign_u32 (self : Register) (rhs : Z) : Outcome Register :=
  sub self rhs.

(** [mem::transmute(self.reg: u8) -> Register] in [Instruction]'s getters:
    a byte that is no discriminant is undefined behaviour. *)
Definition transmute_u8 (n : Z) : Outcome Register := transmute_enum all_registers None n.

(** ** The discriminant table *)

Lemma transmute_to_u32 r : transmute (to_u32 r) = r.
Proof. destruct r; reflexivity. Qed.

Lemma to_u32_range r : 0 <= to_u32 r < NUMBER_OF_REGISTERS.
Proof. destruct r; unfold NUMBER_OF_REGISTERS; simpl; lia. Qed.

Lemma length_all_registers : Z.of_nat (length all_registers) = NUMBER_OF_REGISTERS.
Proof. reflexivity. Qed.

Lemma to_u32_inj a b : to_u32 a = to_u32 b -> a = b.
Proof.
  intros H. rewrite <- (transmute_to_u32 a), <- (transmute_to_u32 b). now f_equal.
Qed.

Lemma eqb_spec a b : reflect (a = b) (eqb a b).
Proof.
  unfold eqb. destruct (Z.eqb_spec (to_u32 a) (to_u32 b)) as [E|E]; constructor.
  - now apply to_u32_inj.
  - intros ->. now apply E.
Qed.

Lemma register_eq_dec (a b : Register) : {a = b} + {a <> b}.
Proof. destruct (eqb_spec a b); [left|right]; assumption. Defined.

(** Every discriminant below [NUMBER_OF_REGISTERS] is one variant's. *)
Lemma to_u32_transmute n :
  0 <= n < NUMBER_OF_REGISTERS -> to_u32 (transmute n) = n.
Proof.
  intros Hn.
  assert (forallb (fun k => to_u32 (transmute (Z.of_nat k)) =? Z.of_nat k)
            (seq 0 241) = true) as Hall by (vm_compute; reflexivity).
  rewrite forallb_forall in Hall.
  specialize (Hall (Z.to_nat n)). rewrite Z2Nat.id in Hall by lia.
  apply Z.eqb_eq, Hall, in_seq. unfold NUMBER_OF_REGISTERS in Hn. lia.
Qed.

Lemma transmute_u8_to_u32 r : transmute_u8 (to_u32 r) = Ok r.
Proof. destruct r; reflexivity. Qed.

Lemma transmute_u8_ok n :
  0 <= n < NUMBER_OF_REGISTERS -> transmute_u8 n = Ok (transmute n).
Proof. intros H. apply transmute_enum_ok. exact H. Qed.

(** ** Ordinal arithmetic *)

Lemma wrapping_add_small a k :
  0 <= a + k < 2 ^ 32 -> wrapping_add 32 a k = a + k.
Proof. intros. unfold wrapping_add. apply trunc_small; [lia|assumption]. Qed.

Lemma wrapping_sub_add a k :
  0 <= a < 2 ^ 32 -> wrapping_sub 32 (wrapping_add 32 a k) k = a.
Proof.
  intros. unfold wrapping_sub, wrapping_add. rewrite !trunc_mod by lia.
  rewrite Zminus_mod_idemp_l. replace (a + k - k) with a by lia.
  now apply Z.mod_small.
Qed.

Lemma wrapping_add_neg a k :
  wrapping_add 32 a (as_u32 (- k)) = wrapping_sub 32 a k.
Proof.
  unfold wrapping_add, wrapping_sub, as_u32. rewrite !trunc_mod by lia.
  now rewrite Zplus_mod_idemp_r.
Qed.

(** Shifting a register by [k] inside the enumeration yields the
    register whose discriminant is [k] further: [AL + 1 = CL],
    [XMM0 + n = XMMn]. *)
Theorem add_in_range (r : Register) (k : Z) :
  0 <= k -> to_u32 r + k < NUMBER_OF_REGISTERS ->
  exists r', add r k = Ok r' /\ to_u32 r' = to_u32 r + k.
Proof.
  intros Hk Hr. pose proof (to_u32_range r).
  unfold add. rewrite wrapping_add_small by (unfold NUMBER_OF_REGISTERS in *; lia).
  destruct (Z.ltb_spec (to_u32 r + k) NUMBER_OF_REGISTERS); [|lia].
  eexists; split; [reflexivity|]. apply to_u32_transmute. lia.
Qed.

(** Shifting past the last register, without wrapping the 32-bit sum,
    panics instead of producing a register. *)
Theorem add_out_of_range (r : Register) (k : Z) :
  NUMBER_OF_REGISTERS <= to_u32 r + k < 2 ^ 32 -> add r k = Panic.
Proof.
  intros Hk. pose proof (to_u32_range r).
  unfold add. rewrite wrapping_add_small by lia.
  destruct (Z.ltb_spec (to_u32 r + k) NUMBER_OF_REGISTERS); [lia|reflexivity].
Qed.

(** [C35] [Register + k] for a [u32] shift [k] whose sum does not wrap:
    inside the enumeration it yields the register whose discriminant is
    [k] further ([AL + 1 = CL], [XMM0 + n = XMMn]); past the last register
    it panics instead of producing a register. *)
Theorem add_checked (r : Register) (k : Z) :
  0 <= k -> to_u32 r + k < 2 ^ 32 ->
  (to_u32 r + k < NUMBER_OF_REGISTERS -> exists r', add r k = Ok r' /\ to_u32 r' = to_u32 r + k) /\
  (NUMBER_OF_REGISTERS <= to_u32 r + k -> add r k = Panic).
Proof.
  intros Hk Hw. split; [intros Hr; exact (add_in_range r k Hk Hr)|].
  intros Hr. apply add_out_of_range. lia.
Qed.

(** [C36] Subtraction undoes a successful addition, also when the 32-bit
    sum wrapped around. *)
Theorem add_sub_inverse (r r' : Register) (k : Z) :
  add r k = Ok r' -> sub r' k = Ok r.
Proof.
  unfold add, sub. intros H.
  destruct (Z.ltb_spec (wrapping_add 32 (to_u32 r) k) NUMBER_OF_REGISTERS);
    [|discriminate].
  injection H as <-. pose proof (to_u32_range r).
  rewrite to_u32_transmute
    by (split; [apply trunc_fits; lia | assumption]).
  rewrite wrapping_sub_add by (unfold NUMBER_OF_REGISTERS in *; lia).
  destruct (Z.ltb_spec (to_u32 r) NUMBER_OF_REGISTERS); [|lia].
  now rewrite transmute_to_u32.
Qed.

(** Adding a negative [i32] is subtracting its magnitude:
    [r + (-k) = r - k] for the [Add<i32>] impl. *)
Theorem add_i32_neg (r : Register) (k : Z) : add_i32 r (- k) = sub r k.
Proof. unfold add_i32, add, sub. now rewrite wrapping_add_neg. Qed.

(** The [u32] sum wraps before the range check: [AL + 0xFFFF_FFFF]
    is [Register::None] rather than a failure. *)
Example add_u32_wraps : add_u32 AL 4294967295 = Ok None.
Proof. reflexivity. Qed.

(** Consecutive registers of a class: [EAX + 1 = ECX] and
    [EAX + 2 = EDX]; [XMM0 + 31 = XMM31]; [TR7 + 1] and [None - 1] fail. *)
Example register_steps :
  add EAX 1 = Ok ECX /\ add EAX 2 = Ok EDX /\ add XMM0 31 = Ok XMM31 /\
  add AL 7 = Ok BH /\ add TR7 1 = Panic /\ sub None 1 = Panic.
Proof. repeat split. Qed.

(** ** Witnesses *)

Lemma add_in_range_witness :
  0 <= 2 /\ to_u32 EAX + 2 < NUMBER_OF_REGISTERS /\
  exists r', add EAX 2 = Ok r' /\ to_u32 r' = to_u32 EAX + 2.
Proof.
  assert (H1 : 0 <= 2) by lia.
  assert (H2 : to_u32 EAX + 2 < NUMBER_OF_REGISTERS) by (vm_compute; reflexivity).
  split; [exact H1|]. split; [exact H2|]. exact (add_in_range EAX 2 H1 H2).
Defined.

Lemma add_out_of_range_witness :
  NUMBER_OF_REGISTERS <= to_u32 TR7 + 1 < 2 ^ 32 /\ add TR7 1 = Panic.
Proof.
  assert (H : NUMBER_OF_REGISTERS <= to_u32 TR7 + 1 < 2 ^ 32)
    by (unfold NUMBER_OF_REGISTERS; simpl; lia).
  split; [exact H|]. exact (add_out_of_range TR7 1 H).
Defined.

Lemma add_checked_witness :
  0 <= 2 /\ to_u32 EAX + 2 < 2 ^ 32 /\
  (to_u32 EAX + 2 < NUMBER_OF_REGISTERS -> exists r', add EAX 2 = Ok r' /\ to_u32 r' = to_u32 EAX + 2).
Proof.
  assert (H1 : 0 <= 2) by lia.
  assert (H2 : to_u32 EAX + 2 < 2 ^ 32) by (vm_compute; reflexivity).
  split; [exact H1|]. split; [exact H2|]. exact (proj1 (add_checked EAX 2 H1 H2)).
Defined.

Lemma add_sub_inverse_witness :
  add AL 4294967295 = Ok None /\ sub None 4294967295 = Ok AL.
Proof.
  assert (H : add AL 4294967295 = Ok None) by reflexivity.
  split; [exact H|]. exact (add_sub_inverse AL None 4294967295 H).
Defined.

End Register.
