(* ===== verification/MemorySize.v ===== *)
(** * Memory operand sizes and their metadata table

    Models [src/src/rust/iced-x86/src/x86/common/memorysize.rs]: the enum
    [MemorySize] (136 variants in declaration order), the static table
    [MEMORY_SIZE_INFOS] row for row, the accessors of [MemorySizeInfo], and
    the methods of [MemorySize] that project [info()]; [is_broadcast] is the
    ordinal comparison against [IcedConstants::FIRST_BROADCAST_MEMORY_SIZE]. *)

From Stdlib Require Import ZArith Lia List Bool.
From S2P Require Import Prelude.
Import ListNotations.
Open Scope Z_scope.

Module MemorySize.

Inductive MemorySize : Set :=
| Unknown | UInt8 | UInt16 | UInt32 | UInt52
| UInt64 | UInt128 | UInt256 | UInt512 | Int8
| Int16 | Int32 | Int64 | Int128 | Int256
| Int512 | SegPtr16 | SegPtr32 | SegPtr64 | WordOffset
| DwordOffset | QwordOffset | Bound16_WordWord | Bound32_DwordDword | Bnd32
| Bnd64 | Fword6 | Fword10 | Float16 | Float32
| Float64 | Float80 | Float128 | BFloat16 | FpuEnv14
| FpuEnv28 | FpuState94 | FpuState108 | Fxsave_512Byte | Fxsave64_512Byte
| Xsave | Xsave64 | Bcd | Packed16_UInt8 | Packed16_Int8
| Packed32_UInt8 | Packed32_Int8 | Packed32_UInt16 | Packed32_Int16 | Packed32_BFloat16
| Packed64_UInt8 | Packed64_Int8 | Packed64_UInt16 | Packed64_Int16 | Packed64_UInt32
| Packed64_Int32 | Packed64_Float16 | Packed64_Float32 | Packed128_UInt8 | Packed128_Int8
| Packed128_UInt16 | Packed128_Int16 | Packed128_UInt32 | Packed128_Int32 | Packed128_UInt52
| Packed128_UInt64 | Packed128_Int64 | Packed128_Float16 | Packed128_Float32 | Packed128_Float64
| Packed128_2xBFloat16 | Packed256_UInt8 | Packed256_Int8 | Packed256_UInt16 | Packed256_Int16
| Packed256_UInt32 | Packed256_Int32 | Packed256_UInt52 | Packed256_UInt64 | Packed256_Int64
| Packed256_UInt128 | Packed256_Int128 | Packed256_Float16 | Packed256_Float32 | Packed256_Float64
| Packed256_Float128 | Packed256_2xBFloat16 | Packed512_UInt8 | Packed512_Int8 | Packed512_UInt16
| Packed512_Int16 | Packed512_UInt32 | Packed512_Int32 | Packed512_UInt52 | Packed512_UInt64
| Packed512_Int64 | Packed512_UInt128 | Packed512_Float32 | Packed512_Float64 | Packed512_2xBFloat16
| Broadcast64_UInt32 | Broadcast64_Int32 | Broadcast64_Float32 | Broadcast128_UInt32 | Broadcast128_Int32
| Broadcast128_UInt52 | Broadcast128_UInt64 | Broadcast128_Int64 | Broadcast128_Float32 | Broadcast128_Float64
| Broadcast256_UInt32 | Broadcast256_Int32 | Broadcast256_UInt52 | Broadcast256_UInt64 | Broadcast256_Int64
| Broadcast256_Float32 | Broadcast256_Float64 | Broadcast512_UInt32 | Broadcast512_Int32 | Broadcast512_UInt52
| Broadcast512_UInt64 | Broadcast512_Int64 | Broadcast512_Float32 | Broadcast512_Float64 | Broadcast128_2xInt16
| Broadcast256_2xInt16 | Broadcast512_2xInt16 | Broadcast128_2xUInt32 | Broadcast256_2xUInt32 | Broadcast512_2xUInt32
| Broadcast128_2xInt32 | Broadcast256_2xInt32 | Broadcast512_2xInt32 | Broadcast128_2xBFloat16 | Broadcast256_2xBFloat16
| Broadcast512_2xBFloat16.

(** [m as u8]: the discriminant. *)
Definition to_u8 (m : MemorySize) : Z :=
  match m with
  | Unknown => 0 | UInt8 => 1 | UInt16 => 2 | UInt32 => 3
  | UInt52 => 4 | UInt64 => 5 | UInt128 => 6 | UInt256 => 7
  | UInt512 => 8 | Int8 => 9 | Int16 => 10 | Int32 => 11
  | Int64 => 12 | Int128 => 13 | Int256 => 14 | Int512 => 15
  | SegPtr16 => 16 | SegPtr32 => 17 | SegPtr64 => 18 | WordOffset => 19
  | DwordOffset => 20 | QwordOffset => 21 | Bound16_WordWord => 22 | Bound32_DwordDword => 23
  | Bnd32 => 24 | Bnd64 => 25 | Fword6 => 26 | Fword10 => 27
  | Float16 => 28 | Float32 => 29 | Float64 => 30 | Float80 => 31
  | Float128 => 32 | BFloat16 => 33 | FpuEnv14 => 34 | FpuEnv28 => 35
  | FpuState94 => 36 | FpuState108 => 37 | Fxsave_512Byte => 38 | Fxsave64_512Byte => 39
  | Xsave => 40 | Xsave64 => 41 | Bcd => 42 | Packed16_UInt8 => 43
  | Packed16_Int8 => 44 | Packed32_UInt8 => 45 | Packed32_Int8 => 46 | Packed32_UInt16 => 47
  | Packed32_Int16 => 48 | Packed32_BFloat16 => 49 | Packed64_UInt8 => 50 | Packed64_Int8 => 51
  | Packed64_UInt16 => 52 | Packed64_Int16 => 53 | Packed64_UInt32 => 54 | Packed64_Int32 => 55
  | Packed64_Float16 => 56 | Packed64_Float32 => 57 | Packed128_UInt8 => 58 | Packed128_Int8 => 59
  | Packed128_UInt16 => 60 | Packed128_Int16 => 61 | Packed128_UInt32 => 62 | Packed128_Int32 => 63
  | Packed128_UInt52 => 64 | Packed128_UInt64 => 65 | Packed128_Int64 => 66 | Packed128_Float16 => 67
  | Packed128_Float32 => 68 | Packed128_Float64 => 69 | Packed128_2xBFloat16 => 70 | Packed256_UInt8 => 71
  | Packed256_Int8 => 72 | Packed256_UInt16 => 73 | Packed256_Int16 => 74 | Packed256_UInt32 => 75
  | Packed256_Int32 => 76 | Packed256_UInt52 => 77 | Packed256_UInt64 => 78 | Packed256_Int64 => 79
  | Packed256_UInt128 => 80 | Packed256_Int128 => 81 | Packed256_Float16 => 82 | Packed256_Float32 => 83
  | Packed256_Float64 => 84 | Packed256_Float128 => 85 | Packed256_2xBFloat16 => 86 | Packed512_UInt8 => 87
  | Packed512_Int8 => 88 | Packed512_UInt16 => 89 | Packed512_Int16 => 90 | Packed512_UInt32 => 91
  | Packed512_Int32 => 92 | Packed512_UInt52 => 93 | Packed512_UInt64 => 94 | Packed512_Int64 => 95
  | Packed512_UInt128 => 96 | Packed512_Float32 => 97 | Packed512_Float64 => 98 | Packed512_2xBFloat16 => 99
  | Broadcast64_UInt32 => 100 | Broadcast64_Int32 => 101 | Broadcast64_Float32 => 102 | Broadcast128_UInt32 => 103
  | Broadcast128_Int32 => 104 | Broadcast128_UInt52 => 105 | Broadcast128_UInt64 => 106 | Broadcast128_Int64 => 107
  | Broadcast128_Float32 => 108 | Broadcast128_Float64 => 109 | Broadcast256_UInt32 => 110 | Broadcast256_Int32 => 111
  | Broadcast256_UInt52 => 112 | Broadcast256_UInt64 => 113 | Broadcast256_Int64 => 114 | Broadcast256_Float32 => 115
  | Broadcast256_Float64 => 116 | Broadcast512_UInt32 => 117 | Broadcast512_Int32 => 118 | Broadcast512_UInt52 => 119
  | Broadcast512_UInt64 => 120 | Broadcast512_Int64 => 121 | Broadcast512_Float32 => 122 | Broadcast512_Float64 => 123
  | Broadcast128_2xInt16 => 124 | Broadcast256_2xInt16 => 125 | Broadcast512_2xInt16 => 126 | Broadcast128_2xUInt32 => 127
  | Broadcast256_2xUInt32 => 128 | Broadcast512_2xUInt32 => 129 | Broadcast128_2xInt32 => 130 | Broadcast256_2xInt32 => 131
  | Broadcast512_2xInt32 => 132 | Broadcast128_2xBFloat16 => 133 | Broadcast256_2xBFloat16 => 134 | Broadcast512_2xBFloat16 => 135
  end.

Definition all_memory_sizes : list MemorySize :=
  [Unknown; UInt8; UInt16; UInt32; UInt52; UInt64;
    UInt128; UInt256; UInt512; Int8; Int16; Int32;
    Int64; Int128; Int256; Int512; SegPtr16; SegPtr32;
    SegPtr64; WordOffset; DwordOffset; QwordOffset; Bound16_WordWord; Bound32_DwordDword;
    Bnd32; Bnd64; Fword6; Fword10; Float16; Float32;
    Float64; Float80; Float128; BFloat16; FpuEnv14; FpuEnv28;
    FpuState94; FpuState108; Fxsave_512Byte; Fxsave64_512Byte; Xsave; Xsave64;
    Bcd; Packed16_UInt8; Packed16_Int8; Packed32_UInt8; Packed32_Int8; Packed32_UInt16;
    Packed32_Int16; Packed32_BFloat16; Packed64_UInt8; Packed64_Int8; Packed64_UInt16; Packed64_Int16;
    Packed64_UInt32; Packed64_Int32; Packed64_Float16; Packed64_Float32; Packed128_UInt8; Packed128_Int8;
    Packed128_UInt16; Packed128_Int16; Packed128_UInt32; Packed128_Int32; Packed128_UInt52; Packed128_UInt64;
    Packed128_Int64; Packed128_Float16; Packed128_Float32; Packed128_Float64; Packed128_2xBFloat16; Packed256_UInt8;
    Packed256_Int8; Packed256_UInt16; Packed256_Int16; Packed256_UInt32; Packed256_Int32; Packed256_UInt52;
    Packed256_UInt64; Packed256_Int64; Packed256_UInt128; Packed256_Int128; Packed256_Float16; Packed256_Float32;
    Packed256_Float64; Packed256_Float128; Packed256_2xBFloat16; Packed512_UInt8; Packed512_Int8; Packed512_UInt16;
    Packed512_Int16; Packed512_UInt32; Packed512_Int32; Packed512_UInt52; Packed512_UInt64; Packed512_Int64;
    Packed512_UInt128; Packed512_Float32; Packed512_Float64; Packed512_2xBFloat16; Broadcast64_UInt32; Broadcast64_Int32;
    Broadcast64_Float32; Broadcast128_UInt32; Broadcast128_Int32; Broadcast128_UInt52; Broadcast128_UInt64; Broadcast128_Int64;
    Broadcast128_Float32; Broadcast128_Float64; Broadcast256_UInt32; Broadcast256_Int32; Broadcast256_UInt52; Broadcast256_UInt64;
    Broadcast256_Int64; Broadcast256_Float32; Broadcast256_Float64; Broadcast512_UInt32; Broadcast512_Int32; Broadcast512_UInt52;
    Broadcast512_UInt64; Broadcast512_Int64; Broadcast512_Float32; Broadcast512_Float64; Broadcast128_2xInt16; Broadcast256_2xInt16;
    Broadcast512_2xInt16; Broadcast128_2xUInt32; Broadcast256_2xUInt32; Broadcast512_2xUInt32; Broadcast128_2xInt32; Broadcast256_2xInt32;
    Broadcast512_2xInt32; Broadcast128_2xBFloat16; Broadcast256_2xBFloat16; Broadcast512_2xBFloat16].

(** [IcedConstants::NUMBER_OF_MEMORY_SIZES] and
    [IcedConstants::FIRST_BROADCAST_MEMORY_SIZE] (generated code outside
    [src/]). *)
Definition NUMBER_OF_MEMORY_SIZES : Z := 136.
Definition FIRST_BROADCAST_MEMORY_SIZE : MemorySize := Broadcast64_UInt32.

(** [mem::transmute(n: u8) -> MemorySize]. *)
Definition transmute (n : Z) : MemorySize := nth (Z.to_nat n) all_memory_sizes Unknown.

(** [struct MemorySizeInfo]; [memory_size] and [element_type] are the [u8]
    discriminants the table stores. *)
Module Info.
Record MemorySizeInfo : Set := mk {
  size_ : Z;
  element_size_ : Z;
  memory_size_ : Z;
  element_type_ : Z;
  is_signed_ : bool;
  is_broadcast_ : bool
}.

Definition memory_size (i : MemorySizeInfo) : MemorySize := transmute (memory_size_ i).
Definition size (i : MemorySizeInfo) : Z := size_ i.
Definition element_size (i : MemorySizeInfo) : Z := element_size_ i.
Definition element_type (i : MemorySizeInfo) : MemorySize := transmute (element_type_ i).
Definition is_signed (i : MemorySizeInfo) : bool := is_signed_ i.
Definition is_broadcast (i : MemorySizeInfo) : bool := is_broadcast_ i.
Definition is_packed (i : MemorySizeInfo) : bool := element_size_ i <? size_ i.
(** [element_size] can be 0, so it is not divided by when it equals [size]. *)
Definition element_count (i : MemorySizeInfo) : Z :=
  if element_size_ i =? size_ i then 1 else Z.quot (size_ i) (element_size_ i).
End Info.

Import Info.

(** [static MEMORY_SIZE_INFOS], one row per variant. *)
Definition MEMORY_SIZE_INFOS : list MemorySizeInfo :=
  let mk sz es ms et sg bc := Info.mk sz es (to_u8 ms) (to_u8 et) sg bc in
  [
    mk 0 0 Unknown Unknown false false;
    mk 1 1 UInt8 UInt8 false false;
    mk 2 2 UInt16 UInt16 false false;
    mk 4 4 UInt32 UInt32 false false;
    mk 8 8 UInt52 UInt52 false false;
    mk 8 8 UInt64 UInt64 false false;
    mk 16 16 UInt128 UInt128 false false;
    mk 32 32 UInt256 UInt256 false false;
    mk 64 64 UInt512 UInt512 false false;
    mk 1 1 Int8 Int8 true false;
    mk 2 2 Int16 Int16 true false;
    mk 4 4 Int32 Int32 true false;
    mk 8 8 Int64 Int64 true false;
    mk 16 16 Int128 Int128 true false;
    mk 32 32 Int256 Int256 true false;
    mk 64 64 Int512 Int512 true false;
    mk 4 4 SegPtr16 SegPtr16 false false;
    mk 6 6 SegPtr32 SegPtr32 false false;
    mk 10 10 SegPtr64 SegPtr64 false false;
    mk 2 2 WordOffset WordOffset false false;
    mk 4 4 DwordOffset DwordOffset false false;
    mk 8 8 QwordOffset QwordOffset false false;
    mk 4 4 Bound16_WordWord Bound16_WordWord false false;
    mk 8 8 Bound32_DwordDword Bound32_DwordDword false false;
    mk 8 8 Bnd32 Bnd32 false false;
    mk 16 16 Bnd64 Bnd64 false false;
    mk 6 6 Fword6 Fword6 false false;
    mk 10 10 Fword10 Fword10 false false;
    mk 2 2 Float16 Float16 true false;
    mk 4 4 Float32 Float32 true false;
    mk 8 8 Float64 Float64 true false;
    mk 10 10 Float80 Float80 true false;
    mk 16 16 Float128 Float128 true false;
    mk 2 2 BFloat16 BFloat16 true false;
    mk 14 14 FpuEnv14 FpuEnv14 false false;
    mk 28 28 FpuEnv28 FpuEnv28 false false;
    mk 94 94 FpuState94 FpuState94 false false;
    mk 108 108 FpuState108 FpuState108 false false;
    mk 512 512 Fxsave_512Byte Fxsave_512Byte false false;
    mk 512 512 Fxsave64_512Byte Fxsave64_512Byte false false;
    mk 0 0 Xsave Xsave false false;
    mk 0 0 Xsave64 Xsave64 false false;
    mk 10 10 Bcd Bcd true false;
    mk 2 1 Packed16_UInt8 UInt8 false false;
    mk 2 1 Packed16_Int8 Int8 true false;
    mk 4 1 Packed32_UInt8 UInt8 false false;
    mk 4 1 Packed32_Int8 Int8 true false;
    mk 4 2 Packed32_UInt16 UInt16 false false;
    mk 4 2 Packed32_Int16 Int16 true false;
    mk 4 2 Packed32_BFloat16 BFloat16 true false;
    mk 8 1 Packed64_UInt8 UInt8 false false;
    mk 8 1 Packed64_Int8 Int8 true false;
    mk 8 2 Packed64_UInt16 UInt16 false false;
    mk 8 2 Packed64_Int16 Int16 true false;
    mk 8 4 Packed64_UInt32 UInt32 false false;
    mk 8 4 Packed64_Int32 Int32 true false;
    mk 8 2 Packed64_Float16 Float16 true false;
    mk 8 4 Packed64_Float32 Float32 true false;
    mk 16 1 Packed128_UInt8 UInt8 false false;
    mk 16 1 Packed128_Int8 Int8 true false;
    mk 16 2 Packed128_UInt16 UInt16 false false;
    mk 16 2 Packed128_Int16 Int16 true false;
    mk 16 4 Packed128_UInt32 UInt32 false false;
    mk 16 4 Packed128_Int32 Int32 true false;
    mk 16 8 Packed128_UInt52 UInt52 false false;
    mk 16 8 Packed128_UInt64 UInt64 false false;
    mk 16 8 Packed128_Int64 Int64 true false;
    mk 16 2 Packed128_Float16 Float16 true false;
    mk 16 4 Packed128_Float32 Float32 true false;
    mk 16 8 Packed128_Float64 Float64 true false;
    mk 16 4 Packed128_2xBFloat16 Packed32_BFloat16 true false;
    mk 32 1 Packed256_UInt8 UInt8 false false;
    mk 32 1 Packed256_Int8 Int8 true false;
    mk 32 2 Packed256_UInt16 UInt16 false false;
    mk 32 2 Packed256_Int16 Int16 true false;
    mk 32 4 Packed256_UInt32 UInt32 false false;
    mk 32 4 Packed256_Int32 Int32 true false;
    mk 32 8 Packed256_UInt52 UInt52 false false;
    mk 32 8 Packed256_UInt64 UInt64 false false;
    mk 32 8 Packed256_Int64 Int64 true false;
    mk 32 16 Packed256_UInt128 UInt128 false false;
    mk 32 16 Packed256_Int128 Int128 true false;
    mk 32 2 Packed256_Float16 Float16 true false;
    mk 32 4 Packed256_Float32 Float32 true false;
    mk 32 8 Packed256_Float64 Float64 true false;
    mk 32 16 Packed256_Float128 Float128 true false;
    mk 32 4 Packed256_2xBFloat16 Packed32_BFloat16 true false;
    mk 64 1 Packed512_UInt8 UInt8 false false;
    mk 64 1 Packed512_Int8 Int8 true false;
    mk 64 2 Packed512_UInt16 UInt16 false false;
    mk 64 2 Packed512_Int16 Int16 true false;
    mk 64 4 Packed512_UInt32 UInt32 false false;
    mk 64 4 Packed512_Int32 Int32 true false;
    mk 64 8 Packed512_UInt52 UInt52 false false;
    mk 64 8 Packed512_UInt64 UInt64 false false;
    mk 64 8 Packed512_Int64 Int64 true false;
    mk 64 16 Packed512_UInt128 UInt128 false false;
    mk 64 4 Packed512_Float32 Float32 true false;
    mk 64 8 Packed512_Float64 Float64 true false;
    mk 64 4 Packed512_2xBFloat16 Packed32_BFloat16 true false;
    mk 4 4 Broadcast64_UInt32 UInt32 false true;
    mk 4 4 Broadcast64_Int32 Int32 true true;
    mk 4 4 Broadcast64_Float32 Float32 true true;
    mk 4 4 Broadcast128_UInt32 UInt32 false true;
    mk 4 4 Broadcast128_Int32 Int32 true true;
    mk 8 8 Broadcast128_UInt52 UInt52 false true;
    mk 8 8 Broadcast128_UInt64 UInt64 false true;
    mk 8 8 Broadcast128_Int64 Int64 true true;
    mk 4 4 Broadcast128_Float32 Float32 true true;
    mk 8 8 Broadcast128_Float64 Float64 true true;
    mk 4 4 Broadcast256_UInt32 UInt32 false true;
    mk 4 4 Broadcast256_Int32 Int32 true true;
    mk 8 8 Broadcast256_UInt52 UInt52 false true;
    mk 8 8 Broadcast256_UInt64 UInt64 false true;
    mk 8 8 Broadcast256_Int64 Int64 true true;
    mk 4 4 Broadcast256_Float32 Float32 true true;
    mk 8 8 Broadcast256_Float64 Float64 true true;
    mk 4 4 Broadcast512_UInt32 UInt32 false true;
    mk 4 4 Broadcast512_Int32 Int32 true true;
    mk 8 8 Broadcast512_UInt52 UInt52 false true;
    mk 8 8 Broadcast512_UInt64 UInt64 false true;
    mk 8 8 Broadcast512_Int64 Int64 true true;
    mk 4 4 Broadcast512_Float32 Float32 true true;
    mk 8 8 Broadcast512_Float64 Float64 true true;
    mk 4 2 Broadcast128_2xInt16 Int16 true true;
    mk 4 2 Broadcast256_2xInt16 Int16 true true;
    mk 4 2 Broadcast512_2xInt16 Int16 true true;
    mk 8 4 Broadcast128_2xUInt32 UInt32 false true;
    mk 8 4 Broadcast256_2xUInt32 UInt32 false true;
    mk 8 4 Broadcast512_2xUInt32 UInt32 false true;
    mk 8 4 Broadcast128_2xInt32 Int32 true true;
    mk 8 4 Broadcast256_2xInt32 Int32 true true;
    mk 8 4 Broadcast512_2xInt32 Int32 true true;
    mk 4 2 Broadcast128_2xBFloat16 BFloat16 true true;
    mk 4 2 Broadcast256_2xBFloat16 BFloat16 true true;
    mk 4 2 Broadcast512_2xBFloat16 BFloat16 true true
  ].

Definition default_info : MemorySizeInfo := Info.mk 0 0 0 0 false false.

(** [&MEMORY_SIZE_INFOS[self as usize]]. *)
Definition info (m : MemorySize) : MemorySizeInfo :=
  nth (Z.to_nat (to_u8 m)) MEMORY_SIZE_INFOS default_info.

Definition size (m : MemorySize) : Z := Info.size (info m).
Definition element_size (m : MemorySize) : Z := Info.element_size (info m).
Definition element_type (m : MemorySize) : MemorySize := Info.element_type (info m).
Definition element_type_info (m : MemorySize) : MemorySizeInfo := info (element_type m).
Definition is_signed (m : MemorySize) : bool := Info.is_signed (info m).
Definition is_packed (m : MemorySize) : bool := Info.is_packed (info m).
Definition element_count (m : MemorySize) : Z := Info.element_count (info m).

(** [self >= IcedConstants::FIRST_BROADCAST_MEMORY_SIZE] *)
Definition is_broadcast (m : MemorySize) : bool :=
  to_u8 FIRST_BROADCAST_MEMORY_SIZE <=? to_u8 m.

(** ** The table covers the enumeration *)

Lemma transmute_to_u8 m : transmute (to_u8 m) = m.
Proof. destruct m; reflexivity. Qed.

Lemma to_u8_range m : 0 <= to_u8 m < NUMBER_OF_MEMORY_SIZES.
Proof. destruct m; unfold NUMBER_OF_MEMORY_SIZES; simpl; lia. Qed.

Lemma length_all_memory_sizes : Z.of_nat (length all_memory_sizes) = NUMBER_OF_MEMORY_SIZES.
Proof. reflexivity. Qed.

Lemma to_u8_transmute n : 0 <= n < NUMBER_OF_MEMORY_SIZES -> to_u8 (transmute n) = n.
Proof.
  intros Hn.
  assert (forallb (fun k => to_u8 (transmute (Z.of_nat k)) =? Z.of_nat k)
            (seq 0 136) = true) as Hall by (vm_compute; reflexivity).
  rewrite forallb_forall in Hall.
  specialize (Hall (Z.to_nat n)). rewrite Z2Nat.id in Hall by lia.
  apply Z.eqb_eq, Hall, in_seq. unfold NUMBER_OF_MEMORY_SIZES in Hn. lia.
Qed.

Lemma length_memory_size_infos :
  Z.of_nat (length MEMORY_SIZE_INFOS) = NUMBER_OF_MEMORY_SIZES.
Proof. reflexivity. Qed.

Lemma in_all_memory_sizes m : In m all_memory_sizes.
Proof.
  rewrite <- (transmute_to_u8 m). unfold transmute. apply nth_In.
  pose proof (to_u8_range m). unfold NUMBER_OF_MEMORY_SIZES in H. simpl. lia.
Qed.

(** A boolean property checked on every variant holds of all of them. *)
Lemma forall_memory_sizes (p : MemorySize -> bool) :
  forallb p all_memory_sizes = true -> forall m, p m = true.
Proof.
  intros H m. rewrite forallb_forall in H. apply H, in_all_memory_sizes.
Qed.

(** [info] never reads past the end of the table. *)
Lemma info_in_table m :
  nth_error MEMORY_SIZE_INFOS (Z.to_nat (to_u8 m)) = Some (info m).
Proof.
  unfold info. apply nth_error_nth'.
  pose proof (to_u8_range m). unfold NUMBER_OF_MEMORY_SIZES in H. simpl. lia.
Qed.

(** ** Consistency of the table *)

(** The table is indexed by discriminant: the row read for [m] is the
    row that names [m]. *)
Theorem info_memory_size (m : MemorySize) : Info.memory_size (info m) = m.
Proof. destruct m; reflexivity. Qed.

(** An element is never larger than the operand, and no size is
    negative. *)
Theorem element_size_le_size (m : MemorySize) : 0 <= element_size m <= size m.
Proof.
  pose proof (forall_memory_sizes
    (fun m => (0 <=? element_size m) && (element_size m <=? size m))
    ltac:(vm_compute; reflexivity) m) as H.
  apply andb_true_iff in H. destruct H as [H1 H2].
  apply Z.leb_le in H1, H2. lia.
Qed.

(** [element_count] elements of [element_size] bytes fill the operand
    exactly, including the unknown-size rows where both sizes are 0. *)
Theorem element_count_mul (m : MemorySize) :
  element_count m * element_size m = size m.
Proof.
  apply Z.eqb_eq. revert m.
  apply (forall_memory_sizes (fun m => element_count m * element_size m =? size m)).
  vm_compute. reflexivity.
Qed.

(** The ordinal test [self >= FIRST_BROADCAST_MEMORY_SIZE] agrees with
    the [is_broadcast] column of the table: broadcast variants are exactly
    the suffix of the enumeration. *)
Theorem is_broadcast_table (m : MemorySize) :
  is_broadcast m = Info.is_broadcast (info m).
Proof. destruct m; reflexivity. Qed.

(** The element type of every variant is a non-broadcast type of
    exactly [element_size] bytes with the same signedness. *)
Theorem element_type_consistent (m : MemorySize) :
  size (element_type m) = element_size m /\
  is_broadcast (element_type m) = false /\
  is_signed (element_type m) = is_signed m.
Proof. destruct m; repeat split. Qed.

(** A variant that is not packed holds one element. *)
Theorem element_count_not_packed (m : MemorySize) :
  is_packed m = false -> element_count m = 1.
Proof.
  unfold is_packed, element_count, Info.is_packed, Info.element_count.
  pose proof (element_size_le_size m) as H.
  unfold size, element_size, Info.size, Info.element_size in H.
  intros Hp. apply Z.ltb_ge in Hp.
  replace (element_size_ (info m) =? size_ (info m)) with true
    by (symmetry; apply Z.eqb_eq; lia).
  reflexivity.
Qed.

(** What [element_type()]'s doc comment promises holds of every
    non-broadcast variant: one that is not packed is its own element
    type. *)
Lemma element_type_self (m : MemorySize) :
  is_packed m = false -> is_broadcast m = false -> element_type m = m.
Proof. destruct m; intros H1 H2; first [reflexivity | discriminate H1 | discriminate H2]. Qed.

(** [C37] The table of [MEMORY_SIZE_INFOS] is consistent with the methods
    that read it: for every [MemorySize], [element_size() <= size()],
    [element_count()] elements of [element_size()] bytes fill the operand,
    a variant that is not packed holds one element and, when it is not a
    broadcast variant, is its own [element_type()] (as that method's doc
    says); the element type of a packed variant is not a broadcast type;
    the element type has [element_size()] bytes and the signedness of the
    variant; and the ordinal test [self >= FIRST_BROADCAST_MEMORY_SIZE]
    agrees with the table's [is_broadcast] column. *)
Theorem table_consistent (m : MemorySize) :
  0 <= element_size m <= size m /\
  element_count m * element_size m = size m /\
  (is_packed m = false -> element_count m = 1) /\
  (is_packed m = false -> is_broadcast m = false -> element_type m = m) /\
  (is_packed m = true -> is_broadcast (element_type m) = false) /\
  size (element_type m) = element_size m /\
  is_signed (element_type m) = is_signed m /\
  is_broadcast m = Info.is_broadcast (info m).
Proof.
  pose proof (element_type_consistent m) as (E1 & E2 & E3).
  repeat split; auto using element_size_le_size, element_count_mul, element_count_not_packed,
    element_type_self, is_broadcast_table; apply element_size_le_size.
Qed.

(** The broadcast variants are not packed, yet their element type is the
    scalar type they broadcast, not [self] as the doc comment of
    [element_type()] says. *)
Example element_type_broadcast :
  is_packed Broadcast64_UInt32 = false /\ is_broadcast Broadcast64_UInt32 = true /\
  element_type Broadcast64_UInt32 = UInt32.
Proof. repeat split. Qed.

Lemma element_count_not_packed_witness :
  is_packed Float64 = false /\ element_count Float64 = 1.
Proof.
  split; [reflexivity|]. apply element_count_not_packed. reflexivity.
Defined.


Lemma table_consistent_witness :
  is_packed Float64 = false /\ is_broadcast Float64 = false /\ element_type Float64 = Float64.
Proof.
  assert (H1 : is_packed Float64 = false) by reflexivity.
  assert (H2 : is_broadcast Float64 = false) by reflexivity.
  split; [exact H1|]. split; [exact H2|].
  exact (proj1 (proj2 (proj2 (proj2 (table_consistent Float64)))) H1 H2).
Defined.

End MemorySize.
