(* ===== verification/Tables.v ===== *)
(** * The generated enums and tables that [instruction.rs] uses

    [instruction.rs] imports [Code], [OpKind], [CodeSize], [RoundingControl],
    [Mnemonic] and the tables [instructionopcounts::OP_COUNT] and
    [instructionmemorysizes::SIZES]; they are produced by iced's generator
    and are not part of [src/].  This file models them from the spec:
    - [OpKind], [CodeSize], [RoundingControl] as enums (their variants and
      order are those of iced's generated code; [Register] is 0, so a zeroed
      instruction has register operands);
    - [Code] as its discriminant, a 13-bit number, with the tables given by
      the class [CodeTables]: the interface the generator promises to
      [Instruction] (number of codes, operand counts, memory sizes, and the
      discriminants of the gather/scatter codes that [vsib] names).
    [sample_tables] is an instance with the shape of the generated tables,
    used to run the theorems on concrete instructions. *)

From Stdlib Require Import ZArith Lia List Bool.
From S2P Require Import Prelude MemorySize.
Import ListNotations.
Open Scope Z_scope.

Module OpKind.
Inductive OpKind : Set :=
| Register | NearBranch16 | NearBranch32 | NearBranch64 | FarBranch16 | FarBranch32
| Immediate8 | Immediate8_2nd | Immediate16 | Immediate32 | Immediate64
| Immediate8to16 | Immediate8to32 | Immediate8to64 | Immediate32to64
| MemorySegSI | MemorySegESI | MemorySegRSI | MemorySegDI | MemorySegEDI
| MemorySegRDI | MemoryESDI | MemoryESEDI | MemoryESRDI | Memory64 | Memory.

Definition all : list OpKind :=
  [Register; NearBranch16; NearBranch32; NearBranch64; FarBranch16; FarBranch32;
   Immediate8; Immediate8_2nd; Immediate16; Immediate32; Immediate64;
   Immediate8to16; Immediate8to32; Immediate8to64; Immediate32to64;
   MemorySegSI; MemorySegESI; MemorySegRSI; MemorySegDI; MemorySegEDI;
   MemorySegRDI; MemoryESDI; MemoryESEDI; MemoryESRDI; Memory64; Memory].

Definition to_u32 (k : OpKind) : Z :=
  match k with
  | Register => 0 | NearBranch16 => 1 | NearBranch32 => 2 | NearBranch64 => 3
  | FarBranch16 => 4 | FarBranch32 => 5 | Immediate8 => 6 | Immediate8_2nd => 7
  | Immediate16 => 8 | Immediate32 => 9 | Immediate64 => 10
  | Immediate8to16 => 11 | Immediate8to32 => 12 | Immediate8to64 => 13
  | Immediate32to64 => 14 | MemorySegSI => 15 | MemorySegESI => 16
  | MemorySegRSI => 17 | MemorySegDI => 18 | MemorySegEDI => 19
  | MemorySegRDI => 20 | MemoryESDI => 21 | MemoryESEDI => 22
  | MemoryESRDI => 23 | Memory64 => 24 | Memory => 25
  end.

Definition transmute (n : Z) : Outcome OpKind := transmute_enum all Register n.

Definition eqb (a b : OpKind) : bool := to_u32 a =? to_u32 b.

End OpKind.

Module CodeSize.
Inductive CodeSize : Set := Unknown | Code16 | Code32 | Code64.
Definition all : list CodeSize := [Unknown; Code16; Code32; Code64].
Definition to_u32 (c : CodeSize) : Z :=
  match c with Unknown => 0 | Code16 => 1 | Code32 => 2 | Code64 => 3 end.
Definition transmute (n : Z) : Outcome CodeSize := transmute_enum all Unknown n.
End CodeSize.

Module RoundingControl.
Inductive RoundingControl : Set :=
  None | RoundToNearest | RoundDown | RoundUp | RoundTowardZero.
Definition all : list RoundingControl :=
  [None; RoundToNearest; RoundDown; RoundUp; RoundTowardZero].
Definition to_u32 (r : RoundingControl) : Z :=
  match r with
  | None => 0 | RoundToNearest => 1 | RoundDown => 2 | RoundUp => 3
  | RoundTowardZero => 4
  end.
Definition transmute (n : Z) : Outcome RoundingControl := transmute_enum all None n.
End RoundingControl.

(** The [Code] variants that [Instruction::vsib] names: the gather, scatter
    and gather/scatter-prefetch forms with a VSIB memory operand. *)
Inductive VsibCode : Set :=
| VEX_Vpgatherdd_xmm_vm32x_xmm | VEX_Vpgatherdd_ymm_vm32y_ymm
| VEX_Vpgatherdq_xmm_vm32x_xmm | VEX_Vpgatherdq_ymm_vm32x_ymm
| EVEX_Vpgatherdd_xmm_k1_vm32x | EVEX_Vpgatherdd_ymm_k1_vm32y
| EVEX_Vpgatherdd_zmm_k1_vm32z | EVEX_Vpgatherdq_xmm_k1_vm32x
| EVEX_Vpgatherdq_ymm_k1_vm32x | EVEX_Vpgatherdq_zmm_k1_vm32y
| VEX_Vgatherdps_xmm_vm32x_xmm | VEX_Vgatherdps_ymm_vm32y_ymm
| VEX_Vgatherdpd_xmm_vm32x_xmm | VEX_Vgatherdpd_ymm_vm32x_ymm
| EVEX_Vgatherdps_xmm_k1_vm32x | EVEX_Vgatherdps_ymm_k1_vm32y
| EVEX_Vgatherdps_zmm_k1_vm32z | EVEX_Vgatherdpd_xmm_k1_vm32x
| EVEX_Vgatherdpd_ymm_k1_vm32x | EVEX_Vgatherdpd_zmm_k1_vm32y
| EVEX_Vpscatterdd_vm32x_k1_xmm | EVEX_Vpscatterdd_vm32y_k1_ymm
| EVEX_Vpscatterdd_vm32z_k1_zmm | EVEX_Vpscatterdq_vm32x_k1_xmm
| EVEX_Vpscatterdq_vm32x_k1_ymm | EVEX_Vpscatterdq_vm32y_k1_zmm
| EVEX_Vscatterdps_vm32x_k1_xmm | EVEX_Vscatterdps_vm32y_k1_ymm
| EVEX_Vscatterdps_vm32z_k1_zmm | EVEX_Vscatterdpd_vm32x_k1_xmm
| EVEX_Vscatterdpd_vm32x_k1_ymm | EVEX_Vscatterdpd_vm32y_k1_zmm
| EVEX_Vgatherpf0dps_vm32z_k1 | EVEX_Vgatherpf0dpd_vm32y_k1
| EVEX_Vgatherpf1dps_vm32z_k1 | EVEX_Vgatherpf1dpd_vm32y_k1
| EVEX_Vscatterpf0dps_vm32z_k1 | EVEX_Vscatterpf0dpd_vm32y_k1
| EVEX_Vscatterpf1dps_vm32z_k1 | EVEX_Vscatterpf1dpd_vm32y_k1
| VEX_Vpgatherqd_xmm_vm64x_xmm | VEX_Vpgatherqd_xmm_vm64y_xmm
| VEX_Vpgatherqq_xmm_vm64x_xmm | VEX_Vpgatherqq_ymm_vm64y_ymm
| EVEX_Vpgatherqd_xmm_k1_vm64x | EVEX_Vpgatherqd_xmm_k1_vm64y
| EVEX_Vpgatherqd_ymm_k1_vm64z | EVEX_Vpgatherqq_xmm_k1_vm64x
| EVEX_Vpgatherqq_ymm_k1_vm64y | EVEX_Vpgatherqq_zmm_k1_vm64z
| VEX_Vgatherqps_xmm_vm64x_xmm | VEX_Vgatherqps_xmm_vm64y_xmm
| VEX_Vgatherqpd_xmm_vm64x_xmm | VEX_Vgatherqpd_ymm_vm64y_ymm
| EVEX_Vgatherqps_xmm_k1_vm64x | EVEX_Vgatherqps_xmm_k1_vm64y
| EVEX_Vgatherqps_ymm_k1_vm64z | EVEX_Vgatherqpd_xmm_k1_vm64x
| EVEX_Vgatherqpd_ymm_k1_vm64y | EVEX_Vgatherqpd_zmm_k1_vm64z
| EVEX_Vpscatterqd_vm64x_k1_xmm | EVEX_Vpscatterqd_vm64y_k1_xmm
| EVEX_Vpscatterqd_vm64z_k1_ymm | EVEX_Vpscatterqq_vm64x_k1_xmm
| EVEX_Vpscatterqq_vm64y_k1_ymm | EVEX_Vpscatterqq_vm64z_k1_zmm
| EVEX_Vscatterqps_vm64x_k1_xmm | EVEX_Vscatterqps_vm64y_k1_xmm
| EVEX_Vscatterqps_vm64z_k1_ymm | EVEX_Vscatterqpd_vm64x_k1_xmm
| EVEX_Vscatterqpd_vm64y_k1_ymm | EVEX_Vscatterqpd_vm64z_k1_zmm
| EVEX_Vgatherpf0qps_vm64z_k1 | EVEX_Vgatherpf0qpd_vm64z_k1
| EVEX_Vgatherpf1qps_vm64z_k1 | EVEX_Vgatherpf1qpd_vm64z_k1
| EVEX_Vscatterpf0qps_vm64z_k1 | EVEX_Vscatterpf0qpd_vm64z_k1
| EVEX_Vscatterpf1qps_vm64z_k1 | EVEX_Vscatterpf1qpd_vm64z_k1.

Definition all_vsib_codes : list VsibCode :=
  [VEX_Vpgatherdd_xmm_vm32x_xmm; VEX_Vpgatherdd_ymm_vm32y_ymm; VEX_Vpgatherdq_xmm_vm32x_xmm;
    VEX_Vpgatherdq_ymm_vm32x_ymm; EVEX_Vpgatherdd_xmm_k1_vm32x; EVEX_Vpgatherdd_ymm_k1_vm32y;
    EVEX_Vpgatherdd_zmm_k1_vm32z; EVEX_Vpgatherdq_xmm_k1_vm32x; EVEX_Vpgatherdq_ymm_k1_vm32x;
    EVEX_Vpgatherdq_zmm_k1_vm32y; VEX_Vgatherdps_xmm_vm32x_xmm; VEX_Vgatherdps_ymm_vm32y_ymm;
    VEX_Vgatherdpd_xmm_vm32x_xmm; VEX_Vgatherdpd_ymm_vm32x_ymm; EVEX_Vgatherdps_xmm_k1_vm32x;
    EVEX_Vgatherdps_ymm_k1_vm32y; EVEX_Vgatherdps_zmm_k1_vm32z; EVEX_Vgatherdpd_xmm_k1_vm32x;
    EVEX_Vgatherdpd_ymm_k1_vm32x; EVEX_Vgatherdpd_zmm_k1_vm32y; EVEX_Vpscatterdd_vm32x_k1_xmm;
    EVEX_Vpscatterdd_vm32y_k1_ymm; EVEX_Vpscatterdd_vm32z_k1_zmm; EVEX_Vpscatterdq_vm32x_k1_xmm;
    EVEX_Vpscatterdq_vm32x_k1_ymm; EVEX_Vpscatterdq_vm32y_k1_zmm; EVEX_Vscatterdps_vm32x_k1_xmm;
    EVEX_Vscatterdps_vm32y_k1_ymm; EVEX_Vscatterdps_vm32z_k1_zmm; EVEX_Vscatterdpd_vm32x_k1_xmm;
    EVEX_Vscatterdpd_vm32x_k1_ymm; EVEX_Vscatterdpd_vm32y_k1_zmm; EVEX_Vgatherpf0dps_vm32z_k1;
    EVEX_Vgatherpf0dpd_vm32y_k1; EVEX_Vgatherpf1dps_vm32z_k1; EVEX_Vgatherpf1dpd_vm32y_k1;
    EVEX_Vscatterpf0dps_vm32z_k1; EVEX_Vscatterpf0dpd_vm32y_k1; EVEX_Vscatterpf1dps_vm32z_k1;
    EVEX_Vscatterpf1dpd_vm32y_k1; VEX_Vpgatherqd_xmm_vm64x_xmm; VEX_Vpgatherqd_xmm_vm64y_xmm;
    VEX_Vpgatherqq_xmm_vm64x_xmm; VEX_Vpgatherqq_ymm_vm64y_ymm; EVEX_Vpgatherqd_xmm_k1_vm64x;
    EVEX_Vpgatherqd_xmm_k1_vm64y; EVEX_Vpgatherqd_ymm_k1_vm64z; EVEX_Vpgatherqq_xmm_k1_vm64x;
    EVEX_Vpgatherqq_ymm_k1_vm64y; EVEX_Vpgatherqq_zmm_k1_vm64z; VEX_Vgatherqps_xmm_vm64x_xmm;
    VEX_Vgatherqps_xmm_vm64y_xmm; VEX_Vgatherqpd_xmm_vm64x_xmm; VEX_Vgatherqpd_ymm_vm64y_ymm;
    EVEX_Vgatherqps_xmm_k1_vm64x; EVEX_Vgatherqps_xmm_k1_vm64y; EVEX_Vgatherqps_ymm_k1_vm64z;
    EVEX_Vgatherqpd_xmm_k1_vm64x; EVEX_Vgatherqpd_ymm_k1_vm64y; EVEX_Vgatherqpd_zmm_k1_vm64z;
    EVEX_Vpscatterqd_vm64x_k1_xmm; EVEX_Vpscatterqd_vm64y_k1_xmm; EVEX_Vpscatterqd_vm64z_k1_ymm;
    EVEX_Vpscatterqq_vm64x_k1_xmm; EVEX_Vpscatterqq_vm64y_k1_ymm; EVEX_Vpscatterqq_vm64z_k1_zmm;
    EVEX_Vscatterqps_vm64x_k1_xmm; EVEX_Vscatterqps_vm64y_k1_xmm; EVEX_Vscatterqps_vm64z_k1_ymm;
    EVEX_Vscatterqpd_vm64x_k1_xmm; EVEX_Vscatterqpd_vm64y_k1_ymm; EVEX_Vscatterqpd_vm64z_k1_zmm;
    EVEX_Vgatherpf0qps_vm64z_k1; EVEX_Vgatherpf0qpd_vm64z_k1; EVEX_Vgatherpf1qps_vm64z_k1;
    EVEX_Vgatherpf1qpd_vm64z_k1; EVEX_Vscatterpf0qps_vm64z_k1; EVEX_Vscatterpf0qpd_vm64z_k1;
    EVEX_Vscatterpf1qps_vm64z_k1; EVEX_Vscatterpf1qpd_vm64z_k1].

(** What the generator promises [Instruction]. *)
Class CodeTables := {
  (** [IcedConstants::NUMBER_OF_CODE_VALUES] *)
  NUMBER_OF_CODE_VALUES : Z;
  (** [instructionopcounts::OP_COUNT], indexed by [Code] *)
  OP_COUNT : list Z;
  (** [instructionmemorysizes::SIZES], [MemorySize] discriminants indexed
      by [Code], then by [Code + NUMBER_OF_CODE_VALUES] for broadcasts *)
  SIZES : list Z;
  (** [Code::to_mnemonic], as [Mnemonic] discriminants *)
  to_mnemonic : Z -> Z;
  (** [Code::X as u32] for the codes of [VsibCode] *)
  code_value : VsibCode -> Z;

  code_count_fits : 0 < NUMBER_OF_CODE_VALUES <= 2 ^ 13;
  op_count_length : Z.of_nat (length OP_COUNT) = NUMBER_OF_CODE_VALUES;
  op_count_range : Forall (fun n => 0 <= n <= 5) OP_COUNT;
  sizes_length : Z.of_nat (length SIZES) = 2 * NUMBER_OF_CODE_VALUES;
  sizes_valid : Forall (fun s => 0 <= s < MemorySize.NUMBER_OF_MEMORY_SIZES) SIZES;
  code_value_range : forall c, 0 <= code_value c < NUMBER_OF_CODE_VALUES;
  code_value_inj : forall a b, code_value a = code_value b -> a = b
}.

(** Position of a [VsibCode] in [all_vsib_codes]. *)
Definition vsib_code_index (c : VsibCode) : Z :=
  match c with
  | VEX_Vpgatherdd_xmm_vm32x_xmm => 0 | VEX_Vpgatherdd_ymm_vm32y_ymm => 1
  | VEX_Vpgatherdq_xmm_vm32x_xmm => 2 | VEX_Vpgatherdq_ymm_vm32x_ymm => 3
  | EVEX_Vpgatherdd_xmm_k1_vm32x => 4 | EVEX_Vpgatherdd_ymm_k1_vm32y => 5
  | EVEX_Vpgatherdd_zmm_k1_vm32z => 6 | EVEX_Vpgatherdq_xmm_k1_vm32x => 7
  | EVEX_Vpgatherdq_ymm_k1_vm32x => 8 | EVEX_Vpgatherdq_zmm_k1_vm32y => 9
  | VEX_Vgatherdps_xmm_vm32x_xmm => 10 | VEX_Vgatherdps_ymm_vm32y_ymm => 11
  | VEX_Vgatherdpd_xmm_vm32x_xmm => 12 | VEX_Vgatherdpd_ymm_vm32x_ymm => 13
  | EVEX_Vgatherdps_xmm_k1_vm32x => 14 | EVEX_Vgatherdps_ymm_k1_vm32y => 15
  | EVEX_Vgatherdps_zmm_k1_vm32z => 16 | EVEX_Vgatherdpd_xmm_k1_vm32x => 17
  | EVEX_Vgatherdpd_ymm_k1_vm32x => 18 | EVEX_Vgatherdpd_zmm_k1_vm32y => 19
  | EVEX_Vpscatterdd_vm32x_k1_xmm => 20 | EVEX_Vpscatterdd_vm32y_k1_ymm => 21
  | EVEX_Vpscatterdd_vm32z_k1_zmm => 22 | EVEX_Vpscatterdq_vm32x_k1_xmm => 23
  | EVEX_Vpscatterdq_vm32x_k1_ymm => 24 | EVEX_Vpscatterdq_vm32y_k1_zmm => 25
  | EVEX_Vscatterdps_vm32x_k1_xmm => 26 | EVEX_Vscatterdps_vm32y_k1_ymm => 27
  | EVEX_Vscatterdps_vm32z_k1_zmm => 28 | EVEX_Vscatterdpd_vm32x_k1_xmm => 29
  | EVEX_Vscatterdpd_vm32x_k1_ymm => 30 | EVEX_Vscatterdpd_vm32y_k1_zmm => 31
  | EVEX_Vgatherpf0dps_vm32z_k1 => 32 | EVEX_Vgatherpf0dpd_vm32y_k1 => 33
  | EVEX_Vgatherpf1dps_vm32z_k1 => 34 | EVEX_Vgatherpf1dpd_vm32y_k1 => 35
  | EVEX_Vscatterpf0dps_vm32z_k1 => 36 | EVEX_Vscatterpf0dpd_vm32y_k1 => 37
  | EVEX_Vscatterpf1dps_vm32z_k1 => 38 | EVEX_Vscatterpf1dpd_vm32y_k1 => 39
  | VEX_Vpgatherqd_xmm_vm64x_xmm => 40 | VEX_Vpgatherqd_xmm_vm64y_xmm => 41
  | VEX_Vpgatherqq_xmm_vm64x_xmm => 42 | VEX_Vpgatherqq_ymm_vm64y_ymm => 43
  | EVEX_Vpgatherqd_xmm_k1_vm64x => 44 | EVEX_Vpgatherqd_xmm_k1_vm64y => 45
  | EVEX_Vpgatherqd_ymm_k1_vm64z => 46 | EVEX_Vpgatherqq_xmm_k1_vm64x => 47
  | EVEX_Vpgatherqq_ymm_k1_vm64y => 48 | EVEX_Vpgatherqq_zmm_k1_vm64z => 49
  | VEX_Vgatherqps_xmm_vm64x_xmm => 50 | VEX_Vgatherqps_xmm_vm64y_xmm => 51
  | VEX_Vgatherqpd_xmm_vm64x_xmm => 52 | VEX_Vgatherqpd_ymm_vm64y_ymm => 53
  | EVEX_Vgatherqps_xmm_k1_vm64x => 54 | EVEX_Vgatherqps_xmm_k1_vm64y => 55
  | EVEX_Vgatherqps_ymm_k1_vm64z => 56 | EVEX_Vgatherqpd_xmm_k1_vm64x => 57
  | EVEX_Vgatherqpd_ymm_k1_vm64y => 58 | EVEX_Vgatherqpd_zmm_k1_vm64z => 59
  | EVEX_Vpscatterqd_vm64x_k1_xmm => 60 | EVEX_Vpscatterqd_vm64y_k1_xmm => 61
  | EVEX_Vpscatterqd_vm64z_k1_ymm => 62 | EVEX_Vpscatterqq_vm64x_k1_xmm => 63
  | EVEX_Vpscatterqq_vm64y_k1_ymm => 64 | EVEX_Vpscatterqq_vm64z_k1_zmm => 65
  | EVEX_Vscatterqps_vm64x_k1_xmm => 66 | EVEX_Vscatterqps_vm64y_k1_xmm => 67
  | EVEX_Vscatterqps_vm64z_k1_ymm => 68 | EVEX_Vscatterqpd_vm64x_k1_xmm => 69
  | EVEX_Vscatterqpd_vm64y_k1_ymm => 70 | EVEX_Vscatterqpd_vm64z_k1_zmm => 71
  | EVEX_Vgatherpf0qps_vm64z_k1 => 72 | EVEX_Vgatherpf0qpd_vm64z_k1 => 73
  | EVEX_Vgatherpf1qps_vm64z_k1 => 74 | EVEX_Vgatherpf1qpd_vm64z_k1 => 75
  | EVEX_Vscatterpf0qps_vm64z_k1 => 76 | EVEX_Vscatterpf0qpd_vm64z_k1 => 77
  | EVEX_Vscatterpf1qps_vm64z_k1 => 78 | EVEX_Vscatterpf1qpd_vm64z_k1 => 79
  end.

(** Tables with the generated tables' shape: 128 codes, every code with
    two operands and [MemorySize::Unknown]; the VSIB codes are 1 to 80. *)
#[export] Instance sample_tables : CodeTables := {|
  NUMBER_OF_CODE_VALUES := 128;
  OP_COUNT := repeat 2 128;
  SIZES := repeat 0 256;
  to_mnemonic := fun c => c;
  code_value := fun c => 1 + vsib_code_index c;
  code_count_fits := ltac:(lia);
  op_count_length := eq_refl;
  op_count_range := ltac:(apply Forall_forall; intros x Hx; apply repeat_spec in Hx; lia);
  sizes_length := eq_refl;
  sizes_valid := ltac:(apply Forall_forall; intros x Hx; apply repeat_spec in Hx; subst;
                       unfold MemorySize.NUMBER_OF_MEMORY_SIZES; lia);
  code_value_range := ltac:(intros c; destruct c; simpl; lia);
  code_value_inj := ltac:(intros a b H; cbv beta in H;
                          assert (E : vsib_code_index a = vsib_code_index b) by lia; clear H;
                          destruct a; destruct b; simpl in E; try discriminate; reflexivity)
|}.

(** ** Facts about the enums *)

Lemma opkind_transmute_to_u32 (k : OpKind.OpKind) : OpKind.transmute (OpKind.to_u32 k) = Ok k.
Proof. destruct k; reflexivity. Qed.

Lemma opkind_to_u32_range (k : OpKind.OpKind) : 0 <= OpKind.to_u32 k < 26.
Proof. destruct k; simpl; lia. Qed.

Lemma opkind_to_u32_inj (a b : OpKind.OpKind) : OpKind.to_u32 a = OpKind.to_u32 b -> a = b.
Proof.
  intros H. apply (f_equal OpKind.transmute) in H. rewrite !opkind_transmute_to_u32 in H.
  now injection H.
Qed.

Lemma opkind_eqb_spec (a b : OpKind.OpKind) : reflect (a = b) (OpKind.eqb a b).
Proof.
  unfold OpKind.eqb. destruct (Z.eqb_spec (OpKind.to_u32 a) (OpKind.to_u32 b)); constructor.
  - now apply opkind_to_u32_inj.
  - now intros ->.
Qed.

Lemma code_size_transmute_to_u32 (c : CodeSize.CodeSize) :
  CodeSize.transmute (CodeSize.to_u32 c) = Ok c.
Proof. destruct c; reflexivity. Qed.

Lemma rounding_control_transmute_to_u32 (r : RoundingControl.RoundingControl) :
  RoundingControl.transmute (RoundingControl.to_u32 r) = Ok r.
Proof. destruct r; reflexivity. Qed.
