(* ===== verification/Layout.v ===== *)
(** * Storage of an instruction and the layout of its packed fields

    Models the data of [src/src/rust/iced-x86/src/x86/common/instruction.rs]:
    the constants of [MemoryFlags], [OpKindFlags] and [CodeFlags], the
    [struct Instruction] field for field (unsigned integers as [Z]),
    [Instruction::new], and the two equalities [eq_all_bits] and [==].
    [code_flags], [op_kind_flags] and [memory_flags] each pack several
    sub-fields: [Field] names them, [layout] gives the word, offset and
    width of each (read off the constants), and [get_field] / [set_field]
    read and write one.  The layout has no overlap, so that writing one
    field leaves every other unchanged; [acts_as_field] is the refinement
    relation between a setter of [Instruction] and [set_field]. *)

From Stdlib Require Import ZArith Lia List Bool.
From S2P Require Import Prelude Register MemorySize Tables.
Import ListNotations.
Open Scope Z_scope.
Open Scope iced_scope.

Module MemoryFlags.
Definition SCALE_MASK : Z := 3.
Definition DISPL_SIZE_SHIFT : Z := 2.
Definition DISPL_SIZE_MASK : Z := 7.
Definition SEGMENT_PREFIX_SHIFT : Z := 5.
Definition SEGMENT_PREFIX_MASK : Z := 7.
Definition BROADCAST : Z := 0x8000.
End MemoryFlags.

Module OpKindFlags.
Definition OP_KIND_BITS : Z := 5.
Definition OP_KIND_MASK : Z := (1 .<< OP_KIND_BITS) - 1.
Definition OP1_KIND_SHIFT : Z := 5.
Definition OP2_KIND_SHIFT : Z := 10.
Definition OP3_KIND_SHIFT : Z := 15.
Definition DATA_LENGTH_MASK : Z := 0xF.
Definition DATA_LENGTH_SHIFT : Z := 20.
Definition CODE_SIZE_MASK : Z := 3.
Definition CODE_SIZE_SHIFT : Z := 30.
Definition EQUALS_IGNORE_MASK : Z := CODE_SIZE_MASK .<< CODE_SIZE_SHIFT.
End OpKindFlags.

Module CodeFlags.
Definition CODE_BITS : Z := 13.
Definition CODE_MASK : Z := (1 .<< CODE_BITS) - 1.
Definition ROUNDING_CONTROL_MASK : Z := 7.
Definition ROUNDING_CONTROL_SHIFT : Z := 13.
Definition OPMASK_MASK : Z := 7.
Definition OPMASK_SHIFT : Z := 16.
Definition INSTR_LENGTH_MASK : Z := 0xF.
Definition INSTR_LENGTH_SHIFT : Z := 19.
Definition SUPPRESS_ALL_EXCEPTIONS : Z := 0x0200_0000.
Definition ZEROING_MASKING : Z := 0x0400_0000.
Definition XACQUIRE_PREFIX : Z := 0x0800_0000.
Definition XRELEASE_PREFIX : Z := 0x1000_0000.
Definition REPE_PREFIX : Z := 0x2000_0000.
Definition REPNE_PREFIX : Z := 0x4000_0000.
Definition LOCK_PREFIX : Z := 0x8000_0000.
Definition EQUALS_IGNORE_MASK : Z := INSTR_LENGTH_MASK .<< INSTR_LENGTH_SHIFT.
End CodeFlags.

(** [struct Instruction]: [next_rip: u64], [code_flags], [op_kind_flags],
    [immediate], [mem_displ: u32], [memory_flags: u16], the six [u8]
    register bytes. *)
Record Instruction : Set := mkInstruction {
  next_rip : Z;
  code_flags : Z;
  op_kind_flags : Z;
  immediate : Z;
  mem_displ : Z;
  memory_flags : Z;
  mem_base_reg : Z;
  mem_index_reg : Z;
  reg0 : Z;
  reg1 : Z;
  reg2 : Z;
  reg3 : Z
}.

(** [Instruction::new()] is [Default::default()]: every field 0. *)
Definition new : Instruction := mkInstruction 0 0 0 0 0 0 0 0 0 0 0 0.

(** The field assignments [self.f = v]. *)
Definition with_next_rip (i : Instruction) (v : Z) : Instruction :=
  mkInstruction v (code_flags i) (op_kind_flags i) (immediate i) (mem_displ i) (memory_flags i) (mem_base_reg i) (mem_index_reg i) (reg0 i) (reg1 i) (reg2 i) (reg3 i).
Definition with_code_flags (i : Instruction) (v : Z) : Instruction :=
  mkInstruction (next_rip i) v (op_kind_flags i) (immediate i) (mem_displ i) (memory_flags i) (mem_base_reg i) (mem_index_reg i) (reg0 i) (reg1 i) (reg2 i) (reg3 i).
Definition with_op_kind_flags (i : Instruction) (v : Z) : Instruction :=
  mkInstruction (next_rip i) (code_flags i) v (immediate i) (mem_displ i) (memory_flags i) (mem_base_reg i) (mem_index_reg i) (reg0 i) (reg1 i) (reg2 i) (reg3 i).
Definition with_immediate (i : Instruction) (v : Z) : Instruction :=
  mkInstruction (next_rip i) (code_flags i) (op_kind_flags i) v (mem_displ i) (memory_flags i) (mem_base_reg i) (mem_index_reg i) (reg0 i) (reg1 i) (reg2 i) (reg3 i).
Definition with_mem_displ (i : Instruction) (v : Z) : Instruction :=
  mkInstruction (next_rip i) (code_flags i) (op_kind_flags i) (immediate i) v (memory_flags i) (mem_base_reg i) (mem_index_reg i) (reg0 i) (reg1 i) (reg2 i) (reg3 i).
Definition with_memory_flags (i : Instruction) (v : Z) : Instruction :=
  mkInstruction (next_rip i) (code_flags i) (op_kind_flags i) (immediate i) (mem_displ i) v (mem_base_reg i) (mem_index_reg i) (reg0 i) (reg1 i) (reg2 i) (reg3 i).
Definition with_mem_base_reg (i : Instruction) (v : Z) : Instruction :=
  mkInstruction (next_rip i) (code_flags i) (op_kind_flags i) (immediate i) (mem_displ i) (memory_flags i) v (mem_index_reg i) (reg0 i) (reg1 i) (reg2 i) (reg3 i).
Definition with_mem_index_reg (i : Instruction) (v : Z) : Instruction :=
  mkInstruction (next_rip i) (code_flags i) (op_kind_flags i) (immediate i) (mem_displ i) (memory_flags i) (mem_base_reg i) v (reg0 i) (reg1 i) (reg2 i) (reg3 i).
Definition with_reg0 (i : Instruction) (v : Z) : Instruction :=
  mkInstruction (next_rip i) (code_flags i) (op_kind_flags i) (immediate i) (mem_displ i) (memory_flags i) (mem_base_reg i) (mem_index_reg i) v (reg1 i) (reg2 i) (reg3 i).
Definition with_reg1 (i : Instruction) (v : Z) : Instruction :=
  mkInstruction (next_rip i) (code_flags i) (op_kind_flags i) (immediate i) (mem_displ i) (memory_flags i) (mem_base_reg i) (mem_index_reg i) (reg0 i) v (reg2 i) (reg3 i).
Definition with_reg2 (i : Instruction) (v : Z) : Instruction :=
  mkInstruction (next_rip i) (code_flags i) (op_kind_flags i) (immediate i) (mem_displ i) (memory_flags i) (mem_base_reg i) (mem_index_reg i) (reg0 i) (reg1 i) v (reg3 i).
Definition with_reg3 (i : Instruction) (v : Z) : Instruction :=
  mkInstruction (next_rip i) (code_flags i) (op_kind_flags i) (immediate i) (mem_displ i) (memory_flags i) (mem_base_reg i) (mem_index_reg i) (reg0 i) (reg1 i) (reg2 i) v.

(** Every field holds a value of its Rust type. *)
Definition wf (i : Instruction) : Prop :=
  fits 64 (next_rip i) /\ fits 32 (code_flags i) /\ fits 32 (op_kind_flags i) /\
  fits 32 (immediate i) /\ fits 32 (mem_displ i) /\ fits 16 (memory_flags i) /\
  fits 8 (mem_base_reg i) /\ fits 8 (mem_index_reg i) /\ fits 8 (reg0 i) /\
  fits 8 (reg1 i) /\ fits 8 (reg2 i) /\ fits 8 (reg3 i).

(** [pub fn eq_all_bits(&self, other: Self) -> bool] *)
Definition eq_all_bits (self other : Instruction) : bool :=
  (next_rip self =? next_rip other)
  && (code_flags self =? code_flags other)
  && (op_kind_flags self =? op_kind_flags other)
  && (immediate self =? immediate other)
  && (mem_displ self =? mem_displ other)
  && (memory_flags self =? memory_flags other)
  && (mem_base_reg self =? mem_base_reg other)
  && (mem_index_reg self =? mem_index_reg other)
  && (reg0 self =? reg0 other)
  && (reg1 self =? reg1 other)
  && (reg2 self =? reg2 other)
  && (reg3 self =? reg3 other).

(** [impl PartialEq for Instruction]: [fn eq]. *)
Module PartialEq.
Definition eq (self other : Instruction) : bool :=
  ((Z.lxor (code_flags self) (code_flags other)) .& !. CodeFlags.EQUALS_IGNORE_MASK =? 0)
  && ((Z.lxor (op_kind_flags self) (op_kind_flags other))
        .& !. OpKindFlags.EQUALS_IGNORE_MASK =? 0)
  && (immediate self =? immediate other)
  && (mem_displ self =? mem_displ other)
  && (memory_flags self =? memory_flags other)
  && (mem_base_reg self =? mem_base_reg other)
  && (mem_index_reg self =? mem_index_reg other)
  && (reg0 self =? reg0 other)
  && (reg1 self =? reg1 other)
  && (reg2 self =? reg2 other)
  && (reg3 self =? reg3 other).
End PartialEq.

(** ** The packed sub-fields *)

Inductive Word : Set := WCodeFlags | WOpKindFlags | WMemoryFlags.

Inductive Field : Set :=
| FCode | FRoundingControl | FOpmask | FInstrLength | FSuppressAllExceptions
| FZeroingMasking | FXacquirePrefix | FXreleasePrefix | FRepePrefix | FRepnePrefix
| FLockPrefix
| FOp0Kind | FOp1Kind | FOp2Kind | FOp3Kind | FDataLength | FCodeSize
| FScale | FDisplSize | FSegmentPrefix | FBroadcast.

Definition Field_eq_dec (f g : Field) : {f = g} + {f <> g}.
Proof. decide equality. Defined.

(** Word, offset and width of each field. *)
Definition layout (f : Field) : Word * Z * Z :=
  match f with
  | FCode => (WCodeFlags, 0, CodeFlags.CODE_BITS)
  | FRoundingControl => (WCodeFlags, CodeFlags.ROUNDING_CONTROL_SHIFT, 3)
  | FOpmask => (WCodeFlags, CodeFlags.OPMASK_SHIFT, 3)
  | FInstrLength => (WCodeFlags, CodeFlags.INSTR_LENGTH_SHIFT, 4)
  | FSuppressAllExceptions => (WCodeFlags, 25, 1)
  | FZeroingMasking => (WCodeFlags, 26, 1)
  | FXacquirePrefix => (WCodeFlags, 27, 1)
  | FXreleasePrefix => (WCodeFlags, 28, 1)
  | FRepePrefix => (WCodeFlags, 29, 1)
  | FRepnePrefix => (WCodeFlags, 30, 1)
  | FLockPrefix => (WCodeFlags, 31, 1)
  | FOp0Kind => (WOpKindFlags, 0, OpKindFlags.OP_KIND_BITS)
  | FOp1Kind => (WOpKindFlags, OpKindFlags.OP1_KIND_SHIFT, OpKindFlags.OP_KIND_BITS)
  | FOp2Kind => (WOpKindFlags, OpKindFlags.OP2_KIND_SHIFT, OpKindFlags.OP_KIND_BITS)
  | FOp3Kind => (WOpKindFlags, OpKindFlags.OP3_KIND_SHIFT, OpKindFlags.OP_KIND_BITS)
  | FDataLength => (WOpKindFlags, OpKindFlags.DATA_LENGTH_SHIFT, 4)
  | FCodeSize => (WOpKindFlags, OpKindFlags.CODE_SIZE_SHIFT, 2)
  | FScale => (WMemoryFlags, 0, 2)
  | FDisplSize => (WMemoryFlags, MemoryFlags.DISPL_SIZE_SHIFT, 3)
  | FSegmentPrefix => (WMemoryFlags, MemoryFlags.SEGMENT_PREFIX_SHIFT, 3)
  | FBroadcast => (WMemoryFlags, 15, 1)
  end.

Definition field_word (f : Field) : Word := fst (fst (layout f)).
Definition field_shift (f : Field) : Z := snd (fst (layout f)).
Definition field_width (f : Field) : Z := snd (layout f).

Definition word_bits (w : Word) : Z :=
  match w with WCodeFlags => 32 | WOpKindFlags => 32 | WMemoryFlags => 16 end.

Definition word_value (w : Word) (i : Instruction) : Z :=
  match w with
  | WCodeFlags => code_flags i
  | WOpKindFlags => op_kind_flags i
  | WMemoryFlags => memory_flags i
  end.

Definition set_word (w : Word) (v : Z) (i : Instruction) : Instruction :=
  match w with
  | WCodeFlags => with_code_flags i v
  | WOpKindFlags => with_op_kind_flags i v
  | WMemoryFlags => with_memory_flags i v
  end.

Definition get_field (f : Field) (i : Instruction) : Z :=
  get_bits (word_value (field_word f) i) (field_shift f) (field_width f).

Definition set_field (f : Field) (v : Z) (i : Instruction) : Instruction :=
  set_word (field_word f)
    (put_bits (word_value (field_word f) i) (field_shift f) (field_width f) v) i.

(** The storage outside the three packed words. *)
Definition raw_equal (a b : Instruction) : Prop :=
  next_rip a = next_rip b /\ immediate a = immediate b /\ mem_displ a = mem_displ b /\
  mem_base_reg a = mem_base_reg b /\ mem_index_reg a = mem_index_reg b /\
  reg0 a = reg0 b /\ reg1 a = reg1 b /\ reg2 a = reg2 b /\ reg3 a = reg3 b.

(** [op] writes [v] into field [f] and changes nothing else that any field
    or register accessor reads. *)
Definition acts_as_field (op : Instruction -> Instruction) (f : Field) (v : Z) : Prop :=
  forall i, raw_equal (op i) i /\
            forall g, get_field g (op i) = get_field g (set_field f v i).

(** What [==] compares: the instruction with [next_rip], the length field
    and the code-size field cleared. *)
Definition clear_ignored (i : Instruction) : Instruction :=
  with_next_rip
    (with_op_kind_flags
       (with_code_flags i (code_flags i .& !. CodeFlags.EQUALS_IGNORE_MASK))
       (op_kind_flags i .& !. OpKindFlags.EQUALS_IGNORE_MASK)) 0.

(** ** The layout *)

Ltac unfold_layout :=
  cbv [field_shift field_width field_word layout fst snd word_bits
       CodeFlags.CODE_BITS CodeFlags.ROUNDING_CONTROL_SHIFT CodeFlags.OPMASK_SHIFT
       CodeFlags.INSTR_LENGTH_SHIFT OpKindFlags.OP_KIND_BITS OpKindFlags.OP1_KIND_SHIFT
       OpKindFlags.OP2_KIND_SHIFT OpKindFlags.OP3_KIND_SHIFT OpKindFlags.DATA_LENGTH_SHIFT
       OpKindFlags.CODE_SIZE_SHIFT MemoryFlags.DISPL_SIZE_SHIFT
       MemoryFlags.SEGMENT_PREFIX_SHIFT] in *.

Lemma field_shift_nonneg f : 0 <= field_shift f.
Proof. destruct f; unfold_layout; lia. Qed.

Lemma field_width_pos f : 0 < field_width f.
Proof. destruct f; unfold_layout; lia. Qed.

Lemma field_in_word f : field_shift f + field_width f <= word_bits (field_word f).
Proof. destruct f; unfold_layout; lia. Qed.

(** Two fields of one word do not overlap. *)
Lemma field_disjoint f g :
  f <> g -> field_word f = field_word g ->
  field_shift g + field_width g <= field_shift f \/
  field_shift f + field_width f <= field_shift g.
Proof. destruct f, g; unfold_layout; intros; try lia; congruence. Qed.

#[export] Hint Resolve field_shift_nonneg field_in_word : iced.

Lemma word_value_set_word w w' v i :
  word_value w (set_word w' v i) = if (match w, w' with
    | WCodeFlags, WCodeFlags | WOpKindFlags, WOpKindFlags | WMemoryFlags, WMemoryFlags => true
    | _, _ => false end) then v else word_value w i.
Proof. destruct w, w'; reflexivity. Qed.

Lemma get_set_field_same f v i : get_field f (set_field f v i) = trunc (field_width f) v.
Proof.
  unfold get_field, set_field. rewrite word_value_set_word.
  pose proof (field_shift_nonneg f). pose proof (field_width_pos f).
  destruct (field_word f); apply get_put_same; lia.
Qed.

Lemma get_set_field_other f g v i :
  f <> g -> get_field g (set_field f v i) = get_field g i.
Proof.
  intros Hfg. unfold get_field, set_field. rewrite word_value_set_word.
  pose proof (field_shift_nonneg f). pose proof (field_width_pos f).
  pose proof (field_shift_nonneg g). pose proof (field_width_pos g).
  pose proof (field_disjoint f g Hfg) as D.
  destruct (field_word f) eqn:Ef, (field_word g) eqn:Eg; try reflexivity;
    apply get_put_other; auto; lia.
Qed.

Lemma get_set_field f g v i :
  get_field g (set_field f v i) =
    if Field_eq_dec f g then trunc (field_width f) v else get_field g i.
Proof.
  destruct (Field_eq_dec f g) as [<-|H].
  - apply get_set_field_same.
  - now apply get_set_field_other.
Qed.

(** ** The accessors as field operations *)

Lemma raw_equal_set_word w v i : raw_equal (set_word w v i) i.
Proof. destruct w; repeat split. Qed.

Lemma acts_as_set_field op f v :
  (forall i, op i = set_field f v i) -> acts_as_field op f v.
Proof.
  intros H i. rewrite H. split; [apply raw_equal_set_word | reflexivity].
Qed.

Lemma get_bits_trunc w x sh k :
  0 <= sh -> 0 <= k -> sh + k <= w -> get_bits (trunc w x) sh k = get_bits x sh k.
Proof.
  intros. bits_ext. rewrite !testbit_get_bits, testbit_trunc by lia.
  destruct (Z.ltb_spec i k); simpl; [|reflexivity].
  replace (i + sh <? w) with true by (symmetry; apply Z.ltb_lt; lia). reflexivity.
Qed.

(** The [memory_flags] setters end with [as u16], which no field sees. *)
Lemma acts_as_set_field_u16 op f v :
  field_word f = WMemoryFlags ->
  (forall i, op i = with_memory_flags i (as_u16 (memory_flags (set_field f v i)))) ->
  acts_as_field op f v.
Proof.
  intros Hw H i. rewrite H. split; [repeat split|]. intros g.
  pose proof (field_in_word g) as Hin. pose proof (field_width_pos g).
  pose proof (field_shift_nonneg g).
  unfold get_field. destruct (field_word g) eqn:Eg; cbn [word_value].
  - unfold set_field. rewrite Hw. reflexivity.
  - unfold set_field. rewrite Hw. reflexivity.
  - cbn [word_bits] in Hin. cbn [memory_flags with_memory_flags].
    unfold as_u16. apply get_bits_trunc; lia.
Qed.

Lemma acts_as_field_get op f v i :
  acts_as_field op f v -> get_field f (op i) = trunc (field_width f) v.
Proof. intros H. rewrite (proj2 (H i)). apply get_set_field_same. Qed.

Lemma acts_as_field_other op f v i g :
  acts_as_field op f v -> f <> g -> get_field g (op i) = get_field g i.
Proof. intros H Hfg. rewrite (proj2 (H i)). now apply get_set_field_other. Qed.

(** The flag constants are single bits. *)
Lemma flag_bits :
  CodeFlags.SUPPRESS_ALL_EXCEPTIONS = 2 ^ 25 /\ CodeFlags.ZEROING_MASKING = 2 ^ 26 /\
  CodeFlags.XACQUIRE_PREFIX = 2 ^ 27 /\ CodeFlags.XRELEASE_PREFIX = 2 ^ 28 /\
  CodeFlags.REPE_PREFIX = 2 ^ 29 /\ CodeFlags.REPNE_PREFIX = 2 ^ 30 /\
  CodeFlags.LOCK_PREFIX = 2 ^ 31 /\ MemoryFlags.BROADCAST = 2 ^ 15.
Proof. repeat split. Qed.

Ltac rewrite_flag_bits :=
  let H := fresh in pose proof flag_bits as H;
  repeat match type of H with ?A /\ ?B => let H1 := fresh in destruct H as [H1 H]; rewrite ?H1 end;
  rewrite ?H.

(** A value that already fits its field needs no mask. *)
Lemma put_bits_unmasked x sh k v :
  0 <= k -> fits k v -> (x .& !. (Z.ones k .<< sh)) .| (v .<< sh) = put_bits x sh k v.
Proof. intros Hk Hv. unfold put_bits. fold (trunc k v). now rewrite trunc_small. Qed.

Lemma land7_fits z : fits 3 (z .& 7).
Proof. change 7 with (Z.ones 3). apply trunc_fits. lia. Qed.

Lemma has_flag_field f i :
  field_width f = 1 ->
  has_flag (word_value (field_word f) i) (2 ^ field_shift f) = (get_field f i =? 1).
Proof.
  intros Hw. unfold get_field. rewrite Hw. apply has_flag_get_bits, field_shift_nonneg.
Qed.

(** ** Equality *)

Lemma put_bits_cleared x sh k v :
  0 <= sh -> 0 <= k ->
  put_bits x sh k v .& !. (Z.ones k .<< sh) = x .& !. (Z.ones k .<< sh).
Proof.
  intros. bits_ext. rewrite !Z.land_spec, testbit_put_bits, Z.lnot_spec, Z.shiftl_spec,
    Z.testbit_ones by lia.
  destruct (Z.leb_spec sh i), (Z.ltb_spec i (sh + k)), (Z.leb_spec 0 (i - sh)),
    (Z.ltb_spec (i - sh) k); simpl; try lia; autorewrite with bits; reflexivity.
Qed.

Lemma mkInstruction_eq a b :
  next_rip a = next_rip b -> code_flags a = code_flags b ->
  op_kind_flags a = op_kind_flags b -> immediate a = immediate b ->
  mem_displ a = mem_displ b -> memory_flags a = memory_flags b ->
  mem_base_reg a = mem_base_reg b -> mem_index_reg a = mem_index_reg b ->
  reg0 a = reg0 b -> reg1 a = reg1 b -> reg2 a = reg2 b -> reg3 a = reg3 b -> a = b.
Proof. destruct a, b; cbn; intros; subst; reflexivity. Qed.

Ltac cbn_fields :=
  cbn [next_rip code_flags op_kind_flags immediate mem_displ memory_flags mem_base_reg
       mem_index_reg reg0 reg1 reg2 reg3 with_next_rip with_code_flags with_op_kind_flags
       with_immediate with_mem_displ with_memory_flags with_mem_base_reg with_mem_index_reg
       with_reg0 with_reg1 with_reg2 with_reg3] in *.

Ltac split_eqb :=
  repeat match goal with
         | H : _ && _ = true |- _ => apply andb_true_iff in H as [? ?]
         | H : (_ =? _) = true |- _ => apply Z.eqb_eq in H
         end.

(** [eq_all_bits] is structural equality of the stored fields. *)
Theorem eq_all_bits_iff (a b : Instruction) : eq_all_bits a b = true <-> a = b.
Proof.
  split.
  - unfold eq_all_bits. intros H. split_eqb. apply mkInstruction_eq; assumption.
  - intros <-. unfold eq_all_bits. rewrite !Z.eqb_refl. reflexivity.
Qed.

(** [==] holds exactly when the instructions are equal once
    [next_rip], the length and the code size are cleared. *)
Theorem partial_eq_iff (a b : Instruction) :
  PartialEq.eq a b = true <-> clear_ignored a = clear_ignored b.
Proof.
  unfold PartialEq.eq, clear_ignored. rewrite !lxor_masked_zero. split.
  - intros H. split_eqb. apply mkInstruction_eq; cbn_fields; congruence.
  - intros H. rewrite <- !andb_assoc. repeat (apply andb_true_iff; split);
      apply Z.eqb_eq; apply (f_equal (fun i => (code_flags i, op_kind_flags i, immediate i,
        mem_displ i, memory_flags i, mem_base_reg i, mem_index_reg i, reg0 i, reg1 i,
        reg2 i, reg3 i))) in H; cbn_fields; congruence.
Qed.

(** [==] is an equivalence relation, as [impl Eq for Instruction]
    requires, and it is implied by [eq_all_bits]. *)
Theorem partial_eq_equivalence :
  (forall a, PartialEq.eq a a = true) /\
  (forall a b, PartialEq.eq a b = true -> PartialEq.eq b a = true) /\
  (forall a b c, PartialEq.eq a b = true -> PartialEq.eq b c = true -> PartialEq.eq a c = true) /\
  (forall a b, eq_all_bits a b = true -> PartialEq.eq a b = true).
Proof.
  repeat split; intros; rewrite ?partial_eq_iff in *; rewrite ?eq_all_bits_iff in *;
    subst; congruence.
Qed.

Lemma wf_new : wf new.
Proof. unfold wf, fits; cbn; lia. Qed.

Lemma partial_eq_equivalence_witness :
  PartialEq.eq new new = true /\
  (eq_all_bits new new = true -> PartialEq.eq new new = true).
Proof.
  split; [apply (proj1 partial_eq_equivalence)|].
  apply (proj2 (proj2 (proj2 partial_eq_equivalence))).
Defined.

Lemma get_field_range f i : 0 <= get_field f i < 2 ^ field_width f.
Proof.
  pose proof (field_shift_nonneg f). pose proof (field_width_pos f).
  apply get_bits_fits; lia.
Qed.
