(* ===== verification/Instruction.v ===== *)
(** * The accessors of [Instruction]

    Models the methods of [impl Instruction] in
    [src/src/rust/iced-x86/src/x86/common/instruction.rs] that read and
    write the packed fields: IP, code, length, prefixes, operand kinds,
    segment, displacement size, scale, broadcast, memory size, registers,
    opmask, masking, rounding control and SAE, with the crate-internal
    [internal_*] fast paths.  Getters that [transmute] a stored number into
    an enum return [Undefined] on a number that is no discriminant.
    Arithmetic that can overflow is the release-build wrap-around.

    Each setter is shown to act as [set_field] of its field
    ([acts_as_field]) and each getter to read its field; the theorems
    (round trips, independence, defaults of the encoded fields) follow. *)

From Stdlib Require Import ZArith Lia List Bool String.
From S2P Require Import Prelude Register MemorySize Tables Layout.
Import ListNotations.
Open Scope Z_scope.
Open Scope iced_scope.

(** ** Accessors of [impl Instruction] *)

Section Accessors.
Context `{CT : CodeTables}.
Implicit Types (self : Instruction).

(** [len()]: the 4-bit instruction length. *)
Definition len self : Z :=
  (code_flags self .>> CodeFlags.INSTR_LENGTH_SHIFT) .& CodeFlags.INSTR_LENGTH_MASK.

(** IP and next IP.  [u16]/[u32]/[u64] subtraction and addition wrap. *)
Definition ip16 self : Z := wrapping_sub 16 (as_u16 (next_rip self)) (as_u16 (len self)).
Definition set_ip16 self (new_value : Z) : Instruction :=
  with_next_rip self (wrapping_add 64 new_value (len self)).
Definition ip32 self : Z := wrapping_sub 32 (as_u32 (next_rip self)) (as_u32 (len self)).
Definition set_ip32 self (new_value : Z) : Instruction :=
  with_next_rip self (wrapping_add 64 new_value (len self)).
Definition ip self : Z := wrapping_sub 64 (next_rip self) (len self).
Definition set_ip self (new_value : Z) : Instruction :=
  with_next_rip self (wrapping_add 64 new_value (len self)).
Definition next_ip16 self : Z := as_u16 (next_rip self).
Definition set_next_ip16 self (new_value : Z) : Instruction := with_next_rip self new_value.
Definition next_ip32 self : Z := as_u32 (next_rip self).
Definition set_next_ip32 self (new_value : Z) : Instruction := with_next_rip self new_value.
Definition next_ip self : Z := next_rip self.
Definition set_next_ip self (new_value : Z) : Instruction := with_next_rip self new_value.

(** [code_size()] / [set_code_size] / [internal_set_code_size] *)
Definition code_size self : Outcome CodeSize.CodeSize :=
  CodeSize.transmute
    ((op_kind_flags self .>> OpKindFlags.CODE_SIZE_SHIFT) .& OpKindFlags.CODE_SIZE_MASK).
Definition set_code_size self (new_value : CodeSize.CodeSize) : Instruction :=
  with_op_kind_flags self
    ((op_kind_flags self .& !. (OpKindFlags.CODE_SIZE_MASK .<< OpKindFlags.CODE_SIZE_SHIFT))
     .| ((CodeSize.to_u32 new_value .& OpKindFlags.CODE_SIZE_MASK) .<< OpKindFlags.CODE_SIZE_SHIFT)).
Definition internal_set_code_size self (new_value : CodeSize.CodeSize) : Instruction :=
  with_op_kind_flags self
    (op_kind_flags self .| as_u32 (CodeSize.to_u32 new_value .<< OpKindFlags.CODE_SIZE_SHIFT)).

(** [code()]: a [transmute] of the 13-bit field into [Code]. *)
Definition code self : Outcome Z :=
  let c := code_flags self .& CodeFlags.CODE_MASK in
  if c <? NUMBER_OF_CODE_VALUES then Ok c else Undefined.
(** [set_code]: [Code] discriminants are ORed in without a mask. *)
Definition set_code self (new_value : Z) : Instruction :=
  with_code_flags self ((code_flags self .& !. CodeFlags.CODE_MASK) .| new_value).
Definition internal_set_code self (new_value : Z) : Instruction :=
  with_code_flags self (code_flags self .| new_value).
Definition internal_set_code_no_check self (new_value : Z) : Instruction :=
  with_code_flags self ((code_flags self .& !. CodeFlags.CODE_MASK) .| new_value).
Definition mnemonic self : Outcome Z := omap to_mnemonic (code self).
(** [op_count()]: [OP_COUNT[...]], which panics past the table's end. *)
Definition op_count self : Outcome Z :=
  match nth_error OP_COUNT (Z.to_nat (code_flags self .& CodeFlags.CODE_MASK)) with
  | Some n => Ok n
  | None => Panic
  end.

(** [set_len(i32)] / [internal_set_len] *)
Definition set_len self (new_value : Z) : Instruction :=
  with_code_flags self
    ((code_flags self .& !. (CodeFlags.INSTR_LENGTH_MASK .<< CodeFlags.INSTR_LENGTH_SHIFT))
     .| ((as_u32 new_value .& CodeFlags.INSTR_LENGTH_MASK) .<< CodeFlags.INSTR_LENGTH_SHIFT)).
Definition internal_set_len self (new_value : Z) : Instruction :=
  with_code_flags self (code_flags self .| as_u32 (new_value .<< CodeFlags.INSTR_LENGTH_SHIFT)).

(** Prefixes: one bit each in [code_flags]. *)
Definition internal_has_repe_prefix_has_xrelease_prefix self : bool :=
  has_flag (code_flags self) (CodeFlags.REPE_PREFIX .| CodeFlags.XRELEASE_PREFIX).
Definition internal_has_repne_prefix_has_xacquire_prefix self : bool :=
  has_flag (code_flags self) (CodeFlags.REPNE_PREFIX .| CodeFlags.XACQUIRE_PREFIX).
Definition internal_has_repe_or_repne_prefix self : bool :=
  has_flag (code_flags self) (CodeFlags.REPE_PREFIX .| CodeFlags.REPNE_PREFIX).

Definition has_xacquire_prefix self : bool := has_flag (code_flags self) CodeFlags.XACQUIRE_PREFIX.
Definition set_has_xacquire_prefix self (b : bool) : Instruction :=
  with_code_flags self (set_flag (code_flags self) CodeFlags.XACQUIRE_PREFIX b).
Definition internal_set_has_xacquire_prefix self : Instruction :=
  with_code_flags self (code_flags self .| CodeFlags.XACQUIRE_PREFIX).
Definition has_xrelease_prefix self : bool := has_flag (code_flags self) CodeFlags.XRELEASE_PREFIX.
Definition set_has_xrelease_prefix self (b : bool) : Instruction :=
  with_code_flags self (set_flag (code_flags self) CodeFlags.XRELEASE_PREFIX b).
Definition internal_set_has_xrelease_prefix self : Instruction :=
  with_code_flags self (code_flags self .| CodeFlags.XRELEASE_PREFIX).
Definition has_rep_prefix self : bool := has_flag (code_flags self) CodeFlags.REPE_PREFIX.
Definition set_has_rep_prefix self (b : bool) : Instruction :=
  with_code_flags self (set_flag (code_flags self) CodeFlags.REPE_PREFIX b).
Definition has_repe_prefix self : bool := has_flag (code_flags self) CodeFlags.REPE_PREFIX.
Definition set_has_repe_prefix self (b : bool) : Instruction :=
  with_code_flags self (set_flag (code_flags self) CodeFlags.REPE_PREFIX b).
Definition internal_set_has_repe_prefix self : Instruction :=
  with_code_flags self (code_flags self .| CodeFlags.REPE_PREFIX).
Definition internal_clear_has_repe_prefix self : Instruction :=
  with_code_flags self (code_flags self .& !. CodeFlags.REPE_PREFIX).
Definition has_repne_prefix self : bool := has_flag (code_flags self) CodeFlags.REPNE_PREFIX.
Definition set_has_repne_prefix self (b : bool) : Instruction :=
  with_code_flags self (set_flag (code_flags self) CodeFlags.REPNE_PREFIX b).
Definition internal_set_has_repne_prefix self : Instruction :=
  with_code_flags self (code_flags self .| CodeFlags.REPNE_PREFIX).
Definition internal_clear_has_repne_prefix self : Instruction :=
  with_code_flags self (code_flags self .& !. CodeFlags.REPNE_PREFIX).
Definition has_lock_prefix self : bool := has_flag (code_flags self) CodeFlags.LOCK_PREFIX.
Definition set_has_lock_prefix self (b : bool) : Instruction :=
  with_code_flags self (set_flag (code_flags self) CodeFlags.LOCK_PREFIX b).
Definition internal_set_has_lock_prefix self : Instruction :=
  with_code_flags self (code_flags self .| CodeFlags.LOCK_PREFIX).
Definition internal_clear_has_lock_prefix self : Instruction :=
  with_code_flags self (code_flags self .& !. CodeFlags.LOCK_PREFIX).

End Accessors.

(** Operand kinds: 5-bit fields of [op_kind_flags]; operand 4 is always
    [Immediate8]. *)
Section OpKinds.
Implicit Types (self : Instruction).

Definition op0_kind self : Outcome OpKind.OpKind :=
  OpKind.transmute (op_kind_flags self .& OpKindFlags.OP_KIND_MASK).
Definition set_op0_kind self (new_value : OpKind.OpKind) : Instruction :=
  with_op_kind_flags self
    ((op_kind_flags self .& !. OpKindFlags.OP_KIND_MASK)
     .| (OpKind.to_u32 new_value .& OpKindFlags.OP_KIND_MASK)).
Definition internal_set_op0_kind self (new_value : OpKind.OpKind) : Instruction :=
  with_op_kind_flags self (op_kind_flags self .| OpKind.to_u32 new_value).
Definition internal_op0_is_not_reg_or_op0_is_not_reg self : bool :=
  negb ((op_kind_flags self .& (OpKindFlags.OP_KIND_MASK
          .| (OpKindFlags.OP_KIND_MASK .<< OpKindFlags.OP1_KIND_SHIFT))) =? 0).

Definition op1_kind self : Outcome OpKind.OpKind :=
  OpKind.transmute
    ((op_kind_flags self .>> OpKindFlags.OP1_KIND_SHIFT) .& OpKindFlags.OP_KIND_MASK).
Definition set_op1_kind self (new_value : OpKind.OpKind) : Instruction :=
  with_op_kind_flags self
    ((op_kind_flags self .& !. (OpKindFlags.OP_KIND_MASK .<< OpKindFlags.OP1_KIND_SHIFT))
     .| ((OpKind.to_u32 new_value .& OpKindFlags.OP_KIND_MASK) .<< OpKindFlags.OP1_KIND_SHIFT)).
Definition internal_set_op1_kind self (new_value : OpKind.OpKind) : Instruction :=
  with_op_kind_flags self
    (op_kind_flags self .| as_u32 (OpKind.to_u32 new_value .<< OpKindFlags.OP1_KIND_SHIFT)).

Definition op2_kind self : Outcome OpKind.OpKind :=
  OpKind.transmute
    ((op_kind_flags self .>> OpKindFlags.OP2_KIND_SHIFT) .& OpKindFlags.OP_KIND_MASK).
Definition set_op2_kind self (new_value : OpKind.OpKind) : Instruction :=
  with_op_kind_flags self
    ((op_kind_flags self .& !. (OpKindFlags.OP_KIND_MASK .<< OpKindFlags.OP2_KIND_SHIFT))
     .| ((OpKind.to_u32 new_value .& OpKindFlags.OP_KIND_MASK) .<< OpKindFlags.OP2_KIND_SHIFT)).
Definition internal_set_op2_kind self (new_value : OpKind.OpKind) : Instruction :=
  with_op_kind_flags self
    (op_kind_flags self .| as_u32 (OpKind.to_u32 new_value .<< OpKindFlags.OP2_KIND_SHIFT)).

Definition op3_kind self : Outcome OpKind.OpKind :=
  OpKind.transmute
    ((op_kind_flags self .>> OpKindFlags.OP3_KIND_SHIFT) .& OpKindFlags.OP_KIND_MASK).
Definition set_op3_kind self (new_value : OpKind.OpKind) : Instruction :=
  with_op_kind_flags self
    ((op_kind_flags self .& !. (OpKindFlags.OP_KIND_MASK .<< OpKindFlags.OP3_KIND_SHIFT))
     .| ((OpKind.to_u32 new_value .& OpKindFlags.OP_KIND_MASK) .<< OpKindFlags.OP3_KIND_SHIFT)).
Definition internal_set_op3_kind self (new_value : OpKind.OpKind) : Instruction :=
  with_op_kind_flags self
    (op_kind_flags self .| as_u32 (OpKind.to_u32 new_value .<< OpKindFlags.OP3_KIND_SHIFT)).

Definition op4_kind self : OpKind.OpKind := OpKind.Immediate8.
(** [set_op4_kind] / [internal_set_op4_kind]: only [Immediate8] is accepted. *)
Definition set_op4_kind self (new_value : OpKind.OpKind) : Outcome Instruction :=
  if OpKind.eqb new_value OpKind.Immediate8 then Ok self else Panic.
Definition internal_set_op4_kind self (new_value : OpKind.OpKind) : Outcome Instruction :=
  if OpKind.eqb new_value OpKind.Immediate8 then Ok self else Panic.

(** [op_kind(operand: i32)] / [set_op_kind]: operands 0 to 4. *)
Definition op_kind self (operand : Z) : Outcome OpKind.OpKind :=
  if operand =? 0 then op0_kind self
  else if operand =? 1 then op1_kind self
  else if operand =? 2 then op2_kind self
  else if operand =? 3 then op3_kind self
  else if operand =? 4 then Ok (op4_kind self)
  else Panic.
Definition set_op_kind self (operand : Z) (op_kind : OpKind.OpKind) : Outcome Instruction :=
  if operand =? 0 then Ok (set_op0_kind self op_kind)
  else if operand =? 1 then Ok (set_op1_kind self op_kind)
  else if operand =? 2 then Ok (set_op2_kind self op_kind)
  else if operand =? 3 then Ok (set_op3_kind self op_kind)
  else if operand =? 4 then set_op4_kind self op_kind
  else Panic.

End OpKinds.

(** Memory operand fields of [memory_flags] and the register bytes. *)
Section MemoryFields.
Context `{CT : CodeTables}.
Implicit Types (self : Instruction).

(** [segment_prefix()]: the 3-bit field minus one, as [u32]; 0 and 7 mean
    no prefix. *)
Definition segment_prefix self : Register.Register :=
  let index := wrapping_sub 32
    ((memory_flags self .>> MemoryFlags.SEGMENT_PREFIX_SHIFT) .& MemoryFlags.SEGMENT_PREFIX_MASK) 1 in
  if index <? 6 then Register.transmute (Register.to_u32 Register.ES + index)
  else Register.None.

Definition set_segment_prefix self (new_value : Register.Register) : Instruction :=
  let enc_value :=
    if Register.eqb new_value Register.None then 0
    else wrapping_add 32 (wrapping_sub 32 (Register.to_u32 new_value) (Register.to_u32 Register.ES)) 1
         .& MemoryFlags.SEGMENT_PREFIX_MASK in
  with_memory_flags self (as_u16
    ((memory_flags self .& !. (MemoryFlags.SEGMENT_PREFIX_MASK .<< MemoryFlags.SEGMENT_PREFIX_SHIFT))
     .| (enc_value .<< MemoryFlags.SEGMENT_PREFIX_SHIFT))).

(** [memory_base()] / [set_memory_base] / [memory_index()] / [set_memory_index] *)
Definition memory_base self : Outcome Register.Register := Register.transmute_u8 (mem_base_reg self).
Definition set_memory_base self (new_value : Register.Register) : Instruction :=
  with_mem_base_reg self (Register.to_u32 new_value).
Definition internal_set_memory_base self (new_value : Register.Register) : Instruction :=
  with_mem_base_reg self (Register.to_u32 new_value).
Definition memory_index self : Outcome Register.Register := Register.transmute_u8 (mem_index_reg self).
Definition set_memory_index self (new_value : Register.Register) : Instruction :=
  with_mem_index_reg self (Register.to_u32 new_value).
Definition internal_set_memory_index self (new_value : Register.Register) : Instruction :=
  with_mem_index_reg self (Register.to_u32 new_value).

(** [memory_segment()]: the prefix, else [SS] for a stack-pointer base, else
    [DS]. *)
Definition memory_segment self : Outcome Register.Register :=
  let seg_reg := segment_prefix self in
  if negb (Register.eqb seg_reg Register.None) then Ok seg_reg
  else base <- memory_base self;;
       match base with
       | Register.BP | Register.EBP | Register.ESP | Register.RBP | Register.RSP => Ok Register.SS
       | _ => Ok Register.DS
       end.

(** [memory_displ_size()]: 0, 1, 2, then 3 is 4 and anything above is 8. *)
Definition memory_displ_size self : Z :=
  let size := (memory_flags self .>> MemoryFlags.DISPL_SIZE_SHIFT) .& MemoryFlags.DISPL_SIZE_MASK in
  if size <=? 2 then size else if size =? 3 then 4 else 8.

Definition set_memory_displ_size self (new_value : Z) : Instruction :=
  let enc_value :=
    if new_value =? 0 then 0 else if new_value =? 1 then 1 else if new_value =? 2 then 2
    else if new_value =? 4 then 3 else 4 in
  with_memory_flags self (as_u16
    ((memory_flags self .& !. (MemoryFlags.DISPL_SIZE_MASK .<< MemoryFlags.DISPL_SIZE_SHIFT))
     .| (enc_value .<< MemoryFlags.DISPL_SIZE_SHIFT))).
Definition internal_set_memory_displ_size self (new_value : Z) : Instruction :=
  with_memory_flags self (memory_flags self .| as_u16 (new_value .<< MemoryFlags.DISPL_SIZE_SHIFT)).

Definition is_broadcast self : bool := has_flag (memory_flags self) MemoryFlags.BROADCAST.
Definition set_is_broadcast self (b : bool) : Instruction :=
  with_memory_flags self (set_flag (memory_flags self) MemoryFlags.BROADCAST b).
Definition internal_set_is_broadcast self : Instruction :=
  with_memory_flags self (memory_flags self .| MemoryFlags.BROADCAST).

(** [memory_size()]: [SIZES[code]], or [SIZES[code + NUMBER_OF_CODE_VALUES]]
    for a broadcast, [transmute]d into [MemorySize]. *)
Definition memory_size self : Outcome MemorySize.MemorySize :=
  c <- code self;;
  let index := if is_broadcast self then c + NUMBER_OF_CODE_VALUES else c in
  match nth_error SIZES (Z.to_nat index) with
  | Some s => transmute_enum MemorySize.all_memory_sizes MemorySize.Unknown s
  | None => Panic
  end.

(** [memory_index_scale()] is [1 << scale]; [set_memory_index_scale] maps
    1, 2, 4 to 0, 1, 2 and anything else to 3. *)
Definition memory_index_scale self : Z := 1 .<< (memory_flags self .& MemoryFlags.SCALE_MASK).
Definition set_memory_index_scale self (new_value : Z) : Instruction :=
  let mf := memory_flags self in
  with_memory_flags self
    (if new_value =? 1 then mf .& !. 3
     else if new_value =? 2 then (mf .& !. MemoryFlags.SCALE_MASK) .| 1
     else if new_value =? 4 then (mf .& !. MemoryFlags.SCALE_MASK) .| 2
     else mf .| 3).
Definition internal_get_memory_index_scale self : Z := memory_flags self .& MemoryFlags.SCALE_MASK.
Definition internal_set_memory_index_scale self (new_value : Z) : Instruction :=
  with_memory_flags self (memory_flags self .| as_u16 new_value).

Definition memory_displacement self : Z := mem_displ self.
Definition set_memory_displacement self (new_value : Z) : Instruction := with_mem_displ self new_value.
(** [mem_displ as i32 as u64]: sign extension. *)
Definition memory_displacement64 self : Z := as_u64 (as_i32 (mem_displ self)).

End MemoryFields.

(** Register operands, opmask, masking, rounding and SAE. *)
Section Decoration.
Implicit Types (self : Instruction).

Definition op0_register self : Outcome Register.Register := Register.transmute_u8 (reg0 self).
Definition set_op0_register self (new_value : Register.Register) : Instruction :=
  with_reg0 self (Register.to_u32 new_value).
Definition internal_set_op0_register self (new_value : Register.Register) : Instruction :=
  with_reg0 self (Register.to_u32 new_value).
Definition op1_register self : Outcome Register.Register := Register.transmute_u8 (reg1 self).
Definition set_op1_register self (new_value : Register.Register) : Instruction :=
  with_reg1 self (Register.to_u32 new_value).
Definition internal_set_op1_register self (new_value : Register.Register) : Instruction :=
  with_reg1 self (Register.to_u32 new_value).
Definition op2_register self : Outcome Register.Register := Register.transmute_u8 (reg2 self).
Definition set_op2_register self (new_value : Register.Register) : Instruction :=
  with_reg2 self (Register.to_u32 new_value).
Definition internal_set_op2_register self (new_value : Register.Register) : Instruction :=
  with_reg2 self (Register.to_u32 new_value).
Definition op3_register self : Outcome Register.Register := Register.transmute_u8 (reg3 self).
Definition set_op3_register self (new_value : Register.Register) : Instruction :=
  with_reg3 self (Register.to_u32 new_value).
Definition internal_set_op3_register self (new_value : Register.Register) : Instruction :=
  with_reg3 self (Register.to_u32 new_value).
Definition op4_register self : Register.Register := Register.None.
Definition set_op4_register self (new_value : Register.Register) : Outcome Instruction :=
  if Register.eqb new_value Register.None then Ok self else Panic.

Definition op_register self (operand : Z) : Outcome Register.Register :=
  if operand =? 0 then op0_register self
  else if operand =? 1 then op1_register self
  else if operand =? 2 then op2_register self
  else if operand =? 3 then op3_register self
  else if operand =? 4 then Ok (op4_register self)
  else Panic.
Definition set_op_register self (operand : Z) (new_value : Register.Register) : Outcome Instruction :=
  if operand =? 0 then Ok (set_op0_register self new_value)
  else if operand =? 1 then Ok (set_op1_register self new_value)
  else if operand =? 2 then Ok (set_op2_register self new_value)
  else if operand =? 3 then Ok (set_op3_register self new_value)
  else if operand =? 4 then set_op4_register self new_value
  else Panic.

(** [opmask()]: 0 is no opmask, [r] is [K0 + r]. *)
Definition opmask self : Register.Register :=
  let r := (code_flags self .>> CodeFlags.OPMASK_SHIFT) .& CodeFlags.OPMASK_MASK in
  if r =? 0 then Register.None else Register.transmute (r + Register.to_u32 Register.K0).
Definition set_opmask self (new_value : Register.Register) : Instruction :=
  let r := if Register.eqb new_value Register.None then 0
           else wrapping_sub 32 (Register.to_u32 new_value) (Register.to_u32 Register.K0)
                .& CodeFlags.OPMASK_MASK in
  with_code_flags self
    ((code_flags self .& !. (CodeFlags.OPMASK_MASK .<< CodeFlags.OPMASK_SHIFT))
     .| (r .<< CodeFlags.OPMASK_SHIFT)).
Definition internal_opmask self : Z :=
  (code_flags self .>> CodeFlags.OPMASK_SHIFT) .& CodeFlags.OPMASK_MASK.
Definition internal_set_opmask self (new_value : Z) : Instruction :=
  with_code_flags self (code_flags self .| as_u32 (new_value .<< CodeFlags.OPMASK_SHIFT)).
Definition has_opmask self : bool :=
  negb ((code_flags self .& (CodeFlags.OPMASK_MASK .<< CodeFlags.OPMASK_SHIFT)) =? 0).

(** Zeroing and merging masking: one bit, read both ways. *)
Definition zeroing_masking self : bool := has_flag (code_flags self) CodeFlags.ZEROING_MASKING.
Definition set_zeroing_masking self (b : bool) : Instruction :=
  with_code_flags self (set_flag (code_flags self) CodeFlags.ZEROING_MASKING b).
Definition internal_set_zeroing_masking self : Instruction :=
  with_code_flags self (code_flags self .| CodeFlags.ZEROING_MASKING).
Definition merging_masking self : bool := (code_flags self .& CodeFlags.ZEROING_MASKING) =? 0.
Definition set_merging_masking self (b : bool) : Instruction :=
  with_code_flags self
    (if b then code_flags self .& !. CodeFlags.ZEROING_MASKING
     else code_flags self .| CodeFlags.ZEROING_MASKING).

Definition rounding_control self : Outcome RoundingControl.RoundingControl :=
  RoundingControl.transmute
    ((code_flags self .>> CodeFlags.ROUNDING_CONTROL_SHIFT) .& CodeFlags.ROUNDING_CONTROL_MASK).
Definition set_rounding_control self (new_value : RoundingControl.RoundingControl) : Instruction :=
  with_code_flags self
    ((code_flags self .& !. (CodeFlags.ROUNDING_CONTROL_MASK .<< CodeFlags.ROUNDING_CONTROL_SHIFT))
     .| ((RoundingControl.to_u32 new_value .& CodeFlags.ROUNDING_CONTROL_MASK)
           .<< CodeFlags.ROUNDING_CONTROL_SHIFT)).
Definition internal_set_rounding_control self (new_value : Z) : Instruction :=
  with_code_flags self (code_flags self .| as_u32 (new_value .<< CodeFlags.ROUNDING_CONTROL_SHIFT)).

Definition suppress_all_exceptions self : bool :=
  has_flag (code_flags self) CodeFlags.SUPPRESS_ALL_EXCEPTIONS.
Definition set_suppress_all_exceptions self (b : bool) : Instruction :=
  with_code_flags self (set_flag (code_flags self) CodeFlags.SUPPRESS_ALL_EXCEPTIONS b).
Definition internal_set_suppress_all_exceptions self : Instruction :=
  with_code_flags self (code_flags self .| CodeFlags.SUPPRESS_ALL_EXCEPTIONS).

(** [is_ip_relative_memory_operand()] / [ip_relative_memory_address()] *)
Definition is_ip_relative_memory_operand self : Outcome bool :=
  base_reg <- memory_base self;;
  Ok (Register.eqb base_reg Register.RIP || Register.eqb base_reg Register.EIP).
Definition ip_relative_memory_address self : Outcome Z :=
  let result := wrapping_add 64 (next_ip self) (as_u64 (as_i32 (memory_displacement self))) in
  base <- memory_base self;;
  Ok (if Register.eqb base Register.EIP then as_u32 result else result).

(** [impl fmt::Display for Instruction]: every formatter feature selects an
    impl that writes the placeholder [NYI]. *)
Definition fmt self : String.string := "NYI"%string.

End Decoration.

(** ** Setters and getters as field operations *)

(** ** The boolean accessors *)

Inductive BoolFlag : Set :=
| BLock | BRepe | BRepne | BXacquire | BXrelease | BZeroingMasking
| BSuppressAllExceptions | BBroadcast.

Definition get_bool_flag (f : BoolFlag) (i : Instruction) : bool :=
  match f with
  | BLock => has_lock_prefix i
  | BRepe => has_repe_prefix i
  | BRepne => has_repne_prefix i
  | BXacquire => has_xacquire_prefix i
  | BXrelease => has_xrelease_prefix i
  | BZeroingMasking => zeroing_masking i
  | BSuppressAllExceptions => suppress_all_exceptions i
  | BBroadcast => is_broadcast i
  end.

Definition set_bool_flag (f : BoolFlag) (i : Instruction) (b : bool) : Instruction :=
  match f with
  | BLock => set_has_lock_prefix i b
  | BRepe => set_has_repe_prefix i b
  | BRepne => set_has_repne_prefix i b
  | BXacquire => set_has_xacquire_prefix i b
  | BXrelease => set_has_xrelease_prefix i b
  | BZeroingMasking => set_zeroing_masking i b
  | BSuppressAllExceptions => set_suppress_all_exceptions i b
  | BBroadcast => set_is_broadcast i b
  end.

Definition bool_flag_field (f : BoolFlag) : Field :=
  match f with
  | BLock => FLockPrefix | BRepe => FRepePrefix | BRepne => FRepnePrefix
  | BXacquire => FXacquirePrefix | BXrelease => FXreleasePrefix
  | BZeroingMasking => FZeroingMasking
  | BSuppressAllExceptions => FSuppressAllExceptions | BBroadcast => FBroadcast
  end.

Definition BoolFlag_eq_dec (f g : BoolFlag) : {f = g} + {f <> g}.
Proof. decide equality. Defined.

Definition segment_registers : list Register.Register :=
  [Register.ES; Register.CS; Register.SS; Register.DS; Register.FS; Register.GS].

(** The opmask registers, and the encodings of [set_memory_displ_size]
    and [set_memory_index_scale] (argument, stored value) that the
    decoder passes to the [internal_set_*] fast paths. *)
Definition opmask_registers : list Register.Register :=
  [Register.K0; Register.K1; Register.K2; Register.K3; Register.K4; Register.K5; Register.K6;
   Register.K7].
Definition displ_size_encodings : list (Z * Z) := [(0, 0); (1, 1); (2, 2); (4, 3); (8, 4)].
Definition index_scale_encodings : list (Z * Z) := [(1, 0); (2, 1); (4, 2); (8, 3)].

Section SetterFields.
Context `{CT : CodeTables}.

(** Each setter of a packed field is [set_field] of its field, the two
    [memory_flags] setters that end with [as u16] up to that cast: the
    equations [set_xxx_eq], from which [set_xxx_field] follows. *)

Ltac setter_field_body :=
  unfold set_field; unfold_layout; cbn [word_value set_word];
  rewrite_flag_bits;
  rewrite ?set_flag_put_bits by lia; unfold put_bits; rewrite ?Z.shiftl_0_r;
  reflexivity.

Ltac field_of_eq E :=
  first [ apply acts_as_set_field; intros ?i; apply E
        | apply acts_as_set_field_u16; [reflexivity|]; intros ?i; apply E ].

Lemma set_code_size_eq c i : set_code_size i c = set_field FCodeSize (CodeSize.to_u32 c) i.
Proof. unfold set_code_size. setter_field_body. Qed.

Lemma set_code_size_field c :
  acts_as_field (fun i => set_code_size i c) FCodeSize (CodeSize.to_u32 c).
Proof. field_of_eq set_code_size_eq. Qed.

Lemma set_len_eq n i : set_len i n = set_field FInstrLength (as_u32 n) i.
Proof. unfold set_len. setter_field_body. Qed.

Lemma set_len_field n :
  acts_as_field (fun i => set_len i n) FInstrLength (as_u32 n).
Proof. field_of_eq set_len_eq. Qed.

Lemma set_has_xacquire_prefix_eq b i : set_has_xacquire_prefix i b = set_field FXacquirePrefix (Z.b2z b) i.
Proof. unfold set_has_xacquire_prefix. setter_field_body. Qed.

Lemma set_has_xacquire_prefix_field b :
  acts_as_field (fun i => set_has_xacquire_prefix i b) FXacquirePrefix (Z.b2z b).
Proof. field_of_eq set_has_xacquire_prefix_eq. Qed.

Lemma set_has_xrelease_prefix_eq b i : set_has_xrelease_prefix i b = set_field FXreleasePrefix (Z.b2z b) i.
Proof. unfold set_has_xrelease_prefix. setter_field_body. Qed.

Lemma set_has_xrelease_prefix_field b :
  acts_as_field (fun i => set_has_xrelease_prefix i b) FXreleasePrefix (Z.b2z b).
Proof. field_of_eq set_has_xrelease_prefix_eq. Qed.

Lemma set_has_rep_prefix_eq b i : set_has_rep_prefix i b = set_field FRepePrefix (Z.b2z b) i.
Proof. unfold set_has_rep_prefix. setter_field_body. Qed.

Lemma set_has_rep_prefix_field b :
  acts_as_field (fun i => set_has_rep_prefix i b) FRepePrefix (Z.b2z b).
Proof. field_of_eq set_has_rep_prefix_eq. Qed.

Lemma set_has_repe_prefix_eq b i : set_has_repe_prefix i b = set_field FRepePrefix (Z.b2z b) i.
Proof. unfold set_has_repe_prefix. setter_field_body. Qed.

Lemma set_has_repe_prefix_field b :
  acts_as_field (fun i => set_has_repe_prefix i b) FRepePrefix (Z.b2z b).
Proof. field_of_eq set_has_repe_prefix_eq. Qed.

Lemma set_has_repne_prefix_eq b i : set_has_repne_prefix i b = set_field FRepnePrefix (Z.b2z b) i.
Proof. unfold set_has_repne_prefix. setter_field_body. Qed.

Lemma set_has_repne_prefix_field b :
  acts_as_field (fun i => set_has_repne_prefix i b) FRepnePrefix (Z.b2z b).
Proof. field_of_eq set_has_repne_prefix_eq. Qed.

Lemma set_has_lock_prefix_eq b i : set_has_lock_prefix i b = set_field FLockPrefix (Z.b2z b) i.
Proof. unfold set_has_lock_prefix. setter_field_body. Qed.

Lemma set_has_lock_prefix_field b :
  acts_as_field (fun i => set_has_lock_prefix i b) FLockPrefix (Z.b2z b).
Proof. field_of_eq set_has_lock_prefix_eq. Qed.

Lemma set_op0_kind_eq k i : set_op0_kind i k = set_field FOp0Kind (OpKind.to_u32 k) i.
Proof. unfold set_op0_kind. setter_field_body. Qed.

Lemma set_op0_kind_field k :
  acts_as_field (fun i => set_op0_kind i k) FOp0Kind (OpKind.to_u32 k).
Proof. field_of_eq set_op0_kind_eq. Qed.

Lemma set_op1_kind_eq k i : set_op1_kind i k = set_field FOp1Kind (OpKind.to_u32 k) i.
Proof. unfold set_op1_kind. setter_field_body. Qed.

Lemma set_op1_kind_field k :
  acts_as_field (fun i => set_op1_kind i k) FOp1Kind (OpKind.to_u32 k).
Proof. field_of_eq set_op1_kind_eq. Qed.

Lemma set_op2_kind_eq k i : set_op2_kind i k = set_field FOp2Kind (OpKind.to_u32 k) i.
Proof. unfold set_op2_kind. setter_field_body. Qed.

Lemma set_op2_kind_field k :
  acts_as_field (fun i => set_op2_kind i k) FOp2Kind (OpKind.to_u32 k).
Proof. field_of_eq set_op2_kind_eq. Qed.

Lemma set_op3_kind_eq k i : set_op3_kind i k = set_field FOp3Kind (OpKind.to_u32 k) i.
Proof. unfold set_op3_kind. setter_field_body. Qed.

Lemma set_op3_kind_field k :
  acts_as_field (fun i => set_op3_kind i k) FOp3Kind (OpKind.to_u32 k).
Proof. field_of_eq set_op3_kind_eq. Qed.

Lemma set_is_broadcast_eq b i : set_is_broadcast i b = set_field FBroadcast (Z.b2z b) i.
Proof. unfold set_is_broadcast. setter_field_body. Qed.

Lemma set_is_broadcast_field b :
  acts_as_field (fun i => set_is_broadcast i b) FBroadcast (Z.b2z b).
Proof. field_of_eq set_is_broadcast_eq. Qed.

Lemma set_zeroing_masking_eq b i : set_zeroing_masking i b = set_field FZeroingMasking (Z.b2z b) i.
Proof. unfold set_zeroing_masking. setter_field_body. Qed.

Lemma set_zeroing_masking_field b :
  acts_as_field (fun i => set_zeroing_masking i b) FZeroingMasking (Z.b2z b).
Proof. field_of_eq set_zeroing_masking_eq. Qed.

Lemma set_rounding_control_eq rc i : set_rounding_control i rc = set_field FRoundingControl (RoundingControl.to_u32 rc) i.
Proof. unfold set_rounding_control. setter_field_body. Qed.

Lemma set_rounding_control_field rc :
  acts_as_field (fun i => set_rounding_control i rc) FRoundingControl (RoundingControl.to_u32 rc).
Proof. field_of_eq set_rounding_control_eq. Qed.

Lemma set_suppress_all_exceptions_eq b i : set_suppress_all_exceptions i b = set_field FSuppressAllExceptions (Z.b2z b) i.
Proof. unfold set_suppress_all_exceptions. setter_field_body. Qed.

Lemma set_suppress_all_exceptions_field b :
  acts_as_field (fun i => set_suppress_all_exceptions i b) FSuppressAllExceptions (Z.b2z b).
Proof. field_of_eq set_suppress_all_exceptions_eq. Qed.

Lemma set_code_eq c i : fits 13 c -> set_code i c = set_field FCode c i.
Proof.
  intros Hc. unfold set_code, set_field. unfold_layout. cbn [word_value set_word].
  rewrite <- put_bits_unmasked by (assumption || lia). now rewrite Z.shiftl_0_r.
Qed.

Lemma set_code_field c :
  fits 13 c -> acts_as_field (fun i => set_code i c) FCode c.
Proof. intros Hc. field_of_eq (fun i => set_code_eq c i Hc). Qed.

Lemma set_segment_prefix_eq r i :
  set_segment_prefix i r = with_memory_flags i (as_u16 (memory_flags (set_field FSegmentPrefix
    (if Register.eqb r Register.None then 0
     else wrapping_add 32 (wrapping_sub 32 (Register.to_u32 r) (Register.to_u32 Register.ES)) 1 .& 7)
    i))).
Proof.
  unfold set_segment_prefix, set_field.
  unfold_layout. cbn [word_value set_word memory_flags with_memory_flags].
  rewrite <- put_bits_unmasked; [reflexivity | lia |].
  destruct (Register.eqb r Register.None); [split; lia | apply land7_fits].
Qed.

Lemma set_segment_prefix_field r :
  acts_as_field (fun i => set_segment_prefix i r) FSegmentPrefix
    (if Register.eqb r Register.None then 0
     else wrapping_add 32 (wrapping_sub 32 (Register.to_u32 r) (Register.to_u32 Register.ES)) 1 .& 7).
Proof. field_of_eq set_segment_prefix_eq. Qed.

Lemma set_memory_displ_size_eq n i :
  set_memory_displ_size i n = with_memory_flags i (as_u16 (memory_flags (set_field FDisplSize
    (if n =? 0 then 0 else if n =? 1 then 1 else if n =? 2 then 2 else if n =? 4 then 3 else 4)
    i))).
Proof.
  unfold set_memory_displ_size, set_field.
  unfold_layout. cbn [word_value set_word memory_flags with_memory_flags].
  rewrite <- put_bits_unmasked; [reflexivity | lia |].
  unfold fits. repeat match goal with |- context [if ?c then _ else _] => destruct c end; lia.
Qed.

Lemma set_memory_displ_size_field n :
  acts_as_field (fun i => set_memory_displ_size i n) FDisplSize
    (if n =? 0 then 0 else if n =? 1 then 1 else if n =? 2 then 2 else if n =? 4 then 3 else 4).
Proof. field_of_eq set_memory_displ_size_eq. Qed.

Lemma set_memory_index_scale_eq n i :
  set_memory_index_scale i n =
    set_field FScale (if n =? 1 then 0 else if n =? 2 then 1 else if n =? 4 then 2 else 3) i.
Proof.
  unfold set_memory_index_scale, set_field.
  unfold_layout. cbn [word_value set_word]. f_equal.
  unfold put_bits, MemoryFlags.SCALE_MASK. change (Z.ones 2 .<< 0) with 3.
  destruct (n =? 1); [|destruct (n =? 2); [|destruct (n =? 4)]].
  - change ((0 .& Z.ones 2) .<< 0) with 0. now rewrite Z.lor_0_r.
  - reflexivity.
  - reflexivity.
  - change ((3 .& Z.ones 2) .<< 0) with 3. bits_ext. autorewrite with bits.
    now destruct (Z.testbit (memory_flags i) i0), (Z.testbit 3 i0).
Qed.

Lemma set_memory_index_scale_field n :
  acts_as_field (fun i => set_memory_index_scale i n) FScale
    (if n =? 1 then 0 else if n =? 2 then 1 else if n =? 4 then 2 else 3).
Proof. field_of_eq set_memory_index_scale_eq. Qed.

Lemma set_opmask_eq r i :
  set_opmask i r = set_field FOpmask
    (if Register.eqb r Register.None then 0
     else wrapping_sub 32 (Register.to_u32 r) (Register.to_u32 Register.K0) .& 7) i.
Proof.
  unfold set_opmask, set_field.
  unfold_layout. cbn [word_value set_word].
  rewrite <- put_bits_unmasked; [reflexivity | lia |].
  destruct (Register.eqb r Register.None); [split; lia | apply land7_fits].
Qed.

Lemma set_opmask_field r :
  acts_as_field (fun i => set_opmask i r) FOpmask
    (if Register.eqb r Register.None then 0
     else wrapping_sub 32 (Register.to_u32 r) (Register.to_u32 Register.K0) .& 7).
Proof. field_of_eq set_opmask_eq. Qed.

Lemma set_merging_masking_eq b i :
  set_merging_masking i b = set_field FZeroingMasking (Z.b2z (negb b)) i.
Proof.
  unfold set_merging_masking, set_field.
  unfold_layout. cbn [word_value set_word].
  rewrite <- set_flag_put_bits by lia. rewrite_flag_bits. now destruct b.
Qed.

Lemma set_merging_masking_field b :
  acts_as_field (fun i => set_merging_masking i b) FZeroingMasking (Z.b2z (negb b)).
Proof. field_of_eq set_merging_masking_eq. Qed.

End SetterFields.

(** The getters read one field each. *)
Section GetterFields.
Context `{CT : CodeTables}.

Ltac getter_is_field :=
  intros; unfold get_field; unfold_layout; cbn [word_value];
  rewrite ?Z.shiftr_0_r; reflexivity.

Ltac flag_getter f :=
  intros; rewrite_flag_bits; exact (has_flag_field f _ eq_refl).

Lemma has_xacquire_prefix_field i :
  has_xacquire_prefix i = (get_field FXacquirePrefix i =? 1).
Proof. unfold has_xacquire_prefix. flag_getter FXacquirePrefix. Qed.
Lemma has_xrelease_prefix_field i :
  has_xrelease_prefix i = (get_field FXreleasePrefix i =? 1).
Proof. unfold has_xrelease_prefix. flag_getter FXreleasePrefix. Qed.
Lemma has_rep_prefix_field i : has_rep_prefix i = (get_field FRepePrefix i =? 1).
Proof. unfold has_rep_prefix. flag_getter FRepePrefix. Qed.
Lemma has_repe_prefix_field i : has_repe_prefix i = (get_field FRepePrefix i =? 1).
Proof. unfold has_repe_prefix. flag_getter FRepePrefix. Qed.
Lemma has_repne_prefix_field i : has_repne_prefix i = (get_field FRepnePrefix i =? 1).
Proof. unfold has_repne_prefix. flag_getter FRepnePrefix. Qed.
Lemma has_lock_prefix_field i : has_lock_prefix i = (get_field FLockPrefix i =? 1).
Proof. unfold has_lock_prefix. flag_getter FLockPrefix. Qed.
Lemma zeroing_masking_field i : zeroing_masking i = (get_field FZeroingMasking i =? 1).
Proof. unfold zeroing_masking. flag_getter FZeroingMasking. Qed.
Lemma suppress_all_exceptions_field i :
  suppress_all_exceptions i = (get_field FSuppressAllExceptions i =? 1).
Proof. unfold suppress_all_exceptions. flag_getter FSuppressAllExceptions. Qed.
Lemma is_broadcast_field i : is_broadcast i = (get_field FBroadcast i =? 1).
Proof. unfold is_broadcast. flag_getter FBroadcast. Qed.

Lemma merging_masking_field i : merging_masking i = (get_field FZeroingMasking i =? 0).
Proof.
  unfold merging_masking. pose proof (zeroing_masking_field i) as Hz.
  unfold zeroing_masking, has_flag in Hz.
  pose proof (get_bits_fits (code_flags i) 26 1 ltac:(lia) ltac:(lia)) as Hf.
  unfold get_field in *. unfold_layout. cbn [word_value] in *. unfold fits in Hf.
  change (2 ^ 1) with 2 in Hf.
  destruct (code_flags i .& CodeFlags.ZEROING_MASKING =? 0);
    destruct (Z.eqb_spec (get_bits (code_flags i) 26 1) 1); simpl in Hz;
    try discriminate; symmetry; apply Z.eqb_eq || apply Z.eqb_neq; lia.
Qed.

Lemma len_field i : len i = get_field FInstrLength i.
Proof. unfold len. getter_is_field. Qed.
Lemma code_field i :
  code i = (let c := get_field FCode i in if c <? NUMBER_OF_CODE_VALUES then Ok c else Undefined).
Proof. unfold code. getter_is_field. Qed.
Lemma code_size_field i : code_size i = CodeSize.transmute (get_field FCodeSize i).
Proof. unfold code_size. getter_is_field. Qed.
Lemma op0_kind_field i : op0_kind i = OpKind.transmute (get_field FOp0Kind i).
Proof. unfold op0_kind. getter_is_field. Qed.
Lemma op1_kind_field i : op1_kind i = OpKind.transmute (get_field FOp1Kind i).
Proof. unfold op1_kind. getter_is_field. Qed.
Lemma op2_kind_field i : op2_kind i = OpKind.transmute (get_field FOp2Kind i).
Proof. unfold op2_kind. getter_is_field. Qed.
Lemma op3_kind_field i : op3_kind i = OpKind.transmute (get_field FOp3Kind i).
Proof. unfold op3_kind. getter_is_field. Qed.
Lemma rounding_control_field i :
  rounding_control i = RoundingControl.transmute (get_field FRoundingControl i).
Proof. unfold rounding_control. getter_is_field. Qed.
Lemma internal_opmask_field i : internal_opmask i = get_field FOpmask i.
Proof. unfold internal_opmask. getter_is_field. Qed.
Lemma opmask_field i :
  opmask i = (let r := get_field FOpmask i in
              if r =? 0 then Register.None
              else Register.transmute (r + Register.to_u32 Register.K0)).
Proof. unfold opmask. getter_is_field. Qed.
Lemma memory_displ_size_field i :
  memory_displ_size i = (let size := get_field FDisplSize i in
                         if size <=? 2 then size else if size =? 3 then 4 else 8).
Proof. unfold memory_displ_size. getter_is_field. Qed.
Lemma memory_index_scale_field i : memory_index_scale i = 1 .<< get_field FScale i.
Proof. unfold memory_index_scale. getter_is_field. Qed.
Lemma internal_get_memory_index_scale_field i :
  internal_get_memory_index_scale i = get_field FScale i.
Proof. unfold internal_get_memory_index_scale. getter_is_field. Qed.
Lemma segment_prefix_field i :
  segment_prefix i = (let index := wrapping_sub 32 (get_field FSegmentPrefix i) 1 in
                      if index <? 6 then Register.transmute (Register.to_u32 Register.ES + index)
                      else Register.None).
Proof. unfold segment_prefix. getter_is_field. Qed.

End GetterFields.

(** ** Theorems *)

(** Tactics for the fast paths below: read a zero field off its word,
    and close [w | (v << sh) = (w & !(m << sh)) | ((v & m) << sh)]. *)
Ltac zero_field H := unfold get_field in H; unfold_layout; cbn [word_value] in H.

Ltac or_field H :=
  unfold as_u32, as_u16; rewrite ?Z.shiftl_0_r;
  first [ rewrite (trunc_small 32) by (lia || fits_tac)
        | rewrite (trunc_small 16) by (lia || fits_tac) | idtac ];
  first [ apply (or_into_cleared _ _ _ _ _ H); [lia | lia | reflexivity | try fits_tac]
        | apply (or_into_cleared_unmasked _ _ _ _ _ H); [lia | lia | reflexivity] ].

Section WithTables.
Context `{CT : CodeTables}.


Lemma get_bool_flag_field f i : get_bool_flag f i = (get_field (bool_flag_field f) i =? 1).
Proof.
  destruct f; cbn [get_bool_flag bool_flag_field];
    [ apply has_lock_prefix_field | apply has_repe_prefix_field
    | apply has_repne_prefix_field | apply has_xacquire_prefix_field
    | apply has_xrelease_prefix_field | apply zeroing_masking_field
    | apply suppress_all_exceptions_field | apply is_broadcast_field ].
Qed.

Lemma set_bool_flag_field f b :
  acts_as_field (fun i => set_bool_flag f i b) (bool_flag_field f) (Z.b2z b).
Proof.
  destruct f;
    [ apply set_has_lock_prefix_field | apply set_has_repe_prefix_field
    | apply set_has_repne_prefix_field | apply set_has_xacquire_prefix_field
    | apply set_has_xrelease_prefix_field | apply set_zeroing_masking_field
    | apply set_suppress_all_exceptions_field | apply set_is_broadcast_field ].
Qed.

Lemma bool_flag_field_width f : field_width (bool_flag_field f) = 1.
Proof. now destruct f. Qed.

Lemma bool_flag_field_inj f g : bool_flag_field f = bool_flag_field g -> f = g.
Proof. destruct f, g; simpl; congruence. Qed.

Lemma b2z_roundtrip b : (trunc 1 (Z.b2z b) =? 1) = b.
Proof. now destruct b. Qed.

(** [C1] Every boolean accessor reads back what its setter wrote, and
    setting one never changes another: [set_has_lock_prefix(true)] then
    [set_has_repe_prefix(true)] leaves [has_lock_prefix() = true].  In
    particular REPE and XRELEASE, REPNE and XACQUIRE are distinct bits. *)
Theorem bool_flags_independent (f g : BoolFlag) (i : Instruction) (b : bool) :
  get_bool_flag g (set_bool_flag f i b) =
    if BoolFlag_eq_dec f g then b else get_bool_flag g i.
Proof.
  rewrite !get_bool_flag_field.
  destruct (BoolFlag_eq_dec f g) as [<-|Hfg].
  - rewrite (acts_as_field_get _ _ _ i (set_bool_flag_field f b)), bool_flag_field_width.
    apply b2z_roundtrip.
  - rewrite (acts_as_field_other _ _ _ i _ (set_bool_flag_field f b)); [reflexivity|].
    intros E. apply Hfg, bool_flag_field_inj, E.
Qed.

(** [has_rep_prefix] is [has_repe_prefix]: one bit, two names. *)
Theorem rep_is_repe (i : Instruction) (b : bool) :
  has_rep_prefix i = has_repe_prefix i /\ set_has_rep_prefix i b = set_has_repe_prefix i b.
Proof. split; reflexivity. Qed.

(** ** Opmask and masking *)

Lemma land_shifted_mask x sh k :
  0 <= sh -> 0 <= k -> x .& (Z.ones k .<< sh) = get_bits x sh k .<< sh.
Proof.
  intros. bits_ext. rewrite Z.land_spec, !Z.shiftl_spec by lia.
  destruct (Z.ltb_spec (i - sh) 0).
  - rewrite (Z.testbit_neg_r (Z.ones k)), (Z.testbit_neg_r (get_bits _ _ _)) by lia.
    apply andb_false_r.
  - rewrite testbit_get_bits, Z.testbit_ones by lia. replace (i - sh + sh) with i by lia.
    destruct (Z.leb_spec 0 (i - sh)); [|lia]. apply andb_comm.
Qed.

Lemma has_opmask_field i : has_opmask i = negb (get_field FOpmask i =? 0).
Proof.
  unfold has_opmask, get_field. unfold_layout. cbn [word_value].
  change CodeFlags.OPMASK_MASK with (Z.ones 3).
  rewrite land_shifted_mask by lia. f_equal.
  rewrite Z.shiftl_mul_pow2 by lia.
  destruct (Z.eqb_spec (get_bits (code_flags i) 16 3) 0) as [E|E].
  - rewrite E. reflexivity.
  - apply Z.eqb_neq. intros H. apply Z.mul_eq_0 in H as [H|H]; [lia|].
    revert H. apply Z.pow_nonzero; lia.
Qed.

(** [C22] Opmask round trip: [None] and [K1] to [K7] read back as written,
    while [K0] reads back as [None] ([set_opmask(K0)] stores the code 0,
    so [K0] is not representable); [has_opmask] tells whether a register
    other than [K0] was set. *)
Theorem opmask_roundtrip (i : Instruction) (r : Register.Register) :
  In r (Register.None :: opmask_registers) ->
  opmask (set_opmask i r) = (if Register.eqb r Register.K0 then Register.None else r) /\
  has_opmask (set_opmask i r) = negb (Register.eqb r Register.None || Register.eqb r Register.K0).
Proof.
  intros Hr. rewrite opmask_field, has_opmask_field,
    !(acts_as_field_get _ _ _ i (set_opmask_field r)).
  repeat (destruct Hr as [<-|Hr]; [split; reflexivity|]). destruct Hr.
Qed.

(** [K0] cannot be stored as an opmask: [set_opmask(K0)] stores 0,
    which reads back as no opmask. *)
Theorem opmask_k0_is_none (i : Instruction) :
  opmask (set_opmask i Register.K0) = Register.None /\
  has_opmask (set_opmask i Register.K0) = false.
Proof.
  rewrite opmask_field, has_opmask_field,
    !(acts_as_field_get _ _ _ i (set_opmask_field Register.K0)).
  split; reflexivity.
Qed.

(** Zeroing and merging masking are complementary views of one bit:
    [merging_masking() = !zeroing_masking()], and [set_merging_masking(b)]
    is [set_zeroing_masking(!b)]. *)
Theorem merging_is_not_zeroing (i : Instruction) (b : bool) :
  merging_masking i = negb (zeroing_masking i) /\
  set_merging_masking i b = set_zeroing_masking i (negb b).
Proof.
  split.
  - rewrite merging_masking_field, zeroing_masking_field.
    pose proof (get_bits_fits (code_flags i) 26 1 ltac:(lia) ltac:(lia)) as Hf.
    unfold get_field. unfold_layout. cbn [word_value]. unfold fits in Hf.
    change (2 ^ 1) with 2 in Hf.
    assert (get_bits (code_flags i) 26 1 = 0 \/ get_bits (code_flags i) 26 1 = 1)
      as [-> | ->] by lia; reflexivity.
  - destruct b; reflexivity.
Qed.

(** The opmask scenario: K3 with zeroing masking, then merging. *)
Example opmask_masking_scenario :
  let i := set_zeroing_masking (set_opmask new Register.K3) true in
  has_opmask i = true /\ opmask i = Register.K3 /\ zeroing_masking i = true /\
  merging_masking i = false /\
  zeroing_masking (set_merging_masking i true) = false.
Proof. vm_compute. repeat split. Qed.

(** ** Memory operand fields *)

(** [C19] Displacement size round trip with bucketing: 0, 1, 2, 4 read back
    as written; any other size is stored in the 8-byte bucket. *)
Theorem memory_displ_size_roundtrip (i : Instruction) (n : Z) :
  memory_displ_size (set_memory_displ_size i n) =
    if (n =? 0) || (n =? 1) || (n =? 2) || (n =? 4) then n else 8.
Proof.
  rewrite memory_displ_size_field,
    (acts_as_field_get _ _ _ i (set_memory_displ_size_field n)).
  destruct (Z.eqb_spec n 0); [subst; reflexivity|].
  destruct (Z.eqb_spec n 1); [subst; reflexivity|].
  destruct (Z.eqb_spec n 2); [subst; reflexivity|].
  destruct (Z.eqb_spec n 4); [subst; reflexivity|]. reflexivity.
Qed.

(** Every stored displacement-size code decodes to one of 0, 1, 2, 4
    or 8. *)
Theorem memory_displ_size_range (i : Instruction) :
  In (memory_displ_size i) [0; 1; 2; 4; 8].
Proof.
  rewrite memory_displ_size_field. cbv zeta.
  pose proof (get_bits_fits (memory_flags i) 2 3 ltac:(lia) ltac:(lia)) as Hf.
  unfold get_field. unfold_layout. cbn [word_value]. unfold fits in Hf.
  change (2 ^ 3) with 8 in Hf.
  destruct (Z.leb_spec (get_bits (memory_flags i) 2 3) 2).
  - assert (get_bits (memory_flags i) 2 3 = 0 \/ get_bits (memory_flags i) 2 3 = 1 \/
            get_bits (memory_flags i) 2 3 = 2) as [-> | [-> | ->]] by lia; simpl; tauto.
  - destruct (_ =? 3); simpl; tauto.
Qed.

(** [C20] Index scale round trip on the scales [set_memory_index_scale]
    accepts (its [debug_assert!] rejects any other): 1, 2, 4 and 8 read
    back as written, and no other field changes. *)
Theorem memory_index_scale_roundtrip (i : Instruction) (n : Z) :
  In n [1; 2; 4; 8] ->
  memory_index_scale (set_memory_index_scale i n) = n /\
  (forall g, g <> FScale -> get_field g (set_memory_index_scale i n) = get_field g i).
Proof.
  intros Hn. split.
  - rewrite memory_index_scale_field,
      (acts_as_field_get _ _ _ i (set_memory_index_scale_field n)).
    destruct Hn as [<-|[<-|[<-|[<-|[]]]]]; reflexivity.
  - intros g Hg. exact (acts_as_field_other _ _ _ i g (set_memory_index_scale_field n) (not_eq_sym Hg)).
Qed.



Lemma segment_prefix_unused_code (i : Instruction) :
  get_field FSegmentPrefix i = 7 -> segment_prefix i = Register.None.
Proof. intros H. rewrite segment_prefix_field. cbv zeta. rewrite H. reflexivity. Qed.

(** ** Operand kinds *)

Lemma op_kind_fields (i : Instruction) (m : Z) :
  op_kind i m =
    if m =? 0 then OpKind.transmute (get_field FOp0Kind i)
    else if m =? 1 then OpKind.transmute (get_field FOp1Kind i)
    else if m =? 2 then OpKind.transmute (get_field FOp2Kind i)
    else if m =? 3 then OpKind.transmute (get_field FOp3Kind i)
    else if m =? 4 then Ok OpKind.Immediate8 else Panic.
Proof.
  unfold op_kind. rewrite op0_kind_field, op1_kind_field, op2_kind_field, op3_kind_field.
  reflexivity.
Qed.

Lemma op_kind_value_fits k : trunc OpKindFlags.OP_KIND_BITS (OpKind.to_u32 k) = OpKind.to_u32 k.
Proof.
  apply trunc_small; [unfold OpKindFlags.OP_KIND_BITS; lia|].
  pose proof (opkind_to_u32_range k). unfold fits, OpKindFlags.OP_KIND_BITS. simpl. lia.
Qed.

(** Reading the operand kinds after a write to one of them. *)
Ltac op_kind_after H :=
  rewrite !op_kind_fields; cbn [Z.eqb Pos.eqb];
  rewrite ?(acts_as_field_get _ _ _ _ H);
  rewrite ?(acts_as_field_other _ _ _ _ _ H) by discriminate;
  cbn [field_width layout snd]; rewrite ?op_kind_value_fits, ?opkind_transmute_to_u32.

Ltac op_kind_frame H :=
  rewrite !op_kind_fields;
  repeat match goal with
         | |- context [if ?m0 =? ?c then _ else _] =>
             let E := fresh "E" in destruct (Z.eqb_spec m0 c) as [E|E]
         end;
  cbv beta iota; try (exfalso; lia); try reflexivity;
  f_equal; apply (acts_as_field_other _ _ _ _ _ H); discriminate.

(** [C2] [set_op_kind(n, k)] for an operand [n] in 0..3 makes [op_kind(n)]
    return [k] and leaves the kind of every other operand unchanged. *)
Theorem op_kind_roundtrip (i : Instruction) (n : Z) (k : OpKind.OpKind) :
  0 <= n <= 3 ->
  exists i', set_op_kind i n k = Ok i' /\ op_kind i' n = Ok k /\
             forall m, m <> n -> op_kind i' m = op_kind i m.
Proof.
  intros Hn. unfold set_op_kind.
  assert (n = 0 \/ n = 1 \/ n = 2 \/ n = 3) as [-> | [-> | [-> | ->]]] by lia;
    cbn [Z.eqb Pos.eqb]; eexists; (split; [reflexivity|]).
  - split; [op_kind_after (set_op0_kind_field k); reflexivity
           | intros m Hm; op_kind_frame (set_op0_kind_field k)].
  - split; [op_kind_after (set_op1_kind_field k); reflexivity
           | intros m Hm; op_kind_frame (set_op1_kind_field k)].
  - split; [op_kind_after (set_op2_kind_field k); reflexivity
           | intros m Hm; op_kind_frame (set_op2_kind_field k)].
  - split; [op_kind_after (set_op3_kind_field k); reflexivity
           | intros m Hm; op_kind_frame (set_op3_kind_field k)].
Qed.

(** [C26] Operand 4's kind is the constant [Immediate8]; setting it to any
    other kind, and reading or writing an operand outside 0..4, panics. *)
Theorem op_kind_errors (i : Instruction) (n : Z) (k : OpKind.OpKind) :
  op_kind i 4 = Ok OpKind.Immediate8 /\
  (k <> OpKind.Immediate8 -> set_op_kind i 4 k = Panic) /\
  (n < 0 \/ 4 < n -> op_kind i n = Panic /\ set_op_kind i n k = Panic).
Proof.
  split; [reflexivity|]. split.
  - intros Hk. unfold set_op_kind, set_op4_kind. cbn [Z.eqb Pos.eqb].
    destruct (opkind_eqb_spec k OpKind.Immediate8); [contradiction|reflexivity].
  - intros Hn. unfold op_kind, set_op_kind.
    destruct (Z.eqb_spec n 0), (Z.eqb_spec n 1), (Z.eqb_spec n 2), (Z.eqb_spec n 3),
      (Z.eqb_spec n 4); try lia. split; reflexivity.
Qed.

(** ** Code, length, code size, rounding control *)

(** [C23] [set_code] with a [Code] discriminant makes [code()] return it
    and changes no other field; [op_count] and [mnemonic] then follow the
    tables of that code. *)
Theorem code_roundtrip (i : Instruction) (c : Z) :
  0 <= c < NUMBER_OF_CODE_VALUES ->
  code (set_code i c) = Ok c /\
  (forall g, g <> FCode -> get_field g (set_code i c) = get_field g i).
Proof.
  intros Hc. pose proof code_count_fits as Hn.
  assert (fits 13 c) as Hf by (unfold fits; lia).
  split.
  - rewrite code_field, (acts_as_field_get _ _ _ i (set_code_field c Hf)).
    cbv zeta. change (field_width FCode) with 13. rewrite trunc_small by (lia || exact Hf).
    destruct (Z.ltb_spec c NUMBER_OF_CODE_VALUES); [reflexivity|lia].
  - intros g Hg. apply (acts_as_field_other _ _ _ _ _ (set_code_field c Hf)). congruence.
Qed.

(** [set_code_size] and [set_rounding_control] read back as written. *)
Theorem code_size_rounding_roundtrip (i : Instruction)
    (c : CodeSize.CodeSize) (rc : RoundingControl.RoundingControl) :
  code_size (set_code_size i c) = Ok c /\
  rounding_control (set_rounding_control i rc) = Ok rc.
Proof.
  rewrite code_size_field, rounding_control_field,
    (acts_as_field_get _ _ _ i (set_code_size_field c)),
    (acts_as_field_get _ _ _ i (set_rounding_control_field rc)).
  split; [destruct c | destruct rc]; reflexivity.
Qed.

(** [set_len(n)] keeps the low four bits: lengths 0 to 15 read back
    as written. *)
Theorem len_roundtrip (i : Instruction) (n : Z) : len (set_len i n) = n mod 16.
Proof.
  rewrite len_field, (acts_as_field_get _ _ _ i (set_len_field n)).
  cbn [field_width layout snd]. unfold as_u32.
  rewrite trunc_trunc_le, trunc_mod by lia. reflexivity.
Qed.

(** ** IP *)

Lemma set_ip_len i v : len (set_ip i v) = len i.
Proof. reflexivity. Qed.

(** The narrow views: [(v + len) as uN - len as uN] gives back a [uN] [v]. *)
Lemma ip_view_roundtrip w i v :
  0 <= w <= 64 -> fits w v ->
  wrapping_sub w (trunc w (wrapping_add 64 v (len i))) (trunc w (len i)) = v.
Proof.
  intros Hw Hv. unfold wrapping_sub, wrapping_add.
  rewrite trunc_trunc_le, trunc_sub by lia. replace (v + len i - len i) with v by lia.
  now apply trunc_small.
Qed.

(** [C25] [set_ip(v)] stores [next_ip = v + len] and [ip()] gives [v] back;
    the length is unchanged; likewise [set_ip32] / [ip32()] and
    [set_ip16] / [ip16()] give back every [u32] and [u16]. *)
Theorem ip_roundtrip (i : Instruction) (v : Z) :
  fits 64 v ->
  ip (set_ip i v) = v /\ len (set_ip i v) = len i /\
  ip32 (set_ip32 i (as_u32 v)) = as_u32 v /\ ip16 (set_ip16 i (as_u16 v)) = as_u16 v.
Proof.
  intros Hv. split; [|split; [apply set_ip_len|split]].
  - unfold ip. rewrite set_ip_len. unfold set_ip, wrapping_sub, wrapping_add.
    cbn [next_rip with_next_rip]. rewrite !trunc_mod by lia.
    rewrite Zminus_mod_idemp_l. replace (v + len i - len i) with v by lia.
    now apply Z.mod_small.
  - apply (ip_view_roundtrip 32 i); [lia | apply trunc_fits; lia].
  - apply (ip_view_roundtrip 16 i); [lia | apply trunc_fits; lia].
Qed.

(** [ip16()] is the [u16] subtraction [next_rip as u16 - len() as u16]:
    after [set_ip16(0xFFFE)] on a 3-byte instruction the low 16 bits of
    [next_rip] are 1, below the length, so the subtraction underflows (a
    panic in a debug build); wrapping, it gives back [0xFFFE]. *)
Example ip16_underflows :
  let i := set_ip16 (set_len new 3) 0xFFFE in
  as_u16 (next_rip i) < as_u16 (len i) /\ ip16 i = 0xFFFE.
Proof. vm_compute. split; reflexivity. Qed.

(** [ip16()] and [ip32()] are [ip()] truncated to 16 and 32 bits. *)
Theorem ip_narrow_views (i : Instruction) :
  ip16 i = as_u16 (ip i) /\ ip32 i = as_u32 (ip i).
Proof.
  unfold ip16, ip32, ip, as_u16, as_u32, wrapping_sub.
  rewrite !trunc_sub, !trunc_trunc_le by lia. split; reflexivity.
Qed.

(** Without wrap-around, [ip() = next_ip() - len()]; when [len()]
    exceeds [next_ip()], the [u64] subtraction wraps (it panics in a debug
    build). *)
Theorem ip_sub_len (i : Instruction) :
  fits 64 (next_rip i) ->
  (len i <= next_rip i -> ip i = next_rip i - len i) /\
  (next_rip i < len i -> ip i = next_rip i - len i + 2 ^ 64).
Proof.
  intros Hr. unfold ip, wrapping_sub. rewrite trunc_mod by lia.
  pose proof (get_bits_fits (code_flags i) 19 4 ltac:(lia) ltac:(lia)) as Hl.
  rewrite len_field. unfold get_field in *. unfold_layout. cbn [word_value].
  unfold fits in *. change (2 ^ 4) with 16 in Hl.
  split; intros H.
  - apply Z.mod_small. lia.
  - rewrite <- (Z.mod_small (next_rip i - get_bits (code_flags i) 19 4 + 2 ^ 64) (2 ^ 64))
      by lia.
    rewrite <- Zplus_mod_idemp_r, Z_mod_same_full, Z.add_0_r. reflexivity.
Qed.

(** ** Equality *)

(** [C27] [==] ignores the bookkeeping fields: an instruction compares equal
    to itself with another length, code size and next IP, while
    [eq_all_bits] tells lengths 3 and 5 apart. *)
Theorem eq_ignores_bookkeeping (i : Instruction) (n : Z) (c : CodeSize.CodeSize) (v : Z) :
  PartialEq.eq (set_next_ip (set_code_size (set_len i n) c) v) i = true /\
  eq_all_bits (set_len i 3) (set_len i 5) = false.
Proof.
  split.
  - apply partial_eq_iff. unfold clear_ignored, set_next_ip, set_code_size, set_len.
    apply mkInstruction_eq; cbn_fields; try reflexivity.
    + exact (put_bits_cleared (code_flags i) 19 4 (as_u32 n) ltac:(lia) ltac:(lia)).
    + exact (put_bits_cleared (op_kind_flags i) 30 2 (CodeSize.to_u32 c) ltac:(lia) ltac:(lia)).
  - destruct (eq_all_bits (set_len i 3) (set_len i 5)) eqn:E; [|reflexivity].
    apply eq_all_bits_iff, (f_equal len) in E. rewrite !len_roundtrip in E. discriminate.
Qed.

(** ** The accessors that read the generated tables and the segment rule *)

(** [C24] Once [code()] decodes to [c], the accessors over the generated
    tables are total: [op_count()] is [OP_COUNT[c]], between 0 and 5,
    [mnemonic()] is [c.mnemonic()], and [memory_size()] is a valid
    [MemorySize] from [SIZES], at [c] or, for a broadcast, at
    [c + NUMBER_OF_CODE_VALUES]. *)
Theorem table_accessors_total (i : Instruction) (c : Z) :
  code i = Ok c ->
  (exists n, op_count i = Ok n /\ nth_error OP_COUNT (Z.to_nat c) = Some n /\ 0 <= n <= 5) /\
  mnemonic i = Ok (to_mnemonic c) /\
  (exists s m, nth_error SIZES (Z.to_nat (if is_broadcast i then c + NUMBER_OF_CODE_VALUES else c))
                 = Some s /\ MemorySize.to_u8 m = s /\ memory_size i = Ok m).
Proof.
  intros Hc. pose proof Hc as Hc'. unfold code in Hc'. cbv zeta in Hc'.
  destruct (Z.ltb_spec (code_flags i .& CodeFlags.CODE_MASK) NUMBER_OF_CODE_VALUES);
    [|discriminate]. injection Hc' as Ec.
  assert (0 <= c) by (rewrite <- Ec; apply Z.land_nonneg; right; unfold CodeFlags.CODE_MASK; cbn; lia).
  split; [|split].
  - unfold op_count. rewrite Ec.
    destruct (nth_error OP_COUNT (Z.to_nat c)) as [n|] eqn:E.
    + exists n. split; [reflexivity|]. split; [reflexivity|].
      apply nth_error_In in E. exact (proj1 (Forall_forall _ _) op_count_range n E).
    + apply nth_error_None in E. pose proof op_count_length. lia.
  - unfold mnemonic. rewrite Hc. reflexivity.
  - pose proof sizes_length. pose proof code_count_fits.
    destruct (nth_error SIZES _) as [s|] eqn:E.
    + assert (Hs : 0 <= s < MemorySize.NUMBER_OF_MEMORY_SIZES)
        by (apply nth_error_In in E; exact (proj1 (Forall_forall _ _) sizes_valid s E)).
      exists s, (MemorySize.transmute s). split; [reflexivity|]. split.
      * apply MemorySize.to_u8_transmute; exact Hs.
      * unfold memory_size. rewrite Hc. cbn [obind]. rewrite E.
        rewrite transmute_enum_ok by (rewrite MemorySize.length_all_memory_sizes; exact Hs).
        reflexivity.
    + apply nth_error_None in E. destruct (is_broadcast i); lia.
Qed.

(** [C28] The effective segment of a memory operand: after
    [set_segment_prefix(r)] for a segment register [r] it is [r] whatever
    the base; after [set_segment_prefix(None)] it is [SS] for a
    [BP]/[EBP]/[ESP]/[RBP]/[RSP] base and [DS] for any other. *)
Theorem memory_segment_rule (i : Instruction) (r b : Register.Register) :
  (In r segment_registers ->
   memory_segment (set_memory_base (set_segment_prefix i r) b) = Ok r) /\
  memory_segment (set_memory_base (set_segment_prefix i Register.None) b) =
    Ok (if existsb (Register.eqb b)
             [Register.BP; Register.EBP; Register.ESP; Register.RBP; Register.RSP]
        then Register.SS else Register.DS).
Proof.
  assert (Hp : forall r', segment_prefix (set_memory_base (set_segment_prefix i r') b) =
                          segment_prefix (set_segment_prefix i r')) by reflexivity.
  assert (Hb : forall r', memory_base (set_memory_base (set_segment_prefix i r') b) = Ok b)
    by (intros; apply Register.transmute_u8_to_u32).
  unfold memory_segment. split.
  - intros Hr. rewrite Hp, segment_prefix_field,
      (acts_as_field_get _ _ _ i (set_segment_prefix_field r)).
    repeat (destruct Hr as [<-|Hr]; [reflexivity|]). destruct Hr.
  - rewrite Hp, segment_prefix_field, (acts_as_field_get _ _ _ i (set_segment_prefix_field _)).
    cbn -[memory_base set_memory_base set_segment_prefix]. rewrite Hb. cbn [obind].
    destruct b; reflexivity.
Qed.

(** [C34] [set_segment_prefix] does not check that its argument is a
    segment register: it stores [(r - ES + 1) & 7] for any register.  So
    [segment_prefix()] reads back the register written exactly for
    [None] and [ES]..[GS]; for any other register it reads a segment
    register or [None] (an alias: [AL] and [CR0] read as [SS], [EAX] as
    [None]), never the register written. *)
Theorem segment_prefix_aliases (i : Instruction) (r : Register.Register) :
  (segment_prefix (set_segment_prefix i r) = r <-> In r (Register.None :: segment_registers)) /\
  In (segment_prefix (set_segment_prefix i r)) (Register.None :: segment_registers).
Proof.
  rewrite segment_prefix_field, (acts_as_field_get _ _ _ i (set_segment_prefix_field r)).
  destruct r; vm_compute; split; try (split; intros H; [discriminate H || tauto | intuition discriminate]);
    repeat first [left; reflexivity | right].
Qed.

(** ** The decoder's fast paths

    The [pub(crate)] [internal_set_*] methods OR the raw encoding into
    the word without clearing the field first, which is only correct on
    a field that still holds zero, as it does in a fresh
    [Instruction::new()]. *)

Lemma kind_fits k : fits 5 (OpKind.to_u32 k).
Proof. pose proof (opkind_to_u32_range k). unfold fits; cbn; lia. Qed.

Lemma internal_set_code_agrees i c :
  get_field FCode i = 0 -> fits 13 c -> internal_set_code i c = set_code i c.
Proof.
  intros H Hc. zero_field H. unfold internal_set_code, set_code. f_equal.
  rewrite <- (Z.shiftl_0_r c) at 1 2. rewrite <- (trunc_small 13 c) at 2 by (lia || assumption).
  unfold CodeFlags.CODE_MASK. rewrite <- (Z.shiftl_0_r (_ - 1)). or_field H.
Qed.

Lemma internal_set_len_agrees i n :
  get_field FInstrLength i = 0 -> fits 4 n -> internal_set_len i n = set_len i n.
Proof.
  intros H Hn. unfold internal_set_len, set_len. zero_field H. f_equal.
  unfold as_u32 at 2. rewrite (trunc_small 32 n) by (lia || fits_tac). or_field H.
Qed.

Lemma internal_set_op_kind_agrees i k :
  (get_field FOp0Kind i = 0 -> internal_set_op0_kind i k = set_op0_kind i k) /\
  (get_field FOp1Kind i = 0 -> internal_set_op1_kind i k = set_op1_kind i k) /\
  (get_field FOp2Kind i = 0 -> internal_set_op2_kind i k = set_op2_kind i k) /\
  (get_field FOp3Kind i = 0 -> internal_set_op3_kind i k = set_op3_kind i k).
Proof.
  pose proof (kind_fits k).
  repeat split; intros H0;
    unfold internal_set_op0_kind, set_op0_kind, internal_set_op1_kind, set_op1_kind,
      internal_set_op2_kind, set_op2_kind, internal_set_op3_kind, set_op3_kind;
    zero_field H0; f_equal.
  - rewrite <- (Z.shiftl_0_r (OpKind.to_u32 k)) at 1 2.
    rewrite <- (Z.shiftl_0_r OpKindFlags.OP_KIND_MASK). or_field H0.
  - or_field H0.
  - or_field H0.
  - or_field H0.
Qed.

Lemma internal_set_code_size_agrees i c :
  get_field FCodeSize i = 0 -> internal_set_code_size i c = set_code_size i c.
Proof.
  intros H. unfold internal_set_code_size, set_code_size. zero_field H. f_equal.
  assert (fits 2 (CodeSize.to_u32 c)) by (destruct c; unfold fits; cbn; lia).
  or_field H.
Qed.

Lemma internal_set_rounding_control_agrees i rc :
  get_field FRoundingControl i = 0 ->
  internal_set_rounding_control i (RoundingControl.to_u32 rc) = set_rounding_control i rc.
Proof.
  intros H. unfold internal_set_rounding_control, set_rounding_control. zero_field H. f_equal.
  assert (fits 3 (RoundingControl.to_u32 rc)) by (destruct rc; unfold fits; cbn; lia).
  or_field H.
Qed.

Lemma internal_set_opmask_agrees i r :
  get_field FOpmask i = 0 -> In r opmask_registers ->
  internal_set_opmask i (Register.to_u32 r - Register.to_u32 Register.K0) = set_opmask i r.
Proof.
  intros H Hr. unfold internal_set_opmask, set_opmask. zero_field H. f_equal.
  cbn in Hr; repeat destruct Hr as [<-|Hr]; try contradiction; cbn -[Z.lor Z.land Z.shiftl];
    or_field H.
Qed.

Lemma internal_set_memory_displ_size_agrees i n e :
  fits 16 (memory_flags i) -> get_field FDisplSize i = 0 -> In (n, e) displ_size_encodings ->
  internal_set_memory_displ_size i e = set_memory_displ_size i n.
Proof.
  intros Hw H Hn. unfold internal_set_memory_displ_size, set_memory_displ_size. zero_field H.
  f_equal. assert (Hu : forall z, fits 16 z -> as_u16 z = z) by (intros; now apply trunc_small).
  cbn in Hn; repeat destruct Hn as [Hn|Hn]; try contradiction; injection Hn as <- <-;
    cbn -[Z.lor Z.land Z.shiftl Z.lnot as_u16];
    (rewrite (Hu (_ .| _)); [or_field H | apply fits_lor; fits_tac]).
Qed.

Lemma internal_set_memory_index_scale_agrees i n e :
  get_field FScale i = 0 -> In (n, e) index_scale_encodings ->
  internal_set_memory_index_scale i e = set_memory_index_scale i n.
Proof.
  intros H Hn. unfold internal_set_memory_index_scale, set_memory_index_scale. zero_field H.
  f_equal. unfold MemoryFlags.SCALE_MASK.
  assert (Hc : memory_flags i .& !. 3 = memory_flags i)
    by exact (clear_zero_bits _ 0 2 H ltac:(lia) ltac:(lia)).
  cbn in Hn; repeat destruct Hn as [Hn|Hn]; try contradiction; injection Hn as <- <-;
    cbn -[Z.lor Z.land Z.lnot]; rewrite ?Hc; try reflexivity; apply Z.lor_0_r.
Qed.

End WithTables.

(** ** Witnesses, on [sample_tables] *)

Lemma memory_index_scale_roundtrip_witness :
  In 4 [1; 2; 4; 8] /\ memory_index_scale (set_memory_index_scale new 4) = 4.
Proof.
  assert (H : In 4 [1; 2; 4; 8]) by (simpl; tauto).
  split; [exact H|]. exact (proj1 (memory_index_scale_roundtrip new 4 H)).
Defined.

Lemma opmask_roundtrip_witness :
  opmask (set_opmask new Register.K3) = Register.K3 /\
  has_opmask (set_opmask new Register.K3) = true.
Proof. apply (opmask_roundtrip new Register.K3). simpl; tauto. Defined.


Lemma op_kind_roundtrip_witness :
  0 <= 2 <= 3 /\ exists i', set_op_kind new 2 OpKind.Memory = Ok i' /\
    op_kind i' 2 = Ok OpKind.Memory /\ forall m, m <> 2 -> op_kind i' m = op_kind new m.
Proof. split; [lia|]. apply op_kind_roundtrip. lia. Defined.

Lemma code_roundtrip_witness :
  0 <= 42 < NUMBER_OF_CODE_VALUES /\ code (set_code new 42) = Ok 42.
Proof. split; [cbn; lia|]. apply (code_roundtrip new 42). cbn; lia. Defined.

Lemma ip_roundtrip_witness :
  fits 64 4096 /\ ip (set_ip (set_len new 3) 4096) = 4096.
Proof.
  split; [unfold fits; lia|]. apply (ip_roundtrip (set_len new 3) 4096). unfold fits; lia.
Defined.

Lemma ip_sub_len_witness :
  fits 64 (next_rip (set_next_ip (set_len new 2) 1)) /\
  ip (set_next_ip (set_len new 2) 1) = 1 - 2 + 2 ^ 64.
Proof.
  split; [unfold fits; simpl; lia|].
  apply (ip_sub_len (set_next_ip (set_len new 2) 1)); [unfold fits; simpl; lia|].
  vm_compute. reflexivity.
Defined.

Lemma table_accessors_total_witness :
  code (set_code new 42) = Ok 42 /\
  mnemonic (set_code new 42) = Ok (to_mnemonic 42).
Proof.
  assert (H : code (set_code new 42) = Ok 42) by reflexivity.
  split; [exact H|]. exact (proj1 (proj2 (table_accessors_total _ 42 H))).
Defined.

Lemma memory_segment_rule_witness :
  In Register.FS segment_registers /\
  memory_segment (set_memory_base (set_segment_prefix new Register.FS) Register.RSP) =
    Ok Register.FS.
Proof.
  assert (H : In Register.FS segment_registers) by (cbn; tauto).
  split; [exact H|]. exact (proj1 (memory_segment_rule new Register.FS Register.RSP) H).
Defined.

Lemma op_kind_errors_witness :
  set_op_kind new 4 OpKind.Register = Panic /\ op_kind new 5 = Panic.
Proof.
  split.
  - apply (proj1 (proj2 (op_kind_errors new 5 OpKind.Register))). discriminate.
  - apply (proj2 (proj2 (op_kind_errors new 5 OpKind.Register))). lia.
Defined.
