(* ===== verification/Operands.v ===== *)
(** * Immediates, branch targets and the 64-bit payload

    Models the accessors of [instruction.rs] that reinterpret the two
    32-bit words [immediate] and [mem_displ]: the typed immediates
    ([immediate8] .. [immediate64], the sign-extending [immediateNtoM]),
    [memory_address64], near and far branch targets and selector, and the
    dispatchers [immediate(operand)] / [set_immediate_*(operand, v)] that
    choose the representation from the operand's kind and panic on a kind
    that is no immediate.  Rust casts are written out: [x as u8] is
    [as_u8 x], [x as i8 as i16] is [as_i8 x], [i16 as u64] is [as_u64]. *)

From Stdlib Require Import ZArith Lia List Bool.
From S2P Require Import Prelude Register Tables Layout Instruction.
Import ListNotations.
Open Scope Z_scope.
Open Scope iced_scope.

Section Immediates.
Implicit Types (self : Instruction).

Definition immediate8 self : Z := as_u8 (immediate self).
Definition set_immediate8 self (new_value : Z) : Instruction := with_immediate self new_value.
Definition internal_set_immediate8 self (new_value : Z) : Instruction := with_immediate self new_value.
Definition immediate8_2nd self : Z := as_u8 (mem_displ self).
Definition set_immediate8_2nd self (new_value : Z) : Instruction := with_mem_displ self new_value.
Definition internal_set_immediate8_2nd self (new_value : Z) : Instruction :=
  with_mem_displ self new_value.
Definition immediate16 self : Z := as_u16 (immediate self).
Definition set_immediate16 self (new_value : Z) : Instruction := with_immediate self new_value.
Definition internal_set_immediate16 self (new_value : Z) : Instruction := with_immediate self new_value.
Definition immediate32 self : Z := immediate self.
Definition set_immediate32 self (new_value : Z) : Instruction := with_immediate self new_value.

(** [((mem_displ as u64) << 32) | immediate as u64]: a 64-bit value keeps
    its high half in [mem_displ]. *)
Definition immediate64 self : Z := (mem_displ self .<< 32) .| immediate self.
Definition set_immediate64 self (new_value : Z) : Instruction :=
  with_mem_displ (with_immediate self (as_u32 new_value)) (as_u32 (new_value .>> 32)).
Definition internal_set_immediate64_lo self (new_value : Z) : Instruction :=
  with_immediate self new_value.
Definition internal_set_immediate64_hi self (new_value : Z) : Instruction :=
  with_mem_displ self new_value.

Definition immediate8to16 self : Z := as_i8 (immediate self).
Definition set_immediate8to16 self (new_value : Z) : Instruction :=
  with_immediate self (as_u32 (as_i8 new_value)).
Definition immediate8to32 self : Z := as_i8 (immediate self).
Definition set_immediate8to32 self (new_value : Z) : Instruction :=
  with_immediate self (as_u32 (as_i8 new_value)).
Definition immediate8to64 self : Z := as_i8 (immediate self).
Definition set_immediate8to64 self (new_value : Z) : Instruction :=
  with_immediate self (as_u32 (as_i8 new_value)).
Definition immediate32to64 self : Z := as_i32 (immediate self).
Definition set_immediate32to64 self (new_value : Z) : Instruction :=
  with_immediate self (as_u32 new_value).

Definition memory_address64 self : Z := (mem_displ self .<< 32) .| immediate self.
Definition set_memory_address64 self (new_value : Z) : Instruction :=
  with_mem_displ (with_immediate self (as_u32 new_value)) (as_u32 (new_value .>> 32)).
Definition internal_set_memory_address64_lo self (new_value : Z) : Instruction :=
  with_immediate self new_value.
Definition internal_set_memory_address64_hi self (new_value : Z) : Instruction :=
  with_mem_displ self new_value.

Definition near_branch16 self : Z := as_u16 (immediate self).
Definition set_near_branch16 self (new_value : Z) : Instruction := with_immediate self new_value.
Definition internal_set_near_branch16 self (new_value : Z) : Instruction :=
  with_immediate self new_value.
Definition near_branch32 self : Z := immediate self.
Definition set_near_branch32 self (new_value : Z) : Instruction := with_immediate self new_value.
Definition near_branch64 self : Z := (mem_displ self .<< 32) .| immediate self.
Definition set_near_branch64 self (new_value : Z) : Instruction :=
  with_mem_displ (with_immediate self (as_u32 new_value)) (as_u32 (new_value .>> 32)).

(** [near_branch_target()]: the target of a near branch in operand 0, else 0. *)
Definition near_branch_target self : Outcome Z :=
  k <- op0_kind self;;
  Ok (match k with
      | OpKind.NearBranch16 => near_branch16 self
      | OpKind.NearBranch32 => near_branch32 self
      | OpKind.NearBranch64 => near_branch64 self
      | _ => 0
      end).

Definition far_branch16 self : Z := as_u16 (immediate self).
Definition set_far_branch16 self (new_value : Z) : Instruction := with_immediate self new_value.
Definition internal_set_far_branch16 self (new_value : Z) : Instruction :=
  with_immediate self new_value.
Definition far_branch32 self : Z := immediate self.
Definition set_far_branch32 self (new_value : Z) : Instruction := with_immediate self new_value.
Definition far_branch_selector self : Z := as_u16 (mem_displ self).
Definition set_far_branch_selector self (new_value : Z) : Instruction :=
  with_mem_displ self new_value.
Definition internal_set_far_branch_selector self (new_value : Z) : Instruction :=
  with_mem_displ self new_value.

(** [immediate(operand) -> u64] *)
Definition immediate_of self (operand : Z) : Outcome Z :=
  k <- op_kind self operand;;
  match k with
  | OpKind.Immediate8 => Ok (immediate8 self)
  | OpKind.Immediate8_2nd => Ok (immediate8_2nd self)
  | OpKind.Immediate16 => Ok (immediate16 self)
  | OpKind.Immediate32 => Ok (immediate32 self)
  | OpKind.Immediate64 => Ok (immediate64 self)
  | OpKind.Immediate8to16 => Ok (as_u64 (immediate8to16 self))
  | OpKind.Immediate8to32 => Ok (as_u64 (immediate8to32 self))
  | OpKind.Immediate8to64 => Ok (as_u64 (immediate8to64 self))
  | OpKind.Immediate32to64 => Ok (as_u64 (immediate32to64 self))
  | _ => Panic
  end.

(** [set_immediate_u64(operand, new_value)] *)
Definition set_immediate_u64 self (operand : Z) (new_value : Z) : Outcome Instruction :=
  k <- op_kind self operand;;
  match k with
  | OpKind.Immediate8 | OpKind.Immediate8to16 | OpKind.Immediate8to32
  | OpKind.Immediate8to64 => Ok (with_immediate self (as_u8 new_value))
  | OpKind.Immediate8_2nd => Ok (with_mem_displ self (as_u8 new_value))
  | OpKind.Immediate16 => Ok (with_immediate self (as_u16 new_value))
  | OpKind.Immediate32to64 | OpKind.Immediate32 => Ok (with_immediate self (as_u32 new_value))
  | OpKind.Immediate64 => Ok (set_immediate64 self new_value)
  | _ => Panic
  end.

(** [set_immediate_i32] / [_u32] / [_i64]: [new_value as u64], then
    [set_immediate_u64]. *)
Definition set_immediate_i32 self (operand new_value : Z) : Outcome Instruction :=
  set_immediate_u64 self operand (as_u64 new_value).
Definition set_immediate_u32 self (operand new_value : Z) : Outcome Instruction :=
  set_immediate_u64 self operand new_value.
Definition set_immediate_i64 self (operand new_value : Z) : Outcome Instruction :=
  set_immediate_u64 self operand (as_u64 new_value).

End Immediates.

(** ** What [immediate()] returns after [set_immediate_u64] *)

(** The value of an immediate operand of kind [k] written as the [u64]
    [v]: the low 8, 16, 32 or 64 bits, or the low 8 or 32 bits sign
    extended to 64 bits; [None] for a kind that is no immediate. *)
Definition immediate_spec (k : OpKind.OpKind) (v : Z) : option Z :=
  match k with
  | OpKind.Immediate8 | OpKind.Immediate8_2nd => Some (v mod 2 ^ 8)
  | OpKind.Immediate16 => Some (v mod 2 ^ 16)
  | OpKind.Immediate32 => Some (v mod 2 ^ 32)
  | OpKind.Immediate64 => Some (v mod 2 ^ 64)
  | OpKind.Immediate8to16 | OpKind.Immediate8to32 | OpKind.Immediate8to64 =>
      Some (sext 8 v mod 2 ^ 64)
  | OpKind.Immediate32to64 => Some (sext 32 v mod 2 ^ 64)
  | _ => None
  end.

Lemma sext_trunc w v : 0 <= w -> sext w (trunc w v) = sext w v.
Proof. intros. unfold sext. rewrite trunc_trunc_le by lia. reflexivity. Qed.

(** The two halves of a [u64] joined again. *)
Lemma join_halves v : (as_u32 (v .>> 32) .<< 32) .| as_u32 v = as_u64 v.
Proof.
  unfold as_u32, as_u64. bits_ext.
  rewrite Z.lor_spec, Z.shiftl_spec, (testbit_trunc 32 v i), (testbit_trunc 64 v i) by lia.
  destruct (Z.ltb_spec (i - 32) 0).
  - rewrite (Z.testbit_neg_r (trunc 32 _)) by lia.
    destruct (Z.ltb_spec i 32), (Z.ltb_spec i 64); try (exfalso; lia); reflexivity.
  - rewrite testbit_trunc, Z.shiftr_spec by lia. replace (i - 32 + 32) with i by lia.
    destruct (Z.ltb_spec (i - 32) 32), (Z.ltb_spec i 32), (Z.ltb_spec i 64);
      try (exfalso; lia); simpl; rewrite ?orb_false_r; reflexivity.
Qed.

(** Only [op_kind_flags] decides the operand kinds. *)
Lemma op_kind_same_flags i i' n :
  op_kind_flags i' = op_kind_flags i -> op_kind i' n = op_kind i n.
Proof.
  intros H. unfold op_kind, op0_kind, op1_kind, op2_kind, op3_kind. rewrite H. reflexivity.
Qed.

Lemma immediate64_set_immediate64 i v : immediate64 (set_immediate64 i v) = as_u64 v.
Proof. unfold immediate64, set_immediate64. cbn_fields. apply join_halves. Qed.

(** [C3] After [set_immediate_u64(n, v)] on an operand of immediate kind
    [k], [immediate(n)] returns [v] cut to the kind's width (sign extended
    for the [..to..] kinds); on any other kind both calls panic. *)
Theorem immediate_roundtrip (i : Instruction) (n : Z) (k : OpKind.OpKind) (v : Z) :
  op_kind i n = Ok k ->
  match immediate_spec k v with
  | Some r => exists i', set_immediate_u64 i n v = Ok i' /\ immediate_of i' n = Ok r
  | None => set_immediate_u64 i n v = Panic /\ immediate_of i n = Panic
  end.
Proof.
  intros Hk. unfold set_immediate_u64, immediate_of. rewrite Hk. cbn [obind].
  destruct k; cbn [immediate_spec]; try (split; reflexivity);
    (eexists; split; [reflexivity|]);
    rewrite (op_kind_same_flags i) by (cbn_fields; reflexivity);
    rewrite Hk; cbn [obind]; f_equal;
    unfold immediate8, immediate8_2nd, immediate16, immediate32, immediate8to16,
      immediate8to32, immediate8to64, immediate32to64, as_u8, as_u16, as_u32, as_u64,
      as_i8, as_i32; cbn_fields;
    rewrite ?immediate64_set_immediate64, ?sext_trunc, ?trunc_trunc_le by lia;
    unfold as_u64; rewrite ?trunc_mod by lia; reflexivity.
Qed.

Lemma immediate_roundtrip_witness :
  op_kind (set_op1_kind new OpKind.Immediate8to32) 1 = Ok OpKind.Immediate8to32 /\
  exists i', set_immediate_u64 (set_op1_kind new OpKind.Immediate8to32) 1 255 = Ok i' /\
             immediate_of i' 1 = Ok (2 ^ 64 - 1).
Proof.
  assert (H : op_kind (set_op1_kind new OpKind.Immediate8to32) 1 = Ok OpKind.Immediate8to32)
    by reflexivity.
  split; [exact H|]. exact (immediate_roundtrip _ 1 _ 255 H).
Defined.

(** ** Branch targets *)

Lemma op0_kind_set_op0_kind i k : op0_kind (set_op0_kind i k) = Ok k.
Proof.
  rewrite op0_kind_field, (acts_as_field_get _ _ _ _ (set_op0_kind_field k)).
  cbn [field_width layout snd]. rewrite op_kind_value_fits.
  apply opkind_transmute_to_u32.
Qed.

Lemma op0_kind_same_flags i i' :
  op_kind_flags i' = op_kind_flags i -> op0_kind i' = op0_kind i.
Proof. intros H. unfold op0_kind. rewrite H. reflexivity. Qed.

(** With operand 0 a near branch of width 16, 32 or 64 bits, the
    target written with [set_near_branchNN] is what [near_branch_target()]
    returns, cut to 16 bits for the 16-bit form and joined from the two
    32-bit halves for the 64-bit form. *)
Theorem near_branch_roundtrip (i : Instruction) (v : Z) :
  near_branch_target (set_near_branch16 (set_op0_kind i OpKind.NearBranch16) v)
    = Ok (as_u16 v) /\
  near_branch_target (set_near_branch32 (set_op0_kind i OpKind.NearBranch32) (as_u32 v))
    = Ok (as_u32 v) /\
  near_branch_target (set_near_branch64 (set_op0_kind i OpKind.NearBranch64) v)
    = Ok (as_u64 v).
Proof.
  unfold near_branch_target.
  set (i16 := set_op0_kind i OpKind.NearBranch16).
  set (i32 := set_op0_kind i OpKind.NearBranch32).
  set (i64 := set_op0_kind i OpKind.NearBranch64).
  rewrite (op0_kind_same_flags i16 (set_near_branch16 i16 v)),
    (op0_kind_same_flags i32 (set_near_branch32 i32 (as_u32 v))),
    (op0_kind_same_flags i64 (set_near_branch64 i64 v)) by (cbn_fields; reflexivity).
  subst i16 i32 i64.
  rewrite !op0_kind_set_op0_kind. cbn [obind].
  unfold near_branch16, set_near_branch16, near_branch32, set_near_branch32,
    near_branch64, set_near_branch64. cbn_fields.
  rewrite join_halves. repeat split.
Qed.

(** A first operand that is no near branch has target 0. *)
Theorem near_branch_target_other (i : Instruction) (k : OpKind.OpKind) :
  k <> OpKind.NearBranch16 -> k <> OpKind.NearBranch32 -> k <> OpKind.NearBranch64 ->
  near_branch_target (set_op0_kind i k) = Ok 0.
Proof.
  intros H16 H32 H64. unfold near_branch_target. rewrite op0_kind_set_op0_kind.
  cbn [obind]. destruct k; congruence.
Qed.

(** The example of the specification: a 64-bit immediate written as 0 or
    as [0xFFFF_FFFF_FFFF_FFFF] reads back unchanged through [immediate(0)]. *)
Example immediate64_spec_example :
  immediate_of (set_op0_kind (set_immediate64 new 0) OpKind.Immediate64) 0 = Ok 0 /\
  immediate_of (set_op0_kind (set_immediate64 new (2 ^ 64 - 1)) OpKind.Immediate64) 0
    = Ok (2 ^ 64 - 1).
Proof. split; vm_compute; reflexivity. Qed.

Lemma near_branch_target_other_witness :
  (OpKind.Immediate8 <> OpKind.NearBranch16 /\ OpKind.Immediate8 <> OpKind.NearBranch32 /\
   OpKind.Immediate8 <> OpKind.NearBranch64) /\
  near_branch_target (set_op0_kind new OpKind.Immediate8) = Ok 0.
Proof.
  split; [repeat split; discriminate|].
  apply near_branch_target_other; discriminate.
Defined.
