(* ===== verification/DeclareData.v ===== *)
(** * Declare-data directives: [db], [dw], [dd], [dq]

    Models [declare_data_len] and the [get/set_declare_{byte,word,dword,qword}_value]
    accessors of [instruction.rs].  A declare-data pseudo instruction keeps
    its payload in the storage that other instructions use for operands:
    bytes 0..3 are [reg0..reg3], 4..7 [immediate], 8..11 [mem_displ], 12
    [mem_base_reg], 13 [mem_index_reg] and 14..15 the low half of
    [op_kind_flags].  The abstract view [overlay] reads these sixteen bytes
    as one little-endian 128-bit number; the theorems show that every
    accessor reads or writes the bit range of [overlay] its index names
    (a refinement), from which the round trips and the independence of
    distinct slots follow.  Out-of-range indices panic. *)

From Stdlib Require Import ZArith Lia List Bool.
From S2P Require Import Prelude Register Tables Layout Instruction.
Import ListNotations.
Open Scope Z_scope.
Open Scope iced_scope.

Implicit Types (self : Instruction).

(** ** The accessors, as written in [instruction.rs] *)

Definition declare_data_len self : Z :=
  ((op_kind_flags self .>> OpKindFlags.DATA_LENGTH_SHIFT) .& OpKindFlags.DATA_LENGTH_MASK) + 1.

Definition set_declare_data_len self (new_value : Z) : Instruction :=
  with_op_kind_flags self
    ((op_kind_flags self .& !. (OpKindFlags.DATA_LENGTH_MASK .<< OpKindFlags.DATA_LENGTH_SHIFT))
     .| ((as_u32 (new_value - 1) .& OpKindFlags.DATA_LENGTH_MASK)
           .<< OpKindFlags.DATA_LENGTH_SHIFT)).

(** [(new_value - 1) << DATA_LENGTH_SHIFT] on [u32], wrapping as a release
    build does. *)
Definition internal_set_declare_data_len self (new_value : Z) : Instruction :=
  with_op_kind_flags self
    (op_kind_flags self .| as_u32 (wrapping_sub 32 new_value 1 .<< OpKindFlags.DATA_LENGTH_SHIFT)).

Definition set_declare_byte_value self (index new_value : Z) : Outcome Instruction :=
  match index with
  | 0 => Ok (with_reg0 self new_value)
  | 1 => Ok (with_reg1 self new_value)
  | 2 => Ok (with_reg2 self new_value)
  | 3 => Ok (with_reg3 self new_value)
  | 4 => Ok (with_immediate self ((immediate self .& 0xFFFFFF00) .| new_value))
  | 5 => Ok (with_immediate self ((immediate self .& 0xFFFF00FF) .| (new_value .<< 8)))
  | 6 => Ok (with_immediate self ((immediate self .& 0xFF00FFFF) .| (new_value .<< 16)))
  | 7 => Ok (with_immediate self ((immediate self .& 0x00FFFFFF) .| (new_value .<< 24)))
  | 8 => Ok (with_mem_displ self ((mem_displ self .& 0xFFFFFF00) .| new_value))
  | 9 => Ok (with_mem_displ self ((mem_displ self .& 0xFFFF00FF) .| (new_value .<< 8)))
  | 10 => Ok (with_mem_displ self ((mem_displ self .& 0xFF00FFFF) .| (new_value .<< 16)))
  | 11 => Ok (with_mem_displ self ((mem_displ self .& 0x00FFFFFF) .| (new_value .<< 24)))
  | 12 => Ok (with_mem_base_reg self new_value)
  | 13 => Ok (with_mem_index_reg self new_value)
  | 14 => Ok (with_op_kind_flags self ((op_kind_flags self .& 0xFFFFFF00) .| new_value))
  | 15 => Ok (with_op_kind_flags self ((op_kind_flags self .& 0xFFFF00FF) .| (new_value .<< 8)))
  | _ => Panic
  end.

Definition set_declare_byte_value_i8 self (index new_value : Z) : Outcome Instruction :=
  set_declare_byte_value self index (as_u8 new_value).

Definition get_declare_byte_value self (index : Z) : Outcome Z :=
  match index with
  | 0 => Ok (reg0 self)
  | 1 => Ok (reg1 self)
  | 2 => Ok (reg2 self)
  | 3 => Ok (reg3 self)
  | 4 => Ok (as_u8 (immediate self))
  | 5 => Ok (as_u8 (immediate self .>> 8))
  | 6 => Ok (as_u8 (immediate self .>> 16))
  | 7 => Ok (as_u8 (immediate self .>> 24))
  | 8 => Ok (as_u8 (mem_displ self))
  | 9 => Ok (as_u8 (mem_displ self .>> 8))
  | 10 => Ok (as_u8 (mem_displ self .>> 16))
  | 11 => Ok (as_u8 (mem_displ self .>> 24))
  | 12 => Ok (mem_base_reg self)
  | 13 => Ok (mem_index_reg self)
  | 14 => Ok (as_u8 (op_kind_flags self))
  | 15 => Ok (as_u8 (op_kind_flags self .>> 8))
  | _ => Panic
  end.

Definition set_declare_word_value self (index new_value : Z) : Outcome Instruction :=
  match index with
  | 0 => Ok (with_reg1 (with_reg0 self (as_u8 new_value)) (as_u8 (new_value .>> 8)))
  | 1 => Ok (with_reg3 (with_reg2 self (as_u8 new_value)) (as_u8 (new_value .>> 8)))
  | 2 => Ok (with_immediate self ((immediate self .& 0xFFFF0000) .| new_value))
  | 3 => Ok (with_immediate self (as_u16 (immediate self) .| (new_value .<< 16)))
  | 4 => Ok (with_mem_displ self ((mem_displ self .& 0xFFFF0000) .| new_value))
  | 5 => Ok (with_mem_displ self (as_u16 (mem_displ self) .| (new_value .<< 16)))
  | 6 => Ok (with_mem_index_reg (with_mem_base_reg self (as_u8 new_value))
                                 (as_u8 (new_value .>> 8)))
  | 7 => Ok (with_op_kind_flags self ((op_kind_flags self .& 0xFFFF0000) .| new_value))
  | _ => Panic
  end.

Definition set_declare_word_value_i16 self (index new_value : Z) : Outcome Instruction :=
  set_declare_word_value self index (as_u16 new_value).

(** [(x as u16) << 8] is a [u16] shift: [as_u16] keeps its wrap-around. *)
Definition get_declare_word_value self (index : Z) : Outcome Z :=
  match index with
  | 0 => Ok (reg0 self .| as_u16 (reg1 self .<< 8))
  | 1 => Ok (reg2 self .| as_u16 (reg3 self .<< 8))
  | 2 => Ok (as_u16 (immediate self))
  | 3 => Ok (as_u16 (immediate self .>> 16))
  | 4 => Ok (as_u16 (mem_displ self))
  | 5 => Ok (as_u16 (mem_displ self .>> 16))
  | 6 => Ok (mem_base_reg self .| as_u16 (mem_index_reg self .<< 8))
  | 7 => Ok (as_u16 (op_kind_flags self))
  | _ => Panic
  end.

Definition set_declare_dword_value self (index new_value : Z) : Outcome Instruction :=
  match index with
  | 0 => Ok (with_reg3 (with_reg2 (with_reg1 (with_reg0 self (as_u8 new_value))
                                     (as_u8 (new_value .>> 8)))
                         (as_u8 (new_value .>> 16)))
             (as_u8 (new_value .>> 24)))
  | 1 => Ok (with_immediate self new_value)
  | 2 => Ok (with_mem_displ self new_value)
  | 3 => Ok (with_op_kind_flags
               (with_mem_index_reg (with_mem_base_reg self (as_u8 new_value))
                                   (as_u8 (new_value .>> 8)))
               ((op_kind_flags self .& 0xFFFF0000) .| (new_value .>> 16)))
  | _ => Panic
  end.

Definition set_declare_dword_value_i32 self (index new_value : Z) : Outcome Instruction :=
  set_declare_dword_value self index (as_u32 new_value).

Definition get_declare_dword_value self (index : Z) : Outcome Z :=
  match index with
  | 0 => Ok (reg0 self .| as_u32 (reg1 self .<< 8) .| as_u32 (reg2 self .<< 16)
             .| as_u32 (reg3 self .<< 24))
  | 1 => Ok (immediate self)
  | 2 => Ok (mem_displ self)
  | 3 => Ok (mem_base_reg self .| as_u32 (mem_index_reg self .<< 8)
             .| as_u32 (op_kind_flags self .<< 16))
  | _ => Panic
  end.

Definition set_declare_qword_value self (index new_value : Z) : Outcome Instruction :=
  match index with
  | 0 => Ok (with_immediate
               (with_reg3 (with_reg2 (with_reg1 (with_reg0 self (as_u8 new_value))
                                        (as_u8 (new_value .>> 8)))
                            (as_u8 (new_value .>> 16)))
                  (as_u8 (new_value .>> 24)))
               (as_u32 (new_value .>> 32)))
  | 1 => Ok (with_op_kind_flags
               (with_mem_index_reg
                  (with_mem_base_reg (with_mem_displ self (as_u32 new_value))
                                     (as_u8 (new_value .>> 32)))
                  (as_u8 (new_value .>> 40)))
               ((op_kind_flags self .& 0xFFFF0000) .| as_u32 (new_value .>> 48)))
  | _ => Panic
  end.

Definition set_declare_qword_value_i64 self (index new_value : Z) : Outcome Instruction :=
  set_declare_qword_value self index (as_u64 new_value).

Definition get_declare_qword_value self (index : Z) : Outcome Z :=
  match index with
  | 0 => Ok (reg0 self .| as_u64 (reg1 self .<< 8) .| as_u64 (reg2 self .<< 16)
             .| as_u64 (reg3 self .<< 24) .| as_u64 (immediate self .<< 32))
  | 1 => Ok (mem_displ self .| as_u64 (mem_base_reg self .<< 32)
             .| as_u64 (mem_index_reg self .<< 40) .| as_u64 (op_kind_flags self .<< 48))
  | _ => Panic
  end.

(** ** The abstract view: sixteen bytes as one little-endian number *)

Definition overlay self : Z :=
  reg0 self .| (reg1 self .<< 8) .| (reg2 self .<< 16) .| (reg3 self .<< 24)
  .| (immediate self .<< 32) .| (mem_displ self .<< 64)
  .| (mem_base_reg self .<< 96) .| (mem_index_reg self .<< 104)
  .| (as_u16 (op_kind_flags self) .<< 112).

(** The part of the storage outside the overlay. *)
Definition outside_overlay (i i' : Instruction) : Prop :=
  next_rip i' = next_rip i /\ code_flags i' = code_flags i /\
  memory_flags i' = memory_flags i /\
  op_kind_flags i' .>> 16 = op_kind_flags i .>> 16.

(** A write of the [w]-bit value [v] at bit [off] of the overlay: the new
    instruction is well formed, its overlay is the old one with that range
    replaced, and nothing outside the overlay changed. *)
Definition declare_write (i i' : Instruction) (off w v : Z) : Prop :=
  wf i' /\ overlay i' = put_bits (overlay i) off w v /\ outside_overlay i i'.

(** The bytes a write of [q] bytes at byte [p] leaves in the byte view. *)
Definition written_byte (p q v b : Z) (old : Outcome Z) : Outcome Z :=
  if (p <=? b) && (b <? p + q) then Ok (get_bits v (8 * (b - p)) 8) else old.

(** ** Bits of the overlay *)

Ltac destruct_wf H :=
  destruct H as (Hrip & Hcf & Hokf & Himm & Hdispl & Hmf & Hbase & Hindex & Hr0 & Hr1 & Hr2 & Hr3).

Lemma testbit_overlay i j :
  wf i -> 0 <= j ->
  Z.testbit (overlay i) j =
    if j <? 8 then Z.testbit (reg0 i) j
    else if j <? 16 then Z.testbit (reg1 i) (j - 8)
    else if j <? 24 then Z.testbit (reg2 i) (j - 16)
    else if j <? 32 then Z.testbit (reg3 i) (j - 24)
    else if j <? 64 then Z.testbit (immediate i) (j - 32)
    else if j <? 96 then Z.testbit (mem_displ i) (j - 64)
    else if j <? 104 then Z.testbit (mem_base_reg i) (j - 96)
    else if j <? 112 then Z.testbit (mem_index_reg i) (j - 104)
    else if j <? 128 then Z.testbit (op_kind_flags i) (j - 112)
    else false.
Proof.
  intros Hwf Hj. destruct_wf Hwf. unfold overlay, as_u16.
  bit_crunch.
Qed.

(** Split [lo <= n < hi] into the cases [n = lo], ..., [n = hi - 1]. *)
Ltac enum_index n lo hi :=
  lazymatch eval vm_compute in (lo <? hi) with
  | true => destruct (Z.eq_dec n lo) as [->|?];
            [| let k := eval vm_compute in (lo + 1) in enum_index n k hi]
  | false => exfalso; lia
  end.

Ltac rewrite_overlay :=
  repeat match goal with
         | |- context [Z.testbit (overlay ?x) ?e] =>
             rewrite (testbit_overlay x e) by (assumption || lia)
         end.

Ltac overlay_solve := bits_ext; bit_rewrite; rewrite_overlay; cbn_fields; bit_crunch.

(** ** The accessors read and write bit ranges of the overlay *)

(** The masks of the setters as ranges of ones. *)
Lemma declare_masks :
  0xFFFFFF00 = Z.ones 24 .<< 8 /\ 0xFFFF00FF = (Z.ones 16 .<< 16) .| Z.ones 8 /\
  0xFF00FFFF = (Z.ones 8 .<< 24) .| Z.ones 16 /\ 0x00FFFFFF = Z.ones 24 /\
  0xFFFF0000 = Z.ones 16 .<< 16.
Proof. repeat split. Qed.

Ltac split_conj := repeat match goal with |- _ /\ _ => split end.

Ltac fits_solve :=
  match goal with
  | |- fits ?w ?z => apply (fits_trunc w z); [lia|]; bit_solve
  end.

Ltac declare_set_case :=
  eexists; split; [reflexivity|];
  destruct declare_masks as (M1 & M2 & M3 & M4 & M5);
  rewrite ?M1, ?M2, ?M3, ?M4, ?M5; clear M1 M2 M3 M4 M5;
  unfold declare_write;
  match goal with
  | |- wf ?x /\ _ =>
      assert (Hx : wf x) by (unfold wf; cbn_fields; split_conj; try assumption; fits_solve);
      split; [exact Hx | split]
  end;
  [ overlay_solve
  | unfold outside_overlay; cbn_fields; split_conj; first [reflexivity | bit_solve] ].

Section Views.
Variable i : Instruction.
Hypothesis Hwf : wf i.

Lemma get_byte_overlay n :
  0 <= n < 16 -> get_declare_byte_value i n = Ok (get_bits (overlay i) (8 * n) 8).
Proof.
  intros Hn. pose proof Hwf as Hf. destruct_wf Hf.
  enum_index n 0 16; cbn [get_declare_byte_value]; f_equal; overlay_solve.
Qed.

Lemma get_word_overlay n :
  0 <= n < 8 -> get_declare_word_value i n = Ok (get_bits (overlay i) (16 * n) 16).
Proof.
  intros Hn. pose proof Hwf as Hf. destruct_wf Hf.
  enum_index n 0 8; cbn [get_declare_word_value]; f_equal; overlay_solve.
Qed.

Lemma get_dword_overlay n :
  0 <= n < 4 -> get_declare_dword_value i n = Ok (get_bits (overlay i) (32 * n) 32).
Proof.
  intros Hn. pose proof Hwf as Hf. destruct_wf Hf.
  enum_index n 0 4; cbn [get_declare_dword_value]; f_equal; overlay_solve.
Qed.

Lemma get_qword_overlay n :
  0 <= n < 2 -> get_declare_qword_value i n = Ok (get_bits (overlay i) (64 * n) 64).
Proof.
  intros Hn. pose proof Hwf as Hf. destruct_wf Hf.
  enum_index n 0 2; cbn [get_declare_qword_value]; f_equal; overlay_solve.
Qed.

End Views.

Section Writes.
Variable i : Instruction.
Hypothesis Hwf : wf i.
Variable v : Z.

Lemma set_byte_overlay n :
  0 <= n < 16 -> fits 8 v ->
  exists i', set_declare_byte_value i n v = Ok i' /\ declare_write i i' (8 * n) 8 v.
Proof.
  intros Hn Hv. pose proof Hwf as Hf. destruct_wf Hf.
  enum_index n 0 16; declare_set_case.
Qed.

Lemma set_word_overlay n :
  0 <= n < 8 -> fits 16 v ->
  exists i', set_declare_word_value i n v = Ok i' /\ declare_write i i' (16 * n) 16 v.
Proof.
  intros Hn Hv. pose proof Hwf as Hf. destruct_wf Hf.
  enum_index n 0 8; declare_set_case.
Qed.

Lemma set_dword_overlay n :
  0 <= n < 4 -> fits 32 v ->
  exists i', set_declare_dword_value i n v = Ok i' /\ declare_write i i' (32 * n) 32 v.
Proof.
  intros Hn Hv. pose proof Hwf as Hf. destruct_wf Hf.
  enum_index n 0 4; declare_set_case.
Qed.

Lemma set_qword_overlay n :
  0 <= n < 2 -> fits 64 v ->
  exists i', set_declare_qword_value i n v = Ok i' /\ declare_write i i' (64 * n) 64 v.
Proof.
  intros Hn Hv. pose proof Hwf as Hf. destruct_wf Hf.
  enum_index n 0 2; declare_set_case.
Qed.

(** A payload write that completes had an index in range. *)
Lemma set_byte_index n i' : set_declare_byte_value i n v = Ok i' -> 0 <= n < 16.
Proof.
  intros H. destruct n as [|p|p]; [lia| |discriminate]. do 4 (try destruct p as [p|p|]);
    try discriminate; lia.
Qed.

Lemma set_word_index n i' : set_declare_word_value i n v = Ok i' -> 0 <= n < 8.
Proof.
  intros H. destruct n as [|p|p]; [lia| |discriminate]. do 3 (try destruct p as [p|p|]);
    try discriminate; lia.
Qed.

Lemma set_dword_index n i' : set_declare_dword_value i n v = Ok i' -> 0 <= n < 4.
Proof.
  intros H. destruct n as [|p|p]; [lia| |discriminate]. do 2 (try destruct p as [p|p|]);
    try discriminate; lia.
Qed.

Lemma set_qword_index n i' : set_declare_qword_value i n v = Ok i' -> 0 <= n < 2.
Proof.
  intros H. destruct n as [|p|p]; [lia| |discriminate]. try destruct p as [p|p|];
    try discriminate; lia.
Qed.

(** A completed payload write keeps every field within its width. *)
Lemma set_byte_wf n i' : fits 8 v -> set_declare_byte_value i n v = Ok i' -> wf i'.
Proof.
  intros Hv He. destruct (set_byte_overlay n (set_byte_index n i' He) Hv) as (i'' & E & Hw & _).
  rewrite E in He. injection He as <-. exact Hw.
Qed.

Lemma set_word_wf n i' : fits 16 v -> set_declare_word_value i n v = Ok i' -> wf i'.
Proof.
  intros Hv He. destruct (set_word_overlay n (set_word_index n i' He) Hv) as (i'' & E & Hw & _).
  rewrite E in He. injection He as <-. exact Hw.
Qed.

Lemma set_dword_wf n i' : fits 32 v -> set_declare_dword_value i n v = Ok i' -> wf i'.
Proof.
  intros Hv He. destruct (set_dword_overlay n (set_dword_index n i' He) Hv) as (i'' & E & Hw & _).
  rewrite E in He. injection He as <-. exact Hw.
Qed.

Lemma set_qword_wf n i' : fits 64 v -> set_declare_qword_value i n v = Ok i' -> wf i'.
Proof.
  intros Hv He. destruct (set_qword_overlay n (set_qword_index n i' He) Hv) as (i'' & E & Hw & _).
  rewrite E in He. injection He as <-. exact Hw.
Qed.

End Writes.

(** ** Refinement *)

(** [C5] On a well-formed instruction, [get_declare_byte_value(n)],
    [_word_value(n)], [_dword_value(n)] and [_qword_value(n)] read bits
    [w*n .. w*n + w - 1] of the overlay, for [w] = 8, 16, 32, 64 and every
    index in range. *)
Theorem declare_get_refines (i : Instruction) :
  wf i ->
  (forall n, 0 <= n < 16 -> get_declare_byte_value i n = Ok (get_bits (overlay i) (8 * n) 8)) /\
  (forall n, 0 <= n < 8 -> get_declare_word_value i n = Ok (get_bits (overlay i) (16 * n) 16)) /\
  (forall n, 0 <= n < 4 -> get_declare_dword_value i n = Ok (get_bits (overlay i) (32 * n) 32)) /\
  (forall n, 0 <= n < 2 -> get_declare_qword_value i n = Ok (get_bits (overlay i) (64 * n) 64)).
Proof.
  intros Hwf. split; [|split; [|split]]; intros n Hn.
  - apply (get_byte_overlay i Hwf n Hn).
  - apply (get_word_overlay i Hwf n Hn).
  - apply (get_dword_overlay i Hwf n Hn).
  - apply (get_qword_overlay i Hwf n Hn).
Qed.

(** [C4] On a well-formed instruction, [set_declare_byte_value(n, v)],
    [_word_value], [_dword_value] and [_qword_value] with an index in range
    and a value of the argument's type write [v] over bits
    [w*n .. w*n + w - 1] of the overlay and change nothing else. *)
Theorem declare_set_refines (i : Instruction) (v : Z) :
  wf i ->
  (forall n, 0 <= n < 16 -> fits 8 v ->
     exists i', set_declare_byte_value i n v = Ok i' /\ declare_write i i' (8 * n) 8 v) /\
  (forall n, 0 <= n < 8 -> fits 16 v ->
     exists i', set_declare_word_value i n v = Ok i' /\ declare_write i i' (16 * n) 16 v) /\
  (forall n, 0 <= n < 4 -> fits 32 v ->
     exists i', set_declare_dword_value i n v = Ok i' /\ declare_write i i' (32 * n) 32 v) /\
  (forall n, 0 <= n < 2 -> fits 64 v ->
     exists i', set_declare_qword_value i n v = Ok i' /\ declare_write i i' (64 * n) 64 v).
Proof.
  intros Hwf. split; [|split; [|split]]; intros n Hn Hv.
  - apply (set_byte_overlay i Hwf v n Hn Hv).
  - apply (set_word_overlay i Hwf v n Hn Hv).
  - apply (set_dword_overlay i Hwf v n Hn Hv).
  - apply (set_qword_overlay i Hwf v n Hn Hv).
Qed.

Lemma set_declare_data_len_eq n i :
  set_declare_data_len i n = set_field FDataLength (as_u32 (n - 1)) i.
Proof.
  unfold set_declare_data_len, set_field, put_bits. unfold_layout. cbn [word_value set_word].
  reflexivity.
Qed.

Lemma set_declare_data_len_field n :
  acts_as_field (fun i => set_declare_data_len i n) FDataLength (as_u32 (n - 1)).
Proof. apply acts_as_set_field. intros i. apply set_declare_data_len_eq. Qed.

(** ** Consequences *)

Lemma read_after_write i i' off w v :
  declare_write i i' off w v -> 0 <= off -> 0 <= w -> fits w v ->
  get_bits (overlay i') off w = v.
Proof.
  intros (_ & Ho & _) Hoff Hw Hv. rewrite Ho, get_put_same by lia.
  apply trunc_small; assumption.
Qed.

Lemma read_beside_write i i' off w v off' w' :
  declare_write i i' off w v -> 0 <= off -> 0 <= w -> 0 <= off' -> 0 <= w' ->
  off' + w' <= off \/ off + w <= off' ->
  get_bits (overlay i') off' w' = get_bits (overlay i) off' w'.
Proof. intros (_ & Ho & _) ? ? ? ? ?. rewrite Ho. apply get_put_other; assumption. Qed.

(** [C17] Writing a value of the slot's width at an index in range and
    reading the same slot back returns the value, for all four widths. *)
Theorem declare_roundtrip (i : Instruction) (n v : Z) :
  wf i ->
  (0 <= n < 16 -> fits 8 v -> exists i', set_declare_byte_value i n v = Ok i' /\
      get_declare_byte_value i' n = Ok v) /\
  (0 <= n < 8 -> fits 16 v -> exists i', set_declare_word_value i n v = Ok i' /\
      get_declare_word_value i' n = Ok v) /\
  (0 <= n < 4 -> fits 32 v -> exists i', set_declare_dword_value i n v = Ok i' /\
      get_declare_dword_value i' n = Ok v) /\
  (0 <= n < 2 -> fits 64 v -> exists i', set_declare_qword_value i n v = Ok i' /\
      get_declare_qword_value i' n = Ok v).
Proof.
  intros Hwf. split; [|split; [|split]]; intros Hn Hv.
  - destruct (set_byte_overlay i Hwf v n Hn Hv) as (i' & Hs & Hw).
    exists i'. split; [exact Hs|]. rewrite (get_byte_overlay i' (proj1 Hw) n Hn).
    f_equal. apply (read_after_write i); (assumption || lia).
  - destruct (set_word_overlay i Hwf v n Hn Hv) as (i' & Hs & Hw).
    exists i'. split; [exact Hs|]. rewrite (get_word_overlay i' (proj1 Hw) n Hn).
    f_equal. apply (read_after_write i); (assumption || lia).
  - destruct (set_dword_overlay i Hwf v n Hn Hv) as (i' & Hs & Hw).
    exists i'. split; [exact Hs|]. rewrite (get_dword_overlay i' (proj1 Hw) n Hn).
    f_equal. apply (read_after_write i); (assumption || lia).
  - destruct (set_qword_overlay i Hwf v n Hn Hv) as (i' & Hs & Hw).
    exists i'. split; [exact Hs|]. rewrite (get_qword_overlay i' (proj1 Hw) n Hn).
    f_equal. apply (read_after_write i); (assumption || lia).
Qed.

Lemma byte_after_write i i' p q v b :
  declare_write i i' (8 * p) (8 * q) v -> 0 <= p -> 0 <= q -> 0 <= b ->
  get_bits (overlay i') (8 * b) 8 =
    if (p <=? b) && (b <? p + q) then get_bits v (8 * (b - p)) 8
    else get_bits (overlay i) (8 * b) 8.
Proof.
  intros Hw Hp Hq Hb. destruct (Z.leb_spec p b), (Z.ltb_spec b (p + q)); cbn [andb].
  - destruct Hw as (_ & Ho & _). rewrite Ho, get_put_inner by lia. f_equal. lia.
  - apply (read_beside_write i i' (8 * p) (8 * q) v); [exact Hw | lia ..].
  - apply (read_beside_write i i' (8 * p) (8 * q) v); [exact Hw | lia ..].
  - apply (read_beside_write i i' (8 * p) (8 * q) v); [exact Hw | lia ..].
Qed.

Lemma byte_view_after_write i i' p q v b :
  wf i -> declare_write i i' (8 * p) (8 * q) v -> 0 <= p -> 0 <= q -> 0 <= b < 16 ->
  get_declare_byte_value i' b = written_byte p q v b (get_declare_byte_value i b).
Proof.
  intros Hwf Hw Hp Hq Hb.
  rewrite (get_byte_overlay i' (proj1 Hw) b Hb), (get_byte_overlay i Hwf b Hb).
  unfold written_byte. rewrite (byte_after_write i i' p q v b Hw) by lia.
  destruct (_ && _); reflexivity.
Qed.

(** [C18] The byte view sees every write: after a write of a [q]-byte value
    at slot [n] (byte offset [q*n]), byte [b] is byte [b - q*n] of the
    value when it lies in the slot, and what it was before otherwise. *)
Theorem declare_byte_view (i : Instruction) (n v b : Z) :
  wf i -> 0 <= b < 16 ->
  (0 <= n < 16 -> fits 8 v -> exists i', set_declare_byte_value i n v = Ok i' /\
     get_declare_byte_value i' b = written_byte n 1 v b (get_declare_byte_value i b)) /\
  (0 <= n < 8 -> fits 16 v -> exists i', set_declare_word_value i n v = Ok i' /\
     get_declare_byte_value i' b = written_byte (2 * n) 2 v b (get_declare_byte_value i b)) /\
  (0 <= n < 4 -> fits 32 v -> exists i', set_declare_dword_value i n v = Ok i' /\
     get_declare_byte_value i' b = written_byte (4 * n) 4 v b (get_declare_byte_value i b)) /\
  (0 <= n < 2 -> fits 64 v -> exists i', set_declare_qword_value i n v = Ok i' /\
     get_declare_byte_value i' b = written_byte (8 * n) 8 v b (get_declare_byte_value i b)).
Proof.
  intros Hwf Hb. split; [|split; [|split]]; intros Hn Hv.
  - destruct (set_byte_overlay i Hwf v n Hn Hv) as (i' & Hs & Hw). exists i'.
    split; [exact Hs|]. replace 8 with (8 * 1) in Hw at 2 by lia.
    apply byte_view_after_write; (assumption || lia).
  - destruct (set_word_overlay i Hwf v n Hn Hv) as (i' & Hs & Hw). exists i'.
    split; [exact Hs|]. replace (16 * n) with (8 * (2 * n)) in Hw by lia.
    replace 16 with (8 * 2) in Hw by lia. apply byte_view_after_write; (assumption || lia).
  - destruct (set_dword_overlay i Hwf v n Hn Hv) as (i' & Hs & Hw). exists i'.
    split; [exact Hs|]. replace (32 * n) with (8 * (4 * n)) in Hw by lia.
    replace 32 with (8 * 4) in Hw by lia. apply byte_view_after_write; (assumption || lia).
  - destruct (set_qword_overlay i Hwf v n Hn Hv) as (i' & Hs & Hw). exists i'.
    split; [exact Hs|]. replace (64 * n) with (8 * (8 * n)) in Hw by lia.
    replace 64 with (8 * 8) in Hw by lia. apply byte_view_after_write; (assumption || lia).
Qed.

(** [C33] An index outside a view's range panics, for reads and writes of
    all four widths. *)
Theorem declare_index_out_of_range (i : Instruction) (n v : Z) :
  ((n < 0 \/ 16 <= n) -> get_declare_byte_value i n = Panic /\ set_declare_byte_value i n v = Panic) /\
  ((n < 0 \/ 8 <= n) -> get_declare_word_value i n = Panic /\ set_declare_word_value i n v = Panic) /\
  ((n < 0 \/ 4 <= n) -> get_declare_dword_value i n = Panic /\ set_declare_dword_value i n v = Panic) /\
  ((n < 0 \/ 2 <= n) -> get_declare_qword_value i n = Panic /\ set_declare_qword_value i n v = Panic).
Proof.
  split; [|split; [|split]]; intros Hn;
    (destruct n as [|p|p]; [lia | | split; reflexivity]);
    do 4 (try destruct p as [p|p|]); (split; reflexivity) || lia.
Qed.

(** [declare_data_len()] is always in 1..16; [set_declare_data_len(n)]
    stores [n - 1] in four bits, so it reads back as [(n - 1) mod 16 + 1],
    and it leaves the payload bytes alone. *)
Theorem declare_data_len_roundtrip (i : Instruction) (n : Z) :
  1 <= declare_data_len i <= 16 /\
  declare_data_len (set_declare_data_len i n) = (n - 1) mod 16 + 1 /\
  overlay (set_declare_data_len i n) = overlay i.
Proof.
  unfold declare_data_len, set_declare_data_len, overlay, OpKindFlags.DATA_LENGTH_MASK,
    OpKindFlags.DATA_LENGTH_SHIFT.
  change 15 with (Z.ones 4). cbn_fields. split; [|split].
  - pose proof (get_bits_fits (op_kind_flags i) 20 4). unfold get_bits, fits in *. lia.
  - f_equal. rewrite <- (trunc_mod 4) by lia. bit_solve.
  - f_equal. f_equal. bit_solve.
Qed.

(** Declare-data writes reach storage that the operand accessors
    transmute into enums without a check: a byte [0xFF] at index 14 makes
    [op0_kind()] read the discriminant 31, which is no [OpKind], and a byte
    [0xFF] at index 0 makes [op0_register()] read 255, which is no
    [Register]. *)
Example declare_data_breaks_enums :
  (exists i', set_declare_byte_value new 14 0xFF = Ok i' /\ op0_kind i' = Undefined) /\
  (exists i', set_declare_byte_value new 0 0xFF = Ok i' /\ op0_register i' = Undefined).
Proof. split; eexists; split; reflexivity. Qed.

(** ** Witnesses *)

Lemma declare_get_refines_witness :
  wf new /\ get_declare_byte_value new 3 = Ok (get_bits (overlay new) (8 * 3) 8).
Proof.
  split; [exact wf_new|]. apply (proj1 (declare_get_refines new wf_new)). lia.
Defined.

Lemma declare_set_refines_witness :
  wf new /\ exists i', set_declare_word_value new 3 0xBEEF = Ok i' /\
                       declare_write new i' (16 * 3) 16 0xBEEF.
Proof.
  split; [exact wf_new|].
  apply (proj1 (proj2 (declare_set_refines new 0xBEEF wf_new)) 3); unfold fits; lia.
Defined.

Lemma declare_roundtrip_witness :
  wf new /\ exists i', set_declare_dword_value new 2 0xDEADBEEF = Ok i' /\
                       get_declare_dword_value i' 2 = Ok 0xDEADBEEF.
Proof.
  split; [exact wf_new|].
  apply (proj1 (proj2 (proj2 (declare_roundtrip new 2 0xDEADBEEF wf_new)))); unfold fits; lia.
Defined.

Lemma declare_byte_view_witness :
  wf new /\ exists i', set_declare_qword_value new 1 0x0102030405060708 = Ok i' /\
    get_declare_byte_value i' 9 =
      written_byte (8 * 1) 8 0x0102030405060708 9 (get_declare_byte_value new 9).
Proof.
  split; [exact wf_new|].
  apply (proj2 (proj2 (proj2 (declare_byte_view new 1 0x0102030405060708 9 wf_new
                                 ltac:(lia))))); unfold fits; lia.
Defined.

Lemma declare_index_out_of_range_witness :
  get_declare_byte_value new 16 = Panic /\ set_declare_byte_value new 16 0 = Panic.
Proof. apply (proj1 (declare_index_out_of_range new 16 0)). lia. Defined.
