(* ===== verification/Address.v ===== *)
(** * VSIB classification and effective addresses

    Models [vsib()], [is_vsib()], [is_vsib32()], [is_vsib64()],
    [virtual_address()] and [get_address_size_in_bytes()] of
    [instruction.rs].  [Code] is a discriminant; the gather/scatter codes
    that [vsib()] matches are the [VsibCode]s of [Tables.v], located by the
    table [code_value] of the [CodeTables] interface.  The register-value
    callback of [virtual_address] is a Rocq function argument; Rust's [u64]
    additions wrap as in a release build. *)

From Stdlib Require Import String.
From Stdlib Require Import ZArith Lia List Bool.
From S2P Require Import Prelude Register Tables Layout Instruction Operands.
Import ListNotations.
Open Scope Z_scope.
Open Scope iced_scope.

(** The arms of [vsib()]: [false] for the 32-bit-index forms, [true] for
    the 64-bit-index forms. *)
Definition vsib_is64 (c : VsibCode) : bool :=
  match c with
  | VEX_Vpgatherdd_xmm_vm32x_xmm | VEX_Vpgatherdd_ymm_vm32y_ymm | VEX_Vpgatherdq_xmm_vm32x_xmm
  | VEX_Vpgatherdq_ymm_vm32x_ymm | EVEX_Vpgatherdd_xmm_k1_vm32x | EVEX_Vpgatherdd_ymm_k1_vm32y
  | EVEX_Vpgatherdd_zmm_k1_vm32z | EVEX_Vpgatherdq_xmm_k1_vm32x | EVEX_Vpgatherdq_ymm_k1_vm32x
  | EVEX_Vpgatherdq_zmm_k1_vm32y | VEX_Vgatherdps_xmm_vm32x_xmm | VEX_Vgatherdps_ymm_vm32y_ymm
  | VEX_Vgatherdpd_xmm_vm32x_xmm | VEX_Vgatherdpd_ymm_vm32x_ymm | EVEX_Vgatherdps_xmm_k1_vm32x
  | EVEX_Vgatherdps_ymm_k1_vm32y | EVEX_Vgatherdps_zmm_k1_vm32z | EVEX_Vgatherdpd_xmm_k1_vm32x
  | EVEX_Vgatherdpd_ymm_k1_vm32x | EVEX_Vgatherdpd_zmm_k1_vm32y | EVEX_Vpscatterdd_vm32x_k1_xmm
  | EVEX_Vpscatterdd_vm32y_k1_ymm | EVEX_Vpscatterdd_vm32z_k1_zmm
  | EVEX_Vpscatterdq_vm32x_k1_xmm | EVEX_Vpscatterdq_vm32x_k1_ymm
  | EVEX_Vpscatterdq_vm32y_k1_zmm | EVEX_Vscatterdps_vm32x_k1_xmm
  | EVEX_Vscatterdps_vm32y_k1_ymm | EVEX_Vscatterdps_vm32z_k1_zmm
  | EVEX_Vscatterdpd_vm32x_k1_xmm | EVEX_Vscatterdpd_vm32x_k1_ymm
  | EVEX_Vscatterdpd_vm32y_k1_zmm | EVEX_Vgatherpf0dps_vm32z_k1 | EVEX_Vgatherpf0dpd_vm32y_k1
  | EVEX_Vgatherpf1dps_vm32z_k1 | EVEX_Vgatherpf1dpd_vm32y_k1 | EVEX_Vscatterpf0dps_vm32z_k1
  | EVEX_Vscatterpf0dpd_vm32y_k1 | EVEX_Vscatterpf1dps_vm32z_k1 | EVEX_Vscatterpf1dpd_vm32y_k1 => false
  | VEX_Vpgatherqd_xmm_vm64x_xmm | VEX_Vpgatherqd_xmm_vm64y_xmm | VEX_Vpgatherqq_xmm_vm64x_xmm
  | VEX_Vpgatherqq_ymm_vm64y_ymm | EVEX_Vpgatherqd_xmm_k1_vm64x | EVEX_Vpgatherqd_xmm_k1_vm64y
  | EVEX_Vpgatherqd_ymm_k1_vm64z | EVEX_Vpgatherqq_xmm_k1_vm64x | EVEX_Vpgatherqq_ymm_k1_vm64y
  | EVEX_Vpgatherqq_zmm_k1_vm64z | VEX_Vgatherqps_xmm_vm64x_xmm | VEX_Vgatherqps_xmm_vm64y_xmm
  | VEX_Vgatherqpd_xmm_vm64x_xmm | VEX_Vgatherqpd_ymm_vm64y_ymm | EVEX_Vgatherqps_xmm_k1_vm64x
  | EVEX_Vgatherqps_xmm_k1_vm64y | EVEX_Vgatherqps_ymm_k1_vm64z | EVEX_Vgatherqpd_xmm_k1_vm64x
  | EVEX_Vgatherqpd_ymm_k1_vm64y | EVEX_Vgatherqpd_zmm_k1_vm64z | EVEX_Vpscatterqd_vm64x_k1_xmm
  | EVEX_Vpscatterqd_vm64y_k1_xmm | EVEX_Vpscatterqd_vm64z_k1_ymm
  | EVEX_Vpscatterqq_vm64x_k1_xmm | EVEX_Vpscatterqq_vm64y_k1_ymm
  | EVEX_Vpscatterqq_vm64z_k1_zmm | EVEX_Vscatterqps_vm64x_k1_xmm
  | EVEX_Vscatterqps_vm64y_k1_xmm | EVEX_Vscatterqps_vm64z_k1_ymm
  | EVEX_Vscatterqpd_vm64x_k1_xmm | EVEX_Vscatterqpd_vm64y_k1_ymm
  | EVEX_Vscatterqpd_vm64z_k1_zmm | EVEX_Vgatherpf0qps_vm64z_k1 | EVEX_Vgatherpf0qpd_vm64z_k1
  | EVEX_Vgatherpf1qps_vm64z_k1 | EVEX_Vgatherpf1qpd_vm64z_k1 | EVEX_Vscatterpf0qps_vm64z_k1
  | EVEX_Vscatterpf0qpd_vm64z_k1 | EVEX_Vscatterpf1qps_vm64z_k1 | EVEX_Vscatterpf1qpd_vm64z_k1 => true
  end.

(** The name of each [Code] variant of [vsib()], as the generated [Code]
    enum spells it.  Intel's naming gives the index width of the VSIB
    operand: [vm32x]/[vm32y]/[vm32z] for dword indices, [vm64x]/[vm64y]/
    [vm64z] for qword indices; [vsib_index_width] reads it from the name,
    independently of the arms of [vsib()]. *)
Definition vsib_code_name (c : VsibCode) : String.string :=
  match c with
  | VEX_Vpgatherdd_xmm_vm32x_xmm => "VEX_Vpgatherdd_xmm_vm32x_xmm"%string
  | VEX_Vpgatherdd_ymm_vm32y_ymm => "VEX_Vpgatherdd_ymm_vm32y_ymm"%string
  | VEX_Vpgatherdq_xmm_vm32x_xmm => "VEX_Vpgatherdq_xmm_vm32x_xmm"%string
  | VEX_Vpgatherdq_ymm_vm32x_ymm => "VEX_Vpgatherdq_ymm_vm32x_ymm"%string
  | EVEX_Vpgatherdd_xmm_k1_vm32x => "EVEX_Vpgatherdd_xmm_k1_vm32x"%string
  | EVEX_Vpgatherdd_ymm_k1_vm32y => "EVEX_Vpgatherdd_ymm_k1_vm32y"%string
  | EVEX_Vpgatherdd_zmm_k1_vm32z => "EVEX_Vpgatherdd_zmm_k1_vm32z"%string
  | EVEX_Vpgatherdq_xmm_k1_vm32x => "EVEX_Vpgatherdq_xmm_k1_vm32x"%string
  | EVEX_Vpgatherdq_ymm_k1_vm32x => "EVEX_Vpgatherdq_ymm_k1_vm32x"%string
  | EVEX_Vpgatherdq_zmm_k1_vm32y => "EVEX_Vpgatherdq_zmm_k1_vm32y"%string
  | VEX_Vgatherdps_xmm_vm32x_xmm => "VEX_Vgatherdps_xmm_vm32x_xmm"%string
  | VEX_Vgatherdps_ymm_vm32y_ymm => "VEX_Vgatherdps_ymm_vm32y_ymm"%string
  | VEX_Vgatherdpd_xmm_vm32x_xmm => "VEX_Vgatherdpd_xmm_vm32x_xmm"%string
  | VEX_Vgatherdpd_ymm_vm32x_ymm => "VEX_Vgatherdpd_ymm_vm32x_ymm"%string
  | EVEX_Vgatherdps_xmm_k1_vm32x => "EVEX_Vgatherdps_xmm_k1_vm32x"%string
  | EVEX_Vgatherdps_ymm_k1_vm32y => "EVEX_Vgatherdps_ymm_k1_vm32y"%string
  | EVEX_Vgatherdps_zmm_k1_vm32z => "EVEX_Vgatherdps_zmm_k1_vm32z"%string
  | EVEX_Vgatherdpd_xmm_k1_vm32x => "EVEX_Vgatherdpd_xmm_k1_vm32x"%string
  | EVEX_Vgatherdpd_ymm_k1_vm32x => "EVEX_Vgatherdpd_ymm_k1_vm32x"%string
  | EVEX_Vgatherdpd_zmm_k1_vm32y => "EVEX_Vgatherdpd_zmm_k1_vm32y"%string
  | EVEX_Vpscatterdd_vm32x_k1_xmm => "EVEX_Vpscatterdd_vm32x_k1_xmm"%string
  | EVEX_Vpscatterdd_vm32y_k1_ymm => "EVEX_Vpscatterdd_vm32y_k1_ymm"%string
  | EVEX_Vpscatterdd_vm32z_k1_zmm => "EVEX_Vpscatterdd_vm32z_k1_zmm"%string
  | EVEX_Vpscatterdq_vm32x_k1_xmm => "EVEX_Vpscatterdq_vm32x_k1_xmm"%string
  | EVEX_Vpscatterdq_vm32x_k1_ymm => "EVEX_Vpscatterdq_vm32x_k1_ymm"%string
  | EVEX_Vpscatterdq_vm32y_k1_zmm => "EVEX_Vpscatterdq_vm32y_k1_zmm"%string
  | EVEX_Vscatterdps_vm32x_k1_xmm => "EVEX_Vscatterdps_vm32x_k1_xmm"%string
  | EVEX_Vscatterdps_vm32y_k1_ymm => "EVEX_Vscatterdps_vm32y_k1_ymm"%string
  | EVEX_Vscatterdps_vm32z_k1_zmm => "EVEX_Vscatterdps_vm32z_k1_zmm"%string
  | EVEX_Vscatterdpd_vm32x_k1_xmm => "EVEX_Vscatterdpd_vm32x_k1_xmm"%string
  | EVEX_Vscatterdpd_vm32x_k1_ymm => "EVEX_Vscatterdpd_vm32x_k1_ymm"%string
  | EVEX_Vscatterdpd_vm32y_k1_zmm => "EVEX_Vscatterdpd_vm32y_k1_zmm"%string
  | EVEX_Vgatherpf0dps_vm32z_k1 => "EVEX_Vgatherpf0dps_vm32z_k1"%string
  | EVEX_Vgatherpf0dpd_vm32y_k1 => "EVEX_Vgatherpf0dpd_vm32y_k1"%string
  | EVEX_Vgatherpf1dps_vm32z_k1 => "EVEX_Vgatherpf1dps_vm32z_k1"%string
  | EVEX_Vgatherpf1dpd_vm32y_k1 => "EVEX_Vgatherpf1dpd_vm32y_k1"%string
  | EVEX_Vscatterpf0dps_vm32z_k1 => "EVEX_Vscatterpf0dps_vm32z_k1"%string
  | EVEX_Vscatterpf0dpd_vm32y_k1 => "EVEX_Vscatterpf0dpd_vm32y_k1"%string
  | EVEX_Vscatterpf1dps_vm32z_k1 => "EVEX_Vscatterpf1dps_vm32z_k1"%string
  | EVEX_Vscatterpf1dpd_vm32y_k1 => "EVEX_Vscatterpf1dpd_vm32y_k1"%string
  | VEX_Vpgatherqd_xmm_vm64x_xmm => "VEX_Vpgatherqd_xmm_vm64x_xmm"%string
  | VEX_Vpgatherqd_xmm_vm64y_xmm => "VEX_Vpgatherqd_xmm_vm64y_xmm"%string
  | VEX_Vpgatherqq_xmm_vm64x_xmm => "VEX_Vpgatherqq_xmm_vm64x_xmm"%string
  | VEX_Vpgatherqq_ymm_vm64y_ymm => "VEX_Vpgatherqq_ymm_vm64y_ymm"%string
  | EVEX_Vpgatherqd_xmm_k1_vm64x => "EVEX_Vpgatherqd_xmm_k1_vm64x"%string
  | EVEX_Vpgatherqd_xmm_k1_vm64y => "EVEX_Vpgatherqd_xmm_k1_vm64y"%string
  | EVEX_Vpgatherqd_ymm_k1_vm64z => "EVEX_Vpgatherqd_ymm_k1_vm64z"%string
  | EVEX_Vpgatherqq_xmm_k1_vm64x => "EVEX_Vpgatherqq_xmm_k1_vm64x"%string
  | EVEX_Vpgatherqq_ymm_k1_vm64y => "EVEX_Vpgatherqq_ymm_k1_vm64y"%string
  | EVEX_Vpgatherqq_zmm_k1_vm64z => "EVEX_Vpgatherqq_zmm_k1_vm64z"%string
  | VEX_Vgatherqps_xmm_vm64x_xmm => "VEX_Vgatherqps_xmm_vm64x_xmm"%string
  | VEX_Vgatherqps_xmm_vm64y_xmm => "VEX_Vgatherqps_xmm_vm64y_xmm"%string
  | VEX_Vgatherqpd_xmm_vm64x_xmm => "VEX_Vgatherqpd_xmm_vm64x_xmm"%string
  | VEX_Vgatherqpd_ymm_vm64y_ymm => "VEX_Vgatherqpd_ymm_vm64y_ymm"%string
  | EVEX_Vgatherqps_xmm_k1_vm64x => "EVEX_Vgatherqps_xmm_k1_vm64x"%string
  | EVEX_Vgatherqps_xmm_k1_vm64y => "EVEX_Vgatherqps_xmm_k1_vm64y"%string
  | EVEX_Vgatherqps_ymm_k1_vm64z => "EVEX_Vgatherqps_ymm_k1_vm64z"%string
  | EVEX_Vgatherqpd_xmm_k1_vm64x => "EVEX_Vgatherqpd_xmm_k1_vm64x"%string
  | EVEX_Vgatherqpd_ymm_k1_vm64y => "EVEX_Vgatherqpd_ymm_k1_vm64y"%string
  | EVEX_Vgatherqpd_zmm_k1_vm64z => "EVEX_Vgatherqpd_zmm_k1_vm64z"%string
  | EVEX_Vpscatterqd_vm64x_k1_xmm => "EVEX_Vpscatterqd_vm64x_k1_xmm"%string
  | EVEX_Vpscatterqd_vm64y_k1_xmm => "EVEX_Vpscatterqd_vm64y_k1_xmm"%string
  | EVEX_Vpscatterqd_vm64z_k1_ymm => "EVEX_Vpscatterqd_vm64z_k1_ymm"%string
  | EVEX_Vpscatterqq_vm64x_k1_xmm => "EVEX_Vpscatterqq_vm64x_k1_xmm"%string
  | EVEX_Vpscatterqq_vm64y_k1_ymm => "EVEX_Vpscatterqq_vm64y_k1_ymm"%string
  | EVEX_Vpscatterqq_vm64z_k1_zmm => "EVEX_Vpscatterqq_vm64z_k1_zmm"%string
  | EVEX_Vscatterqps_vm64x_k1_xmm => "EVEX_Vscatterqps_vm64x_k1_xmm"%string
  | EVEX_Vscatterqps_vm64y_k1_xmm => "EVEX_Vscatterqps_vm64y_k1_xmm"%string
  | EVEX_Vscatterqps_vm64z_k1_ymm => "EVEX_Vscatterqps_vm64z_k1_ymm"%string
  | EVEX_Vscatterqpd_vm64x_k1_xmm => "EVEX_Vscatterqpd_vm64x_k1_xmm"%string
  | EVEX_Vscatterqpd_vm64y_k1_ymm => "EVEX_Vscatterqpd_vm64y_k1_ymm"%string
  | EVEX_Vscatterqpd_vm64z_k1_zmm => "EVEX_Vscatterqpd_vm64z_k1_zmm"%string
  | EVEX_Vgatherpf0qps_vm64z_k1 => "EVEX_Vgatherpf0qps_vm64z_k1"%string
  | EVEX_Vgatherpf0qpd_vm64z_k1 => "EVEX_Vgatherpf0qpd_vm64z_k1"%string
  | EVEX_Vgatherpf1qps_vm64z_k1 => "EVEX_Vgatherpf1qps_vm64z_k1"%string
  | EVEX_Vgatherpf1qpd_vm64z_k1 => "EVEX_Vgatherpf1qpd_vm64z_k1"%string
  | EVEX_Vscatterpf0qps_vm64z_k1 => "EVEX_Vscatterpf0qps_vm64z_k1"%string
  | EVEX_Vscatterpf0qpd_vm64z_k1 => "EVEX_Vscatterpf0qpd_vm64z_k1"%string
  | EVEX_Vscatterpf1qps_vm64z_k1 => "EVEX_Vscatterpf1qps_vm64z_k1"%string
  | EVEX_Vscatterpf1qpd_vm64z_k1 => "EVEX_Vscatterpf1qpd_vm64z_k1"%string
  end.

Definition vsib_index_width (name : String.string) : Z :=
  match String.index 0 "_vm64"%string name, String.index 0 "_vm32"%string name with
  | Some _, None => 64
  | None, Some _ => 32
  | _, _ => 0
  end.

Section Address.
Context `{CT : CodeTables}.
Implicit Types (self : Instruction).

(** [match self.code() { ... }] on a [Code] discriminant. *)
Definition vsib_of_code (c : Z) : option bool :=
  match find (fun v => code_value v =? c) all_vsib_codes with
  | Some v => Some (vsib_is64 v)
  | None => None
  end.

Definition vsib self : Outcome (option bool) :=
  c <- code self;; Ok (vsib_of_code c).

Definition is_vsib self : Outcome bool :=
  v <- vsib self;; Ok (match v with Some _ => true | None => false end).

Definition is_vsib32 self : Outcome bool :=
  v <- vsib self;; Ok (match v with Some is_vsib64 => negb is_vsib64 | None => false end).

Definition is_vsib64 self : Outcome bool :=
  v <- vsib self;; Ok (match v with Some is_vsib64 => is_vsib64 | None => false end).

(** [Register::RAX <= r && r <= Register::R15]: the derived ordering is the
    order of the discriminants. *)
Definition reg_in (lo hi r : Register.Register) : bool :=
  Register.leb lo r && Register.leb r hi.

Definition get_address_size_in_bytes (base_reg index_reg : Register.Register)
    (displ_size : Z) (code_size : CodeSize.CodeSize) : Z :=
  if reg_in Register.RAX Register.R15 base_reg || reg_in Register.RAX Register.R15 index_reg
     || Register.eqb base_reg Register.RIP then 8
  else if reg_in Register.EAX Register.R15D base_reg || reg_in Register.EAX Register.R15D index_reg
     || Register.eqb base_reg Register.EIP then 4
  else if Register.eqb base_reg Register.BX || Register.eqb base_reg Register.BP
     || Register.eqb base_reg Register.SI || Register.eqb base_reg Register.DI
     || Register.eqb index_reg Register.SI || Register.eqb index_reg Register.DI then 2
  else if (displ_size =? 2) || (displ_size =? 4) || (displ_size =? 8) then displ_size
  else match code_size with
       | CodeSize.Code64 => 8
       | CodeSize.Code32 => 4
       | CodeSize.Code16 => 2
       | _ => 8
       end.

Variable get_register_value : Register.Register -> Z -> Z -> Z.

(** The [OpKind::Memory] arm of [virtual_address]. *)
Definition memory_virtual_address self (element_index : Z) : Outcome Z :=
  base_reg <- memory_base self;;
  index_reg <- memory_index self;;
  cs <- code_size self;;
  let addr_size := get_address_size_in_bytes base_reg index_reg (memory_displ_size self) cs in
  let '(offset, offset_mask) :=
    if addr_size =? 8 then (as_u64 (as_i32 (memory_displacement self)), Z.ones 64)
    else if addr_size =? 4 then (memory_displacement self, Z.ones 32)
    else (memory_displacement self, Z.ones 16) in
  let offset :=
    match base_reg with
    | Register.None => offset
    | Register.RIP => wrapping_add 64 offset (next_ip self)
    | Register.EIP => wrapping_add 64 offset (next_ip32 self)
    | _ => wrapping_add 64 offset (get_register_value base_reg 0 0)
    end in
  offset <- (if negb (Register.eqb index_reg Register.None) then
               v <- vsib self;;
               let scale := internal_get_memory_index_scale self in
               Ok (match v with
                   | Some true =>
                       wrapping_add 64 offset
                         (as_u64 (get_register_value index_reg element_index 8 .<< scale))
                   | Some false =>
                       wrapping_add 64 offset
                         (as_u64 (as_u32 (get_register_value index_reg element_index 4) .<< scale))
                   | None =>
                       wrapping_add 64 offset
                         (as_u64 (get_register_value index_reg element_index 0 .<< scale))
                   end)
             else Ok offset);;
  let offset := offset .& offset_mask in
  seg <- memory_segment self;;
  Ok (wrapping_add 64 (get_register_value seg 0 0) offset).

(** [segment base + register as uN as u64] for the string-instruction kinds. *)
Definition seg_plus self (cast : Z -> Z) (r : Register.Register) : Outcome Z :=
  seg <- memory_segment self;;
  Ok (wrapping_add 64 (get_register_value seg 0 0) (cast (get_register_value r 0 0))).

Definition virtual_address self (operand element_index : Z) : Outcome Z :=
  k <- op_kind self operand;;
  match k with
  | OpKind.Register | OpKind.NearBranch16 | OpKind.NearBranch32 | OpKind.NearBranch64
  | OpKind.FarBranch16 | OpKind.FarBranch32 | OpKind.Immediate8 | OpKind.Immediate8_2nd
  | OpKind.Immediate16 | OpKind.Immediate32 | OpKind.Immediate64 | OpKind.Immediate8to16
  | OpKind.Immediate8to32 | OpKind.Immediate8to64 | OpKind.Immediate32to64 => Ok 0
  | OpKind.MemorySegSI => seg_plus self as_u16 Register.SI
  | OpKind.MemorySegESI => seg_plus self as_u32 Register.ESI
  | OpKind.MemorySegRSI => seg_plus self id Register.RSI
  | OpKind.MemorySegDI => seg_plus self as_u16 Register.DI
  | OpKind.MemorySegEDI => seg_plus self as_u32 Register.EDI
  | OpKind.MemorySegRDI => seg_plus self id Register.RDI
  | OpKind.MemoryESDI =>
      Ok (wrapping_add 64 (get_register_value Register.ES 0 0)
                          (as_u16 (get_register_value Register.DI 0 0)))
  | OpKind.MemoryESEDI =>
      Ok (wrapping_add 64 (get_register_value Register.ES 0 0)
                          (as_u32 (get_register_value Register.EDI 0 0)))
  | OpKind.MemoryESRDI =>
      Ok (wrapping_add 64 (get_register_value Register.ES 0 0)
                          (get_register_value Register.RDI 0 0))
  | OpKind.Memory64 =>
      seg <- memory_segment self;;
      Ok (wrapping_add 64 (get_register_value seg 0 0) (memory_address64 self))
  | OpKind.Memory => memory_virtual_address self element_index
  end.

End Address.

(** ** Helper lemmas *)

Lemma in_all_vsib_codes v : In v all_vsib_codes.
Proof.
  apply (nth_error_In _ (Z.to_nat (vsib_code_index v))). destruct v; reflexivity.
Qed.

Lemma sext_mod w z : 0 < w -> sext w z mod 2 ^ w = z mod 2 ^ w.
Proof.
  intros Hw. unfold sext. rewrite trunc_mod by lia.
  destruct (_ <? _).
  - apply Z.mod_mod. lia.
  - rewrite Zminus_mod, Z_mod_same_full, Z.sub_0_r, !Z.mod_mod by lia. reflexivity.
Qed.

(** The arms of [vsib()] agree with the index width the code names give. *)
Lemma vsib_is64_name (v : VsibCode) :
  vsib_index_width (vsib_code_name v) = if vsib_is64 v then 64 else 32.
Proof. destruct v; vm_compute; reflexivity. Qed.

Lemma vsib_width_iff (v : VsibCode) (b : bool) :
  vsib_index_width (vsib_code_name v) = (if b then 64 else 32) <-> vsib_is64 v = b.
Proof. rewrite vsib_is64_name. destruct (vsib_is64 v), b; split; congruence. Qed.

Section AddressLemmas.
Context `{CT : CodeTables}.

Lemma vsib_of_code_none c : vsib_of_code c = None <-> forall v, code_value v <> c.
Proof.
  unfold vsib_of_code. destruct (find _ _) as [v|] eqn:E.
  - apply find_some in E as [_ E]. apply Z.eqb_eq in E.
    split; [discriminate | intros H; exfalso; exact (H v E)].
  - split; [|reflexivity]. intros _ v Hv.
    pose proof (find_none _ _ E v (in_all_vsib_codes v)) as F.
    cbv beta in F. rewrite Hv, Z.eqb_refl in F. discriminate.
Qed.

Lemma vsib_of_code_some c b :
  vsib_of_code c = Some b <-> exists v, code_value v = c /\ vsib_is64 v = b.
Proof.
  unfold vsib_of_code. destruct (find _ _) as [v|] eqn:E.
  - apply find_some in E as [_ E]. apply Z.eqb_eq in E. split.
    + intros H. injection H as <-. exists v. auto.
    + intros (v' & Hv' & <-). do 2 f_equal. apply code_value_inj. congruence.
  - split; [discriminate|]. intros (v & Hv & _).
    pose proof (find_none _ _ E v (in_all_vsib_codes v)) as F.
    cbv beta in F. rewrite Hv, Z.eqb_refl in F. discriminate.
Qed.

Lemma code_size_ok i : exists cs, code_size i = Ok cs.
Proof.
  rewrite code_size_field. unfold CodeSize.transmute.
  pose proof (get_bits_fits (op_kind_flags i) 30 2 ltac:(lia) ltac:(lia)) as H.
  unfold get_field; unfold_layout; cbn [word_value]. unfold fits in H.
  rewrite transmute_enum_ok by (cbn; lia). eexists. reflexivity.
Qed.

Lemma vsib_of_code_width c b :
  vsib_of_code c = Some b <->
  exists v, code_value v = c /\ vsib_index_width (vsib_code_name v) = (if b then 64 else 32).
Proof. rewrite vsib_of_code_some. setoid_rewrite vsib_width_iff. reflexivity. Qed.

End AddressLemmas.

(** ** VSIB *)

Section VsibTheorems.
Context `{CT : CodeTables}.

(** [C29] [vsib()] classifies by the code, as the [Code] names say: it is
    [Some(false)] exactly for the codes whose name carries a [vm32]
    (dword-index) VSIB operand and [Some(true)] exactly for those with a
    [vm64] (qword-index) operand, [None] for every other code; [is_vsib],
    [is_vsib32] and [is_vsib64] follow the same split. *)
Theorem vsib_classification (i : Instruction) (c : Z) :
  code i = Ok c ->
  (vsib i = Ok None <-> forall v, code_value v <> c) /\
  (forall b, vsib i = Ok (Some b) <->
     exists v, code_value v = c /\ vsib_index_width (vsib_code_name v) = (if b then 64 else 32)) /\
  (is_vsib i = Ok true <-> exists v, code_value v = c) /\
  (is_vsib32 i = Ok true <-> exists v, code_value v = c /\ vsib_index_width (vsib_code_name v) = 32) /\
  (is_vsib64 i = Ok true <-> exists v, code_value v = c /\ vsib_index_width (vsib_code_name v) = 64).
Proof.
  intros Hc. unfold is_vsib, is_vsib32, is_vsib64, vsib. rewrite Hc. cbn [obind].
  pose proof (vsib_of_code_width c true) as Ht. pose proof (vsib_of_code_width c false) as Hf.
  pose proof (vsib_of_code_none c) as Hn. cbn in Ht, Hf.
  split; [rewrite ok_iff; exact Hn|].
  split; [intros b; rewrite ok_iff; apply vsib_of_code_width|].
  rewrite <- Ht, <- Hf.
  destruct (vsib_of_code c) as [[|]|]; cbn; rewrite ?ok_iff;
    repeat split; intros H; try discriminate; try reflexivity;
    try (match type of H with ex _ => destruct H as [v Hv] end;
         exfalso; exact (proj1 Hn eq_refl v Hv)).
  - destruct (proj1 Ht eq_refl) as (v & Hv & _). eauto.
  - destruct (proj1 Hf eq_refl) as (v & Hv & _). eauto.
Qed.

End VsibTheorems.

(** The scenario of the specification, on [sample_tables]. *)
Example vsib_scenario :
  vsib (set_code new (code_value EVEX_Vpgatherdd_zmm_k1_vm32z)) = Ok (Some false) /\
  is_vsib32 (set_code new (code_value EVEX_Vpgatherdd_zmm_k1_vm32z)) = Ok true /\
  is_vsib64 (set_code new (code_value EVEX_Vpgatherdd_zmm_k1_vm32z)) = Ok false /\
  vsib (set_code new (code_value EVEX_Vpgatherqq_zmm_k1_vm64z)) = Ok (Some true) /\
  vsib (set_code new 0) = Ok None.
Proof. vm_compute. repeat split. Qed.

Lemma vsib_classification_witness :
  code (set_code new (code_value EVEX_Vpgatherqq_zmm_k1_vm64z)) = Ok 50 /\
  vsib (set_code new (code_value EVEX_Vpgatherqq_zmm_k1_vm64z)) = Ok (Some true).
Proof.
  assert (H : code (set_code new (code_value EVEX_Vpgatherqq_zmm_k1_vm64z)) = Ok 50)
    by reflexivity.
  split; [exact H|].
  apply (proj1 (proj2 (vsib_classification _ 50 H)) true).
  exists EVEX_Vpgatherqq_zmm_k1_vm64z. split; reflexivity.
Defined.

(** ** Effective addresses *)

Lemma trunc_add_trunc_r w w' x y :
  0 <= w <= w' -> trunc w (x + trunc w' y) = trunc w (x + y).
Proof.
  intros Hw. rewrite <- trunc_add, trunc_trunc_le, trunc_add by lia. reflexivity.
Qed.

Lemma trunc_sext w z : 0 < w -> trunc w (sext w z) = trunc w z.
Proof. intros Hw. rewrite !trunc_mod by lia. apply sext_mod. exact Hw. Qed.

Lemma address_size_valid b x d cs :
  let a := get_address_size_in_bytes b x d cs in a = 2 \/ a = 4 \/ a = 8.
Proof.
  unfold get_address_size_in_bytes.
  destruct (_ || _ || _); [auto|]. destruct (_ || _ || _); [auto|].
  destruct (_ || _ || _ || _ || _ || _); [auto|].
  destruct ((d =? 2) || (d =? 4) || (d =? 8)) eqn:E.
  - rewrite !orb_true_iff, !Z.eqb_eq in E. lia.
  - destruct cs; auto.
Qed.

Section VirtualAddress.
Context `{CT : CodeTables}.
Variable get_register_value : Register.Register -> Z -> Z -> Z.

(** [virtual_address] of an operand that is a register, a branch
    target or an immediate is 0, whatever the register values. *)
Theorem virtual_address_non_memory (i : Instruction) (n e : Z) (k : OpKind.OpKind) :
  op_kind i n = Ok k ->
  In k [OpKind.Register; OpKind.NearBranch16; OpKind.NearBranch32; OpKind.NearBranch64;
        OpKind.FarBranch16; OpKind.FarBranch32; OpKind.Immediate8; OpKind.Immediate8_2nd;
        OpKind.Immediate16; OpKind.Immediate32; OpKind.Immediate64; OpKind.Immediate8to16;
        OpKind.Immediate8to32; OpKind.Immediate8to64; OpKind.Immediate32to64] ->
  virtual_address get_register_value i n e = Ok 0.
Proof.
  intros Hk Hin. unfold virtual_address. rewrite Hk. cbn [obind].
  repeat (destruct Hin as [<- | Hin]; [reflexivity|]). contradiction.
Qed.

(** For an [OpKind::Memory] operand whose registers, code size,
    segment and VSIB class decode, [virtual_address] returns the segment
    base plus an offset cut to the address size, and that size is 2, 4 or
    8 bytes (so the [debug_assert!(addr_size == 2)] of the fall-through arm
    holds). *)
Theorem memory_offset_bounded (i : Instruction) (n e : Z) (b x seg : Register.Register)
    (cs : CodeSize.CodeSize) (vs : option bool) :
  op_kind i n = Ok OpKind.Memory -> memory_base i = Ok b -> memory_index i = Ok x ->
  code_size i = Ok cs -> memory_segment i = Ok seg -> vsib i = Ok vs ->
  let a := get_address_size_in_bytes b x (memory_displ_size i) cs in
  (a = 2 \/ a = 4 \/ a = 8) /\
  exists off, fits (8 * a) off /\
    virtual_address get_register_value i n e =
      Ok (wrapping_add 64 (get_register_value seg 0 0) off).
Proof.
  intros Hk Hb Hx Hcs Hseg Hvs a. split; [apply address_size_valid|].
  unfold virtual_address, memory_virtual_address.
  rewrite Hk, Hb, Hx, Hcs. cbn [obind]. fold a.
  destruct (address_size_valid b x (memory_displ_size i) cs) as [Ha|[Ha|Ha]]; fold a in Ha;
    rewrite Ha; cbn [Z.eqb Pos.eqb];
    destruct (negb (Register.eqb x Register.None));
    rewrite ?Hvs; cbn [obind]; rewrite Hseg; cbn [obind];
    (eexists; split; [|reflexivity]); apply trunc_fits; lia.
Qed.

(** [C32] A RIP- or EIP-relative memory operand without index register
    resolves, through [virtual_address], to the segment base plus
    [ip_relative_memory_address()]: the two computations of the same
    address in [instruction.rs] agree, and the register callback is only
    asked for the segment base. *)
Theorem rip_relative_virtual_address (i : Instruction) (n e : Z) (seg : Register.Register) :
  op_kind i n = Ok OpKind.Memory -> memory_index i = Ok Register.None ->
  memory_segment i = Ok seg ->
  (memory_base i = Ok Register.RIP \/ memory_base i = Ok Register.EIP) ->
  exists a, ip_relative_memory_address i = Ok a /\
    virtual_address get_register_value i n e =
      Ok (wrapping_add 64 (get_register_value seg 0 0) a).
Proof.
  intros Hk Hx Hseg Hb. destruct (code_size_ok i) as [cs Hcs].
  unfold virtual_address, memory_virtual_address, ip_relative_memory_address.
  rewrite Hk, Hx, Hcs. cbn [obind].
  destruct Hb as [Hb|Hb]; rewrite Hb; cbn [obind Register.eqb Register.to_u32 Z.eqb Pos.eqb];
    eexists; (split; [reflexivity|]).
  - replace (get_address_size_in_bytes Register.RIP Register.None (memory_displ_size i) cs)
      with 8 by reflexivity.
    cbn [Z.eqb Pos.eqb negb]. rewrite Hseg. cbn [obind]. do 3 f_equal.
    unfold wrapping_add. fold (trunc 64 (trunc 64 (as_u64 (as_i32 (memory_displacement i))
      + next_ip i))). rewrite trunc_trunc_le by lia. f_equal. lia.
  - replace (get_address_size_in_bytes Register.EIP Register.None (memory_displ_size i) cs)
      with 4 by reflexivity.
    cbn [Z.eqb Pos.eqb negb]. rewrite Hseg. cbn [obind]. do 3 f_equal.
    unfold wrapping_add, next_ip32, next_ip, as_u32, as_u64, as_i32.
    fold (trunc 32 (trunc 64 (memory_displacement i + trunc 32 (next_rip i)))).
    rewrite !trunc_trunc_le, trunc_add_trunc_r, trunc_add_trunc_r, Z.add_comm by lia.
    rewrite <- (trunc_add_trunc_r 32 32 _ (sext 32 _)), trunc_sext, trunc_add_trunc_r by lia.
    reflexivity.
Qed.

End VirtualAddress.

(** ** Witnesses, on [sample_tables] and a register file that maps each
    register to [0x1000] times its discriminant *)

Lemma virtual_address_non_memory_witness :
  op_kind (set_op1_kind new OpKind.Immediate32) 1 = Ok OpKind.Immediate32 /\
  virtual_address (fun r _ _ => 0x1000 * Register.to_u32 r)
    (set_op1_kind new OpKind.Immediate32) 1 0 = Ok 0.
Proof.
  assert (H : op_kind (set_op1_kind new OpKind.Immediate32) 1 = Ok OpKind.Immediate32)
    by reflexivity.
  split; [exact H|]. apply (virtual_address_non_memory _ _ 1 0 OpKind.Immediate32 H).
  cbn. tauto.
Defined.

Lemma memory_offset_bounded_witness :
  let i := set_memory_index (set_memory_base (set_op0_kind new OpKind.Memory) Register.BX)
             Register.SI in
  op_kind i 0 = Ok OpKind.Memory /\ memory_base i = Ok Register.BX /\
  memory_index i = Ok Register.SI /\ code_size i = Ok CodeSize.Unknown /\
  memory_segment i = Ok Register.DS /\ vsib i = Ok None /\
  exists off, fits (8 * 2) off /\
    virtual_address (fun r _ _ => 0x1000 * Register.to_u32 r) i 0 0 =
      Ok (wrapping_add 64 (0x1000 * Register.to_u32 Register.DS) off).
Proof.
  intros i.
  assert (H1 : op_kind i 0 = Ok OpKind.Memory) by reflexivity.
  assert (H2 : memory_base i = Ok Register.BX) by reflexivity.
  assert (H3 : memory_index i = Ok Register.SI) by reflexivity.
  assert (H4 : code_size i = Ok CodeSize.Unknown) by reflexivity.
  assert (H5 : memory_segment i = Ok Register.DS) by reflexivity.
  assert (H6 : vsib i = Ok None) by reflexivity.
  do 6 (split; [assumption|]).
  apply (memory_offset_bounded (fun r _ _ => 0x1000 * Register.to_u32 r) i 0 0
           Register.BX Register.SI Register.DS CodeSize.Unknown None H1 H2 H3 H4 H5 H6).
Defined.

Lemma rip_relative_virtual_address_witness :
  let i := set_memory_base (set_op0_kind (set_memory_displacement (set_next_ip new 0x401000)
             0xFFFFFFF0) OpKind.Memory) Register.RIP in
  op_kind i 0 = Ok OpKind.Memory /\ memory_index i = Ok Register.None /\
  memory_segment i = Ok Register.DS /\ memory_base i = Ok Register.RIP /\
  exists a, ip_relative_memory_address i = Ok a /\
    virtual_address (fun r _ _ => 0x1000 * Register.to_u32 r) i 0 0 =
      Ok (wrapping_add 64 (0x1000 * Register.to_u32 Register.DS) a).
Proof.
  intros i.
  assert (H1 : op_kind i 0 = Ok OpKind.Memory) by reflexivity.
  assert (H2 : memory_index i = Ok Register.None) by reflexivity.
  assert (H3 : memory_segment i = Ok Register.DS) by reflexivity.
  assert (H4 : memory_base i = Ok Register.RIP) by reflexivity.
  do 4 (split; [assumption|]).
  apply (rip_relative_virtual_address (fun r _ _ => 0x1000 * Register.to_u32 r) i 0 0
           Register.DS H1 H2 H3 (or_introl H4)).
Defined.

(** The additions of [virtual_address] and [ip_relative_memory_address]
    are plain [u64] [+]: for [[rax-8]] with 64-bit addressing and
    [rax = 16], the sign-extended displacement [0xFFFF_FFFF_FFFF_FFF8] plus
    the base exceeds [u64::MAX], and so does [next_ip() + (-16 as u64)] for
    [[rip-16]] at [0x401000]; a build with overflow checks panics there,
    while the wrapped sums are the intended addresses 8 and [0x400FF0]. *)
Example virtual_address_negative_displacement :
  let i := set_memory_displacement (set_memory_base (set_op0_kind
             (set_code_size new CodeSize.Code64) OpKind.Memory) Register.RAX) 0xFFFFFFF8 in
  let regs := fun (r : Register.Register) (_ _ : Z) =>
                if Register.eqb r Register.RAX then 16 else 0 in
  let j := set_memory_base (set_op0_kind (set_memory_displacement (set_next_ip new 0x401000)
             0xFFFFFFF0) OpKind.Memory) Register.RIP in
  (2 ^ 64 <= as_u64 (as_i32 (memory_displacement i)) + regs Register.RAX 0 0 /\
   virtual_address regs i 0 0 = Ok 8) /\
  (2 ^ 64 <= next_ip j + as_u64 (as_i32 (memory_displacement j)) /\
   ip_relative_memory_address j = Ok 0x400FF0).
Proof. vm_compute. repeat split; discriminate || reflexivity. Qed.
