(* ===== verification/Builder.v ===== *)
(** * Building instructions: the public setters as a step relation

    An [Instruction] is built by a decoder or by a user from
    [Instruction::new()] through the public setters of [instruction.rs].
    [Setter] lists all 68 of them, one constructor per method, with the
    arguments of its Rust signature; [typed s] says that each argument is
    a value of its Rust type; [exec i s] runs the method.  [step] is the
    transition relation of this state machine and [reachable] its
    reflexive-transitive closure from [Instruction::new()].

    The invariant [decodes]: every accessor that [transmute]s stored bits
    into an enum ([code], the operand kinds, [rounding_control], the
    operand registers, [memory_base], [memory_index]) finds a valid
    discriminant.  Every setter except the eight declare-data payload
    setters preserves it, so every instruction built without them decodes;
    the payload setters do not, as [DeclareData.v] shows. *)

From Stdlib Require Import ZArith Lia List Bool Relations Morphisms Setoid.
From S2P Require Import Prelude Register Tables Layout Instruction Operands DeclareData.
Import ListNotations.
Open Scope Z_scope.
Open Scope iced_scope.

(** ** The setters *)

Definition is_i8 (v : Z) : bool := (- 2 ^ 7 <=? v) && (v <? 2 ^ 7).
Definition is_i16 (v : Z) : bool := (- 2 ^ 15 <=? v) && (v <? 2 ^ 15).
Definition is_i32 (v : Z) : bool := (- 2 ^ 31 <=? v) && (v <? 2 ^ 31).
Definition is_i64 (v : Z) : bool := (- 2 ^ 63 <=? v) && (v <? 2 ^ 63).

(** One constructor per public setter of [impl Instruction]. *)
Inductive Setter : Set :=
| SetIp16 (v : Z)
| SetIp32 (v : Z)
| SetIp (v : Z)
| SetNextIp16 (v : Z)
| SetNextIp32 (v : Z)
| SetNextIp (v : Z)
| SetCodeSize (c : CodeSize.CodeSize)
| SetCode (c : Z)
| SetLen (n : Z)
| SetHasXacquirePrefix (b : bool)
| SetHasXreleasePrefix (b : bool)
| SetHasRepPrefix (b : bool)
| SetHasRepePrefix (b : bool)
| SetHasRepnePrefix (b : bool)
| SetHasLockPrefix (b : bool)
| SetOp0Kind (k : OpKind.OpKind)
| SetOp1Kind (k : OpKind.OpKind)
| SetOp2Kind (k : OpKind.OpKind)
| SetOp3Kind (k : OpKind.OpKind)
| SetOp4Kind (k : OpKind.OpKind)
| SetOpKind (n : Z) (k : OpKind.OpKind)
| SetSegmentPrefix (r : Register.Register)
| SetMemoryDisplSize (n : Z)
| SetIsBroadcast (b : bool)
| SetMemoryIndexScale (n : Z)
| SetMemoryDisplacement (v : Z)
| SetImmediateI32 (n : Z) (v : Z)
| SetImmediateU32 (n : Z) (v : Z)
| SetImmediateI64 (n : Z) (v : Z)
| SetImmediateU64 (n : Z) (v : Z)
| SetImmediate8 (v : Z)
| SetImmediate8_2nd (v : Z)
| SetImmediate16 (v : Z)
| SetImmediate32 (v : Z)
| SetImmediate64 (v : Z)
| SetImmediate8to16 (v : Z)
| SetImmediate8to32 (v : Z)
| SetImmediate8to64 (v : Z)
| SetImmediate32to64 (v : Z)
| SetMemoryAddress64 (v : Z)
| SetNearBranch16 (v : Z)
| SetNearBranch32 (v : Z)
| SetNearBranch64 (v : Z)
| SetFarBranch16 (v : Z)
| SetFarBranch32 (v : Z)
| SetFarBranchSelector (v : Z)
| SetMemoryBase (r : Register.Register)
| SetMemoryIndex (r : Register.Register)
| SetOp0Register (r : Register.Register)
| SetOp1Register (r : Register.Register)
| SetOp2Register (r : Register.Register)
| SetOp3Register (r : Register.Register)
| SetOp4Register (r : Register.Register)
| SetOpRegister (n : Z) (r : Register.Register)
| SetOpmask (r : Register.Register)
| SetZeroingMasking (b : bool)
| SetMergingMasking (b : bool)
| SetRoundingControl (rc : RoundingControl.RoundingControl)
| SetDeclareDataLen (n : Z)
| SetDeclareByteValueI8 (n : Z) (v : Z)
| SetDeclareByteValue (n : Z) (v : Z)
| SetDeclareWordValueI16 (n : Z) (v : Z)
| SetDeclareWordValue (n : Z) (v : Z)
| SetDeclareDwordValueI32 (n : Z) (v : Z)
| SetDeclareDwordValue (n : Z) (v : Z)
| SetDeclareQwordValueI64 (n : Z) (v : Z)
| SetDeclareQwordValue (n : Z) (v : Z)
| SetSuppressAllExceptions (b : bool).

Section Build.
Context `{CT : CodeTables}.

(** The arguments are values of their Rust types ([Code] is a discriminant
    below [NUMBER_OF_CODE_VALUES]). *)
Definition typed (s : Setter) : bool :=
  match s with
  | SetIp16 v => fitsb 16 v
  | SetIp32 v => fitsb 32 v
  | SetIp v => fitsb 64 v
  | SetNextIp16 v => fitsb 16 v
  | SetNextIp32 v => fitsb 32 v
  | SetNextIp v => fitsb 64 v
  | SetCodeSize c => true
  | SetCode c => (0 <=? c) && (c <? NUMBER_OF_CODE_VALUES)
  | SetLen n => is_i32 n
  | SetHasXacquirePrefix b => true
  | SetHasXreleasePrefix b => true
  | SetHasRepPrefix b => true
  | SetHasRepePrefix b => true
  | SetHasRepnePrefix b => true
  | SetHasLockPrefix b => true
  | SetOp0Kind k => true
  | SetOp1Kind k => true
  | SetOp2Kind k => true
  | SetOp3Kind k => true
  | SetOp4Kind k => true
  | SetOpKind n k => is_i32 n
  | SetSegmentPrefix r => true
  | SetMemoryDisplSize n => is_i32 n
  | SetIsBroadcast b => true
  | SetMemoryIndexScale n => is_i32 n
  | SetMemoryDisplacement v => fitsb 32 v
  | SetImmediateI32 n v => is_i32 n && is_i32 v
  | SetImmediateU32 n v => is_i32 n && fitsb 32 v
  | SetImmediateI64 n v => is_i32 n && is_i64 v
  | SetImmediateU64 n v => is_i32 n && fitsb 64 v
  | SetImmediate8 v => fitsb 8 v
  | SetImmediate8_2nd v => fitsb 8 v
  | SetImmediate16 v => fitsb 16 v
  | SetImmediate32 v => fitsb 32 v
  | SetImmediate64 v => fitsb 64 v
  | SetImmediate8to16 v => is_i16 v
  | SetImmediate8to32 v => is_i32 v
  | SetImmediate8to64 v => is_i64 v
  | SetImmediate32to64 v => is_i64 v
  | SetMemoryAddress64 v => fitsb 64 v
  | SetNearBranch16 v => fitsb 16 v
  | SetNearBranch32 v => fitsb 32 v
  | SetNearBranch64 v => fitsb 64 v
  | SetFarBranch16 v => fitsb 16 v
  | SetFarBranch32 v => fitsb 32 v
  | SetFarBranchSelector v => fitsb 16 v
  | SetMemoryBase r => true
  | SetMemoryIndex r => true
  | SetOp0Register r => true
  | SetOp1Register r => true
  | SetOp2Register r => true
  | SetOp3Register r => true
  | SetOp4Register r => true
  | SetOpRegister n r => is_i32 n
  | SetOpmask r => true
  | SetZeroingMasking b => true
  | SetMergingMasking b => true
  | SetRoundingControl rc => true
  | SetDeclareDataLen n => is_i32 n
  | SetDeclareByteValueI8 n v => is_i32 n && is_i8 v
  | SetDeclareByteValue n v => is_i32 n && fitsb 8 v
  | SetDeclareWordValueI16 n v => is_i32 n && is_i16 v
  | SetDeclareWordValue n v => is_i32 n && fitsb 16 v
  | SetDeclareDwordValueI32 n v => is_i32 n && is_i32 v
  | SetDeclareDwordValue n v => is_i32 n && fitsb 32 v
  | SetDeclareQwordValueI64 n v => is_i32 n && is_i64 v
  | SetDeclareQwordValue n v => is_i32 n && fitsb 64 v
  | SetSuppressAllExceptions b => true
  end.

(** The payload setters of declare-data directives. *)
Definition payload_setter (s : Setter) : bool :=
  match s with
  | SetDeclareByteValueI8 _ _ | SetDeclareByteValue _ _ | SetDeclareWordValueI16 _ _
  | SetDeclareWordValue _ _ | SetDeclareDwordValueI32 _ _ | SetDeclareDwordValue _ _
  | SetDeclareQwordValueI64 _ _ | SetDeclareQwordValue _ _ => true
  | _ => false
  end.

(** [i.set_xxx(args)]; a setter that panics gives [Panic]. *)
Definition exec (i : Instruction) (s : Setter) : Outcome Instruction :=
  match s with
  | SetIp16 v => Ok (set_ip16 i v)
  | SetIp32 v => Ok (set_ip32 i v)
  | SetIp v => Ok (set_ip i v)
  | SetNextIp16 v => Ok (set_next_ip16 i v)
  | SetNextIp32 v => Ok (set_next_ip32 i v)
  | SetNextIp v => Ok (set_next_ip i v)
  | SetCodeSize c => Ok (set_code_size i c)
  | SetCode c => Ok (set_code i c)
  | SetLen n => Ok (set_len i n)
  | SetHasXacquirePrefix b => Ok (set_has_xacquire_prefix i b)
  | SetHasXreleasePrefix b => Ok (set_has_xrelease_prefix i b)
  | SetHasRepPrefix b => Ok (set_has_rep_prefix i b)
  | SetHasRepePrefix b => Ok (set_has_repe_prefix i b)
  | SetHasRepnePrefix b => Ok (set_has_repne_prefix i b)
  | SetHasLockPrefix b => Ok (set_has_lock_prefix i b)
  | SetOp0Kind k => Ok (set_op0_kind i k)
  | SetOp1Kind k => Ok (set_op1_kind i k)
  | SetOp2Kind k => Ok (set_op2_kind i k)
  | SetOp3Kind k => Ok (set_op3_kind i k)
  | SetOp4Kind k => set_op4_kind i k
  | SetOpKind n k => set_op_kind i n k
  | SetSegmentPrefix r => Ok (set_segment_prefix i r)
  | SetMemoryDisplSize n => Ok (set_memory_displ_size i n)
  | SetIsBroadcast b => Ok (set_is_broadcast i b)
  | SetMemoryIndexScale n => Ok (set_memory_index_scale i n)
  | SetMemoryDisplacement v => Ok (set_memory_displacement i v)
  | SetImmediateI32 n v => set_immediate_i32 i n v
  | SetImmediateU32 n v => set_immediate_u32 i n v
  | SetImmediateI64 n v => set_immediate_i64 i n v
  | SetImmediateU64 n v => set_immediate_u64 i n v
  | SetImmediate8 v => Ok (set_immediate8 i v)
  | SetImmediate8_2nd v => Ok (set_immediate8_2nd i v)
  | SetImmediate16 v => Ok (set_immediate16 i v)
  | SetImmediate32 v => Ok (set_immediate32 i v)
  | SetImmediate64 v => Ok (set_immediate64 i v)
  | SetImmediate8to16 v => Ok (set_immediate8to16 i v)
  | SetImmediate8to32 v => Ok (set_immediate8to32 i v)
  | SetImmediate8to64 v => Ok (set_immediate8to64 i v)
  | SetImmediate32to64 v => Ok (set_immediate32to64 i v)
  | SetMemoryAddress64 v => Ok (set_memory_address64 i v)
  | SetNearBranch16 v => Ok (set_near_branch16 i v)
  | SetNearBranch32 v => Ok (set_near_branch32 i v)
  | SetNearBranch64 v => Ok (set_near_branch64 i v)
  | SetFarBranch16 v => Ok (set_far_branch16 i v)
  | SetFarBranch32 v => Ok (set_far_branch32 i v)
  | SetFarBranchSelector v => Ok (set_far_branch_selector i v)
  | SetMemoryBase r => Ok (set_memory_base i r)
  | SetMemoryIndex r => Ok (set_memory_index i r)
  | SetOp0Register r => Ok (set_op0_register i r)
  | SetOp1Register r => Ok (set_op1_register i r)
  | SetOp2Register r => Ok (set_op2_register i r)
  | SetOp3Register r => Ok (set_op3_register i r)
  | SetOp4Register r => set_op4_register i r
  | SetOpRegister n r => set_op_register i n r
  | SetOpmask r => Ok (set_opmask i r)
  | SetZeroingMasking b => Ok (set_zeroing_masking i b)
  | SetMergingMasking b => Ok (set_merging_masking i b)
  | SetRoundingControl rc => Ok (set_rounding_control i rc)
  | SetDeclareDataLen n => Ok (set_declare_data_len i n)
  | SetDeclareByteValueI8 n v => set_declare_byte_value_i8 i n v
  | SetDeclareByteValue n v => set_declare_byte_value i n v
  | SetDeclareWordValueI16 n v => set_declare_word_value_i16 i n v
  | SetDeclareWordValue n v => set_declare_word_value i n v
  | SetDeclareDwordValueI32 n v => set_declare_dword_value_i32 i n v
  | SetDeclareDwordValue n v => set_declare_dword_value i n v
  | SetDeclareQwordValueI64 n v => set_declare_qword_value_i64 i n v
  | SetDeclareQwordValue n v => set_declare_qword_value i n v
  | SetSuppressAllExceptions b => Ok (set_suppress_all_exceptions i b)
  end.

(** A sequence of setter calls, stopping at the first panic. *)
Fixpoint run (i : Instruction) (ss : list Setter) : Outcome Instruction :=
  match ss with
  | [] => Ok i
  | s :: ss' => i' <- exec i s;; run i' ss'
  end.

(** One call of a typed setter that is no declare-data payload setter. *)
Inductive step : Instruction -> Instruction -> Prop :=
| step_exec i s i' :
    typed s = true -> payload_setter s = false -> exec i s = Ok i' -> step i i'.

Definition reachable (i : Instruction) : Prop := clos_refl_trans Instruction step new i.

(** Every enum-valued accessor finds a discriminant. *)
Definition decodes (i : Instruction) : bool :=
  is_ok (code i) && is_ok (op0_kind i) && is_ok (op1_kind i) && is_ok (op2_kind i)
  && is_ok (op3_kind i) && is_ok (rounding_control i) && is_ok (op0_register i)
  && is_ok (op1_register i) && is_ok (op2_register i) && is_ok (op3_register i)
  && is_ok (memory_base i) && is_ok (memory_index i).

Definition reg_ok (x : Z) : Prop := 0 <= x < Register.NUMBER_OF_REGISTERS.

(** What a packed-field write must store for [decodes] to survive it. *)
Definition field_value_ok (f : Field) (x : Z) : Prop :=
  match f with
  | FCode => x < NUMBER_OF_CODE_VALUES
  | FOp0Kind | FOp1Kind | FOp2Kind | FOp3Kind => x < 26
  | FRoundingControl => x < 5
  | _ => True
  end.

(** Equal in every field and register that an accessor reads. *)
Definition field_equiv (a b : Instruction) : Prop :=
  raw_equal a b /\ forall g, get_field g a = get_field g b.

(** The packed field a setter writes, for the setters that write one. *)
Definition setter_field (s : Setter) : option Field :=
  match s with
  | SetCodeSize _ => Some FCodeSize
  | SetCode _ => Some FCode
  | SetLen _ => Some FInstrLength
  | SetHasXacquirePrefix _ => Some FXacquirePrefix
  | SetHasXreleasePrefix _ => Some FXreleasePrefix
  | SetHasRepPrefix _ | SetHasRepePrefix _ => Some FRepePrefix
  | SetHasRepnePrefix _ => Some FRepnePrefix
  | SetHasLockPrefix _ => Some FLockPrefix
  | SetOp0Kind _ => Some FOp0Kind
  | SetOp1Kind _ => Some FOp1Kind
  | SetOp2Kind _ => Some FOp2Kind
  | SetOp3Kind _ => Some FOp3Kind
  | SetSegmentPrefix _ => Some FSegmentPrefix
  | SetMemoryDisplSize _ => Some FDisplSize
  | SetIsBroadcast _ => Some FBroadcast
  | SetMemoryIndexScale _ => Some FScale
  | SetOpmask _ => Some FOpmask
  | SetZeroingMasking _ | SetMergingMasking _ => Some FZeroingMasking
  | SetRoundingControl _ => Some FRoundingControl
  | SetSuppressAllExceptions _ => Some FSuppressAllExceptions
  | SetDeclareDataLen _ => Some FDataLength
  | _ => None
  end.

(** The abstract semantics of a setter of one packed field: the field and
    the value it writes. *)

Definition setter_effect (s : Setter) : option (Field * Z) :=
  match s with
  | SetCodeSize c => Some (FCodeSize, CodeSize.to_u32 c)
  | SetCode c => Some (FCode, c)
  | SetLen n => Some (FInstrLength, as_u32 n)
  | SetHasXacquirePrefix b => Some (FXacquirePrefix, Z.b2z b)
  | SetHasXreleasePrefix b => Some (FXreleasePrefix, Z.b2z b)
  | SetHasRepPrefix b | SetHasRepePrefix b => Some (FRepePrefix, Z.b2z b)
  | SetHasRepnePrefix b => Some (FRepnePrefix, Z.b2z b)
  | SetHasLockPrefix b => Some (FLockPrefix, Z.b2z b)
  | SetOp0Kind k => Some (FOp0Kind, OpKind.to_u32 k)
  | SetOp1Kind k => Some (FOp1Kind, OpKind.to_u32 k)
  | SetOp2Kind k => Some (FOp2Kind, OpKind.to_u32 k)
  | SetOp3Kind k => Some (FOp3Kind, OpKind.to_u32 k)
  | SetSegmentPrefix r =>
      Some (FSegmentPrefix,
            if Register.eqb r Register.None then 0
            else wrapping_add 32 (wrapping_sub 32 (Register.to_u32 r)
                                    (Register.to_u32 Register.ES)) 1 .& 7)
  | SetMemoryDisplSize n =>
      Some (FDisplSize,
            if n =? 0 then 0 else if n =? 1 then 1 else if n =? 2 then 2
            else if n =? 4 then 3 else 4)
  | SetIsBroadcast b => Some (FBroadcast, Z.b2z b)
  | SetMemoryIndexScale n =>
      Some (FScale, if n =? 1 then 0 else if n =? 2 then 1 else if n =? 4 then 2 else 3)
  | SetOpmask r =>
      Some (FOpmask,
            if Register.eqb r Register.None then 0
            else wrapping_sub 32 (Register.to_u32 r) (Register.to_u32 Register.K0) .& 7)
  | SetZeroingMasking b => Some (FZeroingMasking, Z.b2z b)
  | SetMergingMasking b => Some (FZeroingMasking, Z.b2z (negb b))
  | SetRoundingControl rc => Some (FRoundingControl, RoundingControl.to_u32 rc)
  | SetSuppressAllExceptions b => Some (FSuppressAllExceptions, Z.b2z b)
  | SetDeclareDataLen n => Some (FDataLength, as_u32 (n - 1))
  | _ => None
  end.

End Build.

(** ** The invariant in terms of the stored fields *)

Section Invariant.
Context `{CT : CodeTables}.

Lemma decodes_fields i :
  decodes i = true <->
  get_field FCode i < NUMBER_OF_CODE_VALUES /\ get_field FOp0Kind i < 26 /\
  get_field FOp1Kind i < 26 /\ get_field FOp2Kind i < 26 /\ get_field FOp3Kind i < 26 /\
  get_field FRoundingControl i < 5 /\ reg_ok (reg0 i) /\ reg_ok (reg1 i) /\
  reg_ok (reg2 i) /\ reg_ok (reg3 i) /\ reg_ok (mem_base_reg i) /\ reg_ok (mem_index_reg i).
Proof.
  unfold decodes. rewrite code_field, op0_kind_field, op1_kind_field, op2_kind_field,
    op3_kind_field, rounding_control_field.
  unfold op0_register, op1_register, op2_register, op3_register, memory_base, memory_index,
    OpKind.transmute, RoundingControl.transmute, Register.transmute_u8, reg_ok.
  rewrite !is_ok_transmute_enum, Register.length_all_registers. cbv zeta.
  pose proof (get_field_range FOp0Kind i). pose proof (get_field_range FOp1Kind i).
  pose proof (get_field_range FOp2Kind i). pose proof (get_field_range FOp3Kind i).
  pose proof (get_field_range FRoundingControl i).
  destruct (get_field FCode i <? NUMBER_OF_CODE_VALUES) eqn:Ec; cbn [is_ok andb];
    rewrite ?Z.ltb_lt, ?Z.ltb_ge in Ec.
  - cbn [length Z.of_nat Pos.of_succ_nat Pos.succ OpKind.all RoundingControl.all].
    rewrite !andb_true_iff, !Z.leb_le, !Z.ltb_lt. split; intros; intuition lia.
  - split; [discriminate | intros; lia].
Qed.

Lemma decodes_field_setter op f v i :
  acts_as_field op f v -> field_value_ok f (trunc (field_width f) v) ->
  decodes i = true -> decodes (op i) = true.
Proof.
  intros H Hok Hd. apply decodes_fields in Hd. apply decodes_fields.
  destruct (proj1 (H i)) as (_ & _ & _ & Eb & Ex & E0 & E1 & E2 & E3).
  rewrite Eb, Ex, E0, E1, E2, E3.
  destruct f; cbn [field_value_ok] in Hok;
    rewrite ?(acts_as_field_get _ _ _ i H);
    rewrite ?(acts_as_field_other _ _ _ i _ H) by discriminate; intuition.
Qed.

Lemma get_field_same_words g i i' :
  code_flags i' = code_flags i -> op_kind_flags i' = op_kind_flags i ->
  memory_flags i' = memory_flags i -> get_field g i' = get_field g i.
Proof.
  intros Ec Eo Em. unfold get_field. destruct (field_word g); cbn [word_value]; congruence.
Qed.

(** A write that keeps the packed words and changes only registers that
    it sets to valid discriminants. *)
Lemma decodes_same_words i i' :
  code_flags i' = code_flags i -> op_kind_flags i' = op_kind_flags i ->
  memory_flags i' = memory_flags i ->
  (reg0 i' = reg0 i \/ reg_ok (reg0 i')) -> (reg1 i' = reg1 i \/ reg_ok (reg1 i')) ->
  (reg2 i' = reg2 i \/ reg_ok (reg2 i')) -> (reg3 i' = reg3 i \/ reg_ok (reg3 i')) ->
  (mem_base_reg i' = mem_base_reg i \/ reg_ok (mem_base_reg i')) ->
  (mem_index_reg i' = mem_index_reg i \/ reg_ok (mem_index_reg i')) ->
  decodes i = true -> decodes i' = true.
Proof.
  intros Ec Eo Em H0 H1 H2 H3 Hb Hx Hd. apply decodes_fields in Hd. apply decodes_fields.
  rewrite !(get_field_same_words _ i i' Ec Eo Em).
  destruct H0 as [->|?], H1 as [->|?], H2 as [->|?], H3 as [->|?], Hb as [->|?], Hx as [->|?];
    intuition.
Qed.

Lemma reg_ok_to_u32 r : reg_ok (Register.to_u32 r).
Proof. apply Register.to_u32_range. Qed.

End Invariant.

(** ** Every step preserves the invariant *)

Ltac field_ok :=
  cbn [field_value_ok];
  first
    [ exact I
    | cbn [field_width layout fst snd]; rewrite op_kind_value_fits;
      apply opkind_to_u32_range
    | match goal with rc : RoundingControl.RoundingControl |- _ =>
        destruct rc; vm_compute; reflexivity end
    ].

Ltac field_step :=
  match goal with
  | |- decodes (set_code_size ?i ?c) = true =>
      apply (decodes_field_setter _ _ _ i (set_code_size_field c))
  | |- decodes (set_len ?i ?n) = true => apply (decodes_field_setter _ _ _ i (set_len_field n))
  | |- decodes (set_has_xacquire_prefix ?i ?b) = true =>
      apply (decodes_field_setter _ _ _ i (set_has_xacquire_prefix_field b))
  | |- decodes (set_has_xrelease_prefix ?i ?b) = true =>
      apply (decodes_field_setter _ _ _ i (set_has_xrelease_prefix_field b))
  | |- decodes (set_has_rep_prefix ?i ?b) = true =>
      apply (decodes_field_setter _ _ _ i (set_has_rep_prefix_field b))
  | |- decodes (set_has_repe_prefix ?i ?b) = true =>
      apply (decodes_field_setter _ _ _ i (set_has_repe_prefix_field b))
  | |- decodes (set_has_repne_prefix ?i ?b) = true =>
      apply (decodes_field_setter _ _ _ i (set_has_repne_prefix_field b))
  | |- decodes (set_has_lock_prefix ?i ?b) = true =>
      apply (decodes_field_setter _ _ _ i (set_has_lock_prefix_field b))
  | |- decodes (set_op0_kind ?i ?k) = true => apply (decodes_field_setter _ _ _ i (set_op0_kind_field k))
  | |- decodes (set_op1_kind ?i ?k) = true => apply (decodes_field_setter _ _ _ i (set_op1_kind_field k))
  | |- decodes (set_op2_kind ?i ?k) = true => apply (decodes_field_setter _ _ _ i (set_op2_kind_field k))
  | |- decodes (set_op3_kind ?i ?k) = true => apply (decodes_field_setter _ _ _ i (set_op3_kind_field k))
  | |- decodes (set_segment_prefix ?i ?r) = true =>
      apply (decodes_field_setter _ _ _ i (set_segment_prefix_field r))
  | |- decodes (set_memory_displ_size ?i ?n) = true =>
      apply (decodes_field_setter _ _ _ i (set_memory_displ_size_field n))
  | |- decodes (set_is_broadcast ?i ?b) = true =>
      apply (decodes_field_setter _ _ _ i (set_is_broadcast_field b))
  | |- decodes (set_memory_index_scale ?i ?n) = true =>
      apply (decodes_field_setter _ _ _ i (set_memory_index_scale_field n))
  | |- decodes (set_opmask ?i ?r) = true => apply (decodes_field_setter _ _ _ i (set_opmask_field r))
  | |- decodes (set_zeroing_masking ?i ?b) = true =>
      apply (decodes_field_setter _ _ _ i (set_zeroing_masking_field b))
  | |- decodes (set_merging_masking ?i ?b) = true =>
      apply (decodes_field_setter _ _ _ i (set_merging_masking_field b))
  | |- decodes (set_rounding_control ?i ?rc) = true =>
      apply (decodes_field_setter _ _ _ i (set_rounding_control_field rc))
  | |- decodes (set_suppress_all_exceptions ?i ?b) = true =>
      apply (decodes_field_setter _ _ _ i (set_suppress_all_exceptions_field b))
  | |- decodes (set_declare_data_len ?i ?n) = true =>
      apply (decodes_field_setter _ _ _ i (set_declare_data_len_field n))
  end.

(** Setters that write only [next_rip], [immediate], [mem_displ] or the
    registers. *)
Ltac words_step Hd :=
  unfold set_ip16, set_ip32, set_ip, set_next_ip16, set_next_ip32, set_next_ip,
    set_memory_displacement, set_immediate8, set_immediate8_2nd, set_immediate16,
    set_immediate32, set_immediate64, set_immediate8to16, set_immediate8to32,
    set_immediate8to64, set_immediate32to64, set_memory_address64, set_near_branch16,
    set_near_branch32, set_near_branch64, set_far_branch16, set_far_branch32,
    set_far_branch_selector, set_memory_base, set_memory_index, set_op0_register,
    set_op1_register, set_op2_register, set_op3_register;
  refine (decodes_same_words _ _ _ _ _ _ _ _ _ _ _ Hd); cbn_fields;
  first [reflexivity | left; reflexivity | right; apply reg_ok_to_u32].

Ltac code_typed :=
  match goal with Ht : (0 <=? ?c) && (?c <? _) = true |- _ =>
    apply andb_true_iff in Ht as [H0 H1]; apply Z.leb_le in H0; apply Z.ltb_lt in H1;
    pose proof code_count_fits
  end.

Ltac i32_ok := apply andb_true_iff; split; [apply Z.leb_le | apply Z.ltb_lt]; cbn; lia.

Ltac decodes_step Hd :=
  first
    [ field_step; [field_ok | exact Hd]
    | match goal with |- decodes (set_code ?i ?c) = true =>
        refine (decodes_field_setter _ _ _ i (set_code_field c _) _ Hd);
        [ code_typed; unfold fits; lia
        | code_typed; cbn [field_value_ok field_width layout fst snd];
          unfold CodeFlags.CODE_BITS; rewrite trunc_small by (unfold fits; lia); lia ]
      end
    | words_step Hd
    | exact Hd ].

Section Steps.
Context `{CT : CodeTables}.

Lemma set_op_kind_cases i n k i' :
  set_op_kind i n k = Ok i' ->
  i' = i \/ i' = set_op0_kind i k \/ i' = set_op1_kind i k \/ i' = set_op2_kind i k \/
  i' = set_op3_kind i k.
Proof.
  unfold set_op_kind, set_op4_kind.
  destruct (n =? 0), (n =? 1), (n =? 2), (n =? 3), (n =? 4), (OpKind.eqb k OpKind.Immediate8);
    intros H; inversion H; auto.
Qed.

Lemma set_op_register_cases i n r i' :
  set_op_register i n r = Ok i' ->
  i' = i \/ i' = set_op0_register i r \/ i' = set_op1_register i r \/
  i' = set_op2_register i r \/ i' = set_op3_register i r.
Proof.
  unfold set_op_register, set_op4_register.
  destruct (n =? 0), (n =? 1), (n =? 2), (n =? 3), (n =? 4), (Register.eqb r Register.None);
    intros H; inversion H; auto.
Qed.

Lemma set_immediate_u64_cases i n v i' :
  set_immediate_u64 i n v = Ok i' ->
  exists w, i' = with_immediate i w \/ i' = with_mem_displ i w \/ i' = set_immediate64 i w.
Proof.
  unfold set_immediate_u64. destruct (op_kind i n) as [k| |]; cbn [obind]; try discriminate.
  destruct k; intros H; inversion H; eauto.
Qed.

Lemma set_op4_cases i k r i' :
  (set_op4_kind i k = Ok i' -> i' = i) /\ (set_op4_register i r = Ok i' -> i' = i).
Proof.
  unfold set_op4_kind, set_op4_register.
  destruct (OpKind.eqb k OpKind.Immediate8), (Register.eqb r Register.None);
    split; intros H; inversion H; auto.
Qed.

Ltac outcome_step He Hd :=
  first
    [ apply set_op_kind_cases in He as [ -> | [ -> | [ -> | [ -> | -> ]]]]; decodes_step Hd
    | apply set_op_register_cases in He as [ -> | [ -> | [ -> | [ -> | -> ]]]]; decodes_step Hd
    | apply set_immediate_u64_cases in He as [w [ -> | [ -> | -> ]]]; decodes_step Hd
    | apply (proj1 (set_op4_cases _ _ Register.None _)) in He as ->; exact Hd
    | apply (proj2 (set_op4_cases _ OpKind.Register _ _)) in He as ->; exact Hd ].

(** One setter call keeps every enum accessor decodable. *)
Lemma exec_keeps_decodes i s i' :
  typed s = true -> payload_setter s = false -> exec i s = Ok i' ->
  decodes i = true -> decodes i' = true.
Proof.
  intros Ht Hp He Hd.
  destruct s; cbn [payload_setter] in Hp; try discriminate; cbn [typed] in Ht;
    cbn [exec] in He;
    unfold set_immediate_i32, set_immediate_u32, set_immediate_i64 in He;
    first [ injection He as <-; decodes_step Hd | outcome_step He Hd ].
Qed.

(** [C6] Invariant: a call of a public setter with arguments of its Rust
    types, other than the eight declare-data payload setters, keeps every
    enum-valued accessor decodable. *)
Theorem step_decodes (i i' : Instruction) :
  step i i' -> decodes i = true -> decodes i' = true.
Proof. intros [i0 s i1 Ht Hp He]. exact (exec_keeps_decodes i0 s i1 Ht Hp He). Qed.

End Steps.

(** ** Every step preserves the field widths *)

Ltac unfold_flags :=
  unfold MemoryFlags.SCALE_MASK, MemoryFlags.DISPL_SIZE_SHIFT, MemoryFlags.DISPL_SIZE_MASK,
    MemoryFlags.SEGMENT_PREFIX_SHIFT, MemoryFlags.SEGMENT_PREFIX_MASK, MemoryFlags.BROADCAST,
    OpKindFlags.OP_KIND_BITS, OpKindFlags.OP_KIND_MASK, OpKindFlags.OP1_KIND_SHIFT,
    OpKindFlags.OP2_KIND_SHIFT, OpKindFlags.OP3_KIND_SHIFT, OpKindFlags.DATA_LENGTH_MASK,
    OpKindFlags.DATA_LENGTH_SHIFT, OpKindFlags.CODE_SIZE_MASK, OpKindFlags.CODE_SIZE_SHIFT,
    CodeFlags.CODE_BITS, CodeFlags.CODE_MASK, CodeFlags.ROUNDING_CONTROL_MASK,
    CodeFlags.ROUNDING_CONTROL_SHIFT, CodeFlags.OPMASK_MASK, CodeFlags.OPMASK_SHIFT,
    CodeFlags.INSTR_LENGTH_MASK, CodeFlags.INSTR_LENGTH_SHIFT,
    CodeFlags.SUPPRESS_ALL_EXCEPTIONS, CodeFlags.ZEROING_MASKING, CodeFlags.XACQUIRE_PREFIX,
    CodeFlags.XRELEASE_PREFIX, CodeFlags.REPE_PREFIX, CodeFlags.REPNE_PREFIX,
    CodeFlags.LOCK_PREFIX in *.

Lemma fitsb_fits w v : fitsb w v = true -> fits w v.
Proof. unfold fitsb, fits. rewrite andb_true_iff, Z.leb_le, Z.ltb_lt. tauto. Qed.

Lemma reg_fits8 r : fits 8 (Register.to_u32 r).
Proof. pose proof (Register.to_u32_range r). unfold fits, Register.NUMBER_OF_REGISTERS in *. lia. Qed.

Lemma kind_fits5 k : fits 5 (OpKind.to_u32 k).
Proof. pose proof (opkind_to_u32_range k). unfold fits. cbn. lia. Qed.

Ltac wf_fits :=
  first
    [ fits_tac
    | apply reg_fits8
    | eapply fits_mono; [| apply reg_fits8]; lia
    | apply fits_lor; [fits_tac|];
      match goal with Ht : (0 <=? ?c) = true /\ (?c <? _) = true |- fits _ ?c =>
        destruct Ht as [H0 H1]; apply Z.leb_le in H0; apply Z.ltb_lt in H1;
        pose proof code_count_fits; unfold fits; cbn in *; lia
      end ].

Ltac wf_case Hwf :=
  unfold set_ip16, set_ip32, set_ip, set_next_ip16, set_next_ip32, set_next_ip,
    set_memory_displacement, set_immediate8, set_immediate8_2nd, set_immediate16,
    set_immediate32, set_immediate64, set_immediate8to16, set_immediate8to32,
    set_immediate8to64, set_immediate32to64, set_memory_address64, set_near_branch16,
    set_near_branch32, set_near_branch64, set_far_branch16, set_far_branch32,
    set_far_branch_selector, set_memory_base, set_memory_index, set_op0_register,
    set_op1_register, set_op2_register, set_op3_register, set_code_size, set_code, set_len,
    set_has_xacquire_prefix, set_has_xrelease_prefix, set_has_rep_prefix,
    set_has_repe_prefix, set_has_repne_prefix, set_has_lock_prefix, set_op0_kind,
    set_op1_kind, set_op2_kind, set_op3_kind, set_segment_prefix, set_memory_displ_size,
    set_is_broadcast, set_memory_index_scale, set_opmask, set_zeroing_masking,
    set_merging_masking, set_rounding_control, set_suppress_all_exceptions,
    set_declare_data_len, wrapping_add, wrapping_sub, as_u8, as_u16, as_u32, as_u64;
  unfold wf; cbn_fields; cbv zeta; unfold_flags;
  let H := fresh in pose proof Hwf as H; destruct_wf H;
  repeat match goal with |- context [if ?c then _ else _] => destruct c end;
  split_conj; wf_fits.

Section Widths.
Context `{CT : CodeTables}.

Lemma set_immediate_u64_wf i n v i' :
  wf i -> set_immediate_u64 i n v = Ok i' -> wf i'.
Proof.
  intros Hwf. unfold set_immediate_u64. destruct (op_kind i n) as [k| |]; cbn [obind];
    try discriminate.
  destruct k; intros He; inversion He; subst; wf_case Hwf.
Qed.

Lemma step_wf i i' : step i i' -> wf i -> wf i'.
Proof.
  intros [i0 s i1 Ht Hp He] Hwf.
  destruct s; cbn [payload_setter] in Hp; try discriminate; cbn [typed] in Ht;
    rewrite ?andb_true_iff in Ht;
    repeat match goal with H : fitsb _ _ = true |- _ => apply fitsb_fits in H end;
    cbn [exec] in He;
    unfold set_immediate_i32, set_immediate_u32, set_immediate_i64 in He.
  all: first
    [ injection He as <-; wf_case Hwf
    | apply set_op_kind_cases in He as [ -> | [ -> | [ -> | [ -> | -> ]]]]; wf_case Hwf
    | apply set_op_register_cases in He as [ -> | [ -> | [ -> | [ -> | -> ]]]]; wf_case Hwf
    | apply (set_immediate_u64_wf _ _ _ _ Hwf He)
    | apply (proj1 (set_op4_cases _ _ Register.None _)) in He as ->; exact Hwf
    | apply (proj2 (set_op4_cases _ OpKind.Register _ _)) in He as ->; exact Hwf ].
Qed.

Lemma payload_wf i s i' :
  typed s = true -> payload_setter s = true -> wf i -> exec i s = Ok i' -> wf i'.
Proof.
  intros Ht Hp Hwf He.
  destruct s; cbn [payload_setter] in Hp; try discriminate; cbn [typed] in Ht;
    apply andb_true_iff in Ht as [_ Hv]; cbn [exec] in He;
    unfold set_declare_byte_value_i8, set_declare_word_value_i16, set_declare_dword_value_i32,
      set_declare_qword_value_i64 in He;
    lazymatch type of He with
    | set_declare_byte_value _ _ _ = _ => apply (set_byte_wf _ Hwf _ _ _) in He
    | set_declare_word_value _ _ _ = _ => apply (set_word_wf _ Hwf _ _ _) in He
    | set_declare_dword_value _ _ _ = _ => apply (set_dword_wf _ Hwf _ _ _) in He
    | set_declare_qword_value _ _ _ = _ => apply (set_qword_wf _ Hwf _ _ _) in He
    end;
    try exact He; first [apply fitsb_fits; exact Hv | apply trunc_fits; lia].
Qed.

Lemma exec_keeps_wf (s : Setter) (i i' : Instruction) :
  typed s = true -> wf i -> exec i s = Ok i' -> wf i'.
Proof.
  intros Ht Hwf He. destruct (payload_setter s) eqn:Hp.
  - exact (payload_wf i s i' Ht Hp Hwf He).
  - exact (step_wf i i' (step_exec i s i' Ht Hp He) Hwf).
Qed.

End Widths.

(** ** Reachable instructions *)

Section Reachable.
Context `{CT : CodeTables}.

Lemma decodes_new : decodes new = true.
Proof.
  apply decodes_fields. pose proof code_count_fits.
  unfold reg_ok, Register.NUMBER_OF_REGISTERS. cbn -[NUMBER_OF_CODE_VALUES]. lia.
Qed.

Lemma run_from i0 ss i :
  clos_refl_trans Instruction step new i0 ->
  Forall (fun s => typed s = true /\ payload_setter s = false) ss ->
  run i0 ss = Ok i -> clos_refl_trans Instruction step new i.
Proof.
  revert i0. induction ss as [|s ss IH]; intros i0 H0 Hss Hrun; cbn [run] in Hrun.
  - injection Hrun as <-. exact H0.
  - inversion Hss as [|? ? [Ht Hp] Hss']; subst.
    destruct (exec i0 s) as [i1| |] eqn:He; cbn [obind] in Hrun; try discriminate.
    apply (IH i1); [|exact Hss'|exact Hrun].
    apply rt_trans with i0; [exact H0|]. apply rt_step. exact (step_exec i0 s i1 Ht Hp He).
Qed.

Lemma step_preserves_decodes i i' :
  clos_refl_trans Instruction step i i' -> decodes i = true -> decodes i' = true.
Proof.
  induction 1 as [a b Hs | a | a b c _ IH1 _ IH2]; auto.
  intros Hd. destruct Hs as [a s b Ht Hp He]. exact (exec_keeps_decodes a s b Ht Hp He Hd).
Qed.

Lemma step_preserves_wf i i' :
  clos_refl_trans Instruction step i i' -> wf i -> wf i'.
Proof.
  induction 1 as [a b Hs | a | a b c _ IH1 _ IH2]; auto.
  intros Hw. apply (step_wf a b Hs Hw).
Qed.

(** [C7] Every instruction reachable from [Instruction::new()] through
    typed calls of public setters other than the declare-data payload
    setters decodes, and keeps every packed word within its Rust width. *)
Theorem reachable_decodes (i : Instruction) : reachable i -> decodes i = true /\ wf i.
Proof.
  intros H. split.
  - apply (step_preserves_decodes new i H decodes_new).
  - apply (step_preserves_wf new i H wf_new).
Qed.

(** A sequence of typed setter calls without payload setters that
    runs to completion from [Instruction::new()] reaches an instruction of
    the step relation. *)
Theorem run_reachable (ss : list Setter) (i : Instruction) :
  Forall (fun s => typed s = true /\ payload_setter s = false) ss ->
  run new ss = Ok i -> reachable i.
Proof. intros Hss Hrun. apply (run_from new ss i (rt_refl _ _ _) Hss Hrun). Qed.

(** The declare-data payload setters are excluded for a reason: a
    typed call [set_declare_byte_value(14, 0xFF)] on [Instruction::new()]
    yields an instruction that does not decode. *)
Theorem payload_breaks_decodes :
  typed (SetDeclareByteValue 14 0xFF) = true /\ payload_setter (SetDeclareByteValue 14 0xFF) = true /\
  exists i', exec new (SetDeclareByteValue 14 0xFF) = Ok i' /\ decodes i' = false.
Proof.
  split; [reflexivity|]. split; [reflexivity|]. eexists. split; [reflexivity|].
  destruct (decodes _) eqn:E; [|reflexivity].
  apply decodes_fields in E. cbn -[NUMBER_OF_CODE_VALUES] in E. lia.
Qed.

End Reachable.

(** ** Interleaving: writes to distinct fields commute

    Two instructions are [field_equiv] when every field and register that
    an accessor reads is equal (the words may still differ in bits that no
    field covers).  It is an equivalence, every packed-field setter and
    every getter respects it, so setoid rewriting moves a setter past
    another that writes a different field. *)

#[export] Instance field_equiv_equivalence : Equivalence field_equiv.
Proof.
  unfold field_equiv, raw_equal. split.
  - intros a. repeat split.
  - intros a b [R G]. split; [intuition congruence | intros g; symmetry; apply G].
  - intros a b c [R1 G1] [R2 G2]. split; [intuition congruence | intros g; rewrite G1; apply G2].
Qed.

Lemma acts_as_field_proper op f v :
  acts_as_field op f v -> Proper (field_equiv ==> field_equiv) op.
Proof.
  intros H a b [Rab Gab]. destruct (H a) as [Ra Ga], (H b) as [Rb Gb].
  split.
  - unfold raw_equal in *. intuition congruence.
  - intros g. rewrite Ga, Gb, !get_set_field, Gab. reflexivity.
Qed.

#[export] Instance op_kind_proper `{CT : CodeTables} :
  Proper (field_equiv ==> eq ==> eq) op_kind.
Proof. intros a b [_ G] n m <-. rewrite !op_kind_fields, !G. reflexivity. Qed.

#[export] Instance decodes_proper `{CT : CodeTables} : Proper (field_equiv ==> eq) decodes.
Proof.
  intros a b [R G]. destruct R as (_ & _ & _ & Eb & Ex & E0 & E1 & E2 & E3).
  apply eq_iff_eq_true. rewrite !decodes_fields, !G, Eb, Ex, E0, E1, E2, E3. reflexivity.
Qed.

(** Two packed-field setters that write different fields commute up to
    [field_equiv]. *)
Lemma acts_as_field_commute (op1 op2 : Instruction -> Instruction) (f1 f2 : Field) (v1 v2 : Z)
    (i : Instruction) :
  acts_as_field op1 f1 v1 -> acts_as_field op2 f2 v2 -> f1 <> f2 ->
  field_equiv (op1 (op2 i)) (op2 (op1 i)).
Proof.
  intros H1 H2 Hf. destruct (H1 (op2 i)) as [R1 G1], (H2 i) as [R2 G2],
    (H2 (op1 i)) as [R3 G3], (H1 i) as [R4 G4].
  split.
  - unfold raw_equal in *. intuition congruence.
  - intros g. rewrite G1, G3, !get_set_field, G2, G4, !get_set_field.
    destruct (Field_eq_dec f1 g), (Field_eq_dec f2 g); congruence.
Qed.

(** Setoid rewriting with [setters_commute]'s relation: the operand kinds
    read after setting operand 1's kind and the lock prefix do not depend
    on the order of the two calls. *)
Lemma op_kind_lock_order `{CT : CodeTables} i k b n :
  op_kind (set_op1_kind (set_has_lock_prefix i b) k) n =
  op_kind (set_has_lock_prefix (set_op1_kind i k) b) n.
Proof.
  pose proof (acts_as_field_commute _ _ _ _ _ _ i (set_op1_kind_field k)
                (set_has_lock_prefix_field b) ltac:(discriminate)) as E.
  cbv beta in E.
  rewrite E. reflexivity.
Qed.

Section Commute.
Context `{CT : CodeTables}.

Lemma setter_effect_acts s f v :
  typed s = true -> setter_effect s = Some (f, v) ->
  exists op, acts_as_field op f v /\ forall i, exec i s = Ok (op i).
Proof.
  intros Ht Hf. destruct s; cbn [setter_effect] in Hf; try discriminate;
    injection Hf as <- <-; eexists; (split; [|intros i; reflexivity]).
  all: first
    [ apply set_code_size_field | apply set_len_field | apply set_has_xacquire_prefix_field
    | apply set_has_xrelease_prefix_field | apply set_has_rep_prefix_field
    | apply set_has_repe_prefix_field | apply set_has_repne_prefix_field
    | apply set_has_lock_prefix_field | apply set_op0_kind_field | apply set_op1_kind_field
    | apply set_op2_kind_field | apply set_op3_kind_field | apply set_segment_prefix_field
    | apply set_memory_displ_size_field | apply set_is_broadcast_field
    | apply set_memory_index_scale_field | apply set_opmask_field
    | apply set_zeroing_masking_field | apply set_merging_masking_field
    | apply set_rounding_control_field | apply set_suppress_all_exceptions_field
    | apply set_declare_data_len_field
    | apply set_code_field; cbn [typed] in Ht; code_typed; unfold fits; lia ].
Qed.

Lemma setter_acts s f :
  typed s = true -> setter_field s = Some f ->
  exists op v, acts_as_field op f v /\ forall i, exec i s = Ok (op i).
Proof.
  intros Ht Hf. assert (E : exists v, setter_effect s = Some (f, v))
    by (destruct s; cbn in Hf |- *; try discriminate; injection Hf as <-; eexists; reflexivity).
  destruct E as [v E]. destruct (setter_effect_acts s f v Ht E) as (op & A & X). eauto.
Qed.

(** [C8] Two typed calls of public setters that write different packed
    fields commute: both orders run to completion and every field and
    register reads the same afterwards. *)
Theorem setters_commute (s1 s2 : Setter) (f1 f2 : Field) (i : Instruction) :
  typed s1 = true -> typed s2 = true -> setter_field s1 = Some f1 ->
  setter_field s2 = Some f2 -> f1 <> f2 ->
  exists a b, run i [s1; s2] = Ok a /\ run i [s2; s1] = Ok b /\ field_equiv a b.
Proof.
  intros T1 T2 F1 F2 Hf.
  destruct (setter_acts s1 f1 T1 F1) as (op1 & v1 & A1 & E1),
    (setter_acts s2 f2 T2 F2) as (op2 & v2 & A2 & E2).
  exists (op2 (op1 i)), (op1 (op2 i)). cbn [run]. rewrite E1, E2. cbn [obind].
  rewrite E2, E1. cbn [obind]. split; [reflexivity|]. split; [reflexivity|].
  symmetry. apply (acts_as_field_commute op1 op2 f1 f2 v1 v2 i A1 A2 Hf).
Qed.

End Commute.

(** ** Witnesses, on [sample_tables] *)

Lemma step_decodes_witness :
  step new (set_op0_kind new OpKind.Memory) /\ decodes new = true /\
  decodes (set_op0_kind new OpKind.Memory) = true.
Proof.
  assert (Hs : step new (set_op0_kind new OpKind.Memory))
    by (apply (step_exec new (SetOp0Kind OpKind.Memory)); reflexivity).
  assert (Hd : decodes new = true) by reflexivity.
  split; [exact Hs|]. split; [exact Hd|]. exact (step_decodes _ _ Hs Hd).
Defined.

Lemma reachable_decodes_witness :
  reachable (set_code (set_op0_kind new OpKind.Memory) 7) /\
  (decodes (set_code (set_op0_kind new OpKind.Memory) 7) = true /\
   wf (set_code (set_op0_kind new OpKind.Memory) 7)).
Proof.
  assert (H : reachable (set_code (set_op0_kind new OpKind.Memory) 7)).
  { apply rt_trans with (set_op0_kind new OpKind.Memory); apply rt_step.
    - apply (step_exec new (SetOp0Kind OpKind.Memory)); reflexivity.
    - apply (step_exec _ (SetCode 7)); reflexivity. }
  split; [exact H|]. exact (reachable_decodes _ H).
Defined.

Lemma run_reachable_witness :
  Forall (fun s => typed s = true /\ payload_setter s = false)
    [SetCode 7; SetOp0Kind OpKind.Memory; SetMemoryBase Register.RAX] /\
  run new [SetCode 7; SetOp0Kind OpKind.Memory; SetMemoryBase Register.RAX]
    = Ok (set_memory_base (set_op0_kind (set_code new 7) OpKind.Memory) Register.RAX) /\
  reachable (set_memory_base (set_op0_kind (set_code new 7) OpKind.Memory) Register.RAX).
Proof.
  assert (H1 : Forall (fun s => typed s = true /\ payload_setter s = false)
    [SetCode 7; SetOp0Kind OpKind.Memory; SetMemoryBase Register.RAX])
    by (repeat constructor).
  assert (H2 : run new [SetCode 7; SetOp0Kind OpKind.Memory; SetMemoryBase Register.RAX]
    = Ok (set_memory_base (set_op0_kind (set_code new 7) OpKind.Memory) Register.RAX))
    by reflexivity.
  split; [exact H1|]. split; [exact H2|]. exact (run_reachable _ _ H1 H2).
Defined.

Lemma setters_commute_witness :
  typed (SetHasLockPrefix true) = true /\ typed (SetOp1Kind OpKind.Memory) = true /\
  setter_field (SetHasLockPrefix true) = Some FLockPrefix /\
  setter_field (SetOp1Kind OpKind.Memory) = Some FOp1Kind /\ FLockPrefix <> FOp1Kind /\
  exists a b, run new [SetHasLockPrefix true; SetOp1Kind OpKind.Memory] = Ok a /\
    run new [SetOp1Kind OpKind.Memory; SetHasLockPrefix true] = Ok b /\ field_equiv a b.
Proof.
  assert (H1 : typed (SetHasLockPrefix true) = true) by reflexivity.
  assert (H2 : typed (SetOp1Kind OpKind.Memory) = true) by reflexivity.
  assert (H3 : setter_field (SetHasLockPrefix true) = Some FLockPrefix) by reflexivity.
  assert (H4 : setter_field (SetOp1Kind OpKind.Memory) = Some FOp1Kind) by reflexivity.
  assert (H5 : FLockPrefix <> FOp1Kind) by discriminate.
  do 5 (split; [assumption|]). exact (setters_commute _ _ _ _ new H1 H2 H3 H4 H5).
Defined.
