(* ===== verification/FastPath.v ===== *)
(** * The decoder's fast paths: [internal_set_*] against the public setters

    [instruction.rs] has a [pub(crate)] twin for most setters.  The twin
    ORs the raw encoding into its packed word without clearing the field
    first: it is meant for a decoder that fills a fresh
    [Instruction::new()] once per field.  [InternalOp] lists these calls
    with the arguments the decoder passes (raw encodings, as [u32]);
    [exec_internal] runs one; [public_of] names the public setter call
    that stores the same value, with the raw encoding read back the way
    the getter reads it.  The theorems show the contract: on a zero field
    a fast path does what its public setter does, and a whole decoder
    program that writes each field once, run from [Instruction::new()],
    builds the very instruction that the public setters build. *)

From Stdlib Require Import ZArith Lia List Bool Relations.
From S2P Require Import Prelude Register Tables Layout Instruction DeclareData Builder.
Import ListNotations.
Open Scope Z_scope.
Open Scope iced_scope.

(** ** The fast-path calls *)

Inductive InternalOp : Set :=
| ICodeSize (c : CodeSize.CodeSize)
| ICode (c : Z)
| ILen (n : Z)
| IXacquirePrefix
| IXreleasePrefix
| IRepePrefix
| IRepnePrefix
| ILockPrefix
| IOp0Kind (k : OpKind.OpKind)
| IOp1Kind (k : OpKind.OpKind)
| IOp2Kind (k : OpKind.OpKind)
| IOp3Kind (k : OpKind.OpKind)
| IMemoryBase (r : Register.Register)
| IMemoryIndex (r : Register.Register)
| IMemoryDisplSize (e : Z)
| IIsBroadcast
| IMemoryIndexScale (e : Z)
| IOp0Register (r : Register.Register)
| IOp1Register (r : Register.Register)
| IOp2Register (r : Register.Register)
| IOp3Register (r : Register.Register)
| IOpmask (e : Z)
| IZeroingMasking
| IRoundingControl (rc : RoundingControl.RoundingControl)
| ISuppressAllExceptions
| IDeclareDataLen (n : Z).

(** [i.internal_set_xxx(args)] *)
Definition exec_internal (i : Instruction) (op : InternalOp) : Instruction :=
  match op with
  | ICodeSize c => internal_set_code_size i c
  | ICode c => internal_set_code i c
  | ILen n => internal_set_len i n
  | IXacquirePrefix => internal_set_has_xacquire_prefix i
  | IXreleasePrefix => internal_set_has_xrelease_prefix i
  | IRepePrefix => internal_set_has_repe_prefix i
  | IRepnePrefix => internal_set_has_repne_prefix i
  | ILockPrefix => internal_set_has_lock_prefix i
  | IOp0Kind k => internal_set_op0_kind i k
  | IOp1Kind k => internal_set_op1_kind i k
  | IOp2Kind k => internal_set_op2_kind i k
  | IOp3Kind k => internal_set_op3_kind i k
  | IMemoryBase r => internal_set_memory_base i r
  | IMemoryIndex r => internal_set_memory_index i r
  | IMemoryDisplSize e => internal_set_memory_displ_size i e
  | IIsBroadcast => internal_set_is_broadcast i
  | IMemoryIndexScale e => internal_set_memory_index_scale i e
  | IOp0Register r => internal_set_op0_register i r
  | IOp1Register r => internal_set_op1_register i r
  | IOp2Register r => internal_set_op2_register i r
  | IOp3Register r => internal_set_op3_register i r
  | IOpmask e => internal_set_opmask i e
  | IZeroingMasking => internal_set_zeroing_masking i
  | IRoundingControl rc => internal_set_rounding_control i (RoundingControl.to_u32 rc)
  | ISuppressAllExceptions => internal_set_suppress_all_exceptions i
  | IDeclareDataLen n => internal_set_declare_data_len i n
  end.

(** A decoder program, run left to right. *)
Definition run_internal (i : Instruction) (ops : list InternalOp) : Instruction :=
  fold_left exec_internal ops i.

(** The decodings of the getters: [memory_displ_size()] reads 0, 1, 2, 3,
    4 as 0, 1, 2, 4, 8 bytes, [memory_index_scale()] reads [e] as
    [1 << e], and [opmask()] reads 0 as [None] and [e] as [K0 + e]. *)
Definition displ_size_of (e : Z) : Z := if e <=? 2 then e else if e =? 3 then 4 else 8.
Definition index_scale_of (e : Z) : Z := 1 .<< e.
Definition opmask_of (e : Z) : Register.Register :=
  if e =? 0 then Register.None else Register.transmute (e + Register.to_u32 Register.K0).

(** The public setter call that stores what the fast path stores. *)
Definition public_of (op : InternalOp) : Setter :=
  match op with
  | ICodeSize c => SetCodeSize c
  | ICode c => SetCode c
  | ILen n => SetLen n
  | IXacquirePrefix => SetHasXacquirePrefix true
  | IXreleasePrefix => SetHasXreleasePrefix true
  | IRepePrefix => SetHasRepePrefix true
  | IRepnePrefix => SetHasRepnePrefix true
  | ILockPrefix => SetHasLockPrefix true
  | IOp0Kind k => SetOp0Kind k
  | IOp1Kind k => SetOp1Kind k
  | IOp2Kind k => SetOp2Kind k
  | IOp3Kind k => SetOp3Kind k
  | IMemoryBase r => SetMemoryBase r
  | IMemoryIndex r => SetMemoryIndex r
  | IMemoryDisplSize e => SetMemoryDisplSize (displ_size_of e)
  | IIsBroadcast => SetIsBroadcast true
  | IMemoryIndexScale e => SetMemoryIndexScale (index_scale_of e)
  | IOp0Register r => SetOp0Register r
  | IOp1Register r => SetOp1Register r
  | IOp2Register r => SetOp2Register r
  | IOp3Register r => SetOp3Register r
  | IOpmask e => SetOpmask (opmask_of e)
  | IZeroingMasking => SetZeroingMasking true
  | IRoundingControl rc => SetRoundingControl rc
  | ISuppressAllExceptions => SetSuppressAllExceptions true
  | IDeclareDataLen n => SetDeclareDataLen n
  end.

(** The packed field a fast path ORs into; the register bytes are plain
    assignments. *)
Definition internal_field (op : InternalOp) : option Field :=
  match op with
  | ICodeSize _ => Some FCodeSize
  | ICode _ => Some FCode
  | ILen _ => Some FInstrLength
  | IXacquirePrefix => Some FXacquirePrefix
  | IXreleasePrefix => Some FXreleasePrefix
  | IRepePrefix => Some FRepePrefix
  | IRepnePrefix => Some FRepnePrefix
  | ILockPrefix => Some FLockPrefix
  | IOp0Kind _ => Some FOp0Kind
  | IOp1Kind _ => Some FOp1Kind
  | IOp2Kind _ => Some FOp2Kind
  | IOp3Kind _ => Some FOp3Kind
  | IMemoryDisplSize _ => Some FDisplSize
  | IIsBroadcast => Some FBroadcast
  | IMemoryIndexScale _ => Some FScale
  | IOpmask _ => Some FOpmask
  | IZeroingMasking => Some FZeroingMasking
  | IRoundingControl _ => Some FRoundingControl
  | ISuppressAllExceptions => Some FSuppressAllExceptions
  | IDeclareDataLen _ => Some FDataLength
  | IMemoryBase _ | IMemoryIndex _ | IOp0Register _ | IOp1Register _ | IOp2Register _
  | IOp3Register _ => None
  end.

(** The packed fields a program writes, in order. *)
Fixpoint written_fields (ops : list InternalOp) : list Field :=
  match ops with
  | [] => []
  | op :: ops' =>
      match internal_field op with
      | Some f => f :: written_fields ops'
      | None => written_fields ops'
      end
  end.

Section Contract.
Context `{CT : CodeTables}.

(** The arguments the decoder passes: a [Code] discriminant, a length of
    at most 15, the raw encodings of the displacement size (0 to 4), the
    scale (0 to 3) and the opmask (0 to 7), and a data count of 1 to 16. *)
Definition args_ok (op : InternalOp) : bool :=
  match op with
  | ICode c => (0 <=? c) && (c <? NUMBER_OF_CODE_VALUES)
  | ILen n => (0 <=? n) && (n <? 16)
  | IMemoryDisplSize e => (0 <=? e) && (e <=? 4)
  | IMemoryIndexScale e => (0 <=? e) && (e <=? 3)
  | IOpmask e => (0 <=? e) && (e <=? 7)
  | IDeclareDataLen n => (1 <=? n) && (n <=? 16)
  | _ => true
  end.

End Contract.

(** ** One call *)

Section OneCall.
Context `{CT : CodeTables}.

Lemma internal_set_declare_data_len_agrees i n :
  get_field FDataLength i = 0 -> 1 <= n <= 16 ->
  internal_set_declare_data_len i n = set_declare_data_len i n.
Proof.
  intros H Hn. unfold internal_set_declare_data_len, set_declare_data_len. zero_field H.
  f_equal. unfold wrapping_sub, as_u32.
  rewrite (trunc_small 32 (n - 1)) by (lia || (unfold fits; cbn; lia)).
  assert (fits 4 (n - 1)) by (unfold fits; cbn; lia). or_field H.
Qed.

Lemma opmask_zero_is_none i : set_opmask i Register.K0 = set_opmask i Register.None.
Proof. reflexivity. Qed.

Ltac range_arg Ha e n :=
  apply andb_true_iff in Ha as [Ha1 Ha2]; rewrite ?Z.leb_le, ?Z.ltb_lt in Ha1, Ha2;
  let Hr := fresh "Hr" in assert (Hr : 0 <= e < Z.of_nat n) by (split; [exact Ha1 | lia]);
  range_split Hr n.

(** A fast path on a zero field does what its public setter does. *)
Lemma internal_agrees i op :
  args_ok op = true -> fits 16 (memory_flags i) ->
  (forall f, internal_field op = Some f -> get_field f i = 0) ->
  exec i (public_of op) = Ok (exec_internal i op).
Proof.
  intros Ha Hm Hz.
  destruct op; cbn [args_ok] in Ha; cbn [exec public_of exec_internal internal_field] in *;
    f_equal; symmetry; try reflexivity; specialize (Hz _ eq_refl).
  - now apply internal_set_code_size_agrees.
  - apply internal_set_code_agrees; [exact Hz|]. code_typed. unfold fits. cbn in *. lia.
  - apply internal_set_len_agrees; [exact Hz|]. apply andb_true_iff in Ha as [Ha1 Ha2].
    apply Z.leb_le in Ha1. apply Z.ltb_lt in Ha2. unfold fits. cbn. lia.
  - now apply internal_set_op_kind_agrees.
  - now apply internal_set_op_kind_agrees.
  - now apply internal_set_op_kind_agrees.
  - now apply internal_set_op_kind_agrees.
  - range_arg Ha e 5%nat; apply internal_set_memory_displ_size_agrees; auto; cbn; tauto.
  - range_arg Ha e 4%nat; apply internal_set_memory_index_scale_agrees; auto; cbn; tauto.
  - range_arg Ha e 8%nat;
      [ rewrite <- opmask_zero_is_none | .. ];
      rewrite <- (internal_set_opmask_agrees i _ Hz) by (vm_compute; tauto); reflexivity.
  - now apply internal_set_rounding_control_agrees.
  - apply internal_set_declare_data_len_agrees; [exact Hz|].
    apply andb_true_iff in Ha as [Ha1 Ha2]. apply Z.leb_le in Ha1, Ha2. lia.
Qed.

End OneCall.

(** ** A decoder program *)

Section Program.
Context `{CT : CodeTables}.

Lemma typed_public_of op : args_ok op = true -> typed (public_of op) = true.
Proof.
  intros Ha. destruct op; cbn [args_ok public_of typed] in *; try reflexivity; try exact Ha;
    apply andb_true_iff in Ha as [Ha1 Ha2];
    first [apply Z.leb_le in Ha1 | apply Z.ltb_lt in Ha1];
    first [apply Z.leb_le in Ha2 | apply Z.ltb_lt in Ha2];
    unfold is_i32, displ_size_of, index_scale_of.
  3: assert (Hr : 0 <= e < Z.of_nat 4) by (cbn; lia); range_split Hr 4%nat; reflexivity.
  all: repeat match goal with |- context [if ?c then _ else _] => destruct c end; i32_ok.
Qed.

Lemma public_of_field op : setter_field (public_of op) = internal_field op.
Proof. destruct op; reflexivity. Qed.

Lemma public_of_not_payload op : payload_setter (public_of op) = false.
Proof. destruct op; reflexivity. Qed.

(** The preconditions of one fast path on [i]. *)
Definition fast_path_ok (i : Instruction) (op : InternalOp) : Prop :=
  args_ok op = true /\ fits 16 (memory_flags i) /\
  forall f, internal_field op = Some f -> get_field f i = 0.

(** A fast path leaves every other packed field as it was. *)
Lemma internal_frame i op g :
  fast_path_ok i op -> internal_field op <> Some g ->
  get_field g (exec_internal i op) = get_field g i.
Proof.
  intros [Ha [Hm Hz]] Hg. pose proof (internal_agrees i op Ha Hm Hz) as E.
  destruct (internal_field op) as [f|] eqn:Ef.
  - rewrite <- public_of_field in Ef.
    destruct (setter_acts _ f (typed_public_of op Ha) Ef) as (o & v & Ho & He).
    rewrite He in E. injection E as <-.
    apply (acts_as_field_other _ _ _ _ _ Ho). congruence.
  - destruct op; try discriminate Ef; unfold get_field; destruct (field_word g); reflexivity.
Qed.

(** The fast paths keep [memory_flags] a [u16]. *)
Lemma internal_memory_flags_fit i op :
  args_ok op = true -> fits 16 (memory_flags i) -> fits 16 (memory_flags (exec_internal i op)).
Proof.
  intros Ha Hm. destruct op; cbn [exec_internal];
    unfold internal_set_memory_displ_size, internal_set_is_broadcast,
      internal_set_memory_index_scale; cbn_fields; try exact Hm; apply fits_lor; try exact Hm;
    unfold as_u16; try fits_tac.
  unfold fits, MemoryFlags.BROADCAST. lia.
Qed.

Lemma run_internal_from i ops :
  fits 16 (memory_flags i) -> forallb args_ok ops = true -> NoDup (written_fields ops) ->
  (forall f, In f (written_fields ops) -> get_field f i = 0) ->
  run i (map public_of ops) = Ok (run_internal i ops).
Proof.
  revert i. induction ops as [|op ops IH]; intros i Hm Ha Hnd Hz; [reflexivity|].
  cbn [forallb] in Ha. apply andb_true_iff in Ha as [Ha Has].
  assert (Hok : fast_path_ok i op).
  { split; [exact Ha|]. split; [exact Hm|]. intros f Ef. apply Hz.
    cbn [written_fields]. rewrite Ef. left. reflexivity. }
  cbn [map run]. rewrite (internal_agrees i op Ha Hm (proj2 (proj2 Hok))). cbn [obind].
  unfold run_internal. cbn [fold_left]. fold (run_internal (exec_internal i op) ops).
  cbn [written_fields] in Hnd, Hz. destruct (internal_field op) as [f|] eqn:Ef.
  - apply NoDup_cons_iff in Hnd as [Hnin Hnd].
    apply IH; auto using internal_memory_flags_fit.
    intros g Hg. rewrite (internal_frame i op g Hok) by congruence. apply Hz. now right.
  - apply IH; auto using internal_memory_flags_fit.
    intros g Hg. rewrite (internal_frame i op g Hok) by congruence. now apply Hz.
Qed.

End Program.

(** ** The contract of the fast paths *)

Section Refinement.
Context `{CT : CodeTables}.

Lemma public_program_steps ops :
  forallb args_ok ops = true ->
  Forall (fun s => typed s = true /\ payload_setter s = false) (map public_of ops).
Proof.
  intros Ha. apply Forall_map, Forall_forall. intros op Hin.
  split; [apply typed_public_of | apply public_of_not_payload].
  exact (proj1 (forallb_forall _ _) Ha op Hin).
Qed.

(** [C9] Refinement: a decoder program of fast-path calls with in-range
    arguments that writes each packed field at most once, run from
    [Instruction::new()], builds exactly the instruction that the
    corresponding public setters build, and none of those setters panics. *)
Theorem fast_path_refines (ops : list InternalOp) :
  forallb args_ok ops = true -> NoDup (written_fields ops) ->
  run new (map public_of ops) = Ok (run_internal new ops).
Proof.
  intros Ha Hnd. apply run_internal_from; auto.
  - unfold fits. cbn. lia.
  - intros f _. destruct f; reflexivity.
Qed.

(** [C10] What a decoder builds through the fast paths is an instruction
    of the setter state machine: reachable from [Instruction::new()], so
    every enum accessor decodes it and each packed word fits its Rust
    type. *)
Theorem fast_path_decodes (ops : list InternalOp) :
  forallb args_ok ops = true -> NoDup (written_fields ops) ->
  reachable (run_internal new ops) /\ decodes (run_internal new ops) = true /\
  wf (run_internal new ops).
Proof.
  intros Ha Hnd.
  assert (Hr : reachable (run_internal new ops)).
  { apply (run_from new (map public_of ops)); [apply rt_refl | |].
    - now apply public_program_steps.
    - apply run_internal_from; auto; [unfold fits; cbn; lia | intros f _; destruct f; reflexivity]. }
  split; [exact Hr|]. split.
  - exact (step_preserves_decodes new _ Hr decodes_new).
  - exact (step_preserves_wf new _ Hr wf_new).
Qed.

End Refinement.

(** The fast paths need a zero field: on an instruction whose code
    is already 1, [internal_set_code(2)] ORs the discriminants and [code()]
    reads 3, where [set_code(2)] reads 2. *)
Example fast_path_needs_zero_field :
  code (internal_set_code (set_code new 1) 2) = Ok 3 /\
  code (set_code (set_code new 1) 2) = Ok 2.
Proof. split; reflexivity. Qed.

(** ** Witnesses, on [sample_tables] *)

Definition sample_program : list InternalOp :=
  [ICode 7; IOp0Kind OpKind.Register; IOp0Register Register.EAX; IOp1Kind OpKind.Memory;
   IMemoryBase Register.RBX; IMemoryIndex Register.RCX; IMemoryIndexScale 2;
   IMemoryDisplSize 1; ILen 4; ILockPrefix; IOpmask 3; IZeroingMasking].

Lemma sample_program_distinct : NoDup (written_fields sample_program).
Proof.
  cbn. repeat (apply NoDup_cons; [cbn; intuition discriminate|]).
  apply NoDup_nil.
Defined.

Lemma fast_path_refines_witness :
  forallb args_ok sample_program = true /\ NoDup (written_fields sample_program) /\
  run new (map public_of sample_program) = Ok (run_internal new sample_program).
Proof.
  split; [reflexivity|]. split; [exact sample_program_distinct|].
  exact (fast_path_refines sample_program eq_refl sample_program_distinct).
Defined.

Lemma fast_path_decodes_witness :
  forallb args_ok sample_program = true /\ NoDup (written_fields sample_program) /\
  decodes (run_internal new sample_program) = true.
Proof.
  split; [reflexivity|]. split; [exact sample_program_distinct|].
  exact (proj1 (proj2 (fast_path_decodes sample_program eq_refl sample_program_distinct))).
Defined.
