(* ===== verification/Reach.v ===== *)
(** * Which instructions the public setters can build

    [Builder.v] shows that every instruction reachable from
    [Instruction::new()] through typed public setter calls decodes.  This
    file gives the converse: up to [field_equiv] (every field and register
    an accessor reads is the same), the reachable instructions are exactly
    those that decode, whose raw [u64]/[u32] fields fit, and whose stored
    displacement size is at most 4: the one 3-bit pattern range that no
    setter writes, since [set_memory_displ_size] encodes its argument as
    0 to 4.

    [field_after] replays a sequence of setters on one field, with the
    abstract semantics [setter_effect] of [Builder.v] (the field a setter
    writes and the value).  [program_of i] is a setter program that
    rebuilds [i] from [Instruction::new()]: one setter per packed field,
    with the value the field holds decoded the way the getter decodes it,
    then the raw fields.  [Exact.v] sharpens the result from [field_equiv]
    to equality. *)

From Stdlib Require Import ZArith Lia List Bool Relations Morphisms Setoid.
From S2P Require Import Prelude Register Tables Layout Instruction Operands DeclareData Builder FastPath.
Import ListNotations.
Open Scope Z_scope.
Open Scope iced_scope.

(** The value of field [g] after one setter, and after a sequence of
    setters starting from [x]: the last write wins. *)
Definition apply_effect (e : option (Field * Z)) (g : Field) (x : Z) : Z :=
  match e with
  | Some (f, v) => if Field_eq_dec f g then trunc (field_width f) v else x
  | None => x
  end.

Fixpoint field_after (ss : list Setter) (g : Field) (x : Z) : Z :=
  match ss with
  | [] => x
  | s :: ss' => field_after ss' g (apply_effect (setter_effect s) g x)
  end.

(** ** Rebuilding an instruction *)

(** The getters' decodings of a stored field into a setter argument. *)
Definition kind_of (x : Z) : OpKind.OpKind := nth (Z.to_nat x) OpKind.all OpKind.Register.
Definition rounding_of (x : Z) : RoundingControl.RoundingControl :=
  nth (Z.to_nat x) RoundingControl.all RoundingControl.None.
Definition code_size_of (x : Z) : CodeSize.CodeSize :=
  nth (Z.to_nat x) CodeSize.all CodeSize.Unknown.
Definition segment_of (x : Z) : Register.Register :=
  if x =? 0 then Register.None
  else Register.transmute (Register.to_u32 Register.ES + x - 1).
Definition flag_of (x : Z) : bool := x =? 1.

(** One setter per packed field, storing the values [x] ... *)
Definition field_program_of (x : Field -> Z) : list Setter :=
  [SetCode (x FCode);
   SetCodeSize (code_size_of (x FCodeSize));
   SetLen (x FInstrLength);
   SetRoundingControl (rounding_of (x FRoundingControl));
   SetOpmask (opmask_of (x FOpmask));
   SetSuppressAllExceptions (flag_of (x FSuppressAllExceptions));
   SetZeroingMasking (flag_of (x FZeroingMasking));
   SetHasXacquirePrefix (flag_of (x FXacquirePrefix));
   SetHasXreleasePrefix (flag_of (x FXreleasePrefix));
   SetHasRepePrefix (flag_of (x FRepePrefix));
   SetHasRepnePrefix (flag_of (x FRepnePrefix));
   SetHasLockPrefix (flag_of (x FLockPrefix));
   SetOp0Kind (kind_of (x FOp0Kind));
   SetOp1Kind (kind_of (x FOp1Kind));
   SetOp2Kind (kind_of (x FOp2Kind));
   SetOp3Kind (kind_of (x FOp3Kind));
   SetDeclareDataLen (x FDataLength + 1);
   SetMemoryIndexScale (index_scale_of (x FScale));
   SetMemoryDisplSize (displ_size_of (x FDisplSize));
   SetSegmentPrefix (segment_of (x FSegmentPrefix));
   SetIsBroadcast (flag_of (x FBroadcast))].

Definition field_program (i : Instruction) : list Setter :=
  field_program_of (fun g => get_field g i).

(** ... then the raw fields. *)
Definition raw_program (i : Instruction) : list Setter :=
  [SetNextIp (next_rip i); SetImmediate32 (immediate i); SetMemoryDisplacement (mem_displ i);
   SetMemoryBase (Register.transmute (mem_base_reg i));
   SetMemoryIndex (Register.transmute (mem_index_reg i));
   SetOp0Register (Register.transmute (reg0 i)); SetOp1Register (Register.transmute (reg1 i));
   SetOp2Register (Register.transmute (reg2 i)); SetOp3Register (Register.transmute (reg3 i))].

Definition program_of (i : Instruction) : list Setter := field_program i ++ raw_program i.

Section Buildable.
Context `{CT : CodeTables}.

(** What every reachable instruction satisfies, up to [field_equiv]. *)
Definition buildable (i : Instruction) : Prop :=
  decodes i = true /\ fits 64 (next_rip i) /\ fits 32 (immediate i) /\
  fits 32 (mem_displ i) /\ get_field FDisplSize i <= 4.

End Buildable.

(** ** Running field setters *)

Section Effects.
Context `{CT : CodeTables}.

Lemma raw_equal_trans a b c : raw_equal a b -> raw_equal b c -> raw_equal a c.
Proof. unfold raw_equal. intuition congruence. Qed.

Lemma run_app i a b : run i (a ++ b) = obind (run i a) (fun x => run x b).
Proof.
  revert i. induction a as [|s a IH]; intros i; [reflexivity|].
  cbn [app run]. destruct (exec i s); cbn [obind]; auto.
Qed.

(** A sequence of field setters changes only the fields it writes, each
    to its last value. *)
Lemma run_get_field ss i r :
  Forall (fun s => typed s = true /\ setter_effect s <> None) ss -> run i ss = Ok r ->
  raw_equal r i /\ forall g, get_field g r = field_after ss g (get_field g i).
Proof.
  revert i. induction ss as [|s ss IH]; intros i Hss Hrun.
  - injection Hrun as <-. split; [repeat split | reflexivity].
  - inversion Hss as [|? ? [Ht He] Hss']; subst.
    destruct (setter_effect s) as [[f v]|] eqn:Ef; [|contradiction].
    destruct (setter_effect_acts s f v Ht Ef) as (op & Hop & Hex).
    cbn [run] in Hrun. rewrite Hex in Hrun. cbn [obind] in Hrun.
    destruct (IH (op i) Hss' Hrun) as [Hr Hg]. split.
    + exact (raw_equal_trans _ _ _ Hr (proj1 (Hop i))).
    + intros g. rewrite Hg. cbn [field_after]. rewrite Ef. f_equal. unfold apply_effect.
      rewrite (proj2 (Hop i) g), get_set_field. reflexivity.
Qed.

End Effects.

(** ** The decodings invert the setters' encodings *)

Section Values.

Lemma trunc_get_field g i : trunc (field_width g) (get_field g i) = get_field g i.
Proof.
  pose proof (field_width_pos g). apply trunc_small; [lia|]. apply get_field_range.
Qed.

Lemma effect_code_size x :
  0 <= x < 4 -> setter_effect (SetCodeSize (code_size_of x)) = Some (FCodeSize, x).
Proof. intros H. range_split H 4%nat; reflexivity. Qed.

Lemma effect_rounding x :
  0 <= x < 5 -> setter_effect (SetRoundingControl (rounding_of x)) = Some (FRoundingControl, x).
Proof. intros H. range_split H 5%nat; reflexivity. Qed.

Lemma effect_opmask x :
  0 <= x < 8 -> setter_effect (SetOpmask (opmask_of x)) = Some (FOpmask, x).
Proof. intros H. range_split H 8%nat; reflexivity. Qed.

Lemma effect_segment x :
  0 <= x < 8 -> setter_effect (SetSegmentPrefix (segment_of x)) = Some (FSegmentPrefix, x).
Proof. intros H. range_split H 8%nat; reflexivity. Qed.

Lemma effect_displ_size x :
  0 <= x <= 4 -> setter_effect (SetMemoryDisplSize (displ_size_of x)) = Some (FDisplSize, x).
Proof. intros H. assert (Hx : 0 <= x < Z.of_nat 5) by (cbn; lia). range_split Hx 5%nat; reflexivity. Qed.

Lemma effect_scale x :
  0 <= x < 4 -> setter_effect (SetMemoryIndexScale (index_scale_of x)) = Some (FScale, x).
Proof. intros H. range_split H 4%nat; reflexivity. Qed.

Lemma kind_of_value x : 0 <= x < 26 -> OpKind.to_u32 (kind_of x) = x.
Proof. intros H. range_split H 26%nat; reflexivity. Qed.

Lemma flag_of_value x : 0 <= x < 2 -> Z.b2z (flag_of x) = x.
Proof. intros H. range_split H 2%nat; reflexivity. Qed.

End Values.

(** ** Every buildable instruction is rebuilt *)

Section Rebuild.
Context `{CT : CodeTables}.

Lemma field_ranges i :
  forall g, 0 <= get_field g i < 2 ^ field_width g.
Proof. intros g. apply get_field_range. Qed.

(** The values a field program can store: each field within its width,
    the enum fields below their number of variants. *)
Lemma field_program_of_fields (x : Field -> Z) g :
  (forall f, 0 <= x f < 2 ^ field_width f) -> x FOp0Kind < 26 -> x FOp1Kind < 26 ->
  x FOp2Kind < 26 -> x FOp3Kind < 26 -> x FRoundingControl < 5 -> x FDisplSize <= 4 ->
  field_after (field_program_of x) g 0 = x g.
Proof.
  intros R Hk0 Hk1 Hk2 Hk3 Hrc Hds. unfold field_program_of. cbn [field_after].
  rewrite (effect_code_size _ (R FCodeSize)), (effect_opmask _ (R FOpmask)),
    (effect_segment _ (R FSegmentPrefix)), (effect_scale _ (R FScale)).
  rewrite (effect_rounding (x FRoundingControl)) by (pose proof (R FRoundingControl); lia).
  rewrite (effect_displ_size (x FDisplSize)) by (pose proof (R FDisplSize); lia).
  cbn [setter_effect].
  rewrite !kind_of_value by (pose proof (R FOp0Kind); pose proof (R FOp1Kind);
    pose proof (R FOp2Kind); pose proof (R FOp3Kind); lia).
  rewrite !flag_of_value by (first [apply (R FSuppressAllExceptions) | apply (R FZeroingMasking)
    | apply (R FXacquirePrefix) | apply (R FXreleasePrefix) | apply (R FRepePrefix)
    | apply (R FRepnePrefix) | apply (R FLockPrefix) | apply (R FBroadcast)]).
  destruct g; cbn [apply_effect Field_eq_dec Field_rec Field_rect sumbool_rec sumbool_rect].
  all: rewrite ?Z.add_simpl_r; unfold as_u32;
    rewrite ?(trunc_small 32 (x _)) by (lia || (eapply fits_mono; [| exact (R _)]; cbn; lia));
    apply trunc_small; [apply Z.lt_le_incl, field_width_pos | exact (R _)].
Qed.

Lemma field_program_fields i g :
  buildable i -> field_after (field_program i) g (get_field g new) = get_field g i.
Proof.
  intros (Hd & _ & _ & _ & Hds). apply decodes_fields in Hd as (Hc & Hk0 & Hk1 & Hk2 & Hk3 & Hrc & _).
  replace (get_field g new) with 0 by (destruct g; reflexivity).
  apply field_program_of_fields; auto using field_ranges.
Qed.

End Rebuild.

Section Rebuild2.
Context `{CT : CodeTables}.

Lemma field_program_typed i :
  buildable i -> Forall (fun s => typed s = true /\ setter_effect s <> None) (field_program i).
Proof.
  intros (Hd & _ & _ & _ & Hds). apply decodes_fields in Hd as (Hc & _).
  pose proof (field_ranges i) as R. pose proof code_count_fits.
  unfold field_program. repeat apply Forall_cons; try apply Forall_nil;
    (split; [|discriminate]); cbn [typed]; try reflexivity.
  - pose proof (R FCode). apply andb_true_iff. rewrite Z.leb_le, Z.ltb_lt. lia.
  - pose proof (R FInstrLength) as Hl. cbn in Hl. unfold is_i32. i32_ok.
  - pose proof (R FDataLength) as Hl. cbn in Hl. unfold is_i32. i32_ok.
  - pose proof (R FScale) as Hl. range_split Hl 4%nat; reflexivity.
  - assert (Hl : 0 <= get_field FDisplSize i < Z.of_nat 5) by (pose proof (R FDisplSize); cbn in *; lia).
    range_split Hl 5%nat; reflexivity.
Qed.

(** [program_of i] runs from [Instruction::new()] and rebuilds [i] up to
    [field_equiv]. *)
Lemma program_of_rebuilds i :
  buildable i -> exists r, run new (program_of i) = Ok r /\ field_equiv r i.
Proof.
  intros Hb. pose proof Hb as (Hd & _ & _ & _ & _).
  apply decodes_fields in Hd as (_ & _ & _ & _ & _ & _ & R0 & R1 & R2 & R3 & Rb & Rx).
  assert (Hr1 : exists r1, run new (field_program i) = Ok r1) by (eexists; reflexivity).
  destruct Hr1 as [r1 E1].
  destruct (run_get_field _ _ _ (field_program_typed i Hb) E1) as [_ Hg].
  unfold program_of. rewrite run_app, E1. cbn [obind raw_program run exec].
  eexists. split; [reflexivity|]. split.
  - unfold set_op3_register, set_op2_register, set_op1_register, set_op0_register,
      set_memory_index, set_memory_base, set_memory_displacement, set_immediate32, set_next_ip.
    cbn_fields. unfold reg_ok in *.
    repeat split; apply Register.to_u32_transmute; assumption.
  - intros g. transitivity (get_field g r1); [destruct g; reflexivity|].
    rewrite Hg. apply field_program_fields. exact Hb.
Qed.

End Rebuild2.

(** ** What the setters cannot build *)

Section Sound.
Context `{CT : CodeTables}.

Ltac frame_step He Hds :=
  first
    [ injection He as <-; exact Hds
    | apply set_op_kind_cases in He as [ -> | [ -> | [ -> | [ -> | -> ]]]]; exact Hds
    | apply set_op_register_cases in He as [ -> | [ -> | [ -> | [ -> | -> ]]]]; exact Hds
    | apply set_immediate_u64_cases in He as [w [ -> | [ -> | -> ]]]; exact Hds
    | apply (proj1 (set_op4_cases _ _ Register.None _)) in He as ->; exact Hds
    | apply (proj2 (set_op4_cases _ OpKind.Register _ _)) in He as ->; exact Hds ].

(** [set_memory_displ_size] stores 0 to 4, and no other setter writes the
    field. *)
Lemma step_displ_size a b :
  step a b -> get_field FDisplSize a <= 4 -> get_field FDisplSize b <= 4.
Proof.
  intros [a0 s b0 Ht Hp He] Hds.
  destruct (setter_effect s) as [[f v]|] eqn:Ef.
  - destruct (setter_effect_acts s f v Ht Ef) as (op & Hop & Hex).
    rewrite Hex in He. injection He as <-.
    destruct (Field_eq_dec f FDisplSize) as [->|Hne].
    + rewrite (acts_as_field_get _ _ _ _ Hop). change (field_width FDisplSize) with 3.
      destruct s; cbn [setter_effect] in Ef; try discriminate. injection Ef as <-.
      repeat match goal with |- context [if ?c then _ else _] => destruct c end; cbn; lia.
    + rewrite (acts_as_field_other _ _ _ _ _ Hop Hne). exact Hds.
  - destruct s; cbn [setter_effect] in Ef; try discriminate; cbn [payload_setter] in Hp;
      try discriminate; cbn [exec] in He;
      unfold set_immediate_i32, set_immediate_u32, set_immediate_i64 in He; frame_step He Hds.
Qed.

Lemma steps_displ_size a b :
  clos_refl_trans Instruction step a b -> get_field FDisplSize a <= 4 ->
  get_field FDisplSize b <= 4.
Proof.
  induction 1 as [a b Hs | a | a b c _ IH1 _ IH2]; auto.
  intros H. exact (step_displ_size a b Hs H).
Qed.

Lemma reachable_buildable r : reachable r -> buildable r.
Proof.
  intros H.
  destruct (step_preserves_wf new r H wf_new) as (Hn & _ & _ & Him & Hmd & _).
  split; [exact (step_preserves_decodes new r H decodes_new)|].
  split; [exact Hn|]. split; [exact Him|]. split; [exact Hmd|].
  apply (steps_displ_size new r H). cbn. lia.
Qed.

Lemma buildable_field_equiv a b : field_equiv a b -> buildable a -> buildable b.
Proof.
  intros Heq (Hd & Hn & Him & Hmd & Hds). pose proof Heq as [(En & Ei & Em & _) G].
  split; [rewrite <- Heq; exact Hd|].
  split; [rewrite <- En; exact Hn|]. split; [rewrite <- Ei; exact Him|].
  split; [rewrite <- Em; exact Hmd|]. rewrite <- G. exact Hds.
Qed.

End Sound.

(** ** The reachable instructions *)

Section Characterization.
Context `{CT : CodeTables}.

Lemma effect_not_payload s : setter_effect s <> None -> payload_setter s = false.
Proof. destruct s; cbn; congruence. Qed.

Lemma fits_fitsb w v : fits w v -> fitsb w v = true.
Proof. unfold fits, fitsb. intros H. apply andb_true_iff. rewrite Z.leb_le, Z.ltb_lt. lia. Qed.

Lemma program_of_steps i :
  buildable i ->
  Forall (fun s => typed s = true /\ payload_setter s = false) (program_of i).
Proof.
  intros Hb. pose proof Hb as (_ & Hn & Him & Hmd & _). apply Forall_app. split.
  - eapply Forall_impl; [|exact (field_program_typed i Hb)].
    intros s [Ht Hs]. exact (conj Ht (effect_not_payload s Hs)).
  - unfold raw_program. repeat apply Forall_cons; try apply Forall_nil;
      (split; [|reflexivity]); cbn [typed]; try reflexivity; apply fits_fitsb; assumption.
Qed.

(** Reachability: up to [field_equiv] (every field and register an
    accessor reads), the instructions that typed public setter calls
    other than the payload setters build from [Instruction::new()] are
    exactly those that decode, whose [next_rip], [immediate] and
    [mem_displ] fit their Rust types, and whose stored displacement size
    is at most 4.  Every such instruction is reached by [program_of]. *)
Theorem reachable_characterization (i : Instruction) :
  (exists r, reachable r /\ field_equiv r i) <-> buildable i.
Proof.
  split.
  - intros (r & Hr & He). exact (buildable_field_equiv r i He (reachable_buildable r Hr)).
  - intros Hb. destruct (program_of_rebuilds i Hb) as (r & Hrun & He).
    exists r. split; [|exact He].
    exact (run_from new (program_of i) r (rt_refl _ _ _) (program_of_steps i Hb) Hrun).
Qed.

End Characterization.

(** The stored displacement sizes 5 to 7 are never built: an instruction
    holding 5 there is [field_equiv] to no reachable instruction. *)
Lemma displ_size_five_unreachable :
  ~ buildable (with_memory_flags new (5 .<< MemoryFlags.DISPL_SIZE_SHIFT)).
Proof. intros (_ & _ & _ & _ & H). cbn in H. lia. Qed.
