(* ===== verification/EffectiveAddress.v ===== *)
(** * The effective address of an [OpKind::Memory] operand

    [virtual_address] of [instruction.rs] (modelled in [Address.v]) computes
    the address of a general memory operand as a chain of [u64]
    [wrapping_add]s, a shift of the index by the stored scale exponent and a
    final mask to the address size.  This file states what that chain
    computes, as the architecture defines it ([effective_address]): the
    segment base plus [(base + disp + index * scale) mod 2^(8 a)], taken
    modulo [2^64], where [a] is the address size in bytes, [disp] the
    sign-extended 32-bit displacement and [scale] [memory_index_scale()];
    RIP and EIP bases read [next_ip()] and [next_ip32()], and a VSIB index is
    read at its element width.  [virtual_address_refines_ea] proves the
    code computes exactly that. *)

From Stdlib Require Import ZArith Lia List Bool.
From S2P Require Import Prelude Register Tables Layout Instruction Operands Address Builder Reach.
Import ListNotations.
Open Scope Z_scope.
Open Scope iced_scope.

Section EffectiveAddress.
Context `{CT : CodeTables}.
Variable get_register_value : Register.Register -> Z -> Z -> Z.

(** ** The abstract effective address *)

(** The base term: nothing, the next IP (64 or 32 bits of it) for RIP or
    EIP, else the register. *)
Definition base_value (nip : Z) (b : Register.Register) : Z :=
  match b with
  | Register.None => 0
  | Register.RIP => nip
  | Register.EIP => as_u32 nip
  | _ => get_register_value b 0 0
  end.

(** The index term before scaling: nothing without an index register,
    else the register read as a VSIB element of 8 or 4 bytes, or whole. *)
Definition index_value (x : Register.Register) (vs : option bool) (e : Z) : Z :=
  if Register.eqb x Register.None then 0
  else match vs with
       | Some true => get_register_value x e 8
       | Some false => as_u32 (get_register_value x e 4)
       | None => get_register_value x e 0
       end.

(** [seg + (base + disp + index * scale) mod 2^(8 a)], modulo [2^64]. *)
Definition effective_address self (b x : Register.Register) (cs : CodeSize.CodeSize)
    (vs : option bool) (seg : Register.Register) (e : Z) : Z :=
  let a := get_address_size_in_bytes b x (memory_displ_size self) cs in
  (get_register_value seg 0 0
   + (base_value (next_ip self) b + as_i32 (memory_displacement self)
      + index_value x vs e * memory_index_scale self) mod 2 ^ (8 * a)) mod 2 ^ 64.

(** The setter calls a client makes to describe operand 0 as
    [seg:[b + x * sc + d]] of an instruction [c] at [next_ip = nip]. *)
Definition memory_operand_program (nip c : Z) (cs : CodeSize.CodeSize)
    (b x : Register.Register) (d sc ds : Z) (seg : Register.Register) : list Setter :=
  [SetNextIp nip; SetMemoryBase b; SetMemoryIndex x; SetMemoryDisplacement d;
   SetCode c; SetCodeSize cs; SetOp0Kind OpKind.Memory; SetMemoryIndexScale sc;
   SetMemoryDisplSize ds; SetSegmentPrefix seg].

(** The segment the architecture uses: the override, else [SS] for a
    stack-pointer or frame-pointer base, else [DS]. *)
Definition default_segment (b seg : Register.Register) : Register.Register :=
  if negb (Register.eqb seg Register.None) then seg
  else if existsb (Register.eqb b)
            [Register.BP; Register.EBP; Register.ESP; Register.RBP; Register.RSP]
       then Register.SS else Register.DS.

End EffectiveAddress.

(** ** Sums modulo a power of two *)

Lemma mod_pow2_mod w w' z : 0 <= w <= w' -> (z mod 2 ^ w') mod 2 ^ w = z mod 2 ^ w.
Proof.
  intros Hw. apply Z.mod_mod_divide. exists (2 ^ (w' - w)).
  rewrite <- Z.pow_add_r by lia. f_equal. lia.
Qed.

Lemma add_mod_pow2_l w w' a b :
  0 <= w <= w' -> (a mod 2 ^ w' + b) mod 2 ^ w = (a + b) mod 2 ^ w.
Proof.
  intros Hw. rewrite (Z.add_mod (a mod _)), (Z.add_mod a) by (apply Z.pow_nonzero; lia).
  rewrite mod_pow2_mod by exact Hw. reflexivity.
Qed.

Lemma add_mod_pow2_r w w' a b :
  0 <= w <= w' -> (a + b mod 2 ^ w') mod 2 ^ w = (a + b) mod 2 ^ w.
Proof. intros Hw. rewrite !(Z.add_comm a). apply add_mod_pow2_l, Hw. Qed.

Lemma add_mod_pow2_ll w w' a b c :
  0 <= w <= w' -> (a mod 2 ^ w' + b + c) mod 2 ^ w = (a + b + c) mod 2 ^ w.
Proof. intros Hw. rewrite <- !Z.add_assoc. apply add_mod_pow2_l, Hw. Qed.

(** The 32-bit displacement, sign-extended or not, is the same modulo an
    address size of at most 32 bits. *)
Lemma add_sext_mod w a d b :
  0 <= w <= 32 -> (a + sext 32 d + b) mod 2 ^ w = (a + d + b) mod 2 ^ w.
Proof.
  intros Hw. rewrite <- (mod_pow2_mod w 32 (a + sext 32 d + b)), <- (mod_pow2_mod w 32 (a + d + b))
    by exact Hw.
  f_equal. rewrite <- Z.add_mod_idemp_r, <- (Z.add_mod_idemp_r (a + d)) by (apply Z.pow_nonzero; lia).
  rewrite <- Z.add_mod_idemp_l, <- (Z.add_mod_idemp_l (a + d)) by (apply Z.pow_nonzero; lia).
  rewrite <- (Z.add_mod_idemp_r a), <- (Z.add_mod_idemp_r a d) by (apply Z.pow_nonzero; lia).
  rewrite (sext_mod 32 d) by lia. reflexivity.
Qed.

(** Rewrites every [wrapping_add 64], [as_u64] and [.& Z.ones w] of an
    address computation into [mod], then drops the inner [mod 2^64]s
    under the outer [mod 2^w]. *)
Ltac mod_normalize :=
  unfold wrapping_add, as_u64, as_i32 in *; rewrite ?trunc_mod by lia;
  repeat first [ rewrite add_mod_pow2_l by lia | rewrite add_mod_pow2_r by lia
               | rewrite add_mod_pow2_ll by lia
               | rewrite mod_pow2_mod by lia ].

Lemma wrap_land s off w :
  0 <= w -> wrapping_add 64 s (off .& Z.ones w) = (s + off mod 2 ^ w) mod 2 ^ 64.
Proof. intros Hw. unfold wrapping_add. rewrite trunc_mod, Z.land_ones by lia. reflexivity. Qed.

Lemma wrap_mod w a b : 0 <= w <= 64 -> (wrapping_add 64 a b) mod 2 ^ w = (a + b) mod 2 ^ w.
Proof. intros Hw. unfold wrapping_add. rewrite trunc_mod by lia. apply mod_pow2_mod, Hw. Qed.

Lemma scale_nonneg mf : 0 <= mf .& MemoryFlags.SCALE_MASK.
Proof. apply Z.land_nonneg. right. unfold MemoryFlags.SCALE_MASK. lia. Qed.

Section Refinement.
Context `{CT : CodeTables}.
Variable get_register_value : Register.Register -> Z -> Z -> Z.

(** ** The code's chain of wrapping additions *)

(** The [match base_reg] of [virtual_address] adds [base_value] modulo any
    address size. *)
Lemma base_add_mod self w (b : Register.Register) off r :
  0 <= w <= 64 ->
  (match b with
   | Register.None => off
   | Register.RIP => wrapping_add 64 off (next_ip self)
   | Register.EIP => wrapping_add 64 off (next_ip32 self)
   | _ => wrapping_add 64 off (get_register_value b 0 0)
   end + r) mod 2 ^ w = (off + base_value get_register_value (next_ip self) b + r) mod 2 ^ w.
Proof.
  intros Hw. unfold next_ip32, next_ip. destruct b; cbn [base_value]; mod_normalize; f_equal; ring.
Qed.

Lemma base_add_mod0 self w (b : Register.Register) off :
  0 <= w <= 64 ->
  (match b with
   | Register.None => off
   | Register.RIP => wrapping_add 64 off (next_ip self)
   | Register.EIP => wrapping_add 64 off (next_ip32 self)
   | _ => wrapping_add 64 off (get_register_value b 0 0)
   end) mod 2 ^ w = (off + base_value get_register_value (next_ip self) b) mod 2 ^ w.
Proof.
  intros Hw. rewrite <- (Z.add_0_r (match b with Register.None => _ | _ => _ end)).
  rewrite base_add_mod by exact Hw. f_equal. ring.
Qed.

(** Closes one case of [virtual_address_refines_ea]: the segment add and the
    mask are turned into [mod], the base match into [base_value], the
    index shift into a product, and the displacement's sign extension is
    dropped below 64 bits. *)
Ltac ea_case :=
  rewrite wrap_land by lia; do 2 f_equal;
  change (8 * 8) with 64; change (8 * 4) with 32; change (8 * 2) with 16;
  rewrite ?wrap_mod by lia; rewrite ?base_add_mod, ?base_add_mod0 by lia;
  unfold memory_index_scale, internal_get_memory_index_scale;
  rewrite Z.shiftl_1_l, ?Z.shiftl_mul_pow2 by apply scale_nonneg;
  mod_normalize; rewrite ?add_sext_mod by lia; f_equal; ring.

Lemma virtual_address_ea (i : Instruction) (n e : Z) (b x seg : Register.Register)
    (cs : CodeSize.CodeSize) (vs : option bool) :
  op_kind i n = Ok OpKind.Memory -> memory_base i = Ok b -> memory_index i = Ok x ->
  code_size i = Ok cs -> memory_segment i = Ok seg ->
  (Register.eqb x Register.None = false -> vsib i = Ok vs) ->
  virtual_address get_register_value i n e = Ok (effective_address get_register_value i b x cs vs seg e).
Proof.
  intros Hk Hb Hx Hcs Hseg Hvs.
  unfold virtual_address, memory_virtual_address, effective_address, index_value.
  rewrite Hk, Hb, Hx, Hcs. cbn [obind].
  destruct (address_size_valid b x (memory_displ_size i) cs) as [Ha|[Ha|Ha]]; rewrite Ha;
    cbn [Z.eqb Pos.eqb]; destruct (Register.eqb x Register.None) eqn:Ex; cbn [negb obind];
    [| rewrite (Hvs eq_refl); cbn [obind]; destruct vs as [[|]|]
     | | rewrite (Hvs eq_refl); cbn [obind]; destruct vs as [[|]|]
     | | rewrite (Hvs eq_refl); cbn [obind]; destruct vs as [[|]|]];
    rewrite Hseg; cbn [obind]; f_equal; ea_case.
Qed.

(** [C30] For an [OpKind::Memory] operand whose registers, code size,
    segment and (with an index register) VSIB class decode,
    [virtual_address] returns the architectural effective address: the
    segment base plus [(base + disp + index * scale) mod 2^(8 a)], modulo
    [2^64], with the displacement sign-extended from 32 bits, RIP/EIP read
    as [next_ip()]/[next_ip32()], and a VSIB index read at its element
    width. *)
Theorem virtual_address_refines_ea (i : Instruction) (n e : Z) (b x seg : Register.Register)
    (cs : CodeSize.CodeSize) (vs : option bool) :
  op_kind i n = Ok OpKind.Memory -> memory_base i = Ok b -> memory_index i = Ok x ->
  code_size i = Ok cs -> memory_segment i = Ok seg ->
  (Register.eqb x Register.None = false -> vsib i = Ok vs) ->
  virtual_address get_register_value i n e = Ok (effective_address get_register_value i b x cs vs seg e).
Proof. exact (virtual_address_ea i n e b x seg cs vs). Qed.

End Refinement.

(** ** A memory operand built by the public setters *)

Section BuiltOperand.
Context `{CT : CodeTables}.
Variable get_register_value : Register.Register -> Z -> Z -> Z.

Lemma memory_operand_fields nip c cs b x d sc ds seg :
  0 <= c < NUMBER_OF_CODE_VALUES -> In sc [1; 2; 4; 8] -> In ds [0; 1; 2; 4; 8] ->
  In seg (Register.None :: segment_registers) ->
  exists i, run new (memory_operand_program nip c cs b x d sc ds seg) = Ok i /\
    op_kind i 0 = Ok OpKind.Memory /\ memory_base i = Ok b /\ memory_index i = Ok x /\
    code_size i = Ok cs /\ code i = Ok c /\ memory_segment i = Ok (default_segment b seg) /\
    memory_displ_size i = ds /\ memory_index_scale i = sc /\
    memory_displacement i = d /\ next_ip i = nip.
Proof.
  intros Hc Hsc Hds Hseg.
  set (r0 := set_memory_displacement (set_memory_index (set_memory_base (set_next_ip new nip) b) x) d).
  set (fs := [SetCode c; SetCodeSize cs; SetOp0Kind OpKind.Memory; SetMemoryIndexScale sc;
              SetMemoryDisplSize ds; SetSegmentPrefix seg]).
  assert (Hi : exists i, run r0 fs = Ok i) by (eexists; reflexivity). destruct Hi as [i Hi].
  exists i. split; [exact Hi|].
  assert (Hfs : Forall (fun s => typed s = true /\ setter_effect s <> None) fs).
  { unfold fs. repeat (apply Forall_cons; [split; [|discriminate]|]); [..|constructor].
    all: cbn [typed]; try reflexivity.
    - apply andb_true_iff; split; [apply Z.leb_le | apply Z.ltb_lt]; lia.
    - destruct Hsc as [<-|[<-|[<-|[<-|[]]]]]; reflexivity.
    - destruct Hds as [<-|[<-|[<-|[<-|[<-|[]]]]]]; reflexivity. }
  destruct (run_get_field fs r0 i Hfs Hi) as [(Hrip & _ & Hd & Hb & Hx & _) Hg].
  assert (Hbase : memory_base i = Ok b)
    by (unfold memory_base; rewrite Hb; apply Register.transmute_u8_to_u32).
  assert (Hseg' : segment_prefix i = seg).
  { rewrite segment_prefix_field, Hg.
    destruct Hseg as [<-|[<-|[<-|[<-|[<-|[<-|[<-|[]]]]]]]]; reflexivity. }
  repeat split.
  - rewrite op_kind_fields, Hg. reflexivity.
  - exact Hbase.
  - unfold memory_index. rewrite Hx. apply Register.transmute_u8_to_u32.
  - rewrite code_size_field, Hg. destruct cs; reflexivity.
  - rewrite code_field, Hg. cbn. unfold CodeFlags.CODE_BITS.
    rewrite trunc_small by (pose proof code_count_fits; unfold fits; lia).
    destruct (Z.ltb_spec c NUMBER_OF_CODE_VALUES); [reflexivity | lia].
  - unfold memory_segment, default_segment. rewrite Hseg'.
    destruct (negb (Register.eqb seg Register.None)); [reflexivity|].
    rewrite Hbase. cbn [obind]. destruct b; reflexivity.
  - rewrite memory_displ_size_field, Hg. destruct Hds as [<-|[<-|[<-|[<-|[<-|[]]]]]]; reflexivity.
  - rewrite memory_index_scale_field, Hg. destruct Hsc as [<-|[<-|[<-|[<-|[]]]]]; reflexivity.
  - unfold memory_displacement. rewrite Hd. reflexivity.
  - unfold next_ip. rewrite Hrip. reflexivity.
Qed.

(** [C31] A memory operand built by the public setters ([set_next_ip],
    [set_memory_base], [set_memory_index], [set_memory_displacement],
    [set_code], [set_code_size], [set_op0_kind(Memory)],
    [set_memory_index_scale], [set_memory_displ_size],
    [set_segment_prefix]) from [Instruction::new()] resolves, through
    [virtual_address], to the architectural address of the arguments: the
    base of the override segment (or of SS for a stack base, else DS)
    plus [(base + disp + index * scale) mod 2^(8 a)], where [a] is the
    address size [get_address_size_in_bytes] picks for those registers,
    displacement size and code size, and a VSIB index is read at the
    element width of the code. *)
Theorem built_operand_address (nip c : Z) (cs : CodeSize.CodeSize) (b x : Register.Register)
    (d sc ds : Z) (seg : Register.Register) (e : Z) :
  0 <= c < NUMBER_OF_CODE_VALUES -> In sc [1; 2; 4; 8] -> In ds [0; 1; 2; 4; 8] ->
  In seg (Register.None :: segment_registers) ->
  exists i, run new (memory_operand_program nip c cs b x d sc ds seg) = Ok i /\
    virtual_address get_register_value i 0 e =
      Ok ((get_register_value (default_segment b seg) 0 0
           + (base_value get_register_value nip b + as_i32 d
              + index_value get_register_value x (vsib_of_code c) e * sc)
             mod 2 ^ (8 * get_address_size_in_bytes b x ds cs)) mod 2 ^ 64).
Proof.
  intros Hc Hsc Hds Hseg.
  destruct (memory_operand_fields nip c cs b x d sc ds seg Hc Hsc Hds Hseg)
    as (i & Hrun & Hk & Hb & Hx & Hcs & Hcode & Hs & Hdsz & Hscale & Hd & Hnip).
  exists i. split; [exact Hrun|].
  rewrite (virtual_address_ea get_register_value i 0 e b x _ cs (vsib_of_code c) Hk Hb Hx Hcs Hs)
    by (intros _; unfold vsib; rewrite Hcode; reflexivity).
  unfold effective_address. rewrite Hdsz, Hscale, Hd, Hnip. reflexivity.
Qed.

End BuiltOperand.

(** ** Witnesses, on [sample_tables] and a register file that maps each
    register to [0x1000] times its discriminant *)

Lemma virtual_address_refines_ea_witness :
  virtual_address (fun r _ _ => 0x1000 * Register.to_u32 r)
    (set_memory_displacement (set_memory_base (set_op0_kind new OpKind.Memory) Register.RAX) 8)
    0 0 =
  Ok (effective_address (fun r _ _ => 0x1000 * Register.to_u32 r)
    (set_memory_displacement (set_memory_base (set_op0_kind new OpKind.Memory) Register.RAX) 8)
    Register.RAX Register.None CodeSize.Unknown None Register.DS 0).
Proof.
  apply (virtual_address_refines_ea _ _ 0 0 Register.RAX Register.None Register.DS
           CodeSize.Unknown None); try reflexivity.
  all: intros H; discriminate H.
Defined.

(** [[rax + rcx * 4 + 8]] at [next_ip = 0x401000] in 64-bit code. *)
Lemma built_operand_address_witness :
  exists i, run new (memory_operand_program 0x401000 0 CodeSize.Code64 Register.RAX Register.RCX
                       8 4 1 Register.None) = Ok i /\
    virtual_address (fun r _ _ => 0x1000 * Register.to_u32 r) i 0 0 =
      Ok ((0x1000 * Register.to_u32 Register.DS
           + (0x1000 * Register.to_u32 Register.RAX + 8
              + 0x1000 * Register.to_u32 Register.RCX * 4) mod 2 ^ 64) mod 2 ^ 64).
Proof.
  destruct (built_operand_address (fun r _ _ => 0x1000 * Register.to_u32 r)
              0x401000 0 CodeSize.Code64 Register.RAX Register.RCX 8 4 1 Register.None 0)
    as (i & Hrun & Hva); [vm_compute; split; congruence | cbn; tauto | cbn; tauto | cbn; tauto|].
  exists i. split; [exact Hrun|]. rewrite Hva. vm_compute. reflexivity.
Defined.

(** A [vm32] gather ([VEX_Vpgatherdd_xmm_vm32x_xmm], code 1 of
    [sample_tables]) with base [RAX = 0x1000] and a dword index element of
    [0xFFFF_FFFF], that is [-1]: [virtual_address] zero-extends the index
    ([as u32 as u64]) and returns [0x1_0000_0FFF], where x86, which
    sign-extends the dword indices of a VSIB operand, addresses
    [0x1000 - 1 = 0xFFF]. *)
Example vsib32_index_zero_extended :
  obind (run new (memory_operand_program 0 1 CodeSize.Code64 Register.RAX Register.XMM1
                    0 1 0 Register.None))
    (fun i => virtual_address
                (fun r _ _ => if Register.eqb r Register.RAX then 0x1000
                              else if Register.eqb r Register.XMM1 then 0xFFFF_FFFF else 0)
                i 0 0) = Ok 0x1_0000_0FFF.
Proof. vm_compute. reflexivity. Qed.
