(* ===== verification/Exact.v ===== *)
(** * Exact reachability: no setter sets a bit outside a field

    [Reach.v] characterises the reachable instructions up to [field_equiv],
    which ignores the bits of [code_flags], [op_kind_flags] and
    [memory_flags] that belong to no field (bits 23-24 of [code_flags],
    24-29 of [op_kind_flags], 8-14 of [memory_flags]).  This file shows
    that those bits stay zero: on a well-formed instruction every field
    setter of [instruction.rs] is exactly [set_field] of its field
    ([setter_effect_exact], from the [set_xxx_eq] equations of
    [Instruction.v]), and [set_field] touches no unused bit.  With the
    fields and the unused bits the words are determined, so the reachable
    instructions are exactly the [buildable] ones with no stray bit, and
    reachability is decidable ([reachableb]). *)

From Stdlib Require Import ZArith Lia List Bool Relations.
From S2P Require Import Prelude Register Tables Layout Instruction Operands DeclareData Builder Reach.
Import ListNotations.
Open Scope Z_scope.
Open Scope iced_scope.

(** ** The used bits of each word *)

Definition all_fields : list Field :=
  [FCode; FRoundingControl; FOpmask; FInstrLength; FSuppressAllExceptions; FZeroingMasking;
   FXacquirePrefix; FXreleasePrefix; FRepePrefix; FRepnePrefix; FLockPrefix; FOp0Kind;
   FOp1Kind; FOp2Kind; FOp3Kind; FDataLength; FCodeSize; FScale; FDisplSize; FSegmentPrefix;
   FBroadcast].

Definition Word_eqb (a b : Word) : bool :=
  match a, b with
  | WCodeFlags, WCodeFlags | WOpKindFlags, WOpKindFlags | WMemoryFlags, WMemoryFlags => true
  | _, _ => false
  end.

Definition field_mask (f : Field) : Z := Z.ones (field_width f) .<< field_shift f.

(** The bits of word [w] that some field occupies. *)
Definition used_bits (w : Word) : Z :=
  fold_right Z.lor 0 (map field_mask (filter (fun f => Word_eqb (field_word f) w) all_fields)).

(** The set bits of [w] outside every field. *)
Definition stray_bits (w : Word) (i : Instruction) : Z := word_value w i .& !. used_bits w.

Definition no_stray (i : Instruction) : Prop := forall w, stray_bits w i = 0.

Definition no_strayb (i : Instruction) : bool :=
  forallb (fun w => stray_bits w i =? 0) [WCodeFlags; WOpKindFlags; WMemoryFlags].

Section Decide.
Context `{CT : CodeTables}.

(** [buildable] and [reachable] as tests. *)
Definition buildableb (i : Instruction) : bool :=
  decodes i && fitsb 64 (next_rip i) && fitsb 32 (immediate i) && fitsb 32 (mem_displ i)
  && (get_field FDisplSize i <=? 4).

Definition reachableb (i : Instruction) : bool := buildableb i && no_strayb i.

End Decide.

(** ** The used bits *)

Lemma testbit_fold_lor l n :
  Z.testbit (fold_right Z.lor 0 l) n = existsb (fun x => Z.testbit x n) l.
Proof.
  induction l as [|x l IH]; cbn [fold_right existsb]; [apply Z.testbit_0_l|].
  rewrite Z.lor_spec, IH. reflexivity.
Qed.

Lemma testbit_field_mask f n :
  0 <= n ->
  Z.testbit (field_mask f) n = (field_shift f <=? n) && (n <? field_shift f + field_width f).
Proof.
  intros Hn. unfold field_mask. pose proof (field_shift_nonneg f). pose proof (field_width_pos f).
  destruct (Z.leb_spec (field_shift f) n).
  - rewrite Z.shiftl_spec, Z.testbit_ones by lia.
    destruct (Z.ltb_spec (n - field_shift f) (field_width f)),
      (Z.ltb_spec n (field_shift f + field_width f)), (Z.leb_spec 0 (n - field_shift f));
      cbn [andb]; lia || reflexivity.
  - rewrite Z.shiftl_spec_low by lia. reflexivity.
Qed.

Lemma in_all_fields f : In f all_fields.
Proof. destruct f; cbn; tauto. Qed.

Lemma Word_eqb_eq a b : Word_eqb a b = true <-> a = b.
Proof. destruct a, b; cbn; split; congruence. Qed.

(** A bit of [w] is used exactly when a field of [w] covers it. *)
Lemma used_bits_spec w n :
  0 <= n ->
  Z.testbit (used_bits w) n = true <->
  exists f, field_word f = w /\ field_shift f <= n < field_shift f + field_width f.
Proof.
  intros Hn. unfold used_bits. rewrite testbit_fold_lor, existsb_exists. split.
  - intros (x & Hx & Hb). apply in_map_iff in Hx as (f & <- & Hf).
    apply filter_In in Hf as [_ Hw]. apply Word_eqb_eq in Hw.
    rewrite testbit_field_mask in Hb by lia. apply andb_true_iff in Hb as [H1 H2].
    apply Z.leb_le in H1. apply Z.ltb_lt in H2. exists f. split; [exact Hw | lia].
  - intros (f & Hw & Hr). exists (field_mask f). split.
    + apply in_map, filter_In. split; [apply in_all_fields | apply Word_eqb_eq; exact Hw].
    + rewrite testbit_field_mask by lia. apply andb_true_iff. rewrite Z.leb_le, Z.ltb_lt. lia.
Qed.

(** ** Writing a field leaves the unused bits alone *)

Lemma put_bits_stray x f v w :
  field_word f = w ->
  put_bits x (field_shift f) (field_width f) v .& !. used_bits w = x .& !. used_bits w.
Proof.
  intros Hw. pose proof (field_shift_nonneg f). pose proof (field_width_pos f).
  bits_ext. rewrite !Z.land_spec, !Z.lnot_spec, testbit_put_bits by lia.
  destruct (Z.leb_spec (field_shift f) i), (Z.ltb_spec i (field_shift f + field_width f));
    cbn [andb]; try reflexivity.
  assert (U : Z.testbit (used_bits w) i = true)
    by (apply used_bits_spec; [lia|]; exists f; split; [exact Hw | lia]).
  rewrite U. cbn [negb]. now rewrite !andb_false_r.
Qed.

Lemma stray_set_field f v i w : stray_bits w (set_field f v i) = stray_bits w i.
Proof.
  unfold stray_bits, set_field. rewrite word_value_set_word.
  destruct (field_word f) eqn:Ef, w; cbn -[put_bits used_bits]; try reflexivity;
    apply put_bits_stray; exact Ef.
Qed.

Lemma stray_same_words a b :
  (forall w, word_value w b = word_value w a) -> no_stray a -> no_stray b.
Proof. intros E H w. unfold stray_bits. rewrite E. apply H. Qed.

(** ** The fields and the unused bits determine the words *)

Lemma word_determined w a b :
  (forall f, field_word f = w -> get_field f a = get_field f b) ->
  stray_bits w a = 0 -> stray_bits w b = 0 -> word_value w a = word_value w b.
Proof.
  intros Hf Ha Hb. bits_ext.
  destruct (Z.testbit (used_bits w) i) eqn:U.
  - apply used_bits_spec in U as (f & Hw & Hr); [|lia].
    pose proof (field_shift_nonneg f) as Hs.
    pose proof (f_equal (fun x => Z.testbit x (i - field_shift f)) (Hf f Hw)) as E.
    cbn beta in E. unfold get_field in E. rewrite Hw in E.
    rewrite !testbit_get_bits in E by lia.
    replace (i - field_shift f <? field_width f) with true in E by (symmetry; apply Z.ltb_lt; lia).
    cbn [andb] in E. now rewrite Z.sub_add in E.
  - apply (f_equal (fun x => Z.testbit x i)) in Ha, Hb. unfold stray_bits in Ha, Hb.
    rewrite Z.land_spec, Z.lnot_spec, U, Z.testbit_0_l in Ha, Hb by lia.
    cbn [negb] in Ha, Hb. rewrite andb_true_r in Ha, Hb. congruence.
Qed.

Lemma field_equiv_no_stray a b : field_equiv a b -> no_stray a -> no_stray b -> a = b.
Proof.
  intros [(E1 & E2 & E3 & E4 & E5 & E6 & E7 & E8 & E9) G] Ha Hb.
  assert (W : forall w, word_value w a = word_value w b)
    by (intros w; apply word_determined; auto).
  apply mkInstruction_eq; auto;
    [exact (W WCodeFlags) | exact (W WOpKindFlags) | exact (W WMemoryFlags)].
Qed.

(** ** Every field setter is [set_field] of its field *)

Section Setters.
Context `{CT : CodeTables}.

Lemma u16_set_field f v i :
  field_word f = WMemoryFlags -> wf i ->
  with_memory_flags i (as_u16 (memory_flags (set_field f v i))) = set_field f v i.
Proof.
  intros Hw (_ & _ & _ & _ & _ & Hm & _). pose proof (field_in_word f) as Hin.
  pose proof (field_shift_nonneg f). pose proof (field_width_pos f).
  rewrite Hw in Hin. cbn [word_bits] in Hin.
  unfold set_field. rewrite Hw. cbn [word_value set_word memory_flags with_memory_flags].
  f_equal. apply trunc_small; [lia|]. apply put_bits_fits; auto; lia.
Qed.

(** On a well-formed instruction a typed field setter call is exactly
    [set_field] of the field and value [setter_effect] names. *)
Lemma setter_effect_exact s f v i :
  typed s = true -> setter_effect s = Some (f, v) -> wf i -> exec i s = Ok (set_field f v i).
Proof.
  intros Ht Hf Hwf. destruct s; cbn [setter_effect] in Hf; try discriminate;
    injection Hf as <- <-; cbn [exec]; f_equal.
  all: first
    [ apply set_code_size_eq | apply set_len_eq | apply set_has_xacquire_prefix_eq
    | apply set_has_xrelease_prefix_eq | apply set_has_rep_prefix_eq
    | apply set_has_repe_prefix_eq | apply set_has_repne_prefix_eq
    | apply set_has_lock_prefix_eq | apply set_op0_kind_eq | apply set_op1_kind_eq
    | apply set_op2_kind_eq | apply set_op3_kind_eq | apply set_is_broadcast_eq
    | apply set_memory_index_scale_eq | apply set_opmask_eq | apply set_zeroing_masking_eq
    | apply set_merging_masking_eq | apply set_rounding_control_eq
    | apply set_suppress_all_exceptions_eq | apply set_declare_data_len_eq
    | rewrite set_segment_prefix_eq; apply u16_set_field; [reflexivity | exact Hwf]
    | rewrite set_memory_displ_size_eq; apply u16_set_field; [reflexivity | exact Hwf]
    | apply set_code_eq; cbn [typed] in Ht; code_typed; unfold fits; lia ].
Qed.

Ltac raw_words Hns :=
  eapply stray_same_words; [| exact Hns]; intros w; destruct w; reflexivity.

(** A setter call that writes no packed field leaves the three words as
    they are, or is one of [set_opN_kind]. *)
Ltac raw_no_stray He Hns :=
  first
    [ injection He as <-; raw_words Hns
    | apply set_op_kind_cases in He as [ -> | [ -> | [ -> | [ -> | -> ]]]];
        first [ exact Hns
              | intros w; rewrite ?set_op0_kind_eq, ?set_op1_kind_eq, ?set_op2_kind_eq,
                  ?set_op3_kind_eq, stray_set_field; apply Hns ]
    | apply set_op_register_cases in He as [ -> | [ -> | [ -> | [ -> | -> ]]]];
        raw_words Hns
    | apply set_immediate_u64_cases in He as [?x [ -> | [ -> | -> ]]];
        raw_words Hns
    | apply (proj1 (set_op4_cases _ _ Register.None _)) in He as ->; exact Hns
    | apply (proj2 (set_op4_cases _ OpKind.Register _ _)) in He as ->; exact Hns ].

Lemma step_no_stray a b : step a b -> wf a -> no_stray a -> no_stray b.
Proof.
  intros [a0 s b0 Ht Hp He] Hwf Hns.
  destruct (setter_effect s) as [[f v]|] eqn:Ef.
  - rewrite (setter_effect_exact s f v a0 Ht Ef Hwf) in He. injection He as <-.
    intros w. rewrite stray_set_field. apply Hns.
  - destruct s; cbn [setter_effect] in Ef; try discriminate; cbn [payload_setter] in Hp;
      try discriminate; cbn [exec] in He;
      unfold set_immediate_i32, set_immediate_u32, set_immediate_i64 in He; raw_no_stray He Hns.
Qed.

Lemma steps_no_stray a b :
  clos_refl_trans Instruction step a b -> wf a -> no_stray a -> no_stray b.
Proof.
  induction 1 as [a b Hs | a | a b c H1 IH1 H2 IH2]; auto.
  - intros Hw Hn. exact (step_no_stray a b Hs Hw Hn).
  - intros Hw Hn. apply IH2; [exact (step_preserves_wf a b H1 Hw) | exact (IH1 Hw Hn)].
Qed.

Lemma no_stray_new : no_stray new.
Proof. intros []; vm_compute; reflexivity. Qed.

Lemma reachable_no_stray i : reachable i -> no_stray i.
Proof. intros H. exact (steps_no_stray new i H wf_new no_stray_new). Qed.

(** [program_of i] rebuilds [i] itself, not only up to [field_equiv], when
    [i] has no stray bit. *)
Lemma program_of_exact i :
  buildable i -> no_stray i -> run new (program_of i) = Ok i.
Proof.
  intros Hb Hn. destruct (program_of_rebuilds i Hb) as (r & Hrun & He).
  assert (Hr : reachable r)
    by exact (run_from new (program_of i) r (rt_refl _ _ _) (program_of_steps i Hb) Hrun).
  rewrite Hrun. f_equal. exact (field_equiv_no_stray r i He (reachable_no_stray r Hr) Hn).
Qed.

Lemma reachable_exact_iff i : reachable i <-> buildable i /\ no_stray i.
Proof.
  split.
  - intros H. split; [exact (reachable_buildable i H) | exact (reachable_no_stray i H)].
  - intros [Hb Hn]. exact (run_from new (program_of i) i (rt_refl _ _ _) (program_of_steps i Hb)
      (program_of_exact i Hb Hn)).
Qed.

Lemma buildableb_spec i : buildableb i = true <-> buildable i.
Proof.
  unfold buildableb, buildable. rewrite !andb_true_iff, Z.leb_le.
  split.
  - intros ((((Hd & Hn) & Him) & Hmd) & Hds).
    apply fitsb_fits in Hn, Him, Hmd. tauto.
  - intros (Hd & Hn & Him & Hmd & Hds). apply fits_fitsb in Hn, Him, Hmd. tauto.
Qed.

Lemma no_strayb_spec i : no_strayb i = true <-> no_stray i.
Proof.
  unfold no_strayb, no_stray. cbn [forallb]. rewrite !andb_true_iff, !Z.eqb_eq. split.
  - intros (H1 & H2 & H3 & _) []; assumption.
  - intros H. repeat split; apply H.
Qed.

(** [C11] Exact reachability: the instructions that typed public setter
    calls (payload setters excluded) build from [Instruction::new()] are
    exactly the [buildable] ones of [Reach.v] with no bit set outside a
    field, and [reachableb] decides it. *)
Theorem reachable_exact (i : Instruction) :
  (reachable i <-> buildable i /\ no_stray i) /\ (reachableb i = true <-> reachable i).
Proof.
  split; [apply reachable_exact_iff|]. unfold reachableb.
  rewrite andb_true_iff, buildableb_spec, no_strayb_spec, reachable_exact_iff. reflexivity.
Qed.

End Setters.

(** An instruction that differs from [Instruction::new()] in bit 23 of
    [code_flags], which no field uses, is unreachable although every
    accessor reads it as [Instruction::new()]. *)
Example unused_bit_unreachable :
  field_equiv (with_code_flags new (1 .<< 23)) new /\ ~ reachable (with_code_flags new (1 .<< 23)).
Proof.
  split.
  - split; [repeat split | intros []; reflexivity].
  - intros H. apply reachable_exact_iff in H as [_ H]. specialize (H WCodeFlags).
    vm_compute in H. discriminate.
Qed.
