(* ===== verification/DebugBuild.v ===== *)
(** * The debug build: checked arithmetic and [debug_assert!]

    The other files model a release build, where [+] and [-] on integers
    wrap and [debug_assert!] is compiled out.  A debug build (the default
    dev profile, which [cargo build] and [cargo test] use) checks both: an
    overflowing [+]/[-] panics, and so does a failed [debug_assert!].  This
    file gives each operation of [instruction.rs] whose meaning depends on
    the profile a version [xxx_p p] over a [Profile] of [Prelude.v]:
    - the IP getters and setters ([ip16], [ip32], [ip], [set_ip16],
      [set_ip32], [set_ip]);
    - [segment_prefix] ([(field & 7) - 1] on [u32]), [set_segment_prefix]
      ([r - ES + 1]), [memory_segment] that calls [segment_prefix];
    - [set_opmask] ([r - K0]), [set_memory_index_scale] (a
      [debug_assert!(new_value == 8)]), [set_declare_data_len]
      ([new_value - 1] on [i32]) and the fast paths
      [internal_set_memory_displ_size] ([debug_assert!(new_value <= 4)])
      and [internal_set_declare_data_len] ([new_value - 1] on [u32]);
    - [ip_relative_memory_address] and [virtual_address], whose [u64]
      additions are checked;
    - [exec_p]/[run_p], the setter calls of [Builder.v] with these setters
      in place of the release ones.
    Each [xxx_p Release] is the release model of the other files; the
    theorems then compare the two builds. *)

From Stdlib Require Import ZArith Lia List Bool Relations.
From S2P Require Import Prelude Register Tables Layout Instruction Operands DeclareData Address Builder FastPath Reach Exact.
Import ListNotations.
Open Scope Z_scope.
Open Scope iced_scope.

Section Profiled.
Context `{CT : CodeTables}.
Implicit Types (self : Instruction).

(** ** IP *)

Definition ip16_p (p : Profile) self : Outcome Z := sub_u p 16 (as_u16 (next_rip self)) (as_u16 (len self)).
Definition ip32_p (p : Profile) self : Outcome Z := sub_u p 32 (as_u32 (next_rip self)) (as_u32 (len self)).
Definition ip_p (p : Profile) self : Outcome Z := sub_u p 64 (next_rip self) (len self).

Definition set_ip16_p (p : Profile) self (new_value : Z) : Outcome Instruction :=
  r <- add_u p 64 new_value (len self);; Ok (with_next_rip self r).
Definition set_ip32_p (p : Profile) self (new_value : Z) : Outcome Instruction :=
  r <- add_u p 64 new_value (len self);; Ok (with_next_rip self r).
Definition set_ip_p (p : Profile) self (new_value : Z) : Outcome Instruction :=
  r <- add_u p 64 new_value (len self);; Ok (with_next_rip self r).

(** ** Segment prefix *)

Definition segment_prefix_p (p : Profile) self : Outcome Register.Register :=
  index <- sub_u p 32
    ((memory_flags self .>> MemoryFlags.SEGMENT_PREFIX_SHIFT) .& MemoryFlags.SEGMENT_PREFIX_MASK) 1;;
  Ok (if index <? 6 then Register.transmute (Register.to_u32 Register.ES + index)
      else Register.None).

Definition set_segment_prefix_p (p : Profile) self (new_value : Register.Register) : Outcome Instruction :=
  enc_value <- (if Register.eqb new_value Register.None then Ok 0
                else d <- sub_u p 32 (Register.to_u32 new_value) (Register.to_u32 Register.ES);;
                     e <- add_u p 32 d 1;;
                     Ok (e .& MemoryFlags.SEGMENT_PREFIX_MASK));;
  Ok (with_memory_flags self (as_u16
    ((memory_flags self .& !. (MemoryFlags.SEGMENT_PREFIX_MASK .<< MemoryFlags.SEGMENT_PREFIX_SHIFT))
     .| (enc_value .<< MemoryFlags.SEGMENT_PREFIX_SHIFT)))).

Definition memory_segment_p (p : Profile) self : Outcome Register.Register :=
  seg_reg <- segment_prefix_p p self;;
  if negb (Register.eqb seg_reg Register.None) then Ok seg_reg
  else base <- memory_base self;;
       match base with
       | Register.BP | Register.EBP | Register.ESP | Register.RBP | Register.RSP => Ok Register.SS
       | _ => Ok Register.DS
       end.

(** ** Opmask, scale, declare-data length and the fast paths *)

Definition set_opmask_p (p : Profile) self (new_value : Register.Register) : Outcome Instruction :=
  r <- (if Register.eqb new_value Register.None then Ok 0
        else d <- sub_u p 32 (Register.to_u32 new_value) (Register.to_u32 Register.K0);;
             Ok (d .& CodeFlags.OPMASK_MASK));;
  Ok (with_code_flags self
    ((code_flags self .& !. (CodeFlags.OPMASK_MASK .<< CodeFlags.OPMASK_SHIFT))
     .| (r .<< CodeFlags.OPMASK_SHIFT))).

Definition set_memory_index_scale_p (p : Profile) self (new_value : Z) : Outcome Instruction :=
  let mf := memory_flags self in
  if new_value =? 1 then Ok (with_memory_flags self (mf .& !. 3))
  else if new_value =? 2 then Ok (with_memory_flags self ((mf .& !. MemoryFlags.SCALE_MASK) .| 1))
  else if new_value =? 4 then Ok (with_memory_flags self ((mf .& !. MemoryFlags.SCALE_MASK) .| 2))
  else _ <- debug_assert p (new_value =? 8);; Ok (with_memory_flags self (mf .| 3)).

Definition set_declare_data_len_p (p : Profile) self (new_value : Z) : Outcome Instruction :=
  d <- sub_i p 32 new_value 1;;
  Ok (with_op_kind_flags self
    ((op_kind_flags self .& !. (OpKindFlags.DATA_LENGTH_MASK .<< OpKindFlags.DATA_LENGTH_SHIFT))
     .| ((as_u32 d .& OpKindFlags.DATA_LENGTH_MASK) .<< OpKindFlags.DATA_LENGTH_SHIFT))).

Definition internal_set_memory_displ_size_p (p : Profile) self (new_value : Z) : Outcome Instruction :=
  _ <- debug_assert p (new_value <=? 4);;
  Ok (with_memory_flags self (memory_flags self .| as_u16 (new_value .<< MemoryFlags.DISPL_SIZE_SHIFT))).

Definition internal_set_declare_data_len_p (p : Profile) self (new_value : Z) : Outcome Instruction :=
  d <- sub_u p 32 new_value 1;;
  Ok (with_op_kind_flags self (op_kind_flags self .| as_u32 (d .<< OpKindFlags.DATA_LENGTH_SHIFT))).

(** ** Addresses *)

Definition ip_relative_memory_address_p (p : Profile) self : Outcome Z :=
  result <- add_u p 64 (next_ip self) (as_u64 (as_i32 (memory_displacement self)));;
  base <- memory_base self;;
  Ok (if Register.eqb base Register.EIP then as_u32 result else result).

(** The [OpKind::Memory] arm of [virtual_address]. *)
Definition memory_virtual_address_p (p : Profile)
    (get_register_value : Register.Register -> Z -> Z -> Z) self (element_index : Z) : Outcome Z :=
  base_reg <- memory_base self;;
  index_reg <- memory_index self;;
  cs <- code_size self;;
  let addr_size := get_address_size_in_bytes base_reg index_reg (memory_displ_size self) cs in
  om <- (if addr_size =? 8 then Ok (as_u64 (as_i32 (memory_displacement self)), Z.ones 64)
         else if addr_size =? 4 then Ok (memory_displacement self, Z.ones 32)
         else _ <- debug_assert p (addr_size =? 2);; Ok (memory_displacement self, Z.ones 16));;
  let '(offset, offset_mask) := om in
  offset <- match base_reg with
            | Register.None => Ok offset
            | Register.RIP => add_u p 64 offset (next_ip self)
            | Register.EIP => add_u p 64 offset (next_ip32 self)
            | _ => add_u p 64 offset (get_register_value base_reg 0 0)
            end;;
  offset <- (if negb (Register.eqb index_reg Register.None) then
               v <- vsib self;;
               let scale := internal_get_memory_index_scale self in
               match v with
               | Some true =>
                   add_u p 64 offset (as_u64 (get_register_value index_reg element_index 8 .<< scale))
               | Some false =>
                   add_u p 64 offset
                     (as_u64 (as_u32 (get_register_value index_reg element_index 4) .<< scale))
               | None =>
                   add_u p 64 offset (as_u64 (get_register_value index_reg element_index 0 .<< scale))
               end
             else Ok offset);;
  let offset := offset .& offset_mask in
  seg <- memory_segment_p p self;;
  add_u p 64 (get_register_value seg 0 0) offset.

Definition seg_plus_p (p : Profile)
    (get_register_value : Register.Register -> Z -> Z -> Z) self (cast : Z -> Z) (r : Register.Register) : Outcome Z :=
  seg <- memory_segment_p p self;;
  add_u p 64 (get_register_value seg 0 0) (cast (get_register_value r 0 0)).

Definition virtual_address_p (p : Profile)
    (get_register_value : Register.Register -> Z -> Z -> Z) self (operand element_index : Z) : Outcome Z :=
  k <- op_kind self operand;;
  match k with
  | OpKind.Register | OpKind.NearBranch16 | OpKind.NearBranch32 | OpKind.NearBranch64
  | OpKind.FarBranch16 | OpKind.FarBranch32 | OpKind.Immediate8 | OpKind.Immediate8_2nd
  | OpKind.Immediate16 | OpKind.Immediate32 | OpKind.Immediate64 | OpKind.Immediate8to16
  | OpKind.Immediate8to32 | OpKind.Immediate8to64 | OpKind.Immediate32to64 => Ok 0
  | OpKind.MemorySegSI => seg_plus_p p get_register_value self as_u16 Register.SI
  | OpKind.MemorySegESI => seg_plus_p p get_register_value self as_u32 Register.ESI
  | OpKind.MemorySegRSI => seg_plus_p p get_register_value self id Register.RSI
  | OpKind.MemorySegDI => seg_plus_p p get_register_value self as_u16 Register.DI
  | OpKind.MemorySegEDI => seg_plus_p p get_register_value self as_u32 Register.EDI
  | OpKind.MemorySegRDI => seg_plus_p p get_register_value self id Register.RDI
  | OpKind.MemoryESDI =>
      add_u p 64 (get_register_value Register.ES 0 0) (as_u16 (get_register_value Register.DI 0 0))
  | OpKind.MemoryESEDI =>
      add_u p 64 (get_register_value Register.ES 0 0) (as_u32 (get_register_value Register.EDI 0 0))
  | OpKind.MemoryESRDI =>
      add_u p 64 (get_register_value Register.ES 0 0) (get_register_value Register.RDI 0 0)
  | OpKind.Memory64 =>
      seg <- memory_segment_p p self;;
      add_u p 64 (get_register_value seg 0 0) (memory_address64 self)
  | OpKind.Memory => memory_virtual_address_p p get_register_value self element_index
  end.

End Profiled.

(** ** Setter calls in either build *)

Section ProfiledSetters.
Context `{CT : CodeTables}.
Variable p : Profile.

(** [i.set_xxx(args)] built with profile [p]: the setters above, and
    [exec] for the setters whose code has no [+], [-] or [debug_assert!]. *)
Definition exec_p (i : Instruction) (s : Setter) : Outcome Instruction :=
  match s with
  | SetIp16 v => set_ip16_p p i v
  | SetIp32 v => set_ip32_p p i v
  | SetIp v => set_ip_p p i v
  | SetSegmentPrefix r => set_segment_prefix_p p i r
  | SetOpmask r => set_opmask_p p i r
  | SetMemoryIndexScale n => set_memory_index_scale_p p i n
  | SetDeclareDataLen n => set_declare_data_len_p p i n
  | _ => exec i s
  end.

Fixpoint run_p (i : Instruction) (ss : list Setter) : Outcome Instruction :=
  match ss with
  | [] => Ok i
  | s :: ss' => i' <- exec_p i s;; run_p i' ss'
  end.

(** A decoder program of fast paths built with profile [p]: the two fast
    paths with a debug check, [exec_internal] for the others. *)
Definition exec_internal_p (i : Instruction) (op : InternalOp) : Outcome Instruction :=
  match op with
  | IMemoryDisplSize e => internal_set_memory_displ_size_p p i e
  | IDeclareDataLen n => internal_set_declare_data_len_p p i n
  | _ => Ok (exec_internal i op)
  end.

Fixpoint run_internal_p (i : Instruction) (ops : list InternalOp) : Outcome Instruction :=
  match ops with
  | [] => Ok i
  | op :: ops' => i' <- exec_internal_p i op;; run_internal_p i' ops'
  end.

End ProfiledSetters.

(** ** The release build is the model of the other files *)

Section Release.
Context `{CT : CodeTables}.

Lemma ip_getters_release i :
  ip16_p Release i = Ok (ip16 i) /\ ip32_p Release i = Ok (ip32 i) /\ ip_p Release i = Ok (ip i).
Proof. repeat split. Qed.

Lemma segment_prefix_release i : segment_prefix_p Release i = Ok (segment_prefix i).
Proof. reflexivity. Qed.

Lemma memory_segment_release i : memory_segment_p Release i = memory_segment i.
Proof. reflexivity. Qed.

Lemma ip_relative_memory_address_release i :
  ip_relative_memory_address_p Release i = ip_relative_memory_address i.
Proof. reflexivity. Qed.

(** The [match base_reg] of the [Memory] arm, in a release build. *)
Lemma base_add_release (grv : Register.Register -> Z -> Z -> Z) b o x y :
  match b with
  | Register.None => Ok o
  | Register.RIP => add_u Release 64 o x
  | Register.EIP => add_u Release 64 o y
  | _ => add_u Release 64 o (grv b 0 0)
  end =
  Ok match b with
     | Register.None => o
     | Register.RIP => wrapping_add 64 o x
     | Register.EIP => wrapping_add 64 o y
     | _ => wrapping_add 64 o (grv b 0 0)
     end.
Proof. destruct b; reflexivity. Qed.

Lemma memory_virtual_address_release grv i e :
  memory_virtual_address_p Release grv i e = memory_virtual_address grv i e.
Proof.
  unfold memory_virtual_address_p, memory_virtual_address.
  destruct (memory_base i) as [b| |]; cbn [obind]; [|reflexivity..].
  destruct (memory_index i) as [x| |]; cbn [obind]; [|reflexivity..].
  destruct (code_size i) as [cs| |]; cbn [obind]; [|reflexivity..].
  destruct (_ =? 8); [|destruct (_ =? 4)]; cbn [debug_assert obind];
    rewrite base_add_release; cbn [obind];
    (destruct (negb _); cbn [obind]; [destruct (vsib i) as [[[|]|]| |]; cbn [obind]|]);
    rewrite ?memory_segment_release; reflexivity.
Qed.

Lemma virtual_address_release grv i n e :
  virtual_address_p Release grv i n e = virtual_address grv i n e.
Proof.
  unfold virtual_address_p, virtual_address.
  destruct (op_kind i n) as [k| |]; cbn [obind]; [|reflexivity..].
  destruct k; try reflexivity; try apply memory_virtual_address_release.
Qed.

Lemma exec_release i s : exec_p Release i s = exec i s.
Proof.
  destruct s; try reflexivity; cbn [exec_p exec].
  - unfold set_segment_prefix_p, set_segment_prefix.
    destruct (Register.eqb _ _); reflexivity.
  - unfold set_memory_index_scale_p, set_memory_index_scale.
    repeat destruct (_ =? _); reflexivity.
  - unfold set_opmask_p, set_opmask. destruct (Register.eqb _ _); reflexivity.
  - unfold set_declare_data_len_p, set_declare_data_len. cbn [sub_i obind].
    unfold as_u32. rewrite trunc_sext by lia. reflexivity.
Qed.

Lemma run_release i ss : run_p Release i ss = run i ss.
Proof.
  revert i. induction ss as [|s ss IH]; intros i; [reflexivity|].
  cbn [run_p run]. rewrite exec_release. destruct (exec i s); cbn [obind]; auto.
Qed.

End Release.

(** ** What a debug build panics on *)

(** The setter calls that panic in a debug build and complete in a
    release build: [set_ip*] whose [new_value + len()] leaves [u64], a
    segment or opmask register argument below [ES] or [K0] (other than
    [None]), a scale other than 1, 2, 4, 8, and a data length of
    [i32::MIN]. *)
Definition setter_debug_panics (i : Instruction) (s : Setter) : bool :=
  match s with
  | SetIp16 v | SetIp32 v | SetIp v => 2 ^ 64 <=? v + len i
  | SetSegmentPrefix r =>
      negb (Register.eqb r Register.None) && (Register.to_u32 r <? Register.to_u32 Register.ES)
  | SetOpmask r =>
      negb (Register.eqb r Register.None) && (Register.to_u32 r <? Register.to_u32 Register.K0)
  | SetMemoryIndexScale n => negb (existsb (Z.eqb n) [1; 2; 4; 8])
  | SetDeclareDataLen n => n - 1 <? - 2 ^ 31
  | _ => false
  end.

Section Debug.
Context `{CT : CodeTables}.

Lemma len_range i : 0 <= len i < 16.
Proof. rewrite len_field. apply get_field_range. Qed.

Lemma segment_prefix_bits i :
  (memory_flags i .>> MemoryFlags.SEGMENT_PREFIX_SHIFT) .& MemoryFlags.SEGMENT_PREFIX_MASK =
  get_field FSegmentPrefix i.
Proof. reflexivity. Qed.

(** A register argument [r - base] on [u32], then the rest of the setter. *)
Lemma reg_sub_exact {B} r base (k : Z -> Outcome B) :
  obind (sub_u Debug 32 (Register.to_u32 r) (Register.to_u32 base)) k =
  if Register.to_u32 r <? Register.to_u32 base then Panic
  else k (wrapping_sub 32 (Register.to_u32 r) (Register.to_u32 base)).
Proof.
  pose proof (Register.to_u32_range r). pose proof (Register.to_u32_range base).
  unfold Register.NUMBER_OF_REGISTERS in *.
  rewrite sub_u_debug_exact by (unfold fits; lia). destruct (_ <? _); reflexivity.
Qed.

(** [C14] In a debug build, [ip16()], [ip32()] and [ip()] panic exactly when
    the low 16, 32 or 64 bits of [next_rip] are below [len()], and give
    the release value otherwise. *)
Theorem ip_getters_debug (i : Instruction) :
  wf i ->
  ip16_p Debug i = (if as_u16 (next_rip i) <? len i then Panic else Ok (ip16 i)) /\
  ip32_p Debug i = (if as_u32 (next_rip i) <? len i then Panic else Ok (ip32 i)) /\
  ip_p Debug i = (if next_rip i <? len i then Panic else Ok (ip i)).
Proof.
  intros [Hrip _]. pose proof (len_range i).
  assert (E16 : as_u16 (len i) = len i) by (apply trunc_small; unfold fits; lia).
  assert (E32 : as_u32 (len i) = len i) by (apply trunc_small; unfold fits; lia).
  unfold ip16_p, ip32_p, ip_p, ip16, ip32, ip. rewrite E16, E32.
  rewrite !sub_u_debug_exact by first [lia | assumption | apply trunc_fits; lia].
  repeat split.
Qed.

(** In a debug build, [segment_prefix()] panics exactly when the
    segment-prefix field is 0, that is on every instruction without a
    segment override, [Instruction::new()] included ([0u32 - 1]), and
    gives the release value otherwise; [memory_segment()], which calls it
    first, panics with it. *)
Theorem segment_prefix_debug (i : Instruction) :
  segment_prefix_p Debug i =
    (if get_field FSegmentPrefix i =? 0 then Panic else Ok (segment_prefix i)) /\
  (get_field FSegmentPrefix i = 0 -> memory_segment_p Debug i = Panic).
Proof.
  assert (E : segment_prefix_p Debug i =
    if get_field FSegmentPrefix i =? 0 then Panic else Ok (segment_prefix i)).
  { pose proof (get_field_range FSegmentPrefix i) as Hr. cbn in Hr.
    unfold segment_prefix_p, segment_prefix. rewrite segment_prefix_bits.
    rewrite sub_u_debug_exact by (unfold fits; lia).
    destruct (Z.ltb_spec (get_field FSegmentPrefix i) 1),
      (Z.eqb_spec (get_field FSegmentPrefix i) 0); try lia; reflexivity. }
  split; [exact E|]. intros H0. unfold memory_segment_p. rewrite E, H0. reflexivity.
Qed.

Lemma exec_p_debug (s : Setter) (i : Instruction) :
  typed s = true -> exec_p Debug i s = if setter_debug_panics i s then Panic else exec i s.
Proof.
  intros Ht. pose proof (len_range i).
  destruct s; cbn [setter_debug_panics exec_p exec]; try reflexivity; cbn [typed] in Ht.
  1-3: apply fitsb_fits in Ht; unfold set_ip16_p, set_ip32_p, set_ip_p, set_ip16, set_ip32, set_ip;
    rewrite add_u_debug_exact by (unfold fits in *; lia); destruct (_ <=? _); reflexivity.
  - unfold set_segment_prefix_p, set_segment_prefix.
    destruct (Register.eqb r Register.None); cbn [negb andb]; [reflexivity|].
    rewrite reg_sub_exact. destruct (Z.ltb_spec (Register.to_u32 r) (Register.to_u32 Register.ES));
      [reflexivity|].
    pose proof (Register.to_u32_range r). unfold Register.NUMBER_OF_REGISTERS in *.
    assert (Hd : wrapping_sub 32 (Register.to_u32 r) (Register.to_u32 Register.ES) =
                 Register.to_u32 r - Register.to_u32 Register.ES)
      by (apply trunc_small; [lia | unfold fits; cbn in *; lia]).
    rewrite Hd, add_u_debug_exact by (cbn in *; lia).
    destruct (Z.leb_spec (2 ^ 32) (Register.to_u32 r - Register.to_u32 Register.ES + 1));
      [cbn in *; lia | reflexivity].
  - unfold set_memory_index_scale_p, set_memory_index_scale. cbn [existsb].
    destruct (n =? 1); [reflexivity|]. destruct (n =? 2); [reflexivity|].
    destruct (n =? 4); [reflexivity|]. destruct (n =? 8); reflexivity.
  - unfold set_opmask_p, set_opmask.
    destruct (Register.eqb r Register.None); cbn [negb andb]; [reflexivity|].
    rewrite reg_sub_exact. destruct (_ <? _); reflexivity.
  - unfold set_declare_data_len_p, set_declare_data_len, is_i32 in *. cbn [sub_i].
    apply andb_true_iff in Ht as [Ht1 Ht2]. apply Z.leb_le in Ht1. apply Z.ltb_lt in Ht2.
    destruct (Z.leb_spec (- 2 ^ (32 - 1)) (n - 1)), (Z.ltb_spec (n - 1) (2 ^ (32 - 1))),
      (Z.ltb_spec (n - 1) (- 2 ^ 31)); cbn [andb]; try reflexivity; cbn in *; lia.
Qed.

(** [C12] In a debug build, a typed public setter call panics exactly on the
    arguments [setter_debug_panics] lists and otherwise does what the
    release build does. *)
Theorem setters_debug_panics (s : Setter) (i : Instruction) :
  typed s = true -> exec_p Debug i s = if setter_debug_panics i s then Panic else exec i s.
Proof. exact (exec_p_debug s i). Qed.

Lemma exec_debug_more s i :
  typed s = true -> panics_more (exec_p Debug i s) (exec i s).
Proof.
  intros Ht. rewrite (exec_p_debug s i Ht). destruct (setter_debug_panics i s); [left | right]; reflexivity.
Qed.

Lemma run_debug_more (i : Instruction) (ss : list Setter) :
  Forall (fun s => typed s = true) ss -> panics_more (run_p Debug i ss) (run i ss).
Proof.
  revert i. induction ss as [|s ss IH]; intros i Hss; [apply panics_more_refl|].
  inversion Hss as [|? ? Hs Hss']; subst. cbn [run_p run].
  apply panics_more_bind; [now apply exec_debug_more | intros i' _; now apply IH].
Qed.

(** In a debug build, [set_ip(v)] completes when [v + len()] fits in
    [u64], and [ip()] then gives [v] back without panicking. *)
Theorem set_ip_debug_roundtrip (i : Instruction) (v : Z) :
  fits 64 v -> v + len i < 2 ^ 64 ->
  exists i', set_ip_p Debug i v = Ok i' /\ ip_p Debug i' = Ok v /\ len i' = len i.
Proof.
  intros Hv Hs. pose proof (len_range i). unfold fits in Hv.
  exists (with_next_rip i (v + len i)). unfold set_ip_p, ip_p.
  rewrite add_u_debug_ok by exact Hs. cbn [obind]. split; [reflexivity|].
  assert (Hl : len (with_next_rip i (v + len i)) = len i) by reflexivity.
  rewrite Hl. split; [|reflexivity]. cbn [next_rip with_next_rip].
  rewrite sub_u_debug_ok by lia. f_equal. lia.
Qed.

End Debug.

(** ** Addresses in a debug build

    The register-value callback returns a [u64], as its Rust type says. *)

Section Addresses.
Context `{CT : CodeTables}.
Variable get_register_value : Register.Register -> Z -> Z -> Z.
Hypothesis get_register_value_u64 : forall r a b, fits 64 (get_register_value r a b).

Lemma grv_nonneg r a b : 0 <= get_register_value r a b.
Proof. apply get_register_value_u64. Qed.

Lemma segment_prefix_more i : panics_more (segment_prefix_p Debug i) (segment_prefix_p Release i).
Proof.
  unfold segment_prefix_p. apply panics_more_bind; [|intros; apply panics_more_refl].
  apply sub_u_debug; [lia | apply fits_land_r; unfold fits, MemoryFlags.SEGMENT_PREFIX_MASK; lia | lia].
Qed.

Lemma memory_segment_more i : panics_more (memory_segment_p Debug i) (memory_segment_p Release i).
Proof.
  unfold memory_segment_p. apply panics_more_bind; [apply segment_prefix_more|].
  intros; apply panics_more_refl.
Qed.

Lemma base_add_more b o x y :
  0 <= o -> 0 <= x -> 0 <= y ->
  panics_more
    match b with
    | Register.None => Ok o
    | Register.RIP => add_u Debug 64 o x
    | Register.EIP => add_u Debug 64 o y
    | _ => add_u Debug 64 o (get_register_value b 0 0)
    end
    match b with
    | Register.None => Ok o
    | Register.RIP => add_u Release 64 o x
    | Register.EIP => add_u Release 64 o y
    | _ => add_u Release 64 o (get_register_value b 0 0)
    end.
Proof.
  intros. destruct b; first [apply panics_more_refl | apply add_u_debug; auto using grv_nonneg; lia].
Qed.

Lemma base_add_nonneg b o x y :
  0 <= o ->
  0 <= match b with
       | Register.None => o
       | Register.RIP => wrapping_add 64 o x
       | Register.EIP => wrapping_add 64 o y
       | _ => wrapping_add 64 o (get_register_value b 0 0)
       end.
Proof. intros. destruct b; first [assumption | apply trunc_nonneg; lia]. Qed.

Ltac nonneg :=
  unfold as_u16, as_u32, as_u64, next_ip, next_ip32, memory_displacement, memory_address64, id,
    fits in *;
  first [ lia | apply trunc_nonneg; lia | apply grv_nonneg
        | apply Z.lor_nonneg; split; [apply Z.shiftl_nonneg|]; lia ].

Lemma memory_virtual_address_more i e :
  wf i ->
  panics_more (memory_virtual_address_p Debug get_register_value i e)
              (memory_virtual_address_p Release get_register_value i e).
Proof.
  intros (Hrip & _ & _ & _ & Hd & _). unfold memory_virtual_address_p.
  apply panics_more_bind; [apply panics_more_refl | intros b _].
  apply panics_more_bind; [apply panics_more_refl | intros x _].
  apply panics_more_bind; [apply panics_more_refl | intros cs _].
  apply panics_more_bind.
  { destruct (_ =? 8); [apply panics_more_refl|]. destruct (_ =? 4); [apply panics_more_refl|].
    apply panics_more_bind; [apply debug_assert_debug | intros; apply panics_more_refl]. }
  intros [o m] Hom.
  assert (Ho : 0 <= o).
  { repeat match type of Hom with context [if ?c then _ else _] => destruct c end;
      cbn [debug_assert obind] in Hom; injection Hom as <- <-; nonneg. }
  cbv beta iota. apply panics_more_bind; [apply base_add_more; nonneg|].
  intros o1 Ho1. rewrite base_add_release in Ho1. injection Ho1 as <-.
  pose proof (base_add_nonneg b o (next_ip i) (next_ip32 i) Ho) as Ho1.
  apply panics_more_bind.
  { destruct (negb _); [|apply panics_more_refl].
    apply panics_more_bind; [apply panics_more_refl | intros v _].
    destruct v as [[|]|]; apply add_u_debug; nonneg. }
  intros o2 Ho2.
  assert (Ho2' : 0 <= o2).
  { destruct (negb _); cbn [obind] in Ho2; [|injection Ho2 as <-; exact Ho1].
    destruct (vsib i) as [[[|]|]| |]; cbn [obind add_u] in Ho2; try discriminate;
      injection Ho2 as <-; nonneg. }
  apply panics_more_bind; [apply memory_segment_more | intros seg _].
  apply add_u_debug; [lia | apply grv_nonneg | apply Z.land_nonneg; left; exact Ho2'].
Qed.

Lemma virtual_address_more i n e :
  wf i ->
  panics_more (virtual_address_p Debug get_register_value i n e)
              (virtual_address_p Release get_register_value i n e).
Proof.
  intros Hwf. pose proof Hwf as (Hrip & _ & _ & Himm & Hd & _). unfold virtual_address_p.
  apply panics_more_bind; [apply panics_more_refl | intros k _].
  destruct k; try apply panics_more_refl; try (apply memory_virtual_address_more; exact Hwf);
    try unfold seg_plus_p;
    first [ apply panics_more_bind; [apply memory_segment_more | intros seg _; apply add_u_debug; nonneg]
          | apply add_u_debug; nonneg ].
Qed.

End Addresses.

Section IpRelative.
Context `{CT : CodeTables}.

(** [ip_relative_memory_address()] in a debug build: the [u64] sum
    [next_ip() + displacement as i32 as u64] panics when it overflows. *)
Lemma ip_relative_debug i :
  wf i ->
  ip_relative_memory_address_p Debug i =
    if 2 ^ 64 <=? next_rip i + as_u64 (as_i32 (mem_displ i)) then Panic
    else ip_relative_memory_address i.
Proof.
  intros (Hrip & _). unfold ip_relative_memory_address_p, next_ip.
  rewrite add_u_debug_exact by (unfold fits, as_u64 in *; first [lia | apply trunc_nonneg; lia]).
  destruct (_ <=? _); reflexivity.
Qed.

End IpRelative.

(** ** What a debug build can build *)

Section DebugReach.
Context `{CT : CodeTables}.

(** A program of setter calls none of which panics in a debug build runs
    as in the release build. *)
Lemma run_p_debug_safe i ss :
  Forall (fun s => typed s = true /\ forall j, setter_debug_panics j s = false) ss ->
  run_p Debug i ss = run i ss.
Proof.
  revert i. induction ss as [|s ss IH]; intros i Hss; [reflexivity|].
  inversion Hss as [|? ? [Ht Hs] Hss']; subst. cbn [run_p run].
  rewrite (exec_p_debug _ _ Ht), Hs. destruct (exec i s); cbn [obind]; auto.
Qed.

(** The rebuilding program of [Reach.v] stores only encodings that no
    debug check rejects: segment and opmask registers at or above [ES] and
    [K0], scales 1 to 8, data lengths 1 to 16, and no [set_ip]. *)
Lemma program_of_debug_safe i :
  Forall (fun s => forall j, setter_debug_panics j s = false) (program_of i).
Proof.
  pose proof (field_ranges i) as R.
  unfold program_of, field_program, field_program_of, raw_program. cbn [app].
  repeat apply Forall_cons; try apply Forall_nil; intros j; cbn [setter_debug_panics];
    try reflexivity.
  - pose proof (R FOpmask) as H. cbn in H. range_split H 8%nat; reflexivity.
  - pose proof (R FDataLength) as H. cbn in H. apply Z.ltb_ge. lia.
  - pose proof (R FScale) as H. cbn in H. range_split H 4%nat; reflexivity.
  - pose proof (R FSegmentPrefix) as H. cbn in H. range_split H 8%nat; reflexivity.
Qed.

(** [C13] A debug build reaches exactly the instructions a release build
    reaches: those that typed public setter calls (payload setters
    excluded) build from [Instruction::new()] without panicking in a debug
    build are exactly the [buildable] ones with no stray bit, the
    reachable instructions of the release build ([Exact.v]). *)
Theorem debug_reachable_characterization (i : Instruction) :
  (exists ss, Forall (fun s => typed s = true /\ payload_setter s = false) ss /\
              run_p Debug new ss = Ok i) <-> buildable i /\ no_stray i.
Proof.
  split.
  - intros (ss & Hss & Hrun).
    assert (Ht : Forall (fun s => typed s = true) ss)
      by (refine (Forall_impl _ _ Hss); intros s [Hs _]; exact Hs).
    destruct (run_debug_more new ss Ht) as [Hp | Heq]; [congruence|].
    rewrite Hrun in Heq. symmetry in Heq.
    apply reachable_exact_iff. exact (run_from new ss i (rt_refl _ _ _) Hss Heq).
  - intros [Hb Hn]. exists (program_of i). split; [exact (program_of_steps i Hb)|].
    rewrite run_p_debug_safe; [exact (program_of_exact i Hb Hn)|].
    apply Forall_forall. intros s Hs. split.
    + exact (proj1 (proj1 (Forall_forall _ _) (program_of_steps i Hb) s Hs)).
    + exact (proj1 (Forall_forall _ _) (program_of_debug_safe i) s Hs).
Qed.

End DebugReach.

(** ** The decoder's fast paths in a debug build *)

Section DebugFastPath.
Context `{CT : CodeTables}.

Lemma internal_set_memory_displ_size_debug i e :
  internal_set_memory_displ_size_p Debug i e =
    if 4 <? e then Panic else Ok (internal_set_memory_displ_size i e).
Proof.
  unfold internal_set_memory_displ_size_p. cbn [debug_assert].
  destruct (Z.leb_spec e 4), (Z.ltb_spec 4 e); try lia; reflexivity.
Qed.

Lemma internal_set_declare_data_len_debug i n :
  fits 32 n ->
  internal_set_declare_data_len_p Debug i n =
    if n <? 1 then Panic else Ok (internal_set_declare_data_len i n).
Proof.
  intros Hn. unfold internal_set_declare_data_len_p.
  rewrite sub_u_debug_exact by (exact Hn || lia).
  destruct (Z.ltb_spec n 1); reflexivity.
Qed.

(** [C15] Under the decoder's contract [args_ok] (a displacement-size encoding
    of at most 4, a data count of 1 to 16), no debug check of a fast path
    fires: a decoder program runs in a debug build as in a release build.
    The checks bound the arguments only; they do not catch a second write
    to a field ([fast_path_needs_zero_field]). *)
Theorem fast_path_debug_safe (i : Instruction) (ops : list InternalOp) :
  forallb args_ok ops = true -> run_internal_p Debug i ops = Ok (run_internal i ops).
Proof.
  revert i. induction ops as [|op ops IH]; intros i Hops; [reflexivity|].
  cbn [forallb] in Hops. apply andb_true_iff in Hops as [Hop Hops].
  cbn [run_internal_p]. unfold run_internal. cbn [fold_left]. fold (run_internal (exec_internal i op) ops).
  rewrite <- (IH _ Hops).
  destruct op; try reflexivity; cbn [args_ok] in Hop; apply andb_true_iff in Hop as [H1 H2];
    apply Z.leb_le in H1; cbn [exec_internal_p exec_internal].
  - apply Z.leb_le in H2. rewrite internal_set_memory_displ_size_debug.
    destruct (Z.ltb_spec 4 e); [lia | reflexivity].
  - apply Z.leb_le in H2. rewrite internal_set_declare_data_len_debug by (unfold fits; lia).
    destruct (Z.ltb_spec n 1); [lia | reflexivity].
Qed.

End DebugFastPath.

(** ** Debug-build panics on concrete calls *)

(** Three calls that complete in a release build and panic in a debug
    build: [virtual_address] of a plain [[rax]] operand without a segment
    override (its [memory_segment()] calls [segment_prefix()], whose
    [0u32 - 1] overflows); [virtual_address] of [[rax-8]] with a [ds:]
    override and [rax = 16] (the [u64] offset sum overflows, the release
    build wraps to 8); [ip_relative_memory_address()] of [[rip-16]] at
    [0x401000] (the same overflow; the release build gives [0x400FF0]). *)
Example debug_address_panics :
  let regs := fun (r : Register.Register) (_ _ : Z) =>
                if Register.eqb r Register.RAX then 16 else 0 in
  let plain := set_memory_base (set_op0_kind (set_code_size new CodeSize.Code64) OpKind.Memory)
                 Register.RAX in
  let neg := set_segment_prefix (set_memory_displacement plain 0xFFFFFFF8) Register.DS in
  let rip := set_memory_base (set_op0_kind (set_memory_displacement (set_next_ip new 0x401000)
               0xFFFFFFF0) OpKind.Memory) Register.RIP in
  virtual_address_p Debug regs plain 0 0 = Panic /\ virtual_address regs plain 0 0 = Ok 16 /\
  virtual_address_p Debug regs neg 0 0 = Panic /\ virtual_address regs neg 0 0 = Ok 8 /\
  ip_relative_memory_address_p Debug rip = Panic /\
  ip_relative_memory_address rip = Ok 0x400FF0.
Proof. vm_compute. repeat split. Qed.

(** In a debug build the order of [set_ip] and [set_len] matters:
    [set_ip(0)] then [set_len(3)] leaves [next_rip = 0] below the length,
    so [ip()] panics; [set_len(3)] then [set_ip(0)] gives [ip() = 0]. *)
Example debug_set_ip_order :
  (exists a, run_p Debug new [SetIp 0; SetLen 3] = Ok a /\ ip_p Debug a = Panic) /\
  (exists b, run_p Debug new [SetLen 3; SetIp 0] = Ok b /\ ip_p Debug b = Ok 0).
Proof. split; eexists; split; vm_compute; reflexivity. Qed.

Ltac wf_compute := unfold wf, fits; vm_compute; repeat split; (discriminate || reflexivity).

Lemma ip_getters_debug_witness :
  wf (set_ip16 (set_len new 3) 0xFFFE) /\ ip16_p Debug (set_ip16 (set_len new 3) 0xFFFE) = Panic.
Proof.
  assert (Hw : wf (set_ip16 (set_len new 3) 0xFFFE)) by wf_compute.
  split; [exact Hw|]. destruct (ip_getters_debug _ Hw) as [H _]. rewrite H. vm_compute. reflexivity.
Defined.

Lemma setters_debug_panics_witness :
  typed (SetSegmentPrefix Register.AL) = true /\
  exec_p Debug new (SetSegmentPrefix Register.AL) = Panic.
Proof.
  split; [reflexivity|]. rewrite (setters_debug_panics (SetSegmentPrefix Register.AL) new eq_refl).
  vm_compute. reflexivity.
Defined.

Lemma set_ip_debug_roundtrip_witness :
  fits 64 0x401000 /\ 0x401000 + len new < 2 ^ 64 /\
  exists i', set_ip_p Debug new 0x401000 = Ok i' /\ ip_p Debug i' = Ok 0x401000 /\ len i' = len new.
Proof.
  assert (Hv : fits 64 0x401000) by (unfold fits; lia).
  assert (Hs : 0x401000 + len new < 2 ^ 64) by (vm_compute; reflexivity).
  split; [exact Hv|]. split; [exact Hs|]. exact (set_ip_debug_roundtrip new 0x401000 Hv Hs).
Defined.

Lemma fast_path_debug_safe_witness :
  forallb args_ok [ICode 1; ILen 3; IMemoryDisplSize 4; IDeclareDataLen 2] = true /\
  run_internal_p Debug new [ICode 1; ILen 3; IMemoryDisplSize 4; IDeclareDataLen 2] =
    Ok (run_internal new [ICode 1; ILen 3; IMemoryDisplSize 4; IDeclareDataLen 2]).
Proof.
  assert (H : forallb args_ok [ICode 1; ILen 3; IMemoryDisplSize 4; IDeclareDataLen 2] = true)
    by (vm_compute; reflexivity).
  split; [exact H|]. exact (fast_path_debug_safe new _ H).
Defined.
