(* ===== verification/Equality.v ===== *)
(** * [==] is a congruence for the setters

    [impl PartialEq for Instruction] ([fn eq] of [instruction.rs], modelled
    as [PartialEq.eq] in [Layout.v]) compares two instructions with
    [next_rip], the length field and the code-size field left out.  This
    file shows that the rest of the API respects that choice, as the spec
    requires of a comparison used for deduplication keys:
    - every field except the two ignored ones, and the getters built on
      them, reads the same on [==] instructions;
    - every setter of the [Setter] alphabet of [Builder.v], field setters,
      operand setters and declare-data setters, typed arguments or not,
      maps [==] instructions to [==] results or fails in the same way on
      both, and so do whole setter programs.
    [eq_congruence] states both.
    [peq] is [==] as a setoid relation, with [Proper] instances for the
    getters, [exec] and [run].  [==] does not fix the address of a memory
    operand: [virtual_address] reads [next_ip()] and, for the address
    size, [code_size()] ([eq_does_not_fix_address]). *)

From Stdlib Require Import ZArith Lia List Bool Morphisms RelationClasses.
From S2P Require Import Prelude Register Tables Layout Instruction Operands DeclareData Address Builder.
Import ListNotations.
Open Scope Z_scope.
Open Scope iced_scope.

(** ** The relation *)

Definition peq (a b : Instruction) : Prop := PartialEq.eq a b = true.

(** Two outcomes related by [R]: both [Ok] with related values, or the same
    failure. *)
Definition outcome_rel {A} (R : A -> A -> Prop) (x y : Outcome A) : Prop :=
  match x, y with
  | Ok a, Ok b => R a b
  | Panic, Panic | Undefined, Undefined => True
  | _, _ => False
  end.

(** The fields [==] leaves out. *)
Definition ignored_field (f : Field) : bool :=
  match f with FInstrLength | FCodeSize => true | _ => false end.

(** What [==] asks of two instructions, field by field: the flag words agree
    outside their [EQUALS_IGNORE_MASK], every other stored field but
    [next_rip] is equal. *)
Definition same_but_ignored (a b : Instruction) : Prop :=
  code_flags a .& !. CodeFlags.EQUALS_IGNORE_MASK
    = code_flags b .& !. CodeFlags.EQUALS_IGNORE_MASK /\
  op_kind_flags a .& !. OpKindFlags.EQUALS_IGNORE_MASK
    = op_kind_flags b .& !. OpKindFlags.EQUALS_IGNORE_MASK /\
  immediate a = immediate b /\ mem_displ a = mem_displ b /\ memory_flags a = memory_flags b /\
  mem_base_reg a = mem_base_reg b /\ mem_index_reg a = mem_index_reg b /\
  reg0 a = reg0 b /\ reg1 a = reg1 b /\ reg2 a = reg2 b /\ reg3 a = reg3 b.

Definition ignore_mask (w : Word) : Z :=
  match w with
  | WCodeFlags => CodeFlags.EQUALS_IGNORE_MASK
  | WOpKindFlags => OpKindFlags.EQUALS_IGNORE_MASK
  | WMemoryFlags => 0
  end.

(** ** Bits outside a mask *)

(** A word update [(x & k) | c] keeps the agreement of two words outside
    a mask [m], whatever [k] and [c]. *)
Lemma masked_update x y m k c :
  x .& !. m = y .& !. m -> ((x .& k) .| c) .& !. m = ((y .& k) .| c) .& !. m.
Proof.
  intros H. rewrite !Z.land_lor_distr_l, <- !Z.land_assoc, !(Z.land_comm k (!. m)),
    !Z.land_assoc, H. reflexivity.
Qed.

Lemma masked_clear x y m k : x .& !. m = y .& !. m -> (x .& k) .& !. m = (y .& k) .& !. m.
Proof.
  intros H. rewrite <- (Z.lor_0_r (x .& k)), <- (Z.lor_0_r (y .& k)). exact (masked_update _ _ _ _ _ H).
Qed.

Lemma masked_set x y m c : x .& !. m = y .& !. m -> (x .| c) .& !. m = (y .| c) .& !. m.
Proof.
  intros H. rewrite <- (Z.land_m1_r x), <- (Z.land_m1_r y). exact (masked_update _ _ _ _ _ H).
Qed.

Lemma masked_testbit x y m j :
  x .& !. m = y .& !. m -> Z.testbit m j = false -> Z.testbit x j = Z.testbit y j.
Proof.
  intros H Hm. destruct (Z.neg_nonneg_cases j) as [Hj|Hj]; [now rewrite !Z.testbit_neg_r|].
  apply (f_equal (fun z => Z.testbit z j)) in H. cbn beta in H.
  rewrite !Z.land_spec, !Z.lnot_spec, Hm, !andb_true_r in H by exact Hj. exact H.
Qed.

(** A bit range disjoint from [m] reads the same in two words that agree
    outside [m]. *)
Lemma masked_get_bits x y m sh k :
  0 <= sh -> x .& !. m = y .& !. m -> (Z.ones k .<< sh) .& m = 0 ->
  get_bits x sh k = get_bits y sh k.
Proof.
  intros Hs H Hd. unfold get_bits. bits_ext.
  rewrite !Z.land_spec, !Z.shiftr_spec by lia.
  destruct (Z.testbit (Z.ones k) i) eqn:E; [|now rewrite !andb_false_r].
  rewrite !andb_true_r. apply (masked_testbit _ _ m); [exact H|].
  apply (f_equal (fun z => Z.testbit z (i + sh))) in Hd. cbn beta in Hd.
  rewrite Z.land_spec, Z.shiftl_spec, Z.add_simpl_r, E, Z.testbit_0_l in Hd by lia. exact Hd.
Qed.

(** ** [==] field by field *)

Lemma peq_same_but_ignored a b : peq a b <-> same_but_ignored a b.
Proof.
  unfold peq, PartialEq.eq, same_but_ignored. rewrite !lxor_masked_zero.
  rewrite !andb_true_iff, !Z.eqb_eq. tauto.
Qed.

Lemma same_but_ignored_words a b w :
  same_but_ignored a b -> word_value w a .& !. ignore_mask w = word_value w b .& !. ignore_mask w.
Proof. intros (Hc & Ho & _ & _ & Hm & _). destruct w; cbn; [exact Hc | exact Ho | now rewrite Hm]. Qed.

Lemma get_field_congr f a b :
  ignored_field f = false -> same_but_ignored a b -> get_field f a = get_field f b.
Proof.
  intros Hf H. unfold get_field.
  apply (masked_get_bits _ _ (ignore_mask (field_word f)));
    [apply field_shift_nonneg | exact (same_but_ignored_words a b _ H)
    | destruct f; try discriminate; vm_compute; reflexivity].
Qed.

#[export] Instance peq_equivalence : Equivalence peq.
Proof.
  split; [intros a | intros a b | intros a b c]; rewrite !peq_same_but_ignored;
    unfold same_but_ignored; intuition congruence.
Qed.

Lemma outcome_rel_impl {A} (R R' : A -> A -> Prop) x y :
  (forall a b, R a b -> R' a b) -> outcome_rel R x y -> outcome_rel R' x y.
Proof. destruct x, y; cbn; auto. Qed.

(** Closes [same_but_ignored x y] for two instructions built by the same
    record updates from [a] and [b]: the raw fields are rewritten from [a]'s
    to [b]'s, and each flag word is an update [(w & k) | c] of the old one. *)
Ltac close_same H :=
  let Hc := fresh "Hc" in let Ho := fresh "Ho" in let Hi := fresh "Hi" in
  let Hd := fresh "Hd" in let Hm := fresh "Hm" in let Hb := fresh "Hb" in
  let Hx := fresh "Hx" in let H0 := fresh "H0" in let H1 := fresh "H1" in
  let H2 := fresh "H2" in let H3 := fresh "H3" in
  destruct H as (Hc & Ho & Hi & Hd & Hm & Hb & Hx & H0 & H1 & H2 & H3);
  unfold same_but_ignored; cbn_fields;
  rewrite ?Hi, ?Hd, ?Hm, ?Hb, ?Hx, ?H0, ?H1, ?H2, ?H3;
  repeat split;
  first [ reflexivity | assumption
        | apply masked_update; assumption | apply masked_clear; assumption
        | apply masked_set; assumption ].

(** Case analysis on every [match] and [if] of the goal; each scrutinee is
    an argument of the setter, shared by the two sides. *)
Ltac split_matches :=
  repeat (cbv beta iota; match goal with |- context [match ?x with _ => _ end] => destruct x end).

Section Congruence.
Context `{CT : CodeTables}.

Lemma op_kind_congr a b n : same_but_ignored a b -> op_kind a n = op_kind b n.
Proof.
  intros H. rewrite !op_kind_fields.
  rewrite (get_field_congr FOp0Kind a b eq_refl H), (get_field_congr FOp1Kind a b eq_refl H),
    (get_field_congr FOp2Kind a b eq_refl H), (get_field_congr FOp3Kind a b eq_refl H).
  reflexivity.
Qed.

Lemma exec_same a b s :
  same_but_ignored a b -> outcome_rel same_but_ignored (exec a s) (exec b s).
Proof.
  intros H. destruct s; cbn [exec];
    unfold set_ip16, set_ip32, set_ip, set_next_ip16, set_next_ip32, set_next_ip,
      set_code_size, set_code, set_len, set_has_xacquire_prefix, set_has_xrelease_prefix,
      set_has_rep_prefix, set_has_repe_prefix, set_has_repne_prefix, set_has_lock_prefix,
      set_op0_kind, set_op1_kind, set_op2_kind, set_op3_kind, set_op4_kind, set_op_kind,
      set_segment_prefix, set_memory_displ_size, set_is_broadcast, set_memory_index_scale,
      set_memory_displacement, set_immediate8, set_immediate8_2nd, set_immediate16,
      set_immediate32, set_immediate64, set_immediate8to16, set_immediate8to32,
      set_immediate8to64, set_immediate32to64, set_memory_address64, set_near_branch16,
      set_near_branch32, set_near_branch64, set_far_branch16, set_far_branch32,
      set_far_branch_selector, set_memory_base, set_memory_index, set_op0_register,
      set_op1_register, set_op2_register, set_op3_register, set_op4_register,
      set_op_register, set_opmask, set_zeroing_masking, set_merging_masking,
      set_rounding_control, set_declare_data_len, set_declare_byte_value_i8,
      set_declare_byte_value, set_declare_word_value_i16, set_declare_word_value,
      set_declare_dword_value_i32, set_declare_dword_value, set_declare_qword_value_i64,
      set_declare_qword_value, set_suppress_all_exceptions, set_flag;
    unfold set_immediate_i32, set_immediate_u32, set_immediate_i64, set_immediate_u64,
      set_op4_kind, set_op4_register;
    try (rewrite (op_kind_congr a b _ H); destruct (op_kind b _); cbn [obind]);
    cbv zeta; split_matches; cbn [outcome_rel]; try exact I; close_same H.
Qed.

Lemma run_same a b ss :
  same_but_ignored a b -> outcome_rel same_but_ignored (run a ss) (run b ss).
Proof.
  revert a b. induction ss as [|s ss IH]; intros a b H; [exact H|].
  cbn [run]. pose proof (exec_same a b s H) as E.
  destruct (exec a s), (exec b s); cbn in E |- *; try contradiction; auto.
Qed.

Lemma same_outcome_peq (x y : Outcome Instruction) :
  outcome_rel same_but_ignored x y -> outcome_rel peq x y.
Proof. apply outcome_rel_impl. intros a b. apply peq_same_but_ignored. Qed.

(** The getters of the packed fields, as the same function of an
    instruction's non-ignored fields. *)
Lemma getters_same a b :
  same_but_ignored a b ->
  code a = code b /\ (forall n, op_kind a n = op_kind b n) /\ memory_size a = memory_size b /\
  opmask a = opmask b /\ rounding_control a = rounding_control b /\
  segment_prefix a = segment_prefix b /\ memory_displ_size a = memory_displ_size b /\
  memory_index_scale a = memory_index_scale b /\ is_broadcast a = is_broadcast b.
Proof.
  intros H. pose proof (fun f Hf => get_field_congr f a b Hf H) as G.
  assert (Hcode : code a = code b) by (rewrite !code_field, (G FCode eq_refl); reflexivity).
  assert (Hb : is_broadcast a = is_broadcast b) by (rewrite !is_broadcast_field, (G FBroadcast eq_refl); reflexivity).
  repeat split; [exact Hcode | intros n; exact (op_kind_congr a b n H)
    | unfold memory_size; rewrite Hcode, Hb; reflexivity | rewrite !opmask_field, (G FOpmask eq_refl)
    | rewrite !rounding_control_field, (G FRoundingControl eq_refl)
    | rewrite !segment_prefix_field, (G FSegmentPrefix eq_refl)
    | rewrite !memory_displ_size_field, (G FDisplSize eq_refl)
    | rewrite !memory_index_scale_field, (G FScale eq_refl) | exact Hb]; reflexivity.
Qed.

#[export] Instance exec_proper : Proper (peq ==> eq ==> outcome_rel peq) exec.
Proof.
  intros a b H s ? <-. apply same_outcome_peq, exec_same, peq_same_but_ignored, H.
Qed.

#[export] Instance run_proper : Proper (peq ==> eq ==> outcome_rel peq) run.
Proof.
  intros a b H ss ? <-. apply same_outcome_peq, run_same, peq_same_but_ignored, H.
Qed.

#[export] Instance get_field_proper f :
  ignored_field f = false -> Proper (peq ==> eq) (get_field f).
Proof. intros Hf a b H. apply get_field_congr, peq_same_but_ignored, H. exact Hf. Qed.

#[export] Instance code_proper : Proper (peq ==> eq) code.
Proof. intros a b H. apply (getters_same a b), peq_same_but_ignored, H. Qed.

#[export] Instance memory_size_proper : Proper (peq ==> eq) memory_size.
Proof. intros a b H. apply (getters_same a b), peq_same_but_ignored, H. Qed.

#[export] Instance op_kind_proper : Proper (peq ==> eq ==> eq) op_kind.
Proof. intros a b H n ? <-. apply (getters_same a b), peq_same_but_ignored, H. Qed.

(** [C16] [==] is a congruence for the API of [Instruction].  Two
    instructions that compare equal agree on every packed field except the
    length and the code size, and so on the getters built on those fields
    ([code], [op_kind], [memory_size], [opmask], [rounding_control],
    [segment_prefix], [memory_displ_size], [memory_index_scale],
    [is_broadcast]); and every setter call (field setters, operand setters,
    declare-data setters, with any arguments), and every sequence of them,
    gives two results that compare equal or fails in the same way on both. *)
Theorem eq_congruence (a b : Instruction) :
  PartialEq.eq a b = true ->
  ((forall f, ignored_field f = false -> get_field f a = get_field f b) /\
   code a = code b /\ (forall n, op_kind a n = op_kind b n) /\ memory_size a = memory_size b /\
   opmask a = opmask b /\ rounding_control a = rounding_control b /\
   segment_prefix a = segment_prefix b /\ memory_displ_size a = memory_displ_size b /\
   memory_index_scale a = memory_index_scale b /\ is_broadcast a = is_broadcast b) /\
  (forall s, outcome_rel peq (exec a s) (exec b s)) /\
  (forall ss, outcome_rel peq (run a ss) (run b ss)).
Proof.
  intros H. apply peq_same_but_ignored in H.
  split; [split; [intros f Hf; exact (get_field_congr f a b Hf H) | exact (getters_same a b H)]|].
  split; intros; apply same_outcome_peq; [apply exec_same | apply run_same]; exact H.
Qed.
End Congruence.

(** ** Witnesses, on [sample_tables] *)

Lemma eq_congruence_witness :
  PartialEq.eq new (set_next_ip (set_code_size (set_len new 7) CodeSize.Code64) 100) = true /\
  outcome_rel peq (exec new (SetCode 5))
    (exec (set_next_ip (set_code_size (set_len new 7) CodeSize.Code64) 100) (SetCode 5)).
Proof.
  split; [vm_compute; reflexivity|].
  apply (eq_congruence new (set_next_ip (set_code_size (set_len new 7) CodeSize.Code64) 100));
    vm_compute; reflexivity.
Defined.

(** [==] does not fix the address a memory operand resolves to, although
    [code_size] is called informational: [[0x12345]] with no base, no
    index and displacement size 0 takes its address size from the code
    size, so in 16-bit code it is cut to [0x2345] and in 64-bit code it is
    [0x12345], and the two instructions compare equal; likewise
    [[rip]] at [next_ip] [0x1000] and at [0x2000]. *)
Example eq_does_not_fix_address :
  PartialEq.eq
    (set_code_size (set_memory_displacement (set_op0_kind new OpKind.Memory) 0x12345) CodeSize.Code16)
    (set_code_size (set_memory_displacement (set_op0_kind new OpKind.Memory) 0x12345) CodeSize.Code64)
    = true /\
  virtual_address (fun _ _ _ => 0)
    (set_code_size (set_memory_displacement (set_op0_kind new OpKind.Memory) 0x12345) CodeSize.Code16)
    0 0 = Ok 0x2345 /\
  virtual_address (fun _ _ _ => 0)
    (set_code_size (set_memory_displacement (set_op0_kind new OpKind.Memory) 0x12345) CodeSize.Code64)
    0 0 = Ok 0x12345 /\
  PartialEq.eq (set_next_ip (set_memory_base (set_op0_kind new OpKind.Memory) Register.RIP) 0x1000)
    (set_next_ip (set_memory_base (set_op0_kind new OpKind.Memory) Register.RIP) 0x2000) = true /\
  virtual_address (fun _ _ _ => 0)
    (set_next_ip (set_memory_base (set_op0_kind new OpKind.Memory) Register.RIP) 0x1000) 0 0
    = Ok 0x1000 /\
  virtual_address (fun _ _ _ => 0)
    (set_next_ip (set_memory_base (set_op0_kind new OpKind.Memory) Register.RIP) 0x2000) 0 0
    = Ok 0x2000.
Proof. vm_compute. repeat split. Qed.
